(* ===== verification/_CoqProject ===== *)
-Q . S2P
Prelude.v
Json.v
Identity.v
Db.v
Responses.v
Clone.v
Auth.v
World.v
Cascade.v
Workflows.v
Webhooks.v
Actions.v
Runs.v
Users.v
Events.v
Trigger.v
Cases.v
Completions.v
Config.v
Routes.v
Api.v
