(* ===== verification/Prelude.v ===== *)
(** * Tracecat API server: a Rocq development of its database handlers

    The program is the FastAPI server of [src/tracecat/api/app.py] over
    the SQLModel schema of [src/tracecat/db.py] and the pydantic models of
    [src/tracecat/types/api.py].  A request passes an authentication
    dependency ([tracecat.auth], outside the sources), opens a session,
    reads and writes rows and commits; the database checks the foreign
    keys at commit.  Workflows own actions (with JSON inputs), webhooks and
    runs; [copy_workflow] clones a workflow with [clone_workflow] of db.py;
    users own workflows and encrypted secrets; case labels are seeded at
    start-up by [initialize_db].  Two more stores sit beside the database:
    the LanceDB table of cases (created at start-up, read and written by
    the case routes) and the tantivy index of events (searched by
    [search_events]); [trigger_workflow_run] only calls the runner.

    ** Files, in dependency order

    - [Prelude]: Python exceptions ([exc]), the [result] monad, a state and
      exception monad [SE] with [se_forM] and its lemmas, string and list
      lemmas, the hint databases [tracecat] and [tracecat_rw].
    - [Json]: JSON values and the [json] module ([loads], [dumps]), dict
      access with Python's errors ([py_getitem], [py_setitem],
      [py_update], [py_len]) and [for]-loops that mutate in place.
    - [Identity]: [uuid] (the [uuid4().hex] default, as a counter),
      python-slugify step by step ([Slug]), [key_of] (the [key] property of
      [Workflow] and [Action]), [Webhook_secret] and [Webhook_url] over the
      [WebhookSigner] interface ([auth.compute_hash]).
    - [Db]: one record per table, the [store] (one finite map per table),
      the foreign keys [fk_ok], commit of added rows, and [session.delete]
      with the cascade of every relationship ([delete_action_rows],
      [delete_workflow_rows], [delete_user_rows]).
    - [Responses]: the parameter and response models of types/api.py and
      their validation; [ActionTypes] is the interface of the [ActionType]
      literal.
    - [Clone]: [clone_workflow] in the [SE] monad over the allocator and
      the rows added to the session, with every raise path.
    - [Auth]: roles and the three authentication dependencies (modelled
      from the spec, as tracecat.auth is not in the sources).
    - [World]: the [world] (store and allocator), the [handler] monad
      ([world -> result A * world]; a raise keeps the world of that moment),
      the session operations ([h_commit] checks the foreign keys and rolls
      back), the SQL helpers ([one], [one_or_none], [limit]), the invariant
      [world_wf] (foreign keys, rows under their own key, generated keys
      drawn from the allocator), the program logic [safe] with its rules and
      tactics, and the demo world [DemoApi] the witnesses run on.
    - [Cascade]: the declarative outcome of deleting a workflow
      ([workflow_deleted]) and a user ([user_deleted]).
    - [Workflows], [Webhooks], [Actions], [Runs], [Users]: one definition per
      route handler of app.py, composed as the code composes them
      ([create_action] calls [create_webhook], [get_action] calls
      [search_webhooks]), with their specifications.
    - [Events]: [search_events], its owner check in the database and the
      index calls through the [EventIndex] interface.
    - [Trigger]: [trigger_workflow_run], the service role and the runner
      call through the [Runner] interface.
    - [Cases]: the cases table ([vdb]: rows of [CaseSchema] and the id
      allocator), the five case routes, [Case.from_params] as the
      [CaseModel] interface, the case route table [serve_cases] and the
      tables a deployment reaches ([cases_reachable]).  The filters are
      the texts the f-strings build, CPython's [repr] included
      ([py_repr], [cases_filter], [case_filter]); LanceDB's reading of a
      filter is the [LanceFilter] interface, whose laws fix the meaning
      of the two filter shapes over plain literals (printable ASCII
      without quote or backslash, [sql_plain]) only.
    - [Completions]: [streaming_autofill_case_fields] up to the call of
      the completion stream, the polars grouping of labels as a map from
      tags to sets of segments.
    - [Config]: the storage path, the database URI and engine arguments
      of db.py, the CORS middleware of app.py with Starlette's matching, and
      the constant answers of [/] and [/health].
    - [Routes]: the route table of app.py ([app_routes], the decorators
      in the order of the file) and Starlette's resolution of a request
      ([resolve]: first full match, else 405, redirect or 404).
    - [Api]: every handler keeps [world_wf] ([*_safe]); [initialize_db];
      the route table [serve] with each route's dependency; [reachable],
      the worlds of a deployment (start-up then any request sequence); the
      theorems that compose components.

    ** What the theorems show

    - The clone (C1-C7): rows added, fresh keys, a closed graph, success
      on well-formed input, and the TypeError and KeyError paths on NULL
      inputs, a NULL graph and a dangling edge.
    - The copy endpoint (C8-C12): invariant, isolation of existing rows,
      users copy only from the library, success, atomic failure.
    - The whole API (C13-C17): every state a deployment reaches through
      database and case requests keeps the database invariant (rule
      induction on [app_reachable]); no route but [GET /secrets] works
      without a credential; and three cross-component findings: a secret
      a user creates is listed, encrypted key included, to an anonymous
      [GET /secrets] naming that user, any user can poison the library
      workflow so that copying it fails, and a webhook on another user's
      action authenticates as that user.
    - Events, routes and trigger (C18-C20): [search_events] never answers
      (403, the index's error, or the validation error of its dropped
      result); every route but [search_webhooks] is reachable;
      [trigger_workflow_run] neither reads the database nor checks who
      owns the workflow, and starts it as a service acting for the caller.
    - Cases (C21-C22): with plain literals in the filters, created cases
      are listed back in order with fresh ids, and no case request
      touches another owner's case.  With other values the filter text
      is [repr], not SQL quoting, and its meaning depends on the SQL
      dialect; [case_filter_injected] computes a case id whose filter
      reads as true for every row in standard SQL.
    - Completions (C23): the constraints the completion stream is started
      with are exactly the tags and first value segments of the labels the
      caller sees, and the handler fails only when it sees none.
    - Handlers (C24-C35, C33 apart): cascades of the deletes, creation
      specs, error paths (the AttributeError of [list_webhooks], the
      uncaught NoResultFound of [delete_webhook], [update_action]
      committing malformed inputs), the route of [search_webhooks]
      shadowed by [GET /webhooks/{webhook_id}] (C29), the [limit] bound, the create-then-get round trip of secrets, the AND of
      [search_secrets].
    - Identity (C36-C38): keys identify rows, the key's suffix is made of
      [[a-z0-9_]], and the slug is empty, with no placeholder, exactly
      when the title has no ASCII letter or digit.
    - Start-up terminates and seeds the label tables (C39); the ORM's
      delete cascades, one row at a time, equal the declarative bulk
      deletions of a user (C33, an equivalence) and of a workflow (C40, a
      refinement).

    ** Bounds and fuel

    No definition uses fuel: every loop of the code is a [for] over a
    finite list (actions, edges, nodes, labels) and is modelled by
    structural recursion ([se_forM], [mapM], [h_mapM]), so every handler is
    total; termination and success are proved as such (C4, C11, C39).
    Identifiers are drawn from an unbounded counter instead of 128 random
    bits, which keeps the one property the code relies on (a new key is
    not yet used).  [limit] takes the integer the query gives, negative
    values included (PostgreSQL refuses them with a DataError); the
    [limit] of [list_cases], handed to LanceDB, is taken as a natural
    number.

    ** Not modelled

    The LLM completion stream ([stream_case_completions]), the creation
    of directories, the database connection and the middleware's methods
    and headers are I/O with no state the API reads back.  The contents of the event index
    ([build_events_index]) are not modelled: [search_events] drops what
    the search returns.  [Case], [Case.from_params] and [CaseMetrics]
    ([tracecat.types.cases]) are outside the sources; a case row holds
    its fields as values.  The [Editor] table is declared (its record is
    in [Db]) but no code reads or writes it, so it is not in the store.  Timestamps ([created_at], [updated_at]) are
    omitted.  [json.loads] is modelled on JSON values: malformed text is a
    distinct constructor of the stored text, not parsed.  python-slugify
    is modelled on ASCII titles, and [repr] on code points below 256.
    FastAPI's documentation routes ([/openapi.json], [/docs], [/redoc])
    share no path with the app's and are left out of the route table. *)

From stdpp Require Export base strings pretty gmap list options.
From Stdlib Require Export ZArith.
From Stdlib Require Import Lia.
From Stdlib Require Export Ascii.

Declare Scope tc_scope.
Delimit Scope tc_scope with tc.
Open Scope string_scope.
Open Scope list_scope.

(** ** Python exceptions raised by the modelled code

    The handlers of [src/tracecat/api/app.py] and [clone_workflow] of
    [src/tracecat/db.py] fail by raising.  We keep the exception kind, as
    the API maps some of them (NoResultFound) to HTTP statuses and lets the
    others escape as a 500. *)
Inductive exc :=
  | KeyError
  | TypeError
  | AttributeError
  | JSONDecodeError
  | NoResultFound
  | MultipleResultsFound
  | IntegrityError
  | DataError
  | ColumnNotFoundError
  | ValueError
  | ValidationError
  | HTTPException (status : N) (detail : string).

#[export] Instance exc_eq_dec : EqDecision exc.
Proof. solve_decision. Defined.

(** A computation that returns a value or raises. *)
Inductive result (A : Type) : Type :=
  | Ok (a : A)
  | Err (e : exc).
Arguments Ok {A} a.
Arguments Err {A} e.

#[export] Instance result_ret : MRet result := λ A a, Ok a.
#[export] Instance result_bind : MBind result :=
  λ A B f m, match m with Ok a => f a | Err e => Err e end.
#[export] Instance result_fmap : FMap result :=
  λ A B f m, match m with Ok a => Ok (f a) | Err e => Err e end.

(** [x = d[k]] style lookups: a missing entry raises [e]. *)
Definition of_option {A} (e : exc) (o : option A) : result A :=
  match o with Some a => Ok a | None => Err e end.

(** ** A state and exception monad

    Used where the code threads hidden state through many calls: the
    uuid allocator of the ORM defaults and the pending rows of a
    SQLAlchemy session. An exception discards the state, exactly as an
    exception escaping a [with Session(engine)] block discards the
    session's uncommitted rows. *)
Definition SE (S A : Type) : Type := S → result (A * S).

Definition se_ret {S A} (a : A) : SE S A := λ s, Ok (a, s).
Definition se_bind {S A B} (m : SE S A) (k : A → SE S B) : SE S B :=
  λ s, match m s with Ok (a, s') => k a s' | Err e => Err e end.
Definition se_raise {S A} (e : exc) : SE S A := λ _, Err e.
Definition se_lift {S A} (r : result A) : SE S A :=
  λ s, match r with Ok a => Ok (a, s) | Err e => Err e end.
Definition se_get {S} : SE S S := λ s, Ok (s, s).
Definition se_modify {S} (f : S → S) : SE S unit := λ s, Ok (tt, f s).

Notation "x <- m ;; k" := (se_bind m (λ x, k))
  (at level 81, m at next level, right associativity) : tc_scope.
Notation "m ;;; k" := (se_bind m (λ _, k))
  (at level 81, right associativity) : tc_scope.

Open Scope tc_scope.

(** A Python [for] loop whose body may raise, collecting its results. *)
Fixpoint se_forM {S A B} (l : list A) (f : A → SE S B) : SE S (list B) :=
  match l with
  | [] => se_ret []
  | x :: l' => y <- f x ;; ys <- se_forM l' f ;; se_ret (y :: ys)
  end.

(** ** Generic lemmas *)

Create HintDb tracecat discriminated.
Create Rewrite HintDb tracecat_rw.

Lemma result_bind_Ok {A B} (m : result A) (f : A → result B) b :
  (m ≫= f) = Ok b ↔ ∃ a, m = Ok a ∧ f a = Ok b.
Proof. destruct m; simpl; split; naive_solver. Qed.

Lemma result_bind_Err {A B} (m : result A) (f : A → result B) e :
  m = Err e → (m ≫= f) = Err e.
Proof. by intros ->. Qed.

Lemma of_option_Ok {A} e (o : option A) a : of_option e o = Ok a ↔ o = Some a.
Proof. destruct o; simpl; split; congruence. Qed.

Lemma se_bind_Ok {S A B} (m : SE S A) (k : A → SE S B) s b s'' :
  se_bind m k s = Ok (b, s'') ↔ ∃ a s', m s = Ok (a, s') ∧ k a s' = Ok (b, s'').
Proof.
  unfold se_bind. destruct (m s) as [[a s']|e]; split; naive_solver.
Qed.

Lemma se_lift_Ok {S A} (r : result A) (s s' : S) a :
  se_lift r s = Ok (a, s') ↔ r = Ok a ∧ s' = s.
Proof. destruct r; simpl; split; naive_solver. Qed.

Lemma se_bind_Err {S A B} (m : SE S A) (k : A → SE S B) s e :
  m s = Err e → se_bind m k s = Err e.
Proof. unfold se_bind. by intros ->. Qed.

Lemma se_bind_step {S A B} (m : SE S A) (k : A → SE S B) s a s' :
  m s = Ok (a, s') → se_bind m k s = k a s'.
Proof. unfold se_bind. by intros ->. Qed.

#[export] Hint Rewrite @se_bind_step using eassumption : tracecat_rw.

(** Inverts a successful run of a monadic computation into the runs of
    its parts. *)
Ltac inv_ok :=
  repeat match goal with
  | H : se_bind _ _ _ = Ok (_, _) |- _ =>
      apply se_bind_Ok in H as (?&?&?&?)
  | H : se_ret _ _ = Ok _ |- _ => unfold se_ret in H; injection H as <- <-
  | H : se_lift _ _ = Ok (_, _) |- _ => apply se_lift_Ok in H as [? ->]
  | H : (_ ≫= _) = Ok _ |- _ => apply result_bind_Ok in H as (?&?&?)
  | H : of_option _ _ = Ok _ |- _ => apply of_option_Ok in H
  | H : Ok _ = Ok _ |- _ => injection H; clear H; intros; subst
  | H : (_, _) = (_, _) |- _ => injection H; clear H; intros; subst
  end.

Section forM.
Context {S A B : Type} (f : A → SE S B).

Lemma se_forM_length l s ys s' :
  se_forM l f s = Ok (ys, s') → length ys = length l.
Proof.
  revert s ys. induction l as [|x l IH]; intros s ys H; simpl in *; inv_ok.
  - done.
  - simpl. f_equal. eauto.
Qed.

(** A state invariant kept by every iteration of the body is kept by
    the loop. *)
Lemma se_forM_preserve (P : S → Prop) l s ys s' :
  (∀ x t y t', x ∈ l → P t → f x t = Ok (y, t') → P t') →
  P s → se_forM l f s = Ok (ys, s') → P s'.
Proof.
  revert s ys. induction l as [|x l IH]; intros s ys Hf Hs H; simpl in *; inv_ok.
  - done.
  - eapply IH; [|eapply Hf; [left|..]|]; eauto.
    intros; eapply Hf; eauto. by right.
Qed.

(** Each result of the loop is produced by one iteration, in order. *)
Lemma se_forM_Forall2 l s ys s' :
  se_forM l f s = Ok (ys, s') →
  Forall2 (λ x y, ∃ t t', f x t = Ok (y, t')) l ys.
Proof.
  revert s ys. induction l as [|x l IH]; intros s ys H; simpl in *; inv_ok.
  - constructor.
  - constructor; eauto.
Qed.
(** The same, locating each iteration between the start and the end
    state of the loop for a preorder that every iteration respects. *)
Lemma se_forM_between (R : S → S → Prop) `{!PreOrder R} l s ys s' :
  (∀ x t y t', f x t = Ok (y, t') → R t t') →
  se_forM l f s = Ok (ys, s') →
  R s s' ∧ Forall2 (λ x y, ∃ t t', R s t ∧ f x t = Ok (y, t') ∧ R t' s') l ys.
Proof.
  intros Hf. revert s ys. induction l as [|x l IH]; intros s ys H; simpl in *; inv_ok.
  - split; [done | constructor].
  - match goal with Hx : f x s = Ok _, Hl : se_forM l f _ = Ok _ |- _ =>
      pose proof (Hf _ _ _ _ Hx); destruct (IH _ _ Hl) as [Hr HF] end.
    split; [by etrans|]. constructor.
    { eexists _, _. split_and!; [reflexivity|eassumption|eassumption]. }
    apply (Forall2_impl _ _ _ _ HF). intros ?? (t&t'&?&?&?). exists t, t'.
    split_and!; [by etrans|done|done].
Qed.
(** A loop whose iterations each append to a list held in the state
    appends the concatenation of what they append. *)
Lemma se_forM_appends {T} (get : S → list T) (Q : A → B → list T → Prop) l s ys s' :
  (∀ x t y t', x ∈ l → f x t = Ok (y, t') → ∃ rs, get t' = get t ++ rs ∧ Q x y rs) →
  se_forM l f s = Ok (ys, s') →
  ∃ rss, get s' = get s ++ concat rss ∧ Forall3 Q l ys rss.
Proof.
  revert s ys. induction l as [|x l IH]; intros s ys Hf H; simpl in *; inv_ok.
  - exists []. rewrite app_nil_r. split; [done | constructor].
  - assert (∀ x' t y t', x' ∈ l → f x' t = Ok (y, t') → ∃ rs, get t' = get t ++ rs ∧ Q x' y rs)
      as Htl by (intros; eapply Hf; [by apply list_elem_of_further|done]).
    match goal with Hx : f x s = Ok _, Hl : se_forM l f _ = Ok _ |- _ =>
      destruct (Hf _ _ _ _ (list_elem_of_here _ _) Hx) as (rs&Hrs&HQ);
      destruct (IH _ _ Htl Hl) as (rss&Hrss&HF) end.
    exists (rs :: rss). simpl. rewrite Hrss, Hrs, app_assoc.
    split; [done | by constructor].
Qed.
(** A loop whose body succeeds on every element from every state
    succeeds. *)
Lemma se_forM_total l s :
  (∀ x t, x ∈ l → ∃ y t', f x t = Ok (y, t')) → ∃ ys s', se_forM l f s = Ok (ys, s').
Proof.
  revert s. induction l as [|x l IH]; intros s Hf; simpl; [by eexists _, _|].
  destruct (Hf x s) as (y & t' & Hx); [apply list_elem_of_here|].
  destruct (IH t') as (ys & s' & Hl); [intros; apply Hf; by apply list_elem_of_further|].
  exists (y :: ys), s'. unfold se_bind. by rewrite Hx, Hl.
Qed.

(** A loop raises what the first failing iteration raises. *)
Lemma se_forM_app_err l1 a l2 s e :
  (∀ x t, x ∈ l1 → ∃ y t', f x t = Ok (y, t')) → (∀ t, f a t = Err e) →
  se_forM (l1 ++ a :: l2) f s = Err e.
Proof.
  revert s. induction l1 as [|x l1 IH]; intros s Hf Ha; simpl.
  - unfold se_bind. by rewrite Ha.
  - destruct (Hf x s) as (y & t' & Hx); [apply list_elem_of_here|].
    unfold se_bind at 1. rewrite Hx. fold (se_bind (se_forM (l1 ++ a :: l2) f)
      (λ ys, se_ret (y :: ys)) t').
    apply se_bind_Err, IH; [|done]. intros; apply Hf; by apply list_elem_of_further.
Qed.
End forM.

(** ** Strings as lists of characters *)

Abbreviation chars := String.list_ascii_of_string.

Lemma chars_app s1 s2 : chars (s1 +:+ s2) = (chars s1 ++ chars s2)%list.
Proof. induction s1; simpl; by f_equal. Qed.

#[export] Hint Rewrite chars_app : tracecat_rw.

(** Splitting at the first occurrence of a separator character: the part
    before it is determined when it does not contain the separator. *)
Lemma string_app_assoc (s1 s2 s3 : string) : (s1 +:+ s2) +:+ s3 = s1 +:+ (s2 +:+ s3).
Proof.
  induction s1 as [|c s1 IH]; [done|].
  change (String c ((s1 +:+ s2) +:+ s3) = String c (s1 +:+ (s2 +:+ s3))). by rewrite IH.
Qed.

Lemma app_sep_inj (c : ascii) a b a' b' :
  c ∉ chars a → c ∉ chars a' →
  a +:+ String c b = a' +:+ String c b' → a = a' ∧ b = b'.
Proof.
  revert a'. induction a as [|x a IH]; intros [|x' a'] Ha Ha' H; simpl in *.
  - by injection H.
  - injection H as -> _. set_solver.
  - injection H as -> _. set_solver.
  - injection H as -> H. destruct (IH a') as [-> ->]; [set_solver..|done|done].
Qed.

Lemma Forall2_Forall_r_impl {A B} (P : A → B → Prop) (Q : B → Prop) l k :
  Forall2 P l k → (∀ x y, P x y → Q y) → Forall Q k.
Proof. induction 1; constructor; eauto. Qed.

Lemma Forall3_elem_of_m {A B C} (P : A → B → C → Prop) l k k' y :
  Forall3 P l k k' → y ∈ k → ∃ x z, x ∈ l ∧ z ∈ k' ∧ P x y z.
Proof.
  induction 1 as [|x y' z l k k' HP _ IH]; [by intros ?%elem_of_nil|].
  intros [->|Hy]%elem_of_cons; [exists x, z; split_and!; [left|left|]; done|].
  destruct (IH Hy) as (x'&z'&?&?&?). exists x', z'. split_and!; [by right|by right|done].
Qed.

Lemma elem_of_concat_intro {A} (x : A) (l : list A) (ls : list (list A)) :
  l ∈ ls → x ∈ l → x ∈ concat ls.
Proof.
  rewrite !list_elem_of_In. intros. apply in_concat. eauto.
Qed.

Lemma NoDup_fmap_filter {A B} (f : A → B) (P : A → Prop) `{∀ x, Decision (P x)} l :
  NoDup (f <$> l) → NoDup (f <$> filter P l).
Proof.
  induction l as [|x l IH]; simpl; [done|]. rewrite NoDup_cons. intros [Hn Hnd].
  rewrite filter_cons. case_decide; simpl; [|auto]. rewrite NoDup_cons. split; [|auto].
  intros Hin. apply Hn. apply list_elem_of_fmap in Hin as (y & -> & Hy).
  apply list_elem_of_fmap. exists y. split; [done|]. by apply list_elem_of_filter in Hy as [_ ?].
Qed.

(** A property every step keeps holds after a [foldr] of steps. *)
Lemma foldr_invariant {A B} (P : B → Prop) (f : A → B → B) l b :
  (∀ a b, P b → P (f a b)) → P b → P (foldr f b l).
Proof. intros Hf Hb. induction l; simpl; auto. Qed.

Lemma foldr_rel {A B} (R : B → B → Prop) `{!PreOrder R} (f : A → B → B) l b :
  (∀ a b, R (f a b) b) → R (foldr f b l) b.
Proof. intros Hf. induction l as [|a l IH]; simpl; [done|]. by etrans; [apply Hf|]. Qed.

Lemma filter_nil_intro {A} (P : A → Prop) `{∀ x, Decision (P x)} l :
  (∀ x, x ∈ l → ¬ P x) → filter P l = [].
Proof.
  induction l as [|x l IH]; intros Hl; [done|]. rewrite filter_cons, decide_False.
  - apply IH. intros y Hy. apply Hl. by right.
  - apply Hl. apply list_elem_of_here.
Qed.

Lemma filter_all {A} (P : A → Prop) `{∀ x, Decision (P x)} (l : list A) :
  (∀ x, x ∈ l → P x) → filter P l = l.
Proof.
  induction l as [|x l IH]; intros Hl; [done|]. rewrite filter_cons, decide_True.
  - f_equal. apply IH. intros y Hy. apply Hl. by right.
  - apply Hl. apply list_elem_of_here.
Qed.

(** Two maps are equal when they have the same keys and the same total
    lookups. *)
Lemma map_eq_lookup_total `{Countable K} `{Inhabited A} (m1 m2 : gmap K A) :
  (∀ k, is_Some (m1 !! k) ↔ is_Some (m2 !! k)) → (∀ k, m1 !!! k = m2 !!! k) → m1 = m2.
Proof.
  intros Hd Ht. apply map_eq. intros k. specialize (Hd k). specialize (Ht k).
  rewrite !lookup_total_alt in Ht.
  destruct (m1 !! k), (m2 !! k); simpl in *; [by f_equal|..]; naive_solver.
Qed.
