(* ===== verification/Json.v ===== *)
(** * JSON values and the Python dict operations the code applies to them

    [clone_workflow] ([src/tracecat/db.py]) reads the JSON text columns
    [Action.inputs] and [Workflow.object] with [json.loads], edits the
    resulting dicts in place ([d[k] = v], [d.update(...)]) and writes them
    back with [json.dumps].  This file holds the JSON values, the text
    columns as the values they denote, and the subscript, assignment,
    update and iteration operations with the exceptions Python raises. *)

From S2P Require Import Prelude.

(** JSON values as [json.loads] returns them: objects are Python dicts,
    kept as association lists in insertion order (the order [json.dumps]
    prints).  Floats are not modelled: no code path inspects a number. *)
#[warnings="-register-all"]
Inductive json :=
  | JNull
  | JBool (b : bool)
  | JInt (z : Z)
  | JStr (s : string)
  | JList (l : list json)
  | JDict (kvs : list (string * json)).

(** A JSON text column ([str | None] in the ORM).  A text is identified
    with the value it parses to; text that is not JSON is kept as raw. *)
Inductive jtext :=
  | JText (v : json)
  | JBad (raw : string).

(** [json.loads(s)]: [None] is a [TypeError], malformed text a
    [JSONDecodeError]. *)
Definition loads (t : option jtext) : result json :=
  match t with
  | None => Err TypeError
  | Some (JText v) => Ok v
  | Some (JBad _) => Err JSONDecodeError
  end.

(** [json.dumps(v)]: every value prints to a text that parses back. *)
Definition dumps (v : json) : option jtext := Some (JText v).

(** The truth value of a text column ([if action.inputs:]): NULL and
    the empty string are false.  JSON text is never empty. *)
Definition text_truthy (t : option jtext) : bool :=
  match t with
  | None => false
  | Some (JText _) => true
  | Some (JBad raw) => negb (String.eqb raw "")
  end.

(** ** Dict primitives on association lists *)

Fixpoint dict_get (k : string) (kvs : list (string * json)) : option json :=
  match kvs with
  | [] => None
  | (k', v) :: r => if String.eqb k k' then Some v else dict_get k r
  end.

(** [d[k] = v]: an existing key keeps its position, a new one is
    appended. *)
Fixpoint dict_set (k : string) (v : json) (kvs : list (string * json))
    : list (string * json) :=
  match kvs with
  | [] => [(k, v)]
  | (k', v') :: r => if String.eqb k k' then (k, v) :: r else (k', v') :: dict_set k v r
  end.

(** [d.update(k1=v1, k2=v2, ...)]: assignments from left to right. *)
Definition dict_update (upd kvs : list (string * json)) : list (string * json) :=
  foldl (λ acc kv, dict_set kv.1 kv.2 acc) kvs upd.

(** ** Python operations on JSON values *)

(** [v[k]] with a string key. *)
Definition py_getitem (v : json) (k : string) : result json :=
  match v with
  | JDict kvs => of_option KeyError (dict_get k kvs)
  | _ => Err TypeError
  end.

(** [v[k] = x]. *)
Definition py_setitem (v : json) (k : string) (x : json) : result json :=
  match v with
  | JDict kvs => Ok (JDict (dict_set k x kvs))
  | _ => Err TypeError
  end.

(** [len(v)]: dicts, lists and strings have a length. *)
Definition py_len (v : json) : result nat :=
  match v with
  | JDict kvs => Ok (length kvs)
  | JList l => Ok (length l)
  | JStr s => Ok (String.length s)
  | _ => Err TypeError
  end.

(** [v.update(k1=x1, ...)]: only dicts have [update]. *)
Definition py_update (v : json) (upd : list (string * json)) : result json :=
  match v with
  | JDict kvs => Ok (JDict (dict_update upd kvs))
  | _ => Err AttributeError
  end.

(** [for x in v: body(x)] where [body] mutates [x] in place and returns
    the mutated element.  Iterating a list mutates its elements; iterating
    a dict yields its keys and a string its characters, both immutable
    strings, so the container is unchanged (the body still runs, for its
    exceptions); other values are not iterable. *)
Definition py_for_mutate (body : json → result json) (v : json) : result json :=
  match v with
  | JList l => JList <$> mapM body l
  | JDict kvs => mapM body (map (λ kv, JStr kv.1) kvs) ≫= λ _, Ok v
  | JStr s => mapM body (map (λ c, JStr (String c EmptyString)) (String.list_ascii_of_string s))
                ≫= λ _, Ok v
  | _ => Err TypeError
  end.

(** ** Lemmas *)

Lemma dict_get_set_eqb k k' v kvs :
  dict_get k' (dict_set k v kvs) = if String.eqb k' k then Some v else dict_get k' kvs.
Proof.
  induction kvs as [|[k'' v'] r IH]; simpl; [done|].
  destruct (String.eqb_spec k k''); simpl.
  - subst. by destruct (String.eqb k' k'').
  - rewrite IH. destruct (String.eqb_spec k' k''), (String.eqb_spec k' k); subst; done.
Qed.

Lemma dict_get_set_eq k v kvs : dict_get k (dict_set k v kvs) = Some v.
Proof. by rewrite dict_get_set_eqb, String.eqb_refl. Qed.

Lemma dict_get_set_ne k k' v kvs :
  k ≠ k' → dict_get k' (dict_set k v kvs) = dict_get k' kvs.
Proof. intros. rewrite dict_get_set_eqb. by destruct (String.eqb_spec k' k). Qed.

Lemma dict_get_set k k' v kvs :
  dict_get k' (dict_set k v kvs) = if decide (k = k') then Some v else dict_get k' kvs.
Proof.
  case_decide; subst; [apply dict_get_set_eq | by apply dict_get_set_ne].
Qed.

#[export] Hint Rewrite dict_get_set_eq : tracecat_rw.

Lemma dict_get_In k kvs v : dict_get k kvs = Some v → (k, v) ∈ kvs.
Proof.
  induction kvs as [|[k' v'] r IH]; simpl; [done|].
  rewrite elem_of_cons. destruct (String.eqb_spec k k'); intros; simplify_eq; auto.
Qed.

Lemma dict_get_app k l1 l2 : dict_get k (l1 ++ l2) = dict_get k l1 ∪ dict_get k l2.
Proof.
  induction l1 as [|[k' v'] r IH]; cbn [dict_get app]; [by destruct (dict_get k l2)|].
  destruct (String.eqb k k'); [by destruct (dict_get k l2) | apply IH].
Qed.

Lemma dict_get_update k upd kvs :
  dict_get k (dict_update upd kvs) = dict_get k (reverse upd) ∪ dict_get k kvs.
Proof.
  unfold dict_update. revert kvs.
  induction upd as [|[k' v'] upd IH]; intros kvs; simpl;
    [by destruct (dict_get k kvs)|].
  rewrite IH, reverse_cons, dict_get_app, dict_get_set_eqb. cbn [dict_get].
  by destruct (dict_get k (reverse upd)), (String.eqb k k'), (dict_get k kvs).
Qed.

(** Rewrites lookups in assigned and updated dicts with literal keys. *)
Ltac dict_simpl :=
  repeat first [ rewrite dict_get_set_eq
               | rewrite dict_get_set_ne by done
               | rewrite dict_get_update ]; cbn.

Lemma py_getitem_Ok v k x :
  py_getitem v k = Ok x ↔ ∃ kvs, v = JDict kvs ∧ dict_get k kvs = Some x.
Proof.
  destruct v; simpl; split; intros; inv_ok; try naive_solver.
  destruct H as (?&?&?); simplify_eq. by apply of_option_Ok.
Qed.

Lemma py_for_mutate_list body l v :
  py_for_mutate body (JList l) = Ok v ↔
  ∃ l', mapM body l = Ok l' ∧ v = JList l'.
Proof.
  simpl. destruct (mapM body l); simpl; split; naive_solver.
Qed.

(** [mapM] in the result monad: success means success on every element. *)
Lemma mapM_result_Ok {A B} (f : A → result B) l l' :
  mapM f l = Ok l' ↔ Forall2 (λ x y, f x = Ok y) l l'.
Proof.
  revert l'. induction l as [|x l IH]; intros l'; cbn.
  - split; [intros [= <-]; constructor | inversion 1; done].
  - destruct (f x) as [y|e] eqn:Hf; cbn; [|split; [done | inversion 1; congruence]].
    all: cbv [mret result_ret] in *.
    destruct (mapM f l) as [ys|e] eqn:Hm; cbn.
    + split; [intros [= <-]; constructor; [done | by apply IH]|].
      inversion 1 as [|?? ?? Hy Hl]; subst. apply IH in Hl. cbv [mret result_ret]. congruence.
    + split; [done|]. inversion 1 as [|?? ?? Hy Hl]; subst. apply IH in Hl. cbv [mret result_ret]. congruence.
Qed.

(** The elements a [for] loop over [v] visits. *)
Definition py_elems (v : json) : list json :=
  match v with
  | JList l => l
  | JDict kvs => map (λ kv, JStr kv.1) kvs
  | JStr s => map (λ c, JStr (String c EmptyString)) (String.list_ascii_of_string s)
  | _ => []
  end.

(** When the body fails on strings (it subscripts them), a successful
    loop ran the body on each visited element and its result visits the
    mutated elements. *)
Lemma py_for_mutate_elems body v v' :
  (∀ s, ∃ e, body (JStr s) = Err e) →
  py_for_mutate body v = Ok v' →
  Forall2 (λ x y, body x = Ok y) (py_elems v) (py_elems v').
Proof.
  intros Hstr. destruct v as [| | |s|l|kvs]; simpl; try done.
  - destruct s as [|c s]; [intros; by inv_ok|].
    cbn. destruct (Hstr (String c EmptyString)) as [e ->]. done.
  - destruct (mapM body l) eqn:Hm; simpl; [|done]. intros; inv_ok.
    by apply mapM_result_Ok.
  - destruct kvs as [|[k v] kvs]; [intros; by inv_ok|].
    cbn. destruct (Hstr k) as [e ->]. done.
Qed.

Lemma mapM_result_total {A B} (f : A → result B) l :
  (∀ x, x ∈ l → ∃ y, f x = Ok y) → ∃ l', mapM f l = Ok l'.
Proof.
  intros Hf. setoid_rewrite mapM_result_Ok.
  induction l as [|x l IH]; [by exists []|].
  destruct (Hf x) as [y ?]; [apply list_elem_of_here|].
  destruct IH as [l' ?]; [intros; apply Hf; by apply list_elem_of_further|].
  exists (y :: l'). by constructor.
Qed.
