(* ===== verification/Identity.v ===== *)
(** * Identity derivation: uuids, slugs, composite keys, webhook secrets and URLs

    - [uuid]: the [uuid4().hex] default of every primary key in
      [src/tracecat/db.py], as an allocator of fresh identifiers;
    - [Slug.slugify]: the [slugify(title, separator="_")] call of the
      python-slugify library, step by step as that library performs it;
    - [key_of]: the computed [key] of [Workflow] and [Action];
    - [Webhook_secret], [Webhook_url]: the computed [secret] and [url] of
      [Webhook], over the signing interface [WebhookSigner] of
      [tracecat.auth.compute_hash]. *)

From S2P Require Import Prelude.

(** ** Fresh identifiers

    Every primary key defaults to [uuid4().hex], 128 random bits.  The
    model draws identifiers from a counter instead: the n-th identifier
    drawn is [uuid n].  It keeps what the code relies on (a fresh key
    differs from every key drawn before) and that the text has no [.] or
    [/] (a hex digest has neither). *)
Definition uuid (n : N) : string := pretty n.

Definition is_digit (c : ascii) : bool :=
  let n := N_of_ascii c in (48 <=? n)%N && (n <=? 57)%N.

Lemma pretty_N_char_digit d : is_digit (pretty_N_char d) = true.
Proof. unfold pretty_N_char. by repeat case_match. Qed.

Lemma pretty_N_go_digits x s :
  Forall (λ c, is_digit c = true) (chars s) →
  Forall (λ c, is_digit c = true) (chars (pretty_N_go x s)).
Proof.
  revert s. induction (N.lt_wf_0 x) as [x _ IH]; intros s Hs.
  destruct (decide (x = 0%N)) as [->|?]; [by rewrite pretty_N_go_0|].
  rewrite pretty_N_go_step by lia. apply IH; [apply N.div_lt; lia|].
  simpl. constructor; [|done]. apply pretty_N_char_digit.
Qed.

Lemma uuid_digits n : Forall (λ c, is_digit c = true) (chars (uuid n)).
Proof.
  unfold uuid, pretty, pretty_N. case_decide.
  - by repeat constructor.
  - by apply pretty_N_go_digits.
Qed.

Lemma uuid_inj n m : uuid n = uuid m → n = m.
Proof. apply pretty_N_inj. Qed.

Lemma not_digit_notin_uuid (c : ascii) n : is_digit c = false → c ∉ chars (uuid n).
Proof.
  intros Hc Hin. pose proof (uuid_digits n) as Hd.
  rewrite Forall_forall in Hd. specialize (Hd _ Hin). congruence.
Qed.

(** ** python-slugify

    [slugify(text, separator="_")] applies, in this order: each run of
    apostrophes becomes [-]; the text is lower-cased; remaining
    apostrophes are dropped; a comma between two digits is dropped; each
    run of characters outside [[-a-z0-9]] becomes [-]; each run of [-]
    becomes a single [-] and [-] is stripped from both ends; [-] is
    replaced by the separator.  Titles are taken as ASCII text without
    HTML character references (the library's [unidecode] and entity
    decoding are the identity there). *)
Module Slug.
Definition is_quote (c : ascii) : bool := bool_decide (c = "'"%char).
Definition is_dash (c : ascii) : bool := bool_decide (c = "-"%char).
Definition is_upper (c : ascii) : bool :=
  let n := N_of_ascii c in (65 <=? n)%N && (n <=? 90)%N.
Definition is_lower (c : ascii) : bool :=
  let n := N_of_ascii c in (97 <=? n)%N && (n <=? 122)%N.
Definition allowed (c : ascii) : bool := is_dash c || is_lower c || is_digit c.

(** [str.lower()] on ASCII. *)
Definition lower (c : ascii) : ascii :=
  if is_upper c then ascii_of_N (N_of_ascii c + 32) else c.

(** [re.sub("[P]+", r, text)]: each maximal run of characters
    satisfying [P] is replaced by [r]; [inrun] records that the previous
    character belonged to a run. *)
Fixpoint sub_runs (P : ascii → bool) (r : list ascii) (inrun : bool)
    (l : list ascii) : list ascii :=
  match l with
  | [] => []
  | c :: l' =>
      if P c then (if inrun then [] else r) ++ sub_runs P r true l'
      else c :: sub_runs P r false l'
  end.

(** [re.sub(r"(?<=\d),(?=\d)", "", text)]: the look-behind sees the
    original previous character [prev]. *)
Fixpoint drop_number_commas (prev : option ascii) (l : list ascii) : list ascii :=
  match l with
  | [] => []
  | c :: l' =>
      let next_digit := match l' with d :: _ => is_digit d | [] => false end in
      let prev_digit := match prev with Some p => is_digit p | None => false end in
      if bool_decide (c = ","%char) && prev_digit && next_digit
      then drop_number_commas (Some c) l'
      else c :: drop_number_commas (Some c) l'
  end.

Fixpoint drop_while (P : ascii → bool) (l : list ascii) : list ascii :=
  match l with
  | c :: l' => if P c then drop_while P l' else l
  | [] => []
  end.

(** [text.strip("-")]. *)
Definition strip_dashes (l : list ascii) : list ascii :=
  reverse (drop_while is_dash (reverse (drop_while is_dash l))).

(** [text.replace("-", separator)] for a one-character separator. *)
Definition replace_dash (sep : ascii) (l : list ascii) : list ascii :=
  map (λ c, if is_dash c then sep else c) l.

Definition slugify_chars (sep : ascii) (l : list ascii) : list ascii :=
  let l := sub_runs is_quote ["-"%char] false l in
  let l := map lower l in
  let l := sub_runs is_quote [] false l in
  let l := drop_number_commas None l in
  let l := sub_runs (λ c, negb (allowed c)) ["-"%char] false l in
  let l := strip_dashes (sub_runs is_dash ["-"%char] false l) in
  replace_dash sep l.

(** [slugify(title, separator="_")] *)
Definition slugify (title : string) : string :=
  String.string_of_list_ascii (slugify_chars "_"%char (chars title)).
End Slug.

(** ** Composite keys

    [Workflow.key] and [Action.key] (db.py) are both
    [f"{self.id}.{slugify(self.title, separator='_')}"]. *)
Definition key_of (id title : string) : string :=
  id +:+ "." +:+ Slug.slugify title.

(** ** Webhook secrets and URLs

    [Webhook.secret] is [auth.compute_hash(self.id)]; [tracecat.auth] is
    not part of the sources, and the spec describes it as a keyed one-way
    hash under a process-wide key.  The interface below is what the model
    assumes of it: a function of the id alone. *)
Class WebhookSigner := { compute_hash : string → string }.

Section Webhook.
Context `{WebhookSigner}.
(** [TRACECAT__RUNNER_URL] from [tracecat.config]. *)
Variable runner_url : string.

Definition Webhook_secret (id : string) : string := compute_hash id.

Definition Webhook_url (id : string) : string :=
  runner_url +:+ "/webhook/" +:+ id +:+ "/" +:+ Webhook_secret id.
End Webhook.

(** [s.lower()] on ASCII text. *)
Definition py_lower (s : string) : string := String.string_of_list_ascii (map Slug.lower (chars s)).

(** ** Slugs and keys *)

(** The characters a slug is made of: [[a-z0-9_]]. *)
Definition slug_char (c : ascii) : bool :=
  Slug.is_lower c || is_digit c || bool_decide (c = "_"%char).

Lemma sub_runs_elem_of P r b l c :
  c ∈ Slug.sub_runs P r b l → (c ∈ l ∧ P c = false) ∨ c ∈ r.
Proof.
  revert b. induction l as [|x l IH]; intros b; simpl; [set_solver|].
  destruct (P x) eqn:Hx.
  - rewrite elem_of_app. intros [Hr|Hc]; [destruct b; set_solver|].
    destruct (IH _ Hc); set_solver.
  - rewrite elem_of_cons. intros [->|Hc]; [by left; split; [left|]|].
    destruct (IH _ Hc); set_solver.
Qed.

Lemma drop_while_elem_of P l c : c ∈ Slug.drop_while P l → c ∈ l.
Proof. induction l as [|x l IH]; simpl; [done|]. destruct (P x); set_solver. Qed.

Lemma strip_dashes_elem_of l c : c ∈ Slug.strip_dashes l → c ∈ l.
Proof.
  unfold Slug.strip_dashes. intros Hc.
  apply elem_of_reverse, drop_while_elem_of, elem_of_reverse, drop_while_elem_of in Hc.
  exact Hc.
Qed.

(** The characters of a slug. *)
Lemma slug_chars title : Forall (λ c, slug_char c = true) (chars (Slug.slugify title)).
Proof.
  unfold Slug.slugify, Slug.slugify_chars, Slug.replace_dash.
  rewrite String.list_ascii_of_string_of_list_ascii, Forall_forall.
  intros c (d & -> & Hd)%list_elem_of_fmap.
  apply strip_dashes_elem_of in Hd.
  destruct (sub_runs_elem_of _ _ _ _ _ Hd) as [[Hd' Hnd]|Hd'].
  - destruct (sub_runs_elem_of _ _ _ _ _ Hd') as [[_ Hal]|Hdash].
    + rewrite Hnd. unfold Slug.allowed in Hal. rewrite Hnd in Hal. unfold slug_char.
      destruct (Slug.is_lower d), (is_digit d); done.
    + apply list_elem_of_singleton in Hdash as ->. reflexivity.
  - apply list_elem_of_singleton in Hd' as ->. reflexivity.
Qed.












(** C37. A composite key is the row's id, a [.], and a suffix made only
    of lower-case letters, digits and [_], whatever the title. *)
Theorem slugify_chars_ok id title :
  ∃ s, key_of id title = id +:+ "." +:+ s ∧ Forall (λ c, slug_char c = true) (chars s).
Proof. exists (Slug.slugify title). split; [reflexivity|apply slug_chars]. Qed.

Lemma slug_dot_notin title : "."%char ∉ chars (Slug.slugify title).
Proof.
  intros Hin. pose proof (slug_chars title) as Hs.
  rewrite Forall_forall in Hs. specialize (Hs _ Hin). discriminate.
Qed.

(** The key splits at its first [.] when the id has none. *)
Lemma key_of_inj a a' t t' :
  "."%char ∉ chars a → "."%char ∉ chars a' →
  key_of a t = key_of a' t' → a = a' ∧ Slug.slugify t = Slug.slugify t'.
Proof. apply app_sep_inj. Qed.

(** C36. Two keys of uuid-identified rows are equal exactly when the ids
    are equal and the titles slugify alike: the key identifies the row,
    and titles that differ only in case or punctuation share a slug. *)
Theorem key_of_uuid_inj n m t t' :
  key_of (uuid n) t = key_of (uuid m) t' ↔ n = m ∧ Slug.slugify t = Slug.slugify t'.
Proof.
  split.
  - intros Hk. destruct (key_of_inj _ _ _ _ (not_digit_notin_uuid "."%char n eq_refl)
                           (not_digit_notin_uuid "."%char m eq_refl) Hk) as [Hu Hs].
    split; [by apply uuid_inj|done].
  - intros [-> Hs]. unfold key_of. by rewrite Hs.
Qed.


(** Witness of C36: keys of the same row under titles that differ in
    case and punctuation coincide. *)
Lemma key_of_uuid_inj_witness :
  key_of (uuid 3) "Send Alert!" = key_of (uuid 3) "send alert" ∧ (3 = 3)%N.
Proof.
  split; [|reflexivity].
  apply (proj2 (key_of_uuid_inj 3 3 "Send Alert!" "send alert")). split; reflexivity.
Defined.
