(* ===== verification/Db.v ===== *)
(** * The relational schema and the store

    The SQLModel tables of [src/tracecat/db.py] as records, the database
    as one finite map per table keyed by primary key, and a transaction's
    commit: the rows a session added are inserted, a duplicate primary key
    or a dangling foreign key aborts the whole transaction.  Foreign keys
    are enforced as the PostgreSQL backend of production enforces them.
    Timestamps ([created_at], [updated_at]) are server defaults no
    modelled code reads, and are left out. *)

From S2P Require Import Prelude Json Identity.

(** ** Tables *)

Record User := mkUser {
  user_id : string;
  user_tier : string;
  user_settings : option string }.

Record Workflow := mkWorkflow {
  wf_id : string;
  wf_title : string;
  wf_description : string;
  wf_status : string;
  wf_object : option jtext;
  wf_icon_url : option string;
  wf_owner_id : string }.

Record Action := mkAction {
  act_id : string;
  act_type : string;
  act_title : string;
  act_description : string;
  act_status : string;
  act_inputs : option jtext;
  act_workflow_id : option string;
  act_owner_id : string }.

Record Webhook := mkWebhook {
  wh_id : string;
  wh_action_id : option string;
  wh_workflow_id : option string;
  wh_owner_id : string }.

Record WorkflowRun := mkWorkflowRun {
  wr_id : string;
  wr_status : string;
  wr_workflow_id : option string;
  wr_owner_id : string }.

Record ActionRun := mkActionRun {
  ar_id : string;
  ar_status : string;
  ar_action_id : option string;
  ar_workflow_run_id : string;
  ar_owner_id : string }.

(** [Editor]: a link table between users and workflows, declared with
    its two foreign keys but written by no code of the sources, so it is
    empty in every reachable database and left out of the [store]. *)
Record Editor := mkEditor {
  ed_user_id : option string;
  ed_workflow_id : option string }.

(** [Secret]: the API key is stored encrypted ([encrypted_api_key]); the
    bytes are kept as the string they hold. *)
Record Secret := mkSecret {
  sec_id : string;
  sec_name : option string;
  sec_encrypted_api_key : option string;
  sec_owner_id : string }.

Record CaseAction := mkCaseAction {
  ca_id : string;
  ca_tag : string;
  ca_value : string;
  ca_user_id : option string;
  ca_owner_id : string }.

Record CaseContext := mkCaseContext {
  cc_id : string;
  cc_tag : string;
  cc_value : string;
  cc_user_id : option string;
  cc_owner_id : string }.

(** [Workflow.key] and [Action.key]. *)
Definition Workflow_key (w : Workflow) : string := key_of (wf_id w) (wf_title w).
Definition Action_key (a : Action) : string := key_of (act_id a) (act_title a).

(** ** The database *)

Record store := mkStore {
  st_users : gmap string User;
  st_workflows : gmap string Workflow;
  st_actions : gmap string Action;
  st_webhooks : gmap string Webhook;
  st_workflow_runs : gmap string WorkflowRun;
  st_action_runs : gmap string ActionRun;
  st_secrets : gmap string Secret;
  st_case_actions : gmap string CaseAction;
  st_case_contexts : gmap string CaseContext }.

(** One table replaced, the others kept. *)
Definition set_users m st := mkStore m (st_workflows st) (st_actions st) (st_webhooks st)
  (st_workflow_runs st) (st_action_runs st) (st_secrets st) (st_case_actions st) (st_case_contexts st).
Definition set_workflows m st := mkStore (st_users st) m (st_actions st) (st_webhooks st)
  (st_workflow_runs st) (st_action_runs st) (st_secrets st) (st_case_actions st) (st_case_contexts st).
Definition set_actions m st := mkStore (st_users st) (st_workflows st) m (st_webhooks st)
  (st_workflow_runs st) (st_action_runs st) (st_secrets st) (st_case_actions st) (st_case_contexts st).
Definition set_webhooks m st := mkStore (st_users st) (st_workflows st) (st_actions st) m
  (st_workflow_runs st) (st_action_runs st) (st_secrets st) (st_case_actions st) (st_case_contexts st).
Definition set_workflow_runs m st := mkStore (st_users st) (st_workflows st) (st_actions st)
  (st_webhooks st) m (st_action_runs st) (st_secrets st) (st_case_actions st) (st_case_contexts st).
Definition set_action_runs m st := mkStore (st_users st) (st_workflows st) (st_actions st)
  (st_webhooks st) (st_workflow_runs st) m (st_secrets st) (st_case_actions st) (st_case_contexts st).
Definition set_secrets m st := mkStore (st_users st) (st_workflows st) (st_actions st)
  (st_webhooks st) (st_workflow_runs st) (st_action_runs st) m (st_case_actions st) (st_case_contexts st).
Definition set_case_actions m st := mkStore (st_users st) (st_workflows st) (st_actions st)
  (st_webhooks st) (st_workflow_runs st) (st_action_runs st) (st_secrets st) m (st_case_contexts st).
Definition set_case_contexts m st := mkStore (st_users st) (st_workflows st) (st_actions st)
  (st_webhooks st) (st_workflow_runs st) (st_action_runs st) (st_secrets st) (st_case_actions st) m.

(** A row added to a session. *)
Inductive row :=
  | RWorkflow (w : Workflow)
  | RAction (a : Action)
  | RWebhook (h : Webhook).

(** A nullable foreign key refers to a row of [m] or is NULL. *)
Definition fk {A} (m : gmap string A) (o : option string) : Prop :=
  match o with Some k => is_Some (m !! k) | None => True end.

#[export] Instance fk_dec {A} (m : gmap string A) o : Decision (fk m o).
Proof. destruct o; simpl; apply _. Defined.

(** The foreign keys of the schema: [workflow.owner_id -> user.id],
    [action.workflow_id -> workflow.id], [webhook.action_id -> action.id],
    [webhook.workflow_id -> workflow.id], [workflowrun.workflow_id ->
    workflow.id], [actionrun.action_id -> action.id],
    [actionrun.workflow_run_id -> workflowrun.id], [secret.owner_id ->
    user.id], [caseaction.user_id] and [casecontext.user_id -> user.id]. *)
Definition fk_ok (st : store) : Prop :=
  map_Forall (λ _ w, fk (st_users st) (Some (wf_owner_id w))) (st_workflows st) ∧
  map_Forall (λ _ a, fk (st_workflows st) (act_workflow_id a)) (st_actions st) ∧
  map_Forall (λ _ h, fk (st_actions st) (wh_action_id h) ∧
                     fk (st_workflows st) (wh_workflow_id h)) (st_webhooks st) ∧
  map_Forall (λ _ r, fk (st_workflows st) (wr_workflow_id r)) (st_workflow_runs st) ∧
  map_Forall (λ _ r, fk (st_actions st) (ar_action_id r) ∧
                     fk (st_workflow_runs st) (Some (ar_workflow_run_id r))) (st_action_runs st) ∧
  map_Forall (λ _ x, fk (st_users st) (Some (sec_owner_id x))) (st_secrets st) ∧
  map_Forall (λ _ x, fk (st_users st) (ca_user_id x)) (st_case_actions st) ∧
  map_Forall (λ _ x, fk (st_users st) (cc_user_id x)) (st_case_contexts st).

#[export] Instance fk_ok_dec st : Decision (fk_ok st).
Proof. unfold fk_ok. apply _. Defined.

(** [INSERT] of one row: a taken primary key is an [IntegrityError]. *)
Definition insert_row (st : store) (r : row) : result store :=
  match r with
  | RWorkflow w =>
      if decide (is_Some (st_workflows st !! wf_id w)) then Err IntegrityError
      else Ok (set_workflows (<[wf_id w := w]> (st_workflows st)) st)
  | RAction a =>
      if decide (is_Some (st_actions st !! act_id a)) then Err IntegrityError
      else Ok (set_actions (<[act_id a := a]> (st_actions st)) st)
  | RWebhook h =>
      if decide (is_Some (st_webhooks st !! wh_id h)) then Err IntegrityError
      else Ok (set_webhooks (<[wh_id h := h]> (st_webhooks st)) st)
  end.

Fixpoint insert_rows (st : store) (rs : list row) : result store :=
  match rs with
  | [] => Ok st
  | r :: rs' => insert_row st r ≫= λ st', insert_rows st' rs'
  end.

(** The constraint check at the end of a transaction: a violated foreign
    key rolls it back. *)
Definition flush (st : store) : result store :=
  if decide (fk_ok st) then Ok st else Err IntegrityError.

(** [session.commit()]: the unit of work inserts the added rows (parents
    before children), then the constraints are checked; any violation
    rolls the transaction back. *)
Definition commit (rs : list row) (st : store) : result store :=
  insert_rows st rs ≫= flush.

(** ** Rows of a session *)

Definition row_pk (r : row) : string :=
  match r with RWorkflow w => wf_id w | RAction a => act_id a | RWebhook h => wh_id h end.

Definition row_workflows (rs : list row) : list Workflow :=
  omap (λ r, match r with RWorkflow w => Some w | _ => None end) rs.
Definition row_actions (rs : list row) : list Action :=
  omap (λ r, match r with RAction a => Some a | _ => None end) rs.
Definition row_webhooks (rs : list row) : list Webhook :=
  omap (λ r, match r with RWebhook h => Some h | _ => None end) rs.

Lemma row_actions_app rs1 rs2 : row_actions (rs1 ++ rs2) = row_actions rs1 ++ row_actions rs2.
Proof. apply omap_app. Qed.
Lemma row_webhooks_app rs1 rs2 : row_webhooks (rs1 ++ rs2) = row_webhooks rs1 ++ row_webhooks rs2.
Proof. apply omap_app. Qed.
Lemma row_workflows_app rs1 rs2 : row_workflows (rs1 ++ rs2) = row_workflows rs1 ++ row_workflows rs2.
Proof. apply omap_app. Qed.

#[export] Hint Rewrite row_actions_app row_webhooks_app row_workflows_app : tracecat_rw.

(** ** Inserting rows *)

(** The store with a row inserted, without the constraint checks. *)
Definition add_row (st : store) (r : row) : store :=
  match r with
  | RWorkflow w => set_workflows (<[wf_id w := w]> (st_workflows st)) st
  | RAction a => set_actions (<[act_id a := a]> (st_actions st)) st
  | RWebhook h => set_webhooks (<[wh_id h := h]> (st_webhooks st)) st
  end.

(** The primary key of [r] is free in its table. *)
Definition pk_free (st : store) (r : row) : Prop :=
  match r with
  | RWorkflow w => st_workflows st !! wf_id w = None
  | RAction a => st_actions st !! act_id a = None
  | RWebhook h => st_webhooks st !! wh_id h = None
  end.

(** No table holds the key [k]. *)
Definition key_unused (st : store) (k : string) : Prop :=
  st_workflows st !! k = None ∧ st_actions st !! k = None ∧ st_webhooks st !! k = None.

Lemma insert_row_free st r : pk_free st r → insert_row st r = Ok (add_row st r).
Proof.
  destruct r; simpl; intros Hf; rewrite Hf; (rewrite decide_False; [done|]);
    by intros [? ?].
Qed.

Lemma add_row_unused st r k :
  key_unused st k → row_pk r ≠ k → key_unused (add_row st r) k.
Proof.
  intros (?&?&?) Hne. destruct r; simpl in *; split_and!; simpl;
    rewrite ?lookup_insert_ne; done.
Qed.

Lemma insert_rows_fresh st rs :
  Forall (key_unused st) (row_pk <$> rs) → NoDup (row_pk <$> rs) →
  insert_rows st rs = Ok (foldl add_row st rs).
Proof.
  revert st. induction rs as [|r rs IH]; intros st Hu Hnd; simpl; [done|].
  inversion Hu as [|?? Hr Hrs]; subst. apply NoDup_cons in Hnd as [Hnot Hnd].
  rewrite insert_row_free; cbn.
  - apply IH; [|done]. rewrite Forall_forall in Hrs |- *. intros k Hk.
    apply add_row_unused; [by apply Hrs|]. intros <-. done.
  - destruct r, Hr as (?&?&?); done.
Qed.

(** Inserting rows under fresh keys leaves every existing row in place. *)
Lemma add_rows_preserve st rs :
  Forall (key_unused st) (row_pk <$> rs) → NoDup (row_pk <$> rs) →
  (∀ k x, st_workflows st !! k = Some x → st_workflows (foldl add_row st rs) !! k = Some x) ∧
  (∀ k x, st_actions st !! k = Some x → st_actions (foldl add_row st rs) !! k = Some x) ∧
  (∀ k x, st_webhooks st !! k = Some x → st_webhooks (foldl add_row st rs) !! k = Some x) ∧
  st_users (foldl add_row st rs) = st_users st ∧
  st_workflow_runs (foldl add_row st rs) = st_workflow_runs st ∧
  st_action_runs (foldl add_row st rs) = st_action_runs st.
Proof.
  revert st. induction rs as [|r rs IH]; intros st Hu Hnd; simpl; [done|].
  inversion Hu as [|?? Hr Hrs]; subst. apply NoDup_cons in Hnd as [Hnot Hnd].
  destruct (IH (add_row st r)) as (IH1 & IH2 & IH3 & IH4 & IH5 & IH6); [|done|].
  { rewrite Forall_forall in Hrs |- *. intros k Hk.
    apply add_row_unused; [by apply Hrs|]. intros <-. done. }
  destruct r, Hr as (?&?&?); simpl in *; split_and!; try done;
    intros k x Hk; (apply IH1 || apply IH2 || apply IH3); simpl;
    rewrite ?lookup_insert_ne; try done; congruence.
Qed.

(** The tables only grow when rows are added. *)
Definition store_incl (st st' : store) : Prop :=
  st_users st ⊆ st_users st' ∧ st_workflows st ⊆ st_workflows st' ∧
  st_actions st ⊆ st_actions st' ∧ st_webhooks st ⊆ st_webhooks st'.

Lemma fk_incl {A} (m m' : gmap string A) o : m ⊆ m' → fk m o → fk m' o.
Proof.
  destruct o as [k|]; simpl; [|done]. intros Hsub [x Hx].
  exists x. by eapply lookup_weaken.
Qed.

(** The foreign keys of one row, checked in [st]. *)
Definition row_fk_ok (st : store) (r : row) : Prop :=
  match r with
  | RWorkflow w => fk (st_users st) (Some (wf_owner_id w))
  | RAction a => fk (st_workflows st) (act_workflow_id a)
  | RWebhook h => fk (st_actions st) (wh_action_id h) ∧ fk (st_workflows st) (wh_workflow_id h)
  end.

(** A row found after inserting [rs] is a row of [rs] or was there. *)
Lemma add_rows_lookup st rs :
  (∀ k x, st_workflows (foldl add_row st rs) !! k = Some x →
     RWorkflow x ∈ rs ∨ st_workflows st !! k = Some x) ∧
  (∀ k x, st_actions (foldl add_row st rs) !! k = Some x →
     RAction x ∈ rs ∨ st_actions st !! k = Some x) ∧
  (∀ k x, st_webhooks (foldl add_row st rs) !! k = Some x →
     RWebhook x ∈ rs ∨ st_webhooks st !! k = Some x).
Proof.
  revert st. induction rs as [|r rs IH]; intros st; simpl; [naive_solver|].
  destruct (IH (add_row st r)) as (IH1 & IH2 & IH3).
  split_and!; intros k x Hk;
    [destruct (IH1 k x Hk) as [?|Hx] | destruct (IH2 k x Hk) as [?|Hx]
    | destruct (IH3 k x Hk) as [?|Hx]]; try (left; by right);
    destruct r; simpl in Hx; rewrite ?lookup_insert in Hx;
    try (case_decide; simplify_eq; [by left; left|]); by right.
Qed.

Lemma add_rows_incl st rs :
  Forall (key_unused st) (row_pk <$> rs) → NoDup (row_pk <$> rs) →
  store_incl st (foldl add_row st rs).
Proof.
  intros Hu Hnd. destruct (add_rows_preserve st rs Hu Hnd) as (H1 & H2 & H3 & H4 & _).
  split_and!; [by rewrite H4| | |]; apply map_subseteq_spec; auto.
Qed.

(** Adding rows of the clone's kinds leaves the other tables as they were. *)
Lemma add_rows_others st rs :
  st_users (foldl add_row st rs) = st_users st ∧
  st_workflow_runs (foldl add_row st rs) = st_workflow_runs st ∧
  st_action_runs (foldl add_row st rs) = st_action_runs st ∧
  st_secrets (foldl add_row st rs) = st_secrets st ∧
  st_case_actions (foldl add_row st rs) = st_case_actions st ∧
  st_case_contexts (foldl add_row st rs) = st_case_contexts st.
Proof.
  revert st. induction rs as [|r rs IH]; intros st; [done|]. simpl.
  destruct (IH (add_row st r)) as (-> & -> & -> & -> & -> & ->). by destruct r.
Qed.

(** Adding rows under fresh keys keeps the foreign keys when every added
    row's foreign keys hold in the result. *)
Lemma fk_ok_add_rows st rs :
  fk_ok st → Forall (key_unused st) (row_pk <$> rs) → NoDup (row_pk <$> rs) →
  Forall (row_fk_ok (foldl add_row st rs)) rs → fk_ok (foldl add_row st rs).
Proof.
  intros (F1 & F2 & F3 & F4 & F5 & F6 & F7 & F8) Hu Hnd Hrs.
  pose proof (add_rows_incl st rs Hu Hnd) as (I1 & I2 & I3 & I4).
  destruct (add_rows_lookup st rs) as (L1 & L2 & L3).
  destruct (add_rows_others st rs) as (E1 & E2 & E3 & E4 & E5 & E6).
  rewrite Forall_forall in Hrs. split_and!.
  - intros k x Hk. destruct (L1 k x Hk) as [Hin|Hold]; [exact (Hrs _ Hin)|].
    eapply fk_incl; [exact I1|]. exact (F1 k x Hold).
  - intros k x Hk. destruct (L2 k x Hk) as [Hin|Hold]; [exact (Hrs _ Hin)|].
    eapply fk_incl; [exact I2|]. exact (F2 k x Hold).
  - intros k x Hk. destruct (L3 k x Hk) as [Hin|Hold]; [exact (Hrs _ Hin)|].
    destruct (F3 k x Hold). split; eapply fk_incl; eauto.
  - rewrite E2. intros k x Hk. eapply fk_incl; [exact I2|]. exact (F4 k x Hk).
  - rewrite E3, E2. intros k x Hk. destruct (F5 k x Hk). split; [|done].
    eapply fk_incl; eauto.
  - by rewrite E4, E1.
  - by rewrite E5, E1.
  - by rewrite E6, E1.
Qed.

(** The row [r] is stored under its primary key. *)
Definition row_in (st : store) (r : row) : Prop :=
  match r with
  | RWorkflow w => st_workflows st !! wf_id w = Some w
  | RAction a => st_actions st !! act_id a = Some a
  | RWebhook h => st_webhooks st !! wh_id h = Some h
  end.

Lemma add_rows_notin st rs k :
  k ∉ row_pk <$> rs →
  st_workflows (foldl add_row st rs) !! k = st_workflows st !! k ∧
  st_actions (foldl add_row st rs) !! k = st_actions st !! k ∧
  st_webhooks (foldl add_row st rs) !! k = st_webhooks st !! k.
Proof.
  revert st. induction rs as [|r rs IH]; intros st Hk; simpl; [done|].
  rewrite fmap_cons, elem_of_cons in Hk.
  destruct (IH (add_row st r)) as (-> & -> & ->); [naive_solver|].
  destruct r; simpl in *; rewrite ?lookup_insert_ne; naive_solver.
Qed.

Lemma add_rows_mem st rs r :
  NoDup (row_pk <$> rs) → r ∈ rs → row_in (foldl add_row st rs) r.
Proof.
  revert st. induction rs as [|r' rs IH]; intros st Hnd Hr; [by apply elem_of_nil in Hr|].
  rewrite fmap_cons, NoDup_cons in Hnd. destruct Hnd as [Hnot Hnd]. simpl.
  apply elem_of_cons in Hr as [<-|Hr]; [|by apply IH].
  destruct (add_rows_notin (add_row st r) rs (row_pk r) Hnot) as (E1 & E2 & E3).
  destruct r; simpl in *; [rewrite E1|rewrite E2|rewrite E3]; apply lookup_insert_eq.
Qed.

(** ** Reading tables *)

(** The rows of a table, in the order a [SELECT] without [ORDER BY]
    returns them (the order is unspecified; the model fixes one). *)
Definition rows {A} (m : gmap string A) : list A := (map_to_list m).*2.

(** The relationship [workflow.actions]: every action row whose
    [workflow_id] is the workflow's id. *)
Definition workflow_actions (st : store) (wid : string) : list Action :=
  filter (λ a, act_workflow_id a = Some wid) (rows (st_actions st)).

(** [user.owned_workflows]. *)
Definition owned_workflows (st : store) (uid : string) : list Workflow :=
  filter (λ w, wf_owner_id w = uid) (rows (st_workflows st)).

(** ** Deleting rows

    [session.delete(x)] followed by [commit()]: a relationship declared
    with [cascade="all, delete"] deletes the children, a relationship
    without it makes the ORM set the children's foreign key to NULL, and
    a foreign key declared [ON DELETE CASCADE] makes the database delete
    the rows that still refer to the deleted one. *)

(** [ActionRun.action_id] set to NULL ([Action.runs] has no cascade). *)
Definition null_action_run (aid : string) (r : ActionRun) : ActionRun :=
  if decide (ar_action_id r = Some aid)
  then mkActionRun (ar_id r) (ar_status r) None (ar_workflow_run_id r) (ar_owner_id r)
  else r.

(** [WorkflowRun.workflow_id] set to NULL ([Workflow.runs] has no cascade). *)
Definition null_workflow_run (wid : string) (r : WorkflowRun) : WorkflowRun :=
  if decide (wr_workflow_id r = Some wid)
  then mkWorkflowRun (wr_id r) (wr_status r) None (wr_owner_id r)
  else r.

(** [CaseAction.user_id] and [CaseContext.user_id] set to NULL
    ([User.case_actions], [User.case_contexts] have no cascade). *)
Definition null_case_action (uid : string) (x : CaseAction) : CaseAction :=
  if decide (ca_user_id x = Some uid)
  then mkCaseAction (ca_id x) (ca_tag x) (ca_value x) None (ca_owner_id x) else x.
Definition null_case_context (uid : string) (x : CaseContext) : CaseContext :=
  if decide (cc_user_id x = Some uid)
  then mkCaseContext (cc_id x) (cc_tag x) (cc_value x) None (cc_owner_id x) else x.

(** Deleting the action [aid]: its runs are detached, the webhooks that
    refer to it go by [webhook.action_id ... ON DELETE CASCADE]. *)
Definition delete_action_rows (aid : string) (st : store) : store :=
  set_action_runs (null_action_run aid <$> st_action_runs st)
    (set_webhooks (filter (λ kh : string * Webhook, wh_action_id kh.2 ≠ Some aid) (st_webhooks st))
      (set_actions (delete aid (st_actions st)) st)).

(** The workflow row itself once its actions are gone: [Workflow.webhooks]
    cascades, [Workflow.runs] is detached. *)
Definition delete_workflow_row (wid : string) (st : store) : store :=
  set_workflow_runs (null_workflow_run wid <$> st_workflow_runs st)
    (set_webhooks (filter (λ kh : string * Webhook, wh_workflow_id kh.2 ≠ Some wid) (st_webhooks st))
      (set_workflows (delete wid (st_workflows st)) st)).

(** Deleting the workflow [wid]: [Workflow.actions] cascades to each action. *)
Definition delete_workflow_rows (wid : string) (st : store) : store :=
  delete_workflow_row wid (foldr delete_action_rows st (act_id <$> workflow_actions st wid)).

(** The user row once its workflows are gone: [User.secrets] cascades, the
    case labels are detached. *)
Definition delete_user_row (uid : string) (st : store) : store :=
  set_case_contexts (null_case_context uid <$> st_case_contexts st)
    (set_case_actions (null_case_action uid <$> st_case_actions st)
      (set_secrets (filter (λ kx : string * Secret, sec_owner_id kx.2 ≠ uid) (st_secrets st))
        (set_users (delete uid (st_users st)) st))).

(** Deleting the user [uid]: [User.owned_workflows] cascades. *)
Definition delete_user_rows (uid : string) (st : store) : store :=
  delete_user_row uid (foldr delete_workflow_rows st (wf_id <$> owned_workflows st uid)).

(** ** Deletes keep the foreign keys *)

Lemma fk_delete {A} (m : gmap string A) k o : fk m o → o ≠ Some k → fk (delete k m) o.
Proof. destruct o as [k'|]; simpl; [|done]. intros ? Hne. rewrite lookup_delete_ne; congruence. Qed.

Lemma fk_fmap {A B} (f : A → B) (m : gmap string A) o : fk (f <$> m) o ↔ fk m o.
Proof. destruct o; simpl; [|done]. by rewrite lookup_fmap, fmap_is_Some. Qed.

#[export] Hint Resolve fk_delete : tracecat.

Ltac lookup_inv :=
  repeat match goal with
  | H : (_ <$> _) !! _ = Some _ |- _ => apply lookup_fmap_Some in H as (? & <- & ?)
  | H : filter _ _ !! _ = Some _ |- _ => apply map_lookup_filter_Some in H as [? ?]
  | H : delete _ _ !! _ = Some _ |- _ => apply lookup_delete_Some in H as [? ?]
  end.

Lemma delete_action_rows_fk aid st : fk_ok st → fk_ok (delete_action_rows aid st).
Proof.
  intros (F1 & F2 & F3 & F4 & F5 & F6 & F7 & F8).
  split_and!; intros k x Hk; simpl in *; lookup_inv; simpl in *; eauto.
  - destruct (F3 _ _ H) as [? ?]. split; [by apply fk_delete|done].
  - destruct (F5 _ _ H) as [? ?]. unfold null_action_run.
    case_decide; simpl; split; auto with tracecat.
Qed.

(** An action or workflow that survives a cascade was there before and
    was not one of the deleted keys. *)
Lemma delete_actions_lookup ids st k a :
  st_actions (foldr delete_action_rows st ids) !! k = Some a →
  st_actions st !! k = Some a ∧ k ∉ ids.
Proof.
  induction ids as [|i ids IH]; simpl; [intros; split; [done|apply not_elem_of_nil]|].
  intros [Hne Hk]%lookup_delete_Some. destruct (IH Hk). split; [done|].
  rewrite elem_of_cons. naive_solver.
Qed.

Lemma delete_actions_fk ids st : fk_ok st → fk_ok (foldr delete_action_rows st ids).
Proof. induction ids; simpl; auto using delete_action_rows_fk. Qed.

Lemma delete_workflow_row_fk wid st :
  fk_ok st → map_Forall (λ _ a, act_workflow_id a ≠ Some wid) (st_actions st) →
  fk_ok (delete_workflow_row wid st).
Proof.
  intros (F1 & F2 & F3 & F4 & F5 & F6 & F7 & F8) Hact.
  split_and!; intros k x Hk; simpl in *; lookup_inv; simpl in *.
  - eauto.
  - apply fk_delete; eauto.
  - match goal with H : st_webhooks _ !! _ = Some _ |- _ => destruct (F3 _ _ H) end.
    split; [done|by apply fk_delete].
  - unfold null_workflow_run. case_decide; simpl; [done|]. apply fk_delete; eauto.
  - destruct (F5 _ _ Hk) as [? ?]. split; [done|]. by apply (fk_fmap _ _ (Some _)).
  - eauto.
  - eauto.
  - eauto.
Qed.

(** Key-consistent tables: every row sits under its own key. *)
Definition keyed {A} (key : A → string) (m : gmap string A) : Prop :=
  map_Forall (λ k x, key x = k) m.

Lemma elem_of_rows {A} (m : gmap string A) k x : m !! k = Some x → x ∈ rows m.
Proof. intros Hk. apply list_elem_of_fmap. exists (k, x). split; [done|]. by apply elem_of_map_to_list. Qed.

Lemma elem_of_rows_iff {A} (m : gmap string A) x : x ∈ rows m ↔ ∃ k, m !! k = Some x.
Proof.
  unfold rows. rewrite list_elem_of_fmap. split.
  - intros ([k x'] & -> & Hin). exists k. by apply elem_of_map_to_list.
  - intros [k Hk]. exists (k, x). split; [done|]. by apply elem_of_map_to_list.
Qed.

(** After the cascade over a workflow's actions, no action of it is left. *)
Lemma workflow_actions_gone wid st :
  keyed act_id (st_actions st) →
  map_Forall (λ _ a, act_workflow_id a ≠ Some wid)
    (st_actions (foldr delete_action_rows st (act_id <$> workflow_actions st wid))).
Proof.
  intros Hkey k a (Hold & Hnot)%delete_actions_lookup Hwid. apply Hnot.
  rewrite <-(Hkey _ _ Hold). apply list_elem_of_fmap. exists a. split; [done|].
  apply list_elem_of_filter. split; [done|]. by eapply elem_of_rows.
Qed.

Lemma delete_workflow_rows_fk wid st :
  keyed act_id (st_actions st) → fk_ok st → fk_ok (delete_workflow_rows wid st).
Proof.
  intros Hkey Hfk. apply delete_workflow_row_fk; [by apply delete_actions_fk|].
  by apply workflow_actions_gone.
Qed.



Lemma delete_actions_workflows ids st :
  st_workflows (foldr delete_action_rows st ids) = st_workflows st.
Proof. induction ids; simpl; congruence. Qed.

(** Deleting a workflow leaves no row that refers to it. *)
Lemma delete_workflow_rows_gone wid st :
  keyed act_id (st_actions st) →
  st_workflows (delete_workflow_rows wid st) !! wid = None ∧
  map_Forall (λ _ a, act_workflow_id a ≠ Some wid) (st_actions (delete_workflow_rows wid st)) ∧
  map_Forall (λ _ h, wh_workflow_id h ≠ Some wid) (st_webhooks (delete_workflow_rows wid st)) ∧
  map_Forall (λ _ r, wr_workflow_id r ≠ Some wid) (st_workflow_runs (delete_workflow_rows wid st)).
Proof.
  intros Hkey. split_and!; simpl.
  - rewrite delete_actions_workflows. apply lookup_delete_eq.
  - by apply workflow_actions_gone.
  - intros k h [_ ?]%map_lookup_filter_Some. done.
  - intros k r (r' & <- & _)%lookup_fmap_Some. unfold null_workflow_run.
    case_decide; simpl; congruence.
Qed.

(** What a workflow delete leaves of the actions and workflows. *)
Lemma delete_workflow_rows_tables wid st :
  (∀ k a, st_actions (delete_workflow_rows wid st) !! k = Some a → st_actions st !! k = Some a) ∧
  st_workflows (delete_workflow_rows wid st) = delete wid (st_workflows st).
Proof.
  split; [intros k a Hk; by apply delete_actions_lookup in Hk as [? _]|].
  simpl. by rewrite delete_actions_workflows.
Qed.

Lemma keyed_sub {A} (key : A → string) (m m' : gmap string A) :
  (∀ k x, m' !! k = Some x → m !! k = Some x) → keyed key m → keyed key m'.
Proof. intros Hsub Hk k x Hx. exact (Hk k x (Hsub k x Hx)). Qed.

Lemma delete_workflows_lookup wids st k w :
  st_workflows (foldr delete_workflow_rows st wids) !! k = Some w →
  st_workflows st !! k = Some w ∧ k ∉ wids.
Proof.
  induction wids as [|i wids IH]; cbn [foldr]; [intros; split; [done|apply not_elem_of_nil]|].
  rewrite (proj2 (delete_workflow_rows_tables _ _)).
  intros [Hne Hk]%lookup_delete_Some. destruct (IH Hk). split; [done|].
  rewrite elem_of_cons. naive_solver.
Qed.

Lemma delete_workflows_keep wids st k w :
  k ∉ wids → st_workflows st !! k = Some w → st_workflows (foldr delete_workflow_rows st wids) !! k = Some w.
Proof.
  induction wids as [|i wids IH]; cbn [foldr]; [done|]. intros Hk Hw.
  rewrite (proj2 (delete_workflow_rows_tables _ _)), lookup_delete_ne by set_solver. apply IH; [set_solver|done].
Qed.

Lemma delete_actions_secrets aids st : st_secrets (foldr delete_action_rows st aids) = st_secrets st.
Proof. induction aids as [|i aids IH]; [done|]. exact IH. Qed.

Lemma delete_workflows_secrets wids st : st_secrets (foldr delete_workflow_rows st wids) = st_secrets st.
Proof.
  induction wids as [|i wids IH]; [done|]. cbn [foldr]. rewrite <-IH. apply delete_actions_secrets.
Qed.

(** The workflows [delete_user_rows] keeps are the ones of other owners. *)
Lemma delete_user_rows_workflows uid st k x :
  keyed wf_id (st_workflows st) →
  st_workflows (delete_user_rows uid st) !! k = Some x ↔ st_workflows st !! k = Some x ∧ wf_owner_id x ≠ uid.
Proof.
  intros Hwk. assert (∀ y, st_workflows st !! k = Some y → k ∈ wf_id <$> owned_workflows st uid ↔ wf_owner_id y = uid)
    as Hin.
  { intros y Hy. rewrite list_elem_of_fmap. split.
    - intros (y' & Hk & Hy'%list_elem_of_filter). destruct Hy' as [Ho Hr%elem_of_rows_iff].
      destruct Hr as [k' Hk']. assert (k' = k) as -> by (pose proof (Hwk _ _ Hk'); simpl in *; congruence). congruence.
    - intros Ho. exists y. split; [by rewrite (Hwk _ _ Hy)|]. apply list_elem_of_filter.
      split; [done|]. by eapply elem_of_rows. }
  unfold delete_user_rows. cbn [delete_user_row st_workflows set_case_contexts set_case_actions set_secrets set_users].
  split.
  - intros (Hold & Hnot)%delete_workflows_lookup. split; [done|]. intros Ho. by apply Hnot, (Hin x).
  - intros [Hold Ho]. apply delete_workflows_keep; [|done]. by rewrite (Hin x Hold).
Qed.

Lemma delete_workflows_fk wids st :
  keyed act_id (st_actions st) → fk_ok st → fk_ok (foldr delete_workflow_rows st wids) ∧
  keyed act_id (st_actions (foldr delete_workflow_rows st wids)).
Proof.
  intros Hkey Hfk. induction wids as [|i wids IH]; cbn [foldr]; [done|].
  destruct IH as [IH1 IH2]. split; [by apply delete_workflow_rows_fk|].
  eapply keyed_sub; [apply delete_workflow_rows_tables|done].
Qed.

Lemma delete_user_row_fk uid st :
  fk_ok st → map_Forall (λ _ w, wf_owner_id w ≠ uid) (st_workflows st) →
  fk_ok (delete_user_row uid st).
Proof.
  intros (F1 & F2 & F3 & F4 & F5 & F6 & F7 & F8) Hwf.
  split_and!; intros k x Hk; simpl in *; lookup_inv; simpl in *; eauto.
  - apply (fk_delete _ _ (Some _)); [exact (F1 k x Hk)|]. intros [=]. by apply (Hwf k x).
  - match goal with H : st_secrets _ !! _ = Some _ |- _ => pose proof (F6 _ _ H) end.
    apply (fk_delete _ _ (Some _)); [done|]. congruence.
  - match goal with H : st_case_actions _ !! _ = Some _ |- _ => pose proof (F7 _ _ H) end.
    unfold null_case_action. case_decide; simpl; auto with tracecat.
  - match goal with H : st_case_contexts _ !! _ = Some _ |- _ => pose proof (F8 _ _ H) end.
    unfold null_case_context. case_decide; simpl; auto with tracecat.
Qed.

Lemma delete_user_rows_fk uid st :
  keyed wf_id (st_workflows st) → keyed act_id (st_actions st) → fk_ok st →
  fk_ok (delete_user_rows uid st).
Proof.
  intros Hwk Hak Hfk. destruct (delete_workflows_fk (wf_id <$> owned_workflows st uid) st Hak Hfk)
    as [Hfk' _].
  apply delete_user_row_fk; [done|].
  intros k w (Hold & Hnot)%delete_workflows_lookup Hown. apply Hnot.
  rewrite <-(Hwk _ _ Hold). apply list_elem_of_fmap. exists w. split; [done|].
  apply list_elem_of_filter. split; [done|]. by eapply elem_of_rows.
Qed.

Lemma fk_insert {A} (m : gmap string A) k x o : fk m o → fk (<[k := x]> m) o.
Proof. destruct o as [k'|]; simpl; [|done]. rewrite lookup_insert_is_Some'. tauto. Qed.

#[export] Hint Resolve fk_insert : tracecat.

(** Deleting an action leaves no row that refers to it. *)
Lemma delete_action_rows_gone aid st :
  st_actions (delete_action_rows aid st) !! aid = None ∧
  map_Forall (λ _ h, wh_action_id h ≠ Some aid) (st_webhooks (delete_action_rows aid st)) ∧
  map_Forall (λ _ r, ar_action_id r ≠ Some aid) (st_action_runs (delete_action_rows aid st)).
Proof.
  split_and!; simpl.
  - apply lookup_delete_eq.
  - intros k h [_ ?]%map_lookup_filter_Some. done.
  - intros k r (r' & <- & _)%lookup_fmap_Some. unfold null_action_run.
    case_decide; simpl; congruence.
Qed.
