(* ===== verification/Responses.v ===== *)
(** * Request parameters and response models of [src/tracecat/types/api.py]

    The pydantic models the handlers take and return.  A parameter model
    arrives validated, so its fields have their declared types; a
    response model is validated when a handler builds it, and a field of
    the wrong type raises a [ValidationError] (an HTTP 500).  The
    validations that can fail on rows of a well-formed database are kept:
    a required [str] given [None], a [dict] given another JSON value, an
    [ActionType] given a string outside the enumeration.  Timestamps are
    not modelled. *)

From S2P Require Import Prelude Json Identity Db.

(** [tracecat.types.actions.ActionType], a [Literal] of the supported
    action kinds; the module is not part of the sources, its membership
    test is the interface. *)
Class ActionTypes := { is_action_type : string → bool }.

(** [RunStatus = Literal["pending", "running", "failure", "success", "canceled"]]. *)
Inductive RunStatus := RSPending | RSRunning | RSFailure | RSSuccess | RSCanceled.

Definition run_status_str (s : RunStatus) : string :=
  match s with
  | RSPending => "pending" | RSRunning => "running" | RSFailure => "failure"
  | RSSuccess => "success" | RSCanceled => "canceled"
  end.

(** ** Field validation *)

(** A [str] field given an optional value. *)
Definition validate_str (o : option string) : result string := of_option ValidationError o.

(** A [dict[str, Any]] field. *)
Definition as_dict (v : json) : result (list (string * json)) :=
  match v with JDict kvs => Ok kvs | _ => Err ValidationError end.

(** A [dict[str, Any] | None] field. *)
Definition as_opt_dict (o : option json) : result (option (list (string * json))) :=
  match o with None => Ok None | Some v => Some <$> as_dict v end.

(** ** Parameters *)

Record CreateWorkflowParams := mkCreateWorkflowParams {
  cwp_title : string;
  cwp_description : string }.

(** [object] and [inputs] are JSON text sent by the client, stored as is. *)
Record UpdateWorkflowParams := mkUpdateWorkflowParams {
  uwp_title : option string;
  uwp_description : option string;
  uwp_status : option string;
  uwp_object : option jtext }.

Record CreateActionParams := mkCreateActionParams {
  cap_workflow_id : string;
  cap_type : string;
  cap_title : string }.

Record UpdateActionParams := mkUpdateActionParams {
  uap_title : option string;
  uap_description : option string;
  uap_status : option string;
  uap_inputs : option jtext }.

Record CreateWebhookParams := mkCreateWebhookParams {
  cwh_action_id : string;
  cwh_workflow_id : string }.

Record CreateActionRunParams := mkCreateActionRunParams {
  carp_action_run_id : string;
  carp_workflow_run_id : string }.

(** [UpdateWorkflowRunParams], [UpdateActionRunParams]. *)
Record UpdateWorkflowRunParams := mkUpdateWorkflowRunParams { uwrp_status : RunStatus }.
Record UpdateActionRunParams := mkUpdateActionRunParams { uarp_status : RunStatus }.

(** [SearchSecretsParams]. *)
Record SearchSecretsParams := mkSearchSecretsParams { ssp_names : list string }.

(** [CopyWorkflowParams]. *)
Record CopyWorkflowParams := mkCopyWorkflowParams { cwp_owner_id : string }.

(** [UpdateUserParams = CreateUserParams]; [tier] is a [Literal] of
    ["free"], ["pro"], ["enterprise"] with default ["free"]. *)
Record UpdateUserParams := mkUpdateUserParams {
  uup_tier : string;
  uup_settings : option string }.

(** [CreateSecretParams], also [UpdateSecretParams]. *)
Record CreateSecretParams := mkCreateSecretParams {
  csp_name : string;
  csp_value : string }.

(** [CaseActionParams], also the shape of [CaseContextParams]. *)
Record CaseLabelParams := mkCaseLabelParams {
  clp_tag : string;
  clp_value : string;
  clp_user_id : option string }.

(** The fields of [SearchWebhooksParams] the handler reads. *)
Record SearchWebhooksParams := mkSearchWebhooksParams {
  swp_action_id : option string;
  swp_workflow_id : option string }.

(** ** Responses *)

Record WorkflowMetadataResponse := mkWorkflowMetadataResponse {
  wmr_id : string;
  wmr_title : string;
  wmr_description : string;
  wmr_status : string;
  wmr_icon_url : option string }.

Record ActionResponse := mkActionResponse {
  aresp_id : string;
  aresp_type : string;
  aresp_title : string;
  aresp_description : string;
  aresp_status : string;
  aresp_inputs : option (list (string * json));
  aresp_key : string }.

Record WorkflowResponse := mkWorkflowResponse {
  wresp_id : string;
  wresp_title : string;
  wresp_description : string;
  wresp_status : string;
  wresp_actions : list (string * ActionResponse);
  wresp_object : option (list (string * json));
  wresp_owner_id : string }.

Record ActionMetadataResponse := mkActionMetadataResponse {
  amr_id : string;
  amr_workflow_id : string;
  amr_type : string;
  amr_title : string;
  amr_description : string;
  amr_status : string;
  amr_key : string }.

Record WorkflowRunResponse := mkWorkflowRunResponse {
  wrr_id : string;
  wrr_workflow_id : string;
  wrr_status : string;
  wrr_action_runs : list ActionRun }.

Record ActionRunResponse := mkActionRunResponse {
  arr_id : string;
  arr_action_id : string;
  arr_status : string }.

Record WebhookResponse := mkWebhookResponse {
  whr_id : string;
  whr_secret : string;
  whr_action_id : string;
  whr_workflow_id : string;
  whr_url : string }.

Inductive AuthStatus := Authorized | Unauthorized.

Record AuthenticateWebhookResponse := mkAuthenticateWebhookResponse {
  awr_status : AuthStatus;
  awr_owner_id : option string;
  awr_action_key : option string;
  awr_action_id : option string;
  awr_webhook_id : option string;
  awr_workflow_id : option string }.

(** ** Building responses *)

Section Build.
Context `{ActionTypes}.

(** [ActionResponse(...)]: [type] must be an [ActionType] and [inputs] a
    dict or [None]. *)
Definition validate_action_response (id type title description status : string)
    (inputs : option json) (key : string) : result ActionResponse :=
  if is_action_type type then
    inputs' ← as_opt_dict inputs;
    Ok (mkActionResponse id type title description status inputs' key)
  else Err ValidationError.

(** [ActionMetadataResponse(...)]. *)
Definition validate_action_metadata (id workflow_id type title description status key : string)
    : result ActionMetadataResponse :=
  if is_action_type type
  then Ok (mkActionMetadataResponse id workflow_id type title description status key)
  else Err ValidationError.
End Build.

(** [WorkflowMetadataResponse(id=..., title=..., ...)] of a workflow row. *)
Definition workflow_metadata (w : Workflow) : WorkflowMetadataResponse :=
  mkWorkflowMetadataResponse (wf_id w) (wf_title w) (wf_description w) (wf_status w) (wf_icon_url w).

(** [ActionRunResponse] built from [action_run.model_dump()]. *)
Definition action_run_response (r : ActionRun) : result ActionRunResponse :=
  aid ← validate_str (ar_action_id r);
  Ok (mkActionRunResponse (ar_id r) aid (ar_status r)).

(** [WorkflowRunResponse.from_orm(run)]: the row's fields and the action
    runs of its [action_runs] relationship. *)
Definition workflow_run_response (st : store) (r : WorkflowRun) : result WorkflowRunResponse :=
  wid ← validate_str (wr_workflow_id r);
  Ok (mkWorkflowRunResponse (wr_id r) wid (wr_status r)
        (filter (λ x, ar_workflow_run_id x = wr_id r) (rows (st_action_runs st)))).

(** [WorkflowRunResponse] built from [workflow_run.model_dump()]: without the
    relationship, [action_runs] takes its default [[]]. *)
Definition workflow_run_dump_response (r : WorkflowRun) : result WorkflowRunResponse :=
  wid ← validate_str (wr_workflow_id r);
  Ok (mkWorkflowRunResponse (wr_id r) wid (wr_status r) []).

(** ** Events, workflow triggers and cases *)

(** [Event]; the [published_at] datetime as its ISO text. *)
Record Event := mkEvent {
  ev_published_at : string;
  ev_action_id : string;
  ev_action_run_id : string;
  ev_action_title : string;
  ev_action_type : string;
  ev_workflow_id : string;
  ev_workflow_title : string;
  ev_workflow_run_id : string;
  ev_data : list (string * json) }.

(** [EventSearchParams]; [order_by] defaults to the misspelt
    ["pubished_at"]. *)
Record EventSearchParams := mkEventSearchParams {
  esp_workflow_id : string;
  esp_limit : Z;
  esp_order_by : string;
  esp_workflow_run_id : option string;
  esp_query : option string;
  esp_group_by : option (list string);
  esp_agg : option string }.

(** The parameters with every default taken. *)
Definition default_event_search (workflow_id : string) : EventSearchParams :=
  mkEventSearchParams workflow_id 1000 "pubished_at" None None None None.

(** [TriggerWorkflowRunParams] and [StartWorkflowParams]. *)
Record TriggerWorkflowRunParams := mkTriggerWorkflowRunParams {
  twp_action_key : string;
  twp_payload : list (string * json) }.

Record StartWorkflowParams := mkStartWorkflowParams {
  swp_entrypoint_key : string;
  swp_entrypoint_payload : list (string * json) }.

Record StartWorkflowResponse := mkStartWorkflowResponse {
  sresp_status : string;
  sresp_message : string;
  sresp_id : string }.

(** A required [str] field of a dict being validated. *)
Definition str_field (k : string) (kvs : list (string * json)) : result string :=
  match dict_get k kvs with Some (JStr s) => Ok s | _ => Err ValidationError end.

(** [StartWorkflowResponse] validated from a JSON body. *)
Definition validate_start_response (body : json) : result StartWorkflowResponse :=
  kvs ← as_dict body;
  s ← str_field "status" kvs; m ← str_field "message" kvs; i ← str_field "id" kvs;
  Ok (mkStartWorkflowResponse s m i).

Inductive Malice := Malicious | Benign.
Inductive CaseStatus := CSOpen | CSClosed | CSInProgress | CSReported | CSEscalated.
Inductive Priority := PLow | PMedium | PHigh | PCritical.

(** The [context] field: [dict[str, str] | str | None]. *)
Inductive CaseContextField :=
  | CtxDict (kvs : list (string * string))
  | CtxStr (s : string)
  | CtxNone.

Record CaseParams := mkCaseParams {
  cp_title : string;
  cp_payload : list (string * json);
  cp_malice : Malice;
  cp_status : CaseStatus;
  cp_priority : Priority;
  cp_context : CaseContextField;
  cp_action : option string;
  cp_suppression : option (list (string * bool)) }.

(** A runner's answer validates exactly when it is a dict with the three
    string fields, which become the response's. *)
Lemma validate_start_response_Ok t resp :
  loads (Some t) ≫= validate_start_response = Ok resp ↔
  ∃ kvs, t = JText (JDict kvs) ∧ dict_get "status" kvs = Some (JStr (sresp_status resp)) ∧
    dict_get "message" kvs = Some (JStr (sresp_message resp)) ∧ dict_get "id" kvs = Some (JStr (sresp_id resp)).
Proof.
  split.
  - destruct t as [[]|]; simpl; try discriminate. unfold validate_start_response, str_field. simpl.
    intros H. repeat (case_match; simplify_eq/=; try discriminate). eexists; split_and!; eauto.
  - intros (kvs & -> & H1 & H2 & H3). simpl. unfold validate_start_response, str_field. simpl.
    rewrite H1, H2, H3. simpl. by destruct resp.
Qed.
