(* ===== verification/Clone.v ===== *)
(** * The graph clone engine: [clone_workflow] of [src/tracecat/db.py]

    [clone_workflow(workflow, session, new_owner_id)] builds a copy of a
    workflow under a new owner: a fresh workflow row, one fresh action row
    per source action, one fresh webhook row per action of type
    ["webhook"], and the React-Flow graph document with every node and
    edge rewritten to the new action ids.  The rows are only added to the
    session; the caller commits.

    The model runs in the state and exception monad of the prelude over
    [clone_st]: the identifier allocator and the rows added to the
    session, in the order of the [session.add] calls. *)

From S2P Require Import Prelude Json Identity Db.

Record clone_st := mkCloneSt {
  cs_next : N;
  cs_added : list row }.

Definition CM := SE clone_st.

(** [uuid4().hex], evaluated by a [default_factory]. *)
Definition fresh_id : CM string :=
  λ s, Ok (uuid (cs_next s), mkCloneSt (cs_next s + 1) (cs_added s)).

(** [session.add(r)]. *)
Definition session_add (r : row) : CM unit :=
  λ s, Ok (tt, mkCloneSt (cs_next s) (cs_added s ++ [r])).

(** The dict [action_replacements]: old action id to the new id and the
    new inputs dict. *)
Definition replacements := gmap string (string * json).

(** [action_replacements[k]] for a key read from the graph document: a
    string is looked up ([KeyError] when absent), other scalars are
    absent keys, lists and dicts are unhashable. *)
Definition repl_lookup (repl : replacements) (k : json) : result (string * json) :=
  match k with
  | JStr s => of_option KeyError (repl !! s)
  | JList _ | JDict _ => Err TypeError
  | _ => Err KeyError
  end.

Section Clone.
Context `{WebhookSigner}.

(** The body of [for action in workflow.actions] (lines 362-388). *)
Definition clone_action (wid new_owner_id : string) (action : Action)
  : CM (string * (string * json)) :=
aid <- fresh_id ;;
action_inputs <- se_lift (loads (act_inputs action)) ;;
action_inputs' <-
  (if decide (act_type action = "webhook") then
     hid <- fresh_id ;;
     inputs' <- se_lift (py_update action_inputs
                   [("path", JStr hid); ("secret", JStr (Webhook_secret hid))]) ;;
     session_add (RWebhook (mkWebhook hid (Some aid) (Some wid) new_owner_id)) ;;;
     se_ret inputs'
   else se_ret action_inputs) ;;
session_add (RAction (mkAction aid (act_type action) (act_title action)
               (act_description action) (act_status action) (dumps action_inputs')
               (Some wid) new_owner_id)) ;;;
se_ret (act_id action, (aid, action_inputs')).

(** The body of [for edge in graph["edges"]] (lines 392-395). *)
Definition remap_edge (repl : replacements) (edge : json) : result json :=
s ← py_getitem edge "source";
'(ns, _) ← repl_lookup repl s;
e1 ← py_setitem edge "source" (JStr ns);
t ← py_getitem e1 "target";
'(nt, _) ← repl_lookup repl t;
e2 ← py_setitem e1 "target" (JStr nt);
py_setitem e2 "id" (JStr (ns +:+ "-" +:+ nt)).

(** The body of [for node in graph["nodes"]] (lines 396-399). *)
Definition remap_node (repl : replacements) (node : json) : result json :=
i ← py_getitem node "id";
'(new_id, new_inputs) ← repl_lookup repl i;
n1 ← py_setitem node "id" (JStr new_id);
data ← py_getitem n1 "data";
data' ← py_update data
          [("id", JStr new_id); ("inputs", new_inputs); ("selected", JBool false)];
py_setitem n1 "data" data'.

(** Lines 391-399: the graph document, edited in place. *)
Definition remap_graph (repl : replacements) (object : option jtext) : result json :=
graph ← loads object;
edges ← py_getitem graph "edges";
edges' ← py_for_mutate (remap_edge repl) edges;
graph1 ← py_setitem graph "edges" edges';
nodes ← py_getitem graph1 "nodes";
nodes' ← py_for_mutate (remap_node repl) nodes;
py_setitem graph1 "nodes" nodes'.

(** [clone_workflow(workflow, session, new_owner_id)], with
  [workflow.actions] passed as [actions]. *)
Definition clone_workflow (workflow : Workflow) (actions : list Action)
  (new_owner_id : string) : CM Workflow :=
wid <- fresh_id ;;
repl_list <- se_forM actions (clone_action wid new_owner_id) ;;
let repl : replacements := list_to_map (reverse repl_list) in
graph <- se_lift (remap_graph repl (wf_object workflow)) ;;
let cloned := mkWorkflow wid (wf_title workflow) (wf_description workflow) "offline"
                (dumps graph) (wf_icon_url workflow) new_owner_id in
session_add (RWorkflow cloned) ;;;
se_ret cloned.
End Clone.

(** ** Running one iteration *)

Section CloneLemmas.
Context `{WebhookSigner}.

(** The action row the iteration adds for [a], with id [aid]. *)
Definition cloned_row (wid o : string) (a : Action) (aid : string) (inputs : json) : Action :=
mkAction aid (act_type a) (act_title a) (act_description a) (act_status a)
  (dumps inputs) (Some wid) o.

Definition webhook_patch (hid : string) : list (string * json) :=
[("path", JStr hid); ("secret", JStr (Webhook_secret hid))].

Lemma clone_action_Ok wid o a s r s' :
clone_action wid o a s = Ok (r, s') →
∃ inputs, loads (act_inputs a) = Ok inputs ∧
  let n := cs_next s in
  if decide (act_type a = "webhook") then
    ∃ inputs', py_update inputs (webhook_patch (uuid (n + 1))) = Ok inputs' ∧
      r = (act_id a, (uuid n, inputs')) ∧
      s' = mkCloneSt (n + 1 + 1)
             (cs_added s ++ [RWebhook (mkWebhook (uuid (n + 1)) (Some (uuid n)) (Some wid) o);
                             RAction (cloned_row wid o a (uuid n) inputs')])
  else r = (act_id a, (uuid n, inputs)) ∧
       s' = mkCloneSt (n + 1) (cs_added s ++ [RAction (cloned_row wid o a (uuid n) inputs)]).
Proof.
unfold clone_action, se_bind, se_lift, fresh_id, session_add, se_ret; cbn.
destruct (loads (act_inputs a)) as [inputs|e]; cbn; [|done].
intros H1. exists inputs. split; [done|]. revert H1.
case_decide; cbn.
- unfold webhook_patch.
  destruct (py_update _ _) as [inputs'|e]; cbn; [|done].
  intros [= <- <-]. rewrite <-app_assoc. eauto.
- by intros [= <- <-].
Qed.

(** What one iteration appends to the session for action [a], drawing
  [uuid n] for the action (and [uuid (n+1)] for its webhook), and the
  entry [y] it records in [action_replacements]. *)
Definition iteration_rows (wid o : string) (a : Action) (y : string * (string * json))
  (rs : list row) : Prop :=
∃ n, y.1 = act_id a ∧ y.2.1 = uuid n ∧
  (act_type a = "webhook" →
     ∃ kvs, y.2.2 = JDict kvs ∧ dict_get "path" kvs = Some (JStr (uuid (n + 1))) ∧
            dict_get "secret" kvs = Some (JStr (Webhook_secret (uuid (n + 1))))) ∧
  rs = (if decide (act_type a = "webhook")
        then [RWebhook (mkWebhook (uuid (n + 1)) (Some (uuid n)) (Some wid) o)] else [])
       ++ [RAction (cloned_row wid o a (uuid n) y.2.2)].

Lemma py_update_webhook_patch inputs inputs' hid :
py_update inputs (webhook_patch hid) = Ok inputs' →
∃ kvs, inputs' = JDict kvs ∧ dict_get "path" kvs = Some (JStr hid) ∧
       dict_get "secret" kvs = Some (JStr (Webhook_secret hid)).
Proof.
destruct inputs as [| | | | |kvs]; cbn [py_update]; intros [=<-].
exists (dict_update (webhook_patch hid) kvs). split; [done|].
rewrite !dict_get_update. unfold webhook_patch; cbn.
split; by destruct (dict_get _ kvs).
Qed.

Lemma clone_action_iteration wid o a t y t' :
clone_action wid o a t = Ok (y, t') →
∃ rs, cs_added t' = cs_added t ++ rs ∧ iteration_rows wid o a y rs.
Proof.
intros (inputs & _ & Hc)%clone_action_Ok. revert Hc.
case_decide as Hw.
- intros (inputs' & Hu & -> & ->). eexists; split; [done|].
  exists (cs_next t). split_and!; [done|done| |by rewrite decide_True].
  intros _. by apply py_update_webhook_patch in Hu.
- intros [-> ->]. eexists; split; [done|].
  exists (cs_next t). split_and!; [done|done|done|by rewrite decide_False].
Qed.

(** The loop [for action in workflow.actions]. *)
Lemma clone_loop wid o acts s ys s' :
se_forM acts (clone_action wid o) s = Ok (ys, s') →
∃ rss, cs_added s' = cs_added s ++ concat rss ∧ Forall3 (iteration_rows wid o) acts ys rss.
Proof.
apply se_forM_appends. intros ????? ?%clone_action_iteration. done.
Qed.

Lemma clone_workflow_Ok w acts o s cw s' :
clone_workflow w acts o s = Ok (cw, s') →
∃ ys s1 graph,
  se_forM acts (clone_action (uuid (cs_next s)) o)
    (mkCloneSt (cs_next s + 1) (cs_added s)) = Ok (ys, s1) ∧
  remap_graph (list_to_map (reverse ys)) (wf_object w) = Ok graph ∧
  cw = mkWorkflow (uuid (cs_next s)) (wf_title w) (wf_description w) "offline"
         (dumps graph) (wf_icon_url w) o ∧
  s' = mkCloneSt (cs_next s1) (cs_added s1 ++ [RWorkflow cw]).
Proof.
unfold clone_workflow, se_bind, se_lift, fresh_id, session_add, se_ret; cbn.
destruct (se_forM _ _ _) as [[ys s1]|e]; [|done].
destruct (remap_graph _ _) as [graph|e] eqn:Hg; [|done].
intros [= <- <-]. by exists ys, s1, graph.
Qed.

Lemma iteration_actions wid o acts ys rss :
Forall3 (iteration_rows wid o) acts ys rss →
row_actions (concat rss) = zip_with (λ a y, cloned_row wid o a y.2.1 y.2.2) acts ys.
Proof.
induction 1 as [|a y rs acts ys rss (n&_&Hid&_&->) _ IH]; [done|].
simpl. rewrite row_actions_app, IH, Hid. by case_decide.
Qed.

Lemma iteration_webhooks wid o acts ys rss :
Forall3 (iteration_rows wid o) acts ys rss →
length (row_webhooks (concat rss)) = length (filter (λ a, act_type a = "webhook") acts).
Proof.
induction 1 as [|a y rs acts ys rss (n&_&_&_&->) _ IH]; [done|].
simpl. rewrite row_webhooks_app, length_app, IH, filter_cons. by case_decide.
Qed.

Lemma iteration_workflows wid o acts ys rss :
Forall3 (iteration_rows wid o) acts ys rss → row_workflows (concat rss) = [].
Proof.
induction 1 as [|a y rs acts ys rss (n&_&_&_&->) _ IH]; [done|].
simpl. rewrite row_workflows_app, IH. by case_decide.
Qed.

(** Each entry of [action_replacements] names a cloned action row and
  its inputs. *)
Lemma iteration_entry wid o acts ys rss y :
Forall3 (iteration_rows wid o) acts ys rss → y ∈ ys →
∃ a', a' ∈ row_actions (concat rss) ∧ act_id a' = y.2.1 ∧ act_inputs a' = dumps y.2.2.
Proof.
intros HF Hy. destruct (Forall3_elem_of_m _ _ _ _ _ HF Hy) as (a & rs & _ & Hrs & n & _ & Hid & _ & ->).
exists (cloned_row wid o a (uuid n) y.2.2). split_and!; [|done|done].
apply list_elem_of_omap. exists (RAction (cloned_row wid o a (uuid n) y.2.2)).
split; [|done]. eapply elem_of_concat_intro; [exact Hrs|]. set_solver.
Qed.

Lemma iteration_webhook_links wid o acts ys rss :
  Forall3 (iteration_rows wid o) acts ys rss →
  Forall (λ h, wh_workflow_id h = Some wid ∧ wh_owner_id h = o ∧
     ∃ a', a' ∈ row_actions (concat rss) ∧ wh_action_id h = Some (act_id a') ∧
           act_type a' = "webhook") (row_webhooks (concat rss)).
Proof.
  induction 1 as [|a y rs acts ys rss (n&_&_&_&->) _ IH]; [constructor|].
  simpl. rewrite row_webhooks_app, row_actions_app. apply Forall_app. split.
  - case_decide as Hw; simpl; [|constructor].
    constructor; [|constructor]. split_and!; [done|done|].
    exists (cloned_row wid o a (uuid n) y.2.2). split_and!; [|done|done].
    set_solver.
  - eapply Forall_impl; [exact IH|]. intros h (? & ? & a' & ? & ? & ?).
    split_and!; [done|done|]. exists a'. split_and!; [|done|done].
    destruct (decide (act_type a = "webhook")); simpl; set_solver.
Qed.
End CloneLemmas.

(** ** Freshness of the drawn identifiers

    [fresh_window s s']: from [s] to [s'] the allocator only moved
    forward, and the rows appended in between have pairwise distinct
    primary keys, each drawn in between. *)
Definition fresh_window (s s' : clone_st) : Prop :=
  (cs_next s ≤ cs_next s')%N ∧
  ∃ rs, cs_added s' = cs_added s ++ rs ∧
    Forall (λ r, ∃ k, row_pk r = uuid k ∧ (cs_next s ≤ k < cs_next s')%N) rs ∧
    NoDup (map row_pk rs).

Lemma uuid_ranges_disjoint (rs1 rs2 : list row) a b c :
  Forall (λ r, ∃ k, row_pk r = uuid k ∧ (a ≤ k < b)%N) rs1 →
  Forall (λ r, ∃ k, row_pk r = uuid k ∧ (b ≤ k < c)%N) rs2 →
  ∀ x, x ∈ map row_pk rs1 → x ∉ map row_pk rs2.
Proof.
  intros H1 H2 x (r1 & -> & Hr1)%list_elem_of_fmap (r2 & Heq & Hr2)%list_elem_of_fmap.
  rewrite Forall_forall in H1, H2.
  destruct (H1 _ Hr1) as (k1 & Hk1 & ?), (H2 _ Hr2) as (k2 & Hk2 & ?).
  rewrite Hk1, Hk2 in Heq. apply uuid_inj in Heq. lia.
Qed.

#[export] Instance fresh_window_preorder : PreOrder fresh_window.
Proof.
  split.
  - intros s. split; [lia|]. exists []. rewrite app_nil_r. by repeat constructor.
  - intros s1 s2 s3 (? & rs1 & H12 & F1 & N1) (? & rs2 & H23 & F2 & N2).
    split; [lia|]. exists (rs1 ++ rs2). split; [by rewrite H23, H12, app_assoc|].
    split.
    + apply Forall_app. split; (eapply Forall_impl; [done|]);
        intros r (k & ? & ?); exists k; split; [done|lia|done|lia].
    + rewrite fmap_app. apply NoDup_app. split_and!; [done| |done].
      by eapply uuid_ranges_disjoint.
Qed.

Section Windows.
Context `{WebhookSigner}.

Lemma clone_action_window wid o a s y s' :
clone_action wid o a s = Ok (y, s') → fresh_window s s'.
Proof.
intros (inputs & _ & Hc)%clone_action_Ok. revert Hc. case_decide.
- intros (inputs' & _ & _ & ->). split; [simpl; lia|]. eexists; split; [done|].
  split.
  + repeat constructor; eexists; (split; [done|]); simpl; lia.
  + simpl. rewrite NoDup_cons. split; [|apply NoDup_singleton].
    rewrite list_elem_of_singleton. intros ?%uuid_inj. lia.
- intros [_ ->]. split; [simpl; lia|]. eexists; split; [done|].
  split; [repeat constructor; eexists; (split; [done|]); simpl; lia|].
  apply NoDup_singleton.
Qed.

(** A row whose key was drawn just before a window can be added after
  it. *)
Lemma fresh_window_add_drawn n added s1 r :
fresh_window (mkCloneSt (n + 1) added) s1 → row_pk r = uuid n →
fresh_window (mkCloneSt n added) (mkCloneSt (cs_next s1) (cs_added s1 ++ [r])).
Proof.
intros (? & rs & Hadd & F & ND) Hr; simpl in *.
split; [simpl; lia|]. exists (rs ++ [r]). split; [by rewrite Hadd, app_assoc|]. split.
- apply Forall_app. split; [|constructor; [exists n; simpl; split; [done|lia]|done]].
  eapply Forall_impl; [done|]. intros r' (k & ? & ?). exists k. simpl in *. split; [done|lia].
- rewrite fmap_app. apply NoDup_app. split_and!; [done| |apply NoDup_singleton].
  intros x Hx. simpl. rewrite Hr. intros ->%list_elem_of_singleton.
  eapply (uuid_ranges_disjoint [r] rs n (n + 1) (cs_next s1)); [| exact F | | exact Hx].
  + constructor; [exists n; split; [done|lia]|done].
  + simpl. rewrite Hr. apply list_elem_of_here.
Qed.
End Windows.

(** ** Closedness of a graph document

    [R i x] reads "[i] is the id of an action whose inputs are [x]".  An
    edge is closed when its endpoints are such ids and its id is
    ["{source}-{target}"]; a node is closed when its id is such an id and
    its [data] carries the same id, those inputs and [selected: false]. *)
Definition edge_closed (R : string → json → Prop) (e : json) : Prop :=
  ∃ kvs s t, e = JDict kvs ∧ dict_get "source" kvs = Some (JStr s) ∧
    dict_get "target" kvs = Some (JStr t) ∧
    dict_get "id" kvs = Some (JStr (s +:+ "-" +:+ t)) ∧ (∃ x, R s x) ∧ (∃ x, R t x).

Definition node_closed (R : string → json → Prop) (n : json) : Prop :=
  ∃ kvs i dkvs x, n = JDict kvs ∧ dict_get "id" kvs = Some (JStr i) ∧
    dict_get "data" kvs = Some (JDict dkvs) ∧ dict_get "id" dkvs = Some (JStr i) ∧
    dict_get "inputs" dkvs = Some x ∧ dict_get "selected" dkvs = Some (JBool false) ∧ R i x.

Definition graph_closed (R : string → json → Prop) (g : json) : Prop :=
  ∃ edges nodes, py_getitem g "edges" = Ok edges ∧ py_getitem g "nodes" = Ok nodes ∧
    Forall (edge_closed R) (py_elems edges) ∧ Forall (node_closed R) (py_elems nodes).

Lemma graph_closed_impl (R R' : string → json → Prop) g :
  (∀ i x, R i x → R' i x) → graph_closed R g → graph_closed R' g.
Proof.
  intros HR (edges & nodes & He & Hn & HE & HN). exists edges, nodes.
  split_and!; [done|done| |].
  - eapply Forall_impl; [exact HE|]. intros e (kvs&s&t&?&?&?&?&[x ?]&[y ?]).
    exists kvs, s, t. eauto 10.
  - eapply Forall_impl; [exact HN|]. intros n (kvs&i&dkvs&x&?&?&?&?&?&?&?).
    exists kvs, i, dkvs, x. eauto 10.
Qed.

Section GraphLemmas.
Context `{WebhookSigner}.

Lemma repl_lookup_Ok repl k i x :
repl_lookup repl k = Ok (i, x) → ∃ old, k = JStr old ∧ repl !! old = Some (i, x).
Proof. destruct k; cbn; try done. intros ?%of_option_Ok. eauto. Qed.

Definition repl_rel (repl : replacements) (i : string) (x : json) : Prop :=
∃ old, repl !! old = Some (i, x).

Lemma remap_edge_closed repl e e' :
remap_edge repl e = Ok e' → edge_closed (repl_rel repl) e'.
Proof.
unfold remap_edge. destruct e as [| | | | |kvs]; cbn; try done.
destruct (dict_get "source" kvs) as [s|]; cbn; [|done].
destruct (repl_lookup repl s) as [[ns x1]|] eqn:Hl1; cbn; [|done].
dict_simpl.
destruct (dict_get "target" kvs) as [t|]; cbn; [|done].
destruct (repl_lookup repl t) as [[nt x2]|] eqn:Hl2; cbn; [|done].
intros [= <-]. apply repl_lookup_Ok in Hl1 as (?&_&?), Hl2 as (?&_&?).
eexists _, ns, nt. split; [reflexivity|]. dict_simpl.
split_and!; try done; eexists; eexists; done.
Qed.

Lemma remap_node_closed repl n n' :
remap_node repl n = Ok n' → node_closed (repl_rel repl) n'.
Proof.
unfold remap_node. destruct n as [| | | | |kvs]; cbn; try done.
destruct (dict_get "id" kvs) as [i|]; cbn; [|done].
destruct (repl_lookup repl i) as [[ni x]|] eqn:Hl; cbn; [|done].
dict_simpl.
destruct (dict_get "data" kvs) as [[| | | | |dkvs]|]; cbn; try done.
intros [= <-]. apply repl_lookup_Ok in Hl as (?&_&?).
eexists _, ni, _, x. split; [reflexivity|]. split; [by dict_simpl|].
split; [dict_simpl; reflexivity|]. dict_simpl.
split_and!; try done; by eexists.
Qed.

Lemma remap_graph_closed repl obj g :
remap_graph repl obj = Ok g → graph_closed (repl_rel repl) g.
Proof.
unfold remap_graph. destruct (loads obj) as [[| | | | |kvs]|]; cbn; try done.
destruct (dict_get "edges" kvs) as [edges|]; cbn; [|done].
destruct (py_for_mutate (remap_edge repl) edges) as [edges'|] eqn:He; cbn; [|done].
dict_simpl.
destruct (dict_get "nodes" kvs) as [nodes|]; cbn; [|done].
destruct (py_for_mutate (remap_node repl) nodes) as [nodes'|] eqn:Hn; cbn; [|done].
intros [= <-]. exists edges', nodes'. cbn. dict_simpl.
split_and!; [done|done| |].
- apply py_for_mutate_elems in He; [|by eexists].
  eapply Forall2_Forall_r_impl; [exact He|]. intros ??. apply remap_edge_closed.
- apply py_for_mutate_elems in Hn; [|by eexists].
  eapply Forall2_Forall_r_impl; [exact Hn|]. intros ??. apply remap_node_closed.
Qed.
End GraphLemmas.

(** ** When the clone succeeds, and how it fails *)

(** An action [clone_workflow] can copy: its inputs are JSON text, a dict
    when the action is a webhook. *)
Definition action_clonable (a : Action) : Prop :=
  ∃ v, loads (act_inputs a) = Ok v ∧ (act_type a = "webhook" → ∃ kvs, v = JDict kvs).

(** A graph document over the action ids [ids]: dicts with an [edges]
    list of edges whose endpoints are ids and a [nodes] list of nodes
    with an id among [ids] and a [data] dict. *)
Definition graph_wellformed (ids : list string) (g : json) : Prop :=
  ∃ kvs es ns, g = JDict kvs ∧ dict_get "edges" kvs = Some (JList es) ∧
    dict_get "nodes" kvs = Some (JList ns) ∧
    Forall (λ e, ∃ ekvs s t, e = JDict ekvs ∧ dict_get "source" ekvs = Some (JStr s) ∧
                   dict_get "target" ekvs = Some (JStr t) ∧ s ∈ ids ∧ t ∈ ids) es ∧
    Forall (λ n, ∃ nkvs i dkvs, n = JDict nkvs ∧ dict_get "id" nkvs = Some (JStr i) ∧
                   i ∈ ids ∧ dict_get "data" nkvs = Some (JDict dkvs)) ns.

Section Totality.
Context `{WebhookSigner}.

Lemma clone_action_total wid o a t :
action_clonable a → ∃ y t', clone_action wid o a t = Ok (y, t').
Proof.
intros (v & Hv & Hw). unfold clone_action, se_bind, se_lift, fresh_id, session_add, se_ret; cbn.
rewrite Hv. case_decide as Hty; cbn.
- destruct (Hw Hty) as [kvs ->]. cbn. eauto.
- eauto.
Qed.

Lemma clone_action_null wid o a t :
act_inputs a = None → clone_action wid o a t = Err TypeError.
Proof. intros Hn. unfold clone_action, se_bind, se_lift, fresh_id; cbn. by rewrite Hn. Qed.

Lemma iteration_keys wid o acts ys rss :
Forall3 (iteration_rows wid o) acts ys rss → ys.*1 = act_id <$> acts.
Proof. induction 1 as [|a y rs acts ys rss (n&Hy&_) _ IH]; [done|]. rewrite !fmap_cons. congruence. Qed.

Lemma repl_total (ys : list (string * (string * json))) i :
i ∈ ys.*1 → ∃ y, (list_to_map (reverse ys) : replacements) !! i = Some y.
Proof.
intros Hi. destruct (list_to_map (reverse ys) !! i) as [y|] eqn:Hl; [by eexists|].
apply not_elem_of_list_to_map_2 in Hl. rewrite fmap_reverse, elem_of_reverse in Hl. done.
Qed.

Lemma remap_edge_total (repl : replacements) (ids : list string) e :
(∀ i, i ∈ ids → is_Some (repl !! i)) →
(∃ ekvs s t, e = JDict ekvs ∧ dict_get "source" ekvs = Some (JStr s) ∧
   dict_get "target" ekvs = Some (JStr t) ∧ s ∈ ids ∧ t ∈ ids) →
∃ e', remap_edge repl e = Ok e'.
Proof.
intros Hrepl (ekvs & s & t & -> & Hs & Ht & Hsi & Hti).
destruct (Hrepl s Hsi) as [[ns x1] Hl1], (Hrepl t Hti) as [[nt x2] Hl2].
unfold remap_edge; cbn. rewrite Hs; cbn. rewrite Hl1; cbn. dict_simpl.
rewrite Ht; cbn. rewrite Hl2; cbn. by eexists.
Qed.

Lemma remap_node_total (repl : replacements) (ids : list string) n :
(∀ i, i ∈ ids → is_Some (repl !! i)) →
(∃ nkvs i dkvs, n = JDict nkvs ∧ dict_get "id" nkvs = Some (JStr i) ∧
   i ∈ ids ∧ dict_get "data" nkvs = Some (JDict dkvs)) →
∃ n', remap_node repl n = Ok n'.
Proof.
intros Hrepl (nkvs & i & dkvs & -> & Hi & Hii & Hd).
destruct (Hrepl i Hii) as [[ni x] Hl].
unfold remap_node; cbn. rewrite Hi; cbn. rewrite Hl; cbn. dict_simpl.
rewrite Hd; cbn. by eexists.
Qed.

Lemma remap_graph_total (repl : replacements) (ids : list string) g :
(∀ i, i ∈ ids → is_Some (repl !! i)) → graph_wellformed ids g →
∃ g', remap_graph repl (Some (JText g)) = Ok g'.
Proof.
intros Hrepl (kvs & es & ns & -> & He & Hn & HE & HN).
destruct (mapM_result_total (remap_edge repl) es) as [es' Hes].
{ intros e He'. rewrite Forall_forall in HE. eapply remap_edge_total; eauto. }
destruct (mapM_result_total (remap_node repl) ns) as [ns' Hns].
{ intros n Hn'. rewrite Forall_forall in HN. eapply remap_node_total; eauto. }
unfold remap_graph; cbn. rewrite He; cbn. rewrite Hes; cbn. dict_simpl.
rewrite Hn; cbn. rewrite Hns; cbn. by eexists.
Qed.
End Totality.

(** ** Properties of [clone_workflow] *)

Section CloneTheorems.
Context `{WebhookSigner}.

(** The rows a successful clone adds, and the state it leaves. *)
Lemma clone_rows w acts o s cw s' :
clone_workflow w acts o s = Ok (cw, s') →
∃ rs, cs_added s' = cs_added s ++ rs ∧
  row_workflows rs = [cw] ∧
  wf_owner_id cw = o ∧ wf_status cw = "offline" ∧ wf_title cw = wf_title w ∧
  wf_description cw = wf_description w ∧ wf_icon_url cw = wf_icon_url w ∧
  Forall2 (λ a a', act_type a' = act_type a ∧ act_title a' = act_title a ∧
                   act_description a' = act_description a ∧ act_status a' = act_status a ∧
                   act_owner_id a' = o ∧ act_workflow_id a' = Some (wf_id cw))
    acts (row_actions rs) ∧
  length (row_webhooks rs) = length (filter (λ a, act_type a = "webhook") acts).
Proof.
intros (ys & s1 & g & Hloop & _ & -> & ->)%clone_workflow_Ok.
destruct (clone_loop _ _ _ _ _ _ Hloop) as (rss & Hadd & HF). simpl in Hadd.
exists (concat rss ++ [RWorkflow (mkWorkflow (uuid (cs_next s)) (wf_title w)
          (wf_description w) "offline" (dumps g) (wf_icon_url w) o)]).
simpl. rewrite Hadd, <-app_assoc. autorewrite with tracecat_rw.
rewrite (iteration_workflows _ _ _ _ _ HF), (iteration_actions _ _ _ _ _ HF).
rewrite length_app, (iteration_webhooks _ _ _ _ _ HF). simpl. rewrite !app_nil_r, Nat.add_0_r.
split_and!; try done.
pose proof (Forall3_length_lm _ _ _ _ HF) as Hlen. clear -Hlen.
revert ys Hlen. induction acts as [|a acts IH]; intros [|y ys] ?; simplify_eq/=;
  constructor; [done|]. by apply IH.
Qed.

(** C1. A successful clone adds to the session exactly one workflow row
  (status ["offline"], the new owner, the source's title, description
  and icon), one action row per source action in order (same type,
  title, description and status, the new owner, the new workflow as
  parent) and one webhook row per action of type ["webhook"]. *)
Theorem clone_workflow_rows w acts o s cw s' :
clone_workflow w acts o s = Ok (cw, s') →
∃ rs, cs_added s' = cs_added s ++ rs ∧
  row_workflows rs = [cw] ∧
  wf_owner_id cw = o ∧ wf_status cw = "offline" ∧ wf_title cw = wf_title w ∧
  wf_description cw = wf_description w ∧ wf_icon_url cw = wf_icon_url w ∧
  Forall2 (λ a a', act_type a' = act_type a ∧ act_title a' = act_title a ∧
                   act_description a' = act_description a ∧ act_status a' = act_status a ∧
                   act_owner_id a' = o ∧ act_workflow_id a' = Some (wf_id cw))
    acts (row_actions rs) ∧
  length (row_webhooks rs) = length (filter (λ a, act_type a = "webhook") acts).
Proof. apply clone_rows. Qed.

(** C2. The graph document of a successful clone is closed over the
  cloned actions: every edge joins two cloned action ids and is named
  ["{source}-{target}"], every node carries the id of a cloned action
  and, in its data, that id, that action's new inputs and
  [selected: false]. *)
Theorem clone_workflow_graph_closed w acts o s cw s' :
clone_workflow w acts o s = Ok (cw, s') →
∃ rs g, cs_added s' = cs_added s ++ rs ∧ wf_object cw = dumps g ∧
  graph_closed (λ i x, ∃ a', a' ∈ row_actions rs ∧ act_id a' = i ∧
                             act_inputs a' = dumps x) g.
Proof.
intros (ys & s1 & g & Hloop & Hg & -> & ->)%clone_workflow_Ok.
destruct (clone_loop _ _ _ _ _ _ Hloop) as (rss & Hadd & HF). simpl in Hadd.
eexists _, g. split; [simpl; by rewrite Hadd, <-app_assoc|]. split; [done|].
eapply graph_closed_impl; [|exact (remap_graph_closed _ _ _ Hg)].
intros i x (old & Hl). apply elem_of_list_to_map_2 in Hl. rewrite elem_of_reverse in Hl.
destruct (iteration_entry _ _ _ _ _ _ HF Hl) as (a' & ? & ? & ?).
exists a'. autorewrite with tracecat_rw. set_solver.
Qed.

(** The keys a successful clone draws are fresh. *)
Lemma clone_fresh w acts o s cw s' :
  clone_workflow w acts o s = Ok (cw, s') →
  fresh_window s s' ∧ wf_id cw = uuid (cs_next s).
Proof.
  intros (ys & s1 & g & Hloop & _ & -> & ->)%clone_workflow_Ok. split; [|done].
  destruct s as [n added].
  apply fresh_window_add_drawn; [|done].
  eapply se_forM_between; [apply _| |exact Hloop]. apply clone_action_window.
Qed.

(** C3. Every row a successful clone adds has a primary key drawn
    during the clone, and these keys are pairwise distinct; the new
    workflow's id is the first one drawn. *)
Theorem clone_workflow_fresh w acts o s cw s' :
  clone_workflow w acts o s = Ok (cw, s') →
  fresh_window s s' ∧ wf_id cw = uuid (cs_next s).
Proof. apply clone_fresh. Qed.

(** The loop over well-formed actions succeeds and its
    [action_replacements] has exactly the source action ids as keys. *)
Lemma clone_loop_total wid o acts t :
  Forall action_clonable acts →
  ∃ ys t', se_forM acts (clone_action wid o) t = Ok (ys, t') ∧ ys.*1 = act_id <$> acts.
Proof.
  intros Hacts. destruct (se_forM_total (clone_action wid o) acts t) as (ys & t' & Hl).
  { intros x u Hx. rewrite Forall_forall in Hacts. by apply clone_action_total, Hacts. }
  exists ys, t'. split; [done|].
  destruct (clone_loop _ _ _ _ _ _ Hl) as (rss & _ & HF). by eapply iteration_keys.
Qed.

(** The clone succeeds on well-formed input. *)
Lemma clone_total w acts o s g :
  Forall action_clonable acts → wf_object w = Some (JText g) →
  graph_wellformed (act_id <$> acts) g →
  ∃ cw s', clone_workflow w acts o s = Ok (cw, s').
Proof.
  intros Hacts Hobj Hg.
  destruct (clone_loop_total (uuid (cs_next s)) o acts (mkCloneSt (cs_next s + 1) (cs_added s)) Hacts)
    as (ys & s1 & Hloop & Hkeys).
  destruct (remap_graph_total (list_to_map (reverse ys)) (act_id <$> acts) g) as [g' Hg']; [|done|].
  { intros i Hi. rewrite <-Hkeys in Hi. by destruct (repl_total ys i Hi) as [y ->]. }
  unfold clone_workflow, se_bind, se_lift, fresh_id, session_add, se_ret; cbn.
  rewrite Hloop, Hobj, Hg'. by eexists _, _.
Qed.

(** C4. On well-formed input the clone succeeds: every action's inputs
    are JSON (a dict for webhook actions) and the graph document has an
    edge list and a node list over the source action ids. *)
Theorem clone_workflow_succeeds w acts o s g :
  Forall action_clonable acts → wf_object w = Some (JText g) →
  graph_wellformed (act_id <$> acts) g →
  ∃ cw s', clone_workflow w acts o s = Ok (cw, s').
Proof. apply clone_total. Qed.

(** The loop over the actions reaches the first action without inputs
    and raises there. *)
Lemma clone_stops_at_null_inputs w acts1 a acts2 o s :
  Forall action_clonable acts1 → act_inputs a = None →
  clone_workflow w (acts1 ++ a :: acts2) o s = Err TypeError.
Proof.
  intros H1 Ha. unfold clone_workflow, se_bind at 1, fresh_id; cbn.
  unfold se_bind at 1. rewrite (se_forM_app_err _ acts1 a acts2 _ TypeError);
    [done| |by intros; apply clone_action_null].
  intros x t Hx. rewrite Forall_forall in H1. by apply clone_action_total, H1.
Qed.

(** C5. An action whose [inputs] column is NULL makes the clone raise
    [TypeError] ([json.loads(None)]), whatever follows it. *)
Theorem clone_null_inputs_TypeError w acts1 a acts2 o s :
  Forall action_clonable acts1 → act_inputs a = None →
  clone_workflow w (acts1 ++ a :: acts2) o s = Err TypeError.
Proof. apply clone_stops_at_null_inputs. Qed.

(** C6. A workflow without a graph document ([object] NULL) cannot be
    cloned: [json.loads(None)] raises [TypeError]. *)
Theorem clone_null_object_TypeError w acts o s :
  Forall action_clonable acts → wf_object w = None →
  clone_workflow w acts o s = Err TypeError.
Proof.
  intros Hacts Hobj.
  destruct (clone_loop_total (uuid (cs_next s)) o acts (mkCloneSt (cs_next s + 1) (cs_added s)) Hacts)
    as (ys & s1 & Hloop & _).
  unfold clone_workflow, se_bind, se_lift, fresh_id; cbn. by rewrite Hloop, Hobj.
Qed.

(** C7. A graph edge whose source is not the id of one of the
    workflow's actions makes the clone raise [KeyError]: the whole clone
    fails, nothing is committed. *)
Theorem clone_dangling_edge_KeyError w acts o s kvs ekvs es src :
  Forall action_clonable acts → wf_object w = Some (JText (JDict kvs)) →
  dict_get "edges" kvs = Some (JList (JDict ekvs :: es)) →
  dict_get "source" ekvs = Some (JStr src) → src ∉ act_id <$> acts →
  clone_workflow w acts o s = Err KeyError.
Proof.
  intros Hacts Hobj He Hs Hsrc.
  destruct (clone_loop_total (uuid (cs_next s)) o acts (mkCloneSt (cs_next s + 1) (cs_added s)) Hacts)
    as (ys & s1 & Hloop & Hkeys).
  assert ((list_to_map (reverse ys) : replacements) !! src = None) as Hnone.
  { apply not_elem_of_list_to_map_1. by rewrite fmap_reverse, elem_of_reverse, Hkeys. }
  unfold clone_workflow, se_bind, se_lift, fresh_id; cbn. rewrite Hloop, Hobj.
  unfold remap_graph; cbn. rewrite He; cbn. unfold remap_edge; cbn.
  rewrite Hs; cbn. by rewrite Hnone.
Qed.

(** The references between the rows of a successful clone. *)
Lemma clone_links w acts o s cw s' :
  clone_workflow w acts o s = Ok (cw, s') →
  ∃ rs, cs_added s' = cs_added s ++ rs ∧ RWorkflow cw ∈ rs ∧
    Forall (λ a, act_workflow_id a = Some (wf_id cw)) (row_actions rs) ∧
    Forall (λ h, wh_workflow_id h = Some (wf_id cw) ∧ wh_owner_id h = o ∧
       ∃ a', a' ∈ row_actions rs ∧ wh_action_id h = Some (act_id a') ∧
             act_type a' = "webhook") (row_webhooks rs).
Proof.
  intros Hrun. pose proof Hrun as (ys & s1 & g & Hloop & _ & -> & ->)%clone_workflow_Ok.
  destruct (clone_loop _ _ _ _ _ _ Hloop) as (rss & Hadd & HF). simpl in Hadd.
  eexists. split; [simpl; by rewrite Hadd, <-app_assoc|].
  split; [apply elem_of_app; right; apply list_elem_of_here|].
  autorewrite with tracecat_rw. simpl. rewrite !app_nil_r. split.
  - rewrite (iteration_actions _ _ _ _ _ HF). clear. revert ys.
    induction acts as [|a acts IH]; intros [|y ys]; simpl; constructor; [done|apply IH].
  - exact (iteration_webhook_links _ _ _ _ _ HF).
Qed.

(** The rows of a successful clone reference each other: every
    cloned action belongs to the new workflow, and every new webhook
    belongs to the new workflow, to the new owner and to a cloned action
    of type ["webhook"]. *)
Theorem clone_workflow_links w acts o s cw s' :
  clone_workflow w acts o s = Ok (cw, s') →
  ∃ rs, cs_added s' = cs_added s ++ rs ∧ RWorkflow cw ∈ rs ∧
    Forall (λ a, act_workflow_id a = Some (wf_id cw)) (row_actions rs) ∧
    Forall (λ h, wh_workflow_id h = Some (wf_id cw) ∧ wh_owner_id h = o ∧
       ∃ a', a' ∈ row_actions rs ∧ wh_action_id h = Some (act_id a') ∧
             act_type a' = "webhook") (row_webhooks rs).
Proof. apply clone_links. Qed.
End CloneTheorems.

(** ** The scenario of the specification

    Workflow [w1] of the library owner ["tracecat"] has a webhook action
    [a1] and an HTTP action [a2], wired by the edge [a1-a2]; it is cloned
    for user ["u9"]. *)
Module Demo.
Definition signer : WebhookSigner := {| compute_hash := λ id, "sig-" +:+ id |}.

Definition a1 : Action :=
mkAction "a1" "webhook" "Receive alert" "" "online"
  (Some (JText (JDict [("path", JStr "a1hook"); ("secret", JStr "sig-a1hook")])))
  (Some "w1") "tracecat".
Definition a2 : Action :=
mkAction "a2" "http_request" "Notify" "" "online"
  (Some (JText (JDict [("url", JStr "https://example.com")]))) (Some "w1") "tracecat".

Definition graph : json :=
JDict [("nodes", JList [JDict [("id", JStr "a1");
                               ("data", JDict [("id", JStr "a1"); ("selected", JBool true)])];
                        JDict [("id", JStr "a2"); ("data", JDict [("id", JStr "a2")])]]);
       ("edges", JList [JDict [("id", JStr "a1-a2"); ("source", JStr "a1");
                               ("target", JStr "a2")]])].

Definition w1 : Workflow :=
mkWorkflow "w1" "Phishing triage" "Library workflow" "online" (Some (JText graph))
  None "tracecat".

Definition start : clone_st := mkCloneSt 0 [].

(** An action as [POST /actions] creates it: [inputs] is NULL. *)
Definition a3 : Action :=
  mkAction "a3" "http_request" "Unconfigured step" "" "offline" None (Some "w1") "tracecat".

(** The library workflow before its graph was first saved. *)
Definition w_nograph : Workflow :=
  mkWorkflow "w1" "Phishing triage" "Library workflow" "offline" None None "tracecat".

(** Document drift: an edge still refers to a deleted action [a9]. *)
Definition drift_edges : list (string * json) :=
  [("id", JStr "a9-a2"); ("source", JStr "a9"); ("target", JStr "a2")].
Definition graph_drift : list (string * json) :=
  [("nodes", JList []); ("edges", JList [JDict drift_edges])].
Definition w_drift : Workflow :=
  mkWorkflow "w1" "Phishing triage" "Library workflow" "online"
    (Some (JText (JDict graph_drift))) None "tracecat".
End Demo.

Lemma demo_actions_clonable : Forall action_clonable [Demo.a1; Demo.a2].
Proof.
  repeat constructor; eexists; (split; [reflexivity|]); intros; by eexists.
Qed.

Lemma demo_graph_wellformed : graph_wellformed (act_id <$> [Demo.a1; Demo.a2]) Demo.graph.
Proof.
  eexists _, _, _. split_and!; [reflexivity..| |];
    repeat constructor; eexists _, _, _; split_and!; try reflexivity; cbn; set_solver.
Qed.

(** Witness of C1: the scenario clones two actions and one webhook. *)
Lemma clone_workflow_rows_witness :
  ∃ cw s', @clone_workflow Demo.signer Demo.w1 [Demo.a1; Demo.a2] "u9" Demo.start = Ok (cw, s') ∧
    length (row_actions (cs_added s')) = 2 ∧ length (row_webhooks (cs_added s')) = 1.
Proof.
  destruct (@clone_workflow Demo.signer Demo.w1 [Demo.a1; Demo.a2] "u9" Demo.start)
    as [[cw s']|e] eqn:Hrun; [|vm_compute in Hrun; discriminate].
  exists cw, s'. split; [done|].
  destruct (clone_workflow_rows _ _ _ _ _ _ Hrun)
    as (rs & Hadd & _ & _ & _ & _ & _ & _ & HF & Hwh).
  rewrite Hadd. simpl. split; [by rewrite <-(Forall2_length _ _ _ HF) | by rewrite Hwh].
Defined.

(** Witness of C2: the cloned graph of the scenario is closed. *)
Lemma clone_workflow_graph_closed_witness :
  ∃ cw s', @clone_workflow Demo.signer Demo.w1 [Demo.a1; Demo.a2] "u9" Demo.start = Ok (cw, s') ∧
    ∃ g, wf_object cw = dumps g ∧
      graph_closed (λ i x, ∃ a', a' ∈ row_actions (cs_added s') ∧ act_id a' = i ∧
                                 act_inputs a' = dumps x) g.
Proof.
  destruct (@clone_workflow Demo.signer Demo.w1 [Demo.a1; Demo.a2] "u9" Demo.start)
    as [[cw s']|e] eqn:Hrun; [|vm_compute in Hrun; discriminate].
  exists cw, s'. split; [done|].
  destruct (clone_workflow_graph_closed _ _ _ _ _ _ Hrun) as (rs & g & Hadd & Hobj & Hc).
  exists g. split; [done|]. rewrite Hadd. exact Hc.
Defined.

(** Witness of C3: the scenario draws pairwise distinct fresh keys. *)
Lemma clone_workflow_fresh_witness :
  ∃ cw s', @clone_workflow Demo.signer Demo.w1 [Demo.a1; Demo.a2] "u9" Demo.start = Ok (cw, s') ∧
    fresh_window Demo.start s' ∧ wf_id cw = uuid 0.
Proof.
  destruct (@clone_workflow Demo.signer Demo.w1 [Demo.a1; Demo.a2] "u9" Demo.start)
    as [[cw s']|e] eqn:Hrun; [|vm_compute in Hrun; discriminate].
  exists cw, s'. split; [done|]. exact (clone_workflow_fresh _ _ _ _ _ _ Hrun).
Defined.

(** Witness of C4: the scenario is well formed, and its clone succeeds. *)
Lemma clone_workflow_succeeds_witness :
  Forall action_clonable [Demo.a1; Demo.a2] ∧ wf_object Demo.w1 = Some (JText Demo.graph) ∧
  graph_wellformed (act_id <$> [Demo.a1; Demo.a2]) Demo.graph ∧
  ∃ cw s', @clone_workflow Demo.signer Demo.w1 [Demo.a1; Demo.a2] "u9" Demo.start = Ok (cw, s').
Proof.
  split_and!; [exact demo_actions_clonable|reflexivity|exact demo_graph_wellformed|].
  exact (@clone_workflow_succeeds Demo.signer Demo.w1 _ "u9" Demo.start Demo.graph
    demo_actions_clonable eq_refl demo_graph_wellformed).
Defined.

(** Witness of C5: a freshly created, unconfigured action breaks the
    clone of the scenario's workflow. *)
Lemma clone_null_inputs_TypeError_witness :
  Forall action_clonable [Demo.a1] ∧ act_inputs Demo.a3 = None ∧
  @clone_workflow Demo.signer Demo.w1 ([Demo.a1] ++ Demo.a3 :: [Demo.a2]) "u9" Demo.start
    = Err TypeError.
Proof.
  assert (Forall action_clonable [Demo.a1]) as Ha1.
  { repeat constructor. eexists; split; [reflexivity|]. intros; by eexists. }
  split_and!; [exact Ha1|reflexivity|].
  exact (@clone_null_inputs_TypeError Demo.signer Demo.w1 _ Demo.a3 [Demo.a2] "u9" Demo.start Ha1 eq_refl).
Defined.

(** Witness of C6: the library workflow before its graph is saved. *)
Lemma clone_null_object_TypeError_witness :
  Forall action_clonable [Demo.a1; Demo.a2] ∧ wf_object Demo.w_nograph = None ∧
  @clone_workflow Demo.signer Demo.w_nograph [Demo.a1; Demo.a2] "u9" Demo.start = Err TypeError.
Proof.
  split_and!; [exact demo_actions_clonable|reflexivity|].
  exact (@clone_null_object_TypeError Demo.signer Demo.w_nograph _ "u9" Demo.start
    demo_actions_clonable eq_refl).
Defined.

(** Witness of C7: the drifted document of the scenario. *)
Lemma clone_dangling_edge_KeyError_witness :
  Forall action_clonable [Demo.a1; Demo.a2] ∧
  wf_object Demo.w_drift = Some (JText (JDict Demo.graph_drift)) ∧
  dict_get "edges" Demo.graph_drift = Some (JList [JDict Demo.drift_edges]) ∧
  dict_get "source" Demo.drift_edges = Some (JStr "a9") ∧
  ("a9" ∉ act_id <$> [Demo.a1; Demo.a2]) ∧
  @clone_workflow Demo.signer Demo.w_drift [Demo.a1; Demo.a2] "u9" Demo.start = Err KeyError.
Proof.
  assert ("a9" ∉ (act_id <$> [Demo.a1; Demo.a2])) as Hn by (cbn; set_solver).
  split_and!; [exact demo_actions_clonable|reflexivity|reflexivity|reflexivity|exact Hn|].
  exact (@clone_dangling_edge_KeyError Demo.signer Demo.w_drift _ "u9" Demo.start Demo.graph_drift
    Demo.drift_edges [] "a9" demo_actions_clonable eq_refl eq_refl eq_refl Hn).
Defined.

(** An instance: the scenario's clone links its webhook to its action. *)
Lemma clone_workflow_links_witness :
  ∃ cw s', @clone_workflow Demo.signer Demo.w1 [Demo.a1; Demo.a2] "u9" Demo.start = Ok (cw, s') ∧
    ∃ rs, cs_added s' = rs ∧ RWorkflow cw ∈ rs ∧
      Forall (λ h, wh_owner_id h = "u9") (row_webhooks rs).
Proof.
  destruct (@clone_workflow Demo.signer Demo.w1 [Demo.a1; Demo.a2] "u9" Demo.start)
    as [[cw s']|e] eqn:Hrun; [|vm_compute in Hrun; discriminate].
  exists cw, s'. split; [done|].
  destruct (clone_workflow_links _ _ _ _ _ _ Hrun) as (rs & Hadd & Hin & _ & Hwh).
  exists rs. rewrite Hadd. split_and!; [done|done|].
  eapply Forall_impl; [exact Hwh|]. naive_solver.
Defined.
