(* ===== verification/Auth.v ===== *)
(** * The authorization gate: roles and the FastAPI dependencies

    [tracecat.auth] is not part of the sources; the spec (§4.5) describes
    it: a caller is resolved into a [Role], a user role from a session
    token or a service role (acting for a user) from a service key.
    [authenticate_user], [authenticate_service] and
    [authenticate_user_or_service] are the dependencies the handlers of
    [src/tracecat/api/app.py] declare; [list_secrets] declares a bare
    [Depends()], so FastAPI builds its [Role] from the query parameters. *)

From S2P Require Import Prelude.

Inductive role_kind := RoleUser | RoleService.

#[export] Instance role_kind_eq_dec : EqDecision role_kind.
Proof. solve_decision. Defined.

(** [Role(type, user_id, service_id)]. *)
Record Role := mkRole {
  role_type : role_kind;
  role_user_id : string;
  role_service_id : option string }.

(** What a request carries: a user session, a service key acting for a
    user, or nothing. *)
Inductive credential :=
  | CredUser (uid : string)
  | CredService (uid service : string)
  | CredNone.

Definition unauthorized {A} : result A := Err (HTTPException 401 "Unauthorized").

Definition authenticate_user (c : credential) : result Role :=
  match c with
  | CredUser uid => Ok (mkRole RoleUser uid None)
  | _ => unauthorized
  end.

Definition authenticate_service (c : credential) : result Role :=
  match c with
  | CredService uid svc => Ok (mkRole RoleService uid (Some svc))
  | _ => unauthorized
  end.

Definition authenticate_user_or_service (c : credential) : result Role :=
  match c with
  | CredUser uid => Ok (mkRole RoleUser uid None)
  | CredService uid svc => Ok (mkRole RoleService uid (Some svc))
  | CredNone => unauthorized
  end.
