(* ===== verification/World.v ===== *)
(** * The state the API handlers act on, and its invariant

    A handler of [src/tracecat/api/app.py] opens a session on the engine,
    reads and writes rows and commits.  Its model is a function from the
    [world] (the database and the identifier allocator) to its response
    and the next world; a handler that raises before its commit leaves the
    database as it was.  [world_wf] is the invariant every handler keeps:
    the foreign keys hold, each row sits under its own primary key, and
    every generated key was drawn from the allocator.  The program logic
    [safe] proves that handlers keep it; the module [DemoApi] is a small
    well-formed world on which the witnesses of the handler theorems run. *)

From S2P Require Import Prelude Json Identity Db Auth.

Record world := mkWorld {
  w_db : store;
  w_next : N }.

(** A handler: its response, or the exception it raises, and the world
    after it. *)
Definition handler (R : Type) := world → result R * world.

Definition keys_consistent (st : store) : Prop :=
  keyed user_id (st_users st) ∧ keyed wf_id (st_workflows st) ∧
  keyed act_id (st_actions st) ∧ keyed wh_id (st_webhooks st) ∧
  keyed wr_id (st_workflow_runs st) ∧ keyed ar_id (st_action_runs st) ∧
  keyed sec_id (st_secrets st) ∧ keyed ca_id (st_case_actions st) ∧
  keyed cc_id (st_case_contexts st).

Definition drawn_below (n : N) (k : string) : Prop := ∃ m, k = uuid m ∧ (m < n)%N.

(** Keys of the tables whose primary key is the [uuid4().hex] default
    (the key of a [user] row is the caller's id, the key of an action run
    is chosen by the runner). *)
Definition ids_drawn (w : world) : Prop :=
  map_Forall (λ k _, drawn_below (w_next w) k) (st_workflows (w_db w)) ∧
  map_Forall (λ k _, drawn_below (w_next w) k) (st_actions (w_db w)) ∧
  map_Forall (λ k _, drawn_below (w_next w) k) (st_webhooks (w_db w)) ∧
  map_Forall (λ k _, drawn_below (w_next w) k) (st_workflow_runs (w_db w)) ∧
  map_Forall (λ k _, drawn_below (w_next w) k) (st_secrets (w_db w)) ∧
  map_Forall (λ k _, drawn_below (w_next w) k) (st_case_actions (w_db w)) ∧
  map_Forall (λ k _, drawn_below (w_next w) k) (st_case_contexts (w_db w)).

Definition world_wf (w : world) : Prop :=
  fk_ok (w_db w) ∧ keys_consistent (w_db w) ∧ ids_drawn w.

(** [select(T).where(T.owner_id == owner, T.id == id)] then [.one()]:
    the primary key selects at most one row. *)
Definition select_owned {A} (owner_of : A → string) (m : gmap string A)
    (owner id : string) : option A :=
  match m !! id with
  | Some x => if decide (owner_of x = owner) then Some x else None
  | None => None
  end.

(** [raise HTTPException(status_code=404, detail="Resource not found")]. *)
Definition not_found {A} : result A := Err (HTTPException 404 "Resource not found").

(** ** Lemmas *)

Lemma select_owned_Some {A} (owner_of : A → string) m owner id x :
  select_owned owner_of m owner id = Some x ↔ m !! id = Some x ∧ owner_of x = owner.
Proof.
  unfold select_owned. destruct (m !! id); [case_decide|]; naive_solver.
Qed.

Lemma drawn_below_mono n n' k : (n ≤ n')%N → drawn_below n k → drawn_below n' k.
Proof. intros ? (m & -> & ?). exists m. split; [done|lia]. Qed.

(** A key drawn at or after [n] is not a key of a well-formed world whose
    allocator stands at [n]. *)
Lemma ids_drawn_unused w m :
  ids_drawn w → (w_next w ≤ m)%N → key_unused (w_db w) (uuid m).
Proof.
  intros (H1 & H2 & H3 & _) Hm. split_and!.
  all: match goal with |- ?t !! _ = None =>
         destruct (t !! uuid m) as [x|] eqn:Hx; [|done] end.
  all: first [ apply H1 in Hx | apply H2 in Hx | apply H3 in Hx ];
       destruct Hx as (m' & ?%uuid_inj & ?); lia.
Qed.

(** ** Handlers as state-passing functions

    A handler runs its statements in order; an exception stops it and
    keeps the world of the moment it was raised: the session's pending
    changes are lost, what an earlier [commit()] wrote stays. *)

Definition h_ret {A} (x : A) : handler A := λ w, (Ok x, w).
Definition h_bind {A B} (m : handler A) (k : A → handler B) : handler B :=
  λ w, match m w with (Ok x, w') => k x w' | (Err e, w') => (Err e, w') end.
Definition h_raise {A} (e : exc) : handler A := λ w, (Err e, w).
Definition h_lift {A} (r : result A) : handler A := λ w, (r, w).
(** A read of the current database. *)
Definition h_read {A} (f : store → A) : handler A := λ w, (Ok (f (w_db w)), w).

(** [uuid4().hex]: the [default_factory] of a generated primary key. *)
Definition uuid4 : handler string :=
  λ w, (Ok (uuid (w_next w)), mkWorld (w_db w) (N.succ (w_next w))).

(** [session.add(...)] of the changes [f], then [session.commit()]: the
    changes are applied (an [INSERT] on a taken key fails), the
    constraints checked; a failure rolls the transaction back. *)
Definition h_commit (f : store → result store) : handler unit :=
  λ w, match f (w_db w) ≫= flush with
       | Ok st' => (Ok tt, mkWorld st' (w_next w))
       | Err e => (Err e, w)
       end.

Notation "'let*' x ':=' m 'in' k" := (h_bind m (λ x, k))
  (at level 10, x name, m at level 100, k at level 200) : tc_scope.

(** [INSERT] into one table: a taken primary key is an [IntegrityError]. *)
Definition tbl_insert {A} (k : string) (x : A) (m : gmap string A) : result (gmap string A) :=
  if decide (is_Some (m !! k)) then Err IntegrityError else Ok (<[k := x]> m).

(** [result.one()] and [result.one_or_none()]. *)
Definition one {A} (l : list A) : result A :=
  match l with [x] => Ok x | [] => Err NoResultFound | _ => Err MultipleResultsFound end.
Definition one_or_none {A} (l : list A) : result (option A) :=
  match l with [] => Ok None | [x] => Ok (Some x) | _ => Err MultipleResultsFound end.

(** [try: x = result.one() except NoResultFound: raise HTTPException(404, detail)]. *)
Definition one_or_404 {A} (detail : string) (l : list A) : result A :=
  match one l with
  | Err NoResultFound => Err (HTTPException 404 detail)
  | r => r
  end.

(** [.limit(n)]: the database refuses a negative [LIMIT]. *)
Definition limit {A} (n : Z) (l : list A) : result (list A) :=
  if decide (n < 0)%Z then Err DataError else Ok (take (Z.to_nat n) l).

(** ** Selecting by primary key *)

(** The rows of [m] under the key [k] that satisfy [P]: what a [SELECT]
    with [WHERE id = k AND P] returns. *)
Definition lookup_where {A} (m : gmap string A) (k : string) (P : A → Prop)
    `{∀ x, Decision (P x)} : list A :=
  match m !! k with Some x => if decide (P x) then [x] else [] | None => [] end.

Lemma rows_keys_NoDup {A} (key : A → string) (m : gmap string A) :
  keyed key m → NoDup (key <$> rows m).
Proof.
  intros Hk. assert (key <$> rows m = (map_to_list m).*1) as ->.
  { unfold rows. rewrite <-list_fmap_compose. apply list_fmap_ext.
    intros i [k x] Hi. apply Hk. apply elem_of_map_to_list.
    by eapply list_elem_of_lookup_2. }
  apply NoDup_fst_map_to_list.
Qed.

Lemma NoDup_same_key {A} (key : A → string) k (l : list A) :
  NoDup (key <$> l) → (∀ x, x ∈ l → key x = k) → l = [] ∨ ∃ x, l = [x].
Proof.
  destruct l as [|x [|y l]]; [by left|by eauto|]. intros Hnd Hk. exfalso.
  rewrite !fmap_cons, NoDup_cons in Hnd. destruct Hnd as [Hnot _]. apply Hnot.
  rewrite (Hk x), <-(Hk y); [apply list_elem_of_here|set_solver..].
Qed.

Lemma select_key {A} (key : A → string) (m : gmap string A) k (P : A → Prop)
    `{∀ x, Decision (P x)} :
  keyed key m → filter (λ x, key x = k ∧ P x) (rows m) = lookup_where m k P.
Proof.
  intros Hkey.
  assert (∀ x, x ∈ filter (λ x, key x = k ∧ P x) (rows m) ↔ m !! k = Some x ∧ P x) as Hmem.
  { intros x. rewrite list_elem_of_filter, elem_of_rows_iff. split.
    - intros [[Hkx ?] [k' Hk']]. rewrite <-Hkx, (Hkey _ _ Hk'). done.
    - intros [Hk ?]. split; [split; [exact (Hkey _ _ Hk)|done]|by exists k]. }
  assert (NoDup (key <$> filter (λ x, key x = k ∧ P x) (rows m))) as Hnd.
  { apply NoDup_fmap_filter. by apply rows_keys_NoDup. }
  destruct (NoDup_same_key key k _ Hnd) as [Hl|[x Hl]].
  { intros x. rewrite list_elem_of_filter. naive_solver. }
  all: unfold lookup_where; rewrite Hl in Hmem |- *.
  - destruct (m !! k) as [x|] eqn:Hk; [|done]. case_decide; [|done].
    exfalso. apply (not_elem_of_nil x), Hmem. done.
  - destruct (proj1 (Hmem x) (list_elem_of_here _ _)) as [-> ?]. by rewrite decide_True.
Qed.

(** ** Deletes keep the invariant *)

Lemma keyed_delete {A} (key : A → string) m k : keyed key m → keyed key (delete k m).
Proof. intros Hk i x [_ Hx]%lookup_delete_Some. exact (Hk i x Hx). Qed.

Lemma keyed_filter {A} (key : A → string) (P : string * A → Prop) `{∀ kx, Decision (P kx)} m :
  keyed key m → keyed key (filter P m).
Proof. intros Hk i x [Hx _]%map_lookup_filter_Some. exact (Hk i x Hx). Qed.

Lemma keyed_fmap {A} (key : A → string) (f : A → A) m :
  (∀ x, key (f x) = key x) → keyed key m → keyed key (f <$> m).
Proof. intros Hf Hk i x (y & <- & Hy)%lookup_fmap_Some. rewrite Hf. exact (Hk i y Hy). Qed.

Lemma keyed_insert {A} (key : A → string) m k x :
  key x = k → keyed key m → keyed key (<[k := x]> m).
Proof. intros. by apply map_Forall_insert_2. Qed.

Lemma null_action_run_id aid r : ar_id (null_action_run aid r) = ar_id r.
Proof. unfold null_action_run. by case_decide. Qed.
Lemma null_workflow_run_id wid r : wr_id (null_workflow_run wid r) = wr_id r.
Proof. unfold null_workflow_run. by case_decide. Qed.
Lemma null_case_action_id uid x : ca_id (null_case_action uid x) = ca_id x.
Proof. unfold null_case_action. by case_decide. Qed.
Lemma null_case_context_id uid x : cc_id (null_case_context uid x) = cc_id x.
Proof. unfold null_case_context. by case_decide. Qed.

#[export] Hint Resolve keyed_delete keyed_filter keyed_fmap null_action_run_id
  null_workflow_run_id null_case_action_id null_case_context_id : tracecat.

(** The tables with drawn keys have no more keys than before. *)
Definition dom_le (st' st : store) : Prop :=
  dom (st_workflows st') ⊆ dom (st_workflows st) ∧ dom (st_actions st') ⊆ dom (st_actions st) ∧
  dom (st_webhooks st') ⊆ dom (st_webhooks st) ∧
  dom (st_workflow_runs st') ⊆ dom (st_workflow_runs st) ∧
  dom (st_secrets st') ⊆ dom (st_secrets st) ∧
  dom (st_case_actions st') ⊆ dom (st_case_actions st) ∧
  dom (st_case_contexts st') ⊆ dom (st_case_contexts st).

#[export] Instance dom_le_preorder : PreOrder dom_le.
Proof.
  split; [intros st; split_and!; done|].
  intros ??? (?&?&?&?&?&?&?) (?&?&?&?&?&?&?); split_and!; etrans; eauto.
Qed.

Lemma drawn_dom {A} (m m' : gmap string A) n n' :
  map_Forall (λ k _, drawn_below n k) m → dom m' ⊆ dom m → (n ≤ n')%N →
  map_Forall (λ k _, drawn_below n' k) m'.
Proof.
  intros H Hd Hn k x Hk. assert (k ∈ dom m) as [y Hy]%elem_of_dom.
  { apply Hd, elem_of_dom. eauto. }
  eapply drawn_below_mono, (H k y Hy). done.
Qed.

Lemma ids_drawn_le w st' n :
  ids_drawn w → dom_le st' (w_db w) → (w_next w ≤ n)%N → ids_drawn (mkWorld st' n).
Proof.
  intros (D1&D2&D3&D4&D5&D6&D7) (L1&L2&L3&L4&L5&L6&L7) Hn.
  split_and!; simpl; eapply drawn_dom; eauto.
Qed.

Ltac solve_dom_le :=
  split_and!; simpl; rewrite ?dom_delete_L, ?dom_fmap_L;
  first [set_solver | apply dom_filter_subseteq].

Lemma delete_action_rows_le aid st : dom_le (delete_action_rows aid st) st.
Proof. solve_dom_le. Qed.
Lemma delete_workflow_row_le wid st : dom_le (delete_workflow_row wid st) st.
Proof. solve_dom_le. Qed.
Lemma delete_user_row_le uid st : dom_le (delete_user_row uid st) st.
Proof. solve_dom_le. Qed.

Lemma delete_action_rows_keys aid st :
  keys_consistent st → keys_consistent (delete_action_rows aid st).
Proof. intros (K1&K2&K3&K4&K5&K6&K7&K8&K9). split_and!; simpl; auto with tracecat. Qed.
Lemma delete_workflow_row_keys wid st :
  keys_consistent st → keys_consistent (delete_workflow_row wid st).
Proof. intros (K1&K2&K3&K4&K5&K6&K7&K8&K9). split_and!; simpl; auto with tracecat. Qed.
Lemma delete_user_row_keys uid st :
  keys_consistent st → keys_consistent (delete_user_row uid st).
Proof. intros (K1&K2&K3&K4&K5&K6&K7&K8&K9). split_and!; simpl; auto with tracecat. Qed.

Lemma delete_workflow_rows_le wid st : dom_le (delete_workflow_rows wid st) st.
Proof.
  unfold delete_workflow_rows. etrans; [apply delete_workflow_row_le|].
  apply foldr_rel; [apply _|apply delete_action_rows_le].
Qed.

Lemma delete_workflow_rows_keys wid st :
  keys_consistent st → keys_consistent (delete_workflow_rows wid st).
Proof.
  intros Hk. apply delete_workflow_row_keys.
  apply foldr_invariant; [apply delete_action_rows_keys|done].
Qed.

Lemma delete_user_rows_le uid st : dom_le (delete_user_rows uid st) st.
Proof.
  unfold delete_user_rows. etrans; [apply delete_user_row_le|].
  apply foldr_rel; [apply _|apply delete_workflow_rows_le].
Qed.

Lemma delete_user_rows_keys uid st :
  keys_consistent st → keys_consistent (delete_user_rows uid st).
Proof.
  intros Hk. apply delete_user_row_keys.
  apply foldr_invariant; [apply delete_workflow_rows_keys|done].
Qed.

(** A store change that keeps the foreign keys and the row keys and adds
    no key keeps the world well formed. *)
Lemma world_wf_shrink w st' :
  world_wf w → fk_ok st' → keys_consistent st' → dom_le st' (w_db w) →
  world_wf (mkWorld st' (w_next w)).
Proof. intros (_ & _ & Hids) ???. split_and!; [done|done|]. by eapply ids_drawn_le. Qed.

Lemma delete_action_rows_wf w aid :
  world_wf w → world_wf (mkWorld (delete_action_rows aid (w_db w)) (w_next w)).
Proof.
  intros Hwf. pose proof Hwf as (Hfk & Hk & _). apply world_wf_shrink; auto using
    delete_action_rows_fk, delete_action_rows_keys, delete_action_rows_le.
Qed.

Lemma delete_workflow_rows_wf w wid :
  world_wf w → world_wf (mkWorld (delete_workflow_rows wid (w_db w)) (w_next w)).
Proof.
  intros Hwf. pose proof Hwf as (Hfk & Hk & _). apply world_wf_shrink;
    auto using delete_workflow_rows_keys, delete_workflow_rows_le.
  apply delete_workflow_rows_fk; [apply Hk|done].
Qed.

Lemma delete_user_rows_wf w uid :
  world_wf w → world_wf (mkWorld (delete_user_rows uid (w_db w)) (w_next w)).
Proof.
  intros Hwf. pose proof Hwf as (Hfk & Hk & _). apply world_wf_shrink;
    auto using delete_user_rows_keys, delete_user_rows_le.
  apply delete_user_rows_fk; [apply Hk|apply Hk|done].
Qed.

(** ** Owner-scoped selection by primary key *)

(** [WHERE T.owner_id == o AND T.id == k] then [one()], over a table whose
    rows sit under their keys: the row under [k] if [o] owns it. *)
Lemma select_owner_key {A} (key owner : A → string) (m : gmap string A) o k d :
  keyed key m →
  one_or_404 d (filter (λ x, owner x = o ∧ key x = k) (rows m)) =
  of_option (HTTPException 404 d) (select_owned owner m o k).
Proof.
  intros Hk. rewrite (list_filter_iff _ (λ x, key x = k ∧ owner x = o)) by naive_solver.
  rewrite (select_key key) by done. unfold lookup_where, select_owned.
  destruct (m !! k); [case_decide|]; done.
Qed.

(** [h_commit] on its two outcomes. *)
Lemma h_commit_eq f w :
  h_commit f w =
  match f (w_db w) with
  | Ok st' => if decide (fk_ok st') then (Ok tt, mkWorld st' (w_next w)) else (Err IntegrityError, w)
  | Err e => (Err e, w)
  end.
Proof. unfold h_commit, flush. destruct (f (w_db w)); cbn; [case_decide|]; done. Qed.

Lemma ids_drawn_mono w n : ids_drawn w → (w_next w ≤ n)%N → ids_drawn (mkWorld (w_db w) n).
Proof. intros. by eapply ids_drawn_le. Qed.

(** A key drawn now is drawn below the next allocator value. *)
Lemma drawn_insert_next {A} (m : gmap string A) n k x :
  map_Forall (λ k _, drawn_below (N.succ n) k) m → k = uuid n →
  map_Forall (λ k _, drawn_below (N.succ n) k) (<[k := x]> m).
Proof. intros H ->. apply map_Forall_insert_2; [|done]. exists n. split; [done|lia]. Qed.

(** A workflow row inserted under the next drawn key, owned by a user,
    keeps the world well formed. *)
Lemma world_wf_insert_workflow w x :
  world_wf w → wf_id x = uuid (w_next w) → is_Some (st_users (w_db w) !! wf_owner_id x) →
  world_wf (mkWorld (set_workflows (<[wf_id x := x]> (st_workflows (w_db w))) (w_db w))
             (N.succ (w_next w))).
Proof.
  intros ((F1&F2&F3&F4&F5&F6&F7&F8) & (K1&K2&K3&K4&K5&K6&K7&K8&K9) & Hids) Hid Hown.
  split; [|split].
  - split_and!; simpl; try done.
    + by apply map_Forall_insert_2.
    + intros k a Hk. apply fk_insert. exact (F2 k a Hk).
    + intros k h Hk. destruct (F3 k h Hk). split; [done|by apply fk_insert].
    + intros k r Hk. apply fk_insert. exact (F4 k r Hk).
  - split_and!; simpl; try done. by apply keyed_insert.
  - destruct (ids_drawn_mono w (N.succ (w_next w)) Hids) as (D1&D2&D3&D4&D5&D6&D7); [lia|].
    split_and!; simpl; try done. by apply drawn_insert_next.
Qed.

Lemma tbl_insert_free {A} (m : gmap string A) k x :
  m !! k = None → tbl_insert k x m = Ok (<[k := x]> m).
Proof. intros Hk. unfold tbl_insert. rewrite Hk, decide_False; [done|]. by intros [? ?]. Qed.

Lemma tbl_insert_taken {A} (m : gmap string A) k x :
  is_Some (m !! k) → tbl_insert k x m = Err IntegrityError.
Proof. intros Hk. unfold tbl_insert. by rewrite decide_True. Qed.

(** Replacing a workflow row by one with the same key and owner keeps
    the world well formed. *)
Lemma world_wf_update_workflow w x x0 :
  world_wf w → st_workflows (w_db w) !! wf_id x = Some x0 → wf_owner_id x = wf_owner_id x0 →
  world_wf (mkWorld (set_workflows (<[wf_id x := x]> (st_workflows (w_db w))) (w_db w)) (w_next w)).
Proof.
  intros Hwf Hx0 Hown. pose proof Hwf as ((F1&F2&F3&F4&F5&F6&F7&F8) & (K1&K2&K3&K4&K5&K6&K7&K8&K9) & _).
  apply world_wf_shrink; [done| | |].
  - split_and!; simpl; try done.
    + apply map_Forall_insert_2; [|done]. rewrite Hown. exact (F1 _ _ Hx0).
    + intros k a Hk. apply fk_insert. exact (F2 k a Hk).
    + intros k h Hk. destruct (F3 k h Hk). split; [done|by apply fk_insert].
    + intros k r Hk. apply fk_insert. exact (F4 k r Hk).
  - split_and!; simpl; try done. by apply keyed_insert.
  - split_and!; simpl; try done. rewrite dom_insert_L.
    apply union_least; [|done]. apply singleton_subseteq_l, elem_of_dom. by eexists.
Qed.

(** [WHERE T.id == k] alone. *)
Lemma select_key_only {A} (key : A → string) (m : gmap string A) k :
  keyed key m → filter (λ x, key x = k) (rows m) = match m !! k with Some x => [x] | None => [] end.
Proof.
  intros Hk. rewrite (list_filter_iff _ (λ x, key x = k ∧ True)) by naive_solver.
  rewrite (select_key key) by done. unfold lookup_where. by destruct (m !! k).
Qed.

(** A webhook row inserted under the next drawn key, its action and
    workflow present, keeps the world well formed. *)
Lemma world_wf_insert_webhook w x :
  world_wf w → wh_id x = uuid (w_next w) →
  fk (st_actions (w_db w)) (wh_action_id x) → fk (st_workflows (w_db w)) (wh_workflow_id x) →
  world_wf (mkWorld (set_webhooks (<[wh_id x := x]> (st_webhooks (w_db w))) (w_db w))
             (N.succ (w_next w))).
Proof.
  intros (Hfk & (K1&K2&K3&K4&K5&K6&K7&K8&K9) & Hids) Hid Ha Hw.
  split; [|split].
  - destruct Hfk as (F1&F2&F3&F4&F5&F6&F7&F8). split_and!; simpl; try done.
    by apply map_Forall_insert_2.
  - split_and!; simpl; try done. by apply keyed_insert.
  - destruct (ids_drawn_mono w (N.succ (w_next w)) Hids) as (D1&D2&D3&D4&D5&D6&D7); [lia|].
    split_and!; simpl; try done. by apply drawn_insert_next.
Qed.

(** An action row inserted under the next drawn key, its workflow
    present, keeps the world well formed. *)
Lemma world_wf_insert_action w x :
  world_wf w → act_id x = uuid (w_next w) → fk (st_workflows (w_db w)) (act_workflow_id x) →
  world_wf (mkWorld (set_actions (<[act_id x := x]> (st_actions (w_db w))) (w_db w))
             (N.succ (w_next w))).
Proof.
  intros (Hfk & (K1&K2&K3&K4&K5&K6&K7&K8&K9) & Hids) Hid Hw.
  split; [|split].
  - destruct Hfk as (F1&F2&F3&F4&F5&F6&F7&F8). split_and!; simpl; try done.
    + by apply map_Forall_insert_2.
    + intros k h Hk. destruct (F3 k h Hk). split; [by apply fk_insert|done].
    + intros k r Hk. destruct (F5 k r Hk). split; [by apply fk_insert|done].
  - split_and!; simpl; try done. by apply keyed_insert.
  - destruct (ids_drawn_mono w (N.succ (w_next w)) Hids) as (D1&D2&D3&D4&D5&D6&D7); [lia|].
    split_and!; simpl; try done. by apply drawn_insert_next.
Qed.

(** Replacing an action row by one with the same key and workflow. *)
Lemma world_wf_update_action w x x0 :
  world_wf w → st_actions (w_db w) !! act_id x = Some x0 → act_workflow_id x = act_workflow_id x0 →
  world_wf (mkWorld (set_actions (<[act_id x := x]> (st_actions (w_db w))) (w_db w)) (w_next w)).
Proof.
  intros Hwf Hx0 Hw. pose proof Hwf as ((F1&F2&F3&F4&F5&F6&F7&F8) & (K1&K2&K3&K4&K5&K6&K7&K8&K9) & _).
  apply world_wf_shrink; [done| | |].
  - split_and!; simpl; try done.
    + apply map_Forall_insert_2; [|done]. rewrite Hw. exact (F2 _ _ Hx0).
    + intros k h Hk. destruct (F3 k h Hk). split; [by apply fk_insert|done].
    + intros k r Hk. destruct (F5 k r Hk). split; [by apply fk_insert|done].
  - split_and!; simpl; try done. by apply keyed_insert.
  - split_and!; simpl; try done. rewrite dom_insert_L.
    apply union_least; [|done]. apply singleton_subseteq_l, elem_of_dom. by eexists.
Qed.

(** A workflow run inserted under the next drawn key. *)
Lemma world_wf_insert_workflow_run w x :
  world_wf w → wr_id x = uuid (w_next w) → fk (st_workflows (w_db w)) (wr_workflow_id x) →
  world_wf (mkWorld (set_workflow_runs (<[wr_id x := x]> (st_workflow_runs (w_db w))) (w_db w))
             (N.succ (w_next w))).
Proof.
  intros (Hfk & (K1&K2&K3&K4&K5&K6&K7&K8&K9) & Hids) Hid Hw.
  split; [|split].
  - destruct Hfk as (F1&F2&F3&F4&F5&F6&F7&F8). split_and!; simpl; try done.
    + by apply map_Forall_insert_2.
    + intros k r Hk. destruct (F5 k r Hk). split; [done|by apply (fk_insert _ _ _ (Some _))].
  - split_and!; simpl; try done. by apply keyed_insert.
  - destruct (ids_drawn_mono w (N.succ (w_next w)) Hids) as (D1&D2&D3&D4&D5&D6&D7); [lia|].
    split_and!; simpl; try done. by apply drawn_insert_next.
Qed.

(** An action run inserted under a free key chosen by the caller. *)
Lemma world_wf_insert_action_run w x :
  world_wf w → fk (st_actions (w_db w)) (ar_action_id x) →
  is_Some (st_workflow_runs (w_db w) !! ar_workflow_run_id x) →
  world_wf (mkWorld (set_action_runs (<[ar_id x := x]> (st_action_runs (w_db w))) (w_db w))
             (w_next w)).
Proof.
  intros Hwf Ha Hr. pose proof Hwf as (Hfk & (K1&K2&K3&K4&K5&K6&K7&K8&K9) & _).
  apply world_wf_shrink; [done| | |].
  - destruct Hfk as (F1&F2&F3&F4&F5&F6&F7&F8). split_and!; simpl; try done.
    by apply map_Forall_insert_2.
  - split_and!; simpl; try done. by apply keyed_insert.
  - split_and!; simpl; done.
Qed.

(** A workflow run replaced by one with the same key and workflow. *)
Lemma world_wf_update_workflow_run w x x0 :
  world_wf w → st_workflow_runs (w_db w) !! wr_id x = Some x0 → wr_workflow_id x = wr_workflow_id x0 →
  world_wf (mkWorld (set_workflow_runs (<[wr_id x := x]> (st_workflow_runs (w_db w))) (w_db w))
             (w_next w)).
Proof.
  intros Hwf Hx0 Hw. pose proof Hwf as ((F1&F2&F3&F4&F5&F6&F7&F8) & (K1&K2&K3&K4&K5&K6&K7&K8&K9) & _).
  apply world_wf_shrink; [done| | |].
  - split_and!; simpl; try done.
    + apply map_Forall_insert_2; [|done]. rewrite Hw. exact (F4 _ _ Hx0).
    + intros k r Hk. destruct (F5 k r Hk). split; [done|by apply (fk_insert _ _ _ (Some _))].
  - split_and!; simpl; try done. by apply keyed_insert.
  - split_and!; simpl; try done. rewrite dom_insert_L.
    apply union_least; [|done]. apply singleton_subseteq_l, elem_of_dom. by eexists.
Qed.

(** An action run replaced by one with the same key and references. *)
Lemma world_wf_update_action_run w x x0 :
  world_wf w → st_action_runs (w_db w) !! ar_id x = Some x0 →
  ar_action_id x = ar_action_id x0 → ar_workflow_run_id x = ar_workflow_run_id x0 →
  world_wf (mkWorld (set_action_runs (<[ar_id x := x]> (st_action_runs (w_db w))) (w_db w))
             (w_next w)).
Proof.
  intros Hwf Hx0 Ha Hr. pose proof Hwf as ((F1&F2&F3&F4&F5&F6&F7&F8) & (K1&K2&K3&K4&K5&K6&K7&K8&K9) & _).
  apply world_wf_shrink; [done| | |].
  - split_and!; simpl; try done. apply map_Forall_insert_2; [|done].
    rewrite Ha, Hr. exact (F5 _ _ Hx0).
  - split_and!; simpl; try done. by apply keyed_insert.
  - split_and!; simpl; done.
Qed.

Lemma ids_drawn_unused_run w m :
  ids_drawn w → (w_next w ≤ m)%N → st_workflow_runs (w_db w) !! uuid m = None.
Proof.
  intros (_ & _ & _ & H4 & _) Hm. destruct (_ !! uuid m) as [x|] eqn:Hx; [|done].
  destruct (H4 _ _ Hx) as (m' & ?%uuid_inj & ?). lia.
Qed.

Lemma limit_Ok {A} n (l l' : list A) : limit n l = Ok l' → (0 ≤ n)%Z ∧ l' = take (Z.to_nat n) l.
Proof. unfold limit. case_decide; [done|]. intros [= <-]. split; [lia|done]. Qed.

(** A user row inserted under its own id. *)
Lemma world_wf_insert_user w x :
  world_wf w →
  world_wf (mkWorld (set_users (<[user_id x := x]> (st_users (w_db w))) (w_db w)) (w_next w)).
Proof.
  intros Hwf. pose proof Hwf as ((F1&F2&F3&F4&F5&F6&F7&F8) & (K1&K2&K3&K4&K5&K6&K7&K8&K9) & _).
  apply world_wf_shrink; [done| | |].
  - split_and!; simpl; try done.
    + intros k y Hk. apply (fk_insert _ _ _ (Some _)). exact (F1 k y Hk).
    + intros k y Hk. apply (fk_insert _ _ _ (Some _)). exact (F6 k y Hk).
    + intros k y Hk. apply fk_insert. exact (F7 k y Hk).
    + intros k y Hk. apply fk_insert. exact (F8 k y Hk).
  - split_and!; simpl; try done. by apply keyed_insert.
  - split_and!; simpl; done.
Qed.

(** A user row replaced under its own id. *)
Lemma world_wf_update_user w x :
  world_wf w → is_Some (st_users (w_db w) !! user_id x) →
  world_wf (mkWorld (set_users (<[user_id x := x]> (st_users (w_db w))) (w_db w)) (w_next w)).
Proof. intros Hwf _. by apply world_wf_insert_user. Qed.

(** A secret row inserted under the next drawn key, its owner a user. *)
Lemma world_wf_insert_secret w x :
  world_wf w → sec_id x = uuid (w_next w) → is_Some (st_users (w_db w) !! sec_owner_id x) →
  world_wf (mkWorld (set_secrets (<[sec_id x := x]> (st_secrets (w_db w))) (w_db w))
             (N.succ (w_next w))).
Proof.
  intros (Hfk & (K1&K2&K3&K4&K5&K6&K7&K8&K9) & Hids) Hid Hu.
  split; [|split].
  - destruct Hfk as (F1&F2&F3&F4&F5&F6&F7&F8). split_and!; simpl; try done.
    by apply map_Forall_insert_2.
  - split_and!; simpl; try done. by apply keyed_insert.
  - destruct (ids_drawn_mono w (N.succ (w_next w)) Hids) as (D1&D2&D3&D4&D5&D6&D7); [lia|].
    split_and!; simpl; try done. by apply drawn_insert_next.
Qed.

(** A secret row replaced by one with the same key and owner. *)
Lemma world_wf_update_secret w x x0 :
  world_wf w → st_secrets (w_db w) !! sec_id x = Some x0 → sec_owner_id x = sec_owner_id x0 →
  world_wf (mkWorld (set_secrets (<[sec_id x := x]> (st_secrets (w_db w))) (w_db w)) (w_next w)).
Proof.
  intros Hwf Hx0 Ho. pose proof Hwf as ((F1&F2&F3&F4&F5&F6&F7&F8) & (K1&K2&K3&K4&K5&K6&K7&K8&K9) & _).
  apply world_wf_shrink; [done| | |].
  - split_and!; simpl; try done. apply map_Forall_insert_2; [|done].
    rewrite Ho. exact (F6 _ _ Hx0).
  - split_and!; simpl; try done. by apply keyed_insert.
  - split_and!; simpl; try done. rewrite dom_insert_L.
    apply union_least; [|done]. apply singleton_subseteq_l, elem_of_dom. by eexists.
Qed.

(** Case labels inserted under the next drawn key. *)
Lemma world_wf_insert_case_action w x :
  world_wf w → ca_id x = uuid (w_next w) → fk (st_users (w_db w)) (ca_user_id x) →
  world_wf (mkWorld (set_case_actions (<[ca_id x := x]> (st_case_actions (w_db w))) (w_db w))
             (N.succ (w_next w))).
Proof.
  intros (Hfk & (K1&K2&K3&K4&K5&K6&K7&K8&K9) & Hids) Hid Hu.
  split; [|split].
  - destruct Hfk as (F1&F2&F3&F4&F5&F6&F7&F8). split_and!; simpl; try done.
    by apply map_Forall_insert_2.
  - split_and!; simpl; try done. by apply keyed_insert.
  - destruct (ids_drawn_mono w (N.succ (w_next w)) Hids) as (D1&D2&D3&D4&D5&D6&D7); [lia|].
    split_and!; simpl; try done. by apply drawn_insert_next.
Qed.

Lemma world_wf_insert_case_context w x :
  world_wf w → cc_id x = uuid (w_next w) → fk (st_users (w_db w)) (cc_user_id x) →
  world_wf (mkWorld (set_case_contexts (<[cc_id x := x]> (st_case_contexts (w_db w))) (w_db w))
             (N.succ (w_next w))).
Proof.
  intros (Hfk & (K1&K2&K3&K4&K5&K6&K7&K8&K9) & Hids) Hid Hu.
  split; [|split].
  - destruct Hfk as (F1&F2&F3&F4&F5&F6&F7&F8). split_and!; simpl; try done.
    by apply map_Forall_insert_2.
  - split_and!; simpl; try done. by apply keyed_insert.
  - destruct (ids_drawn_mono w (N.succ (w_next w)) Hids) as (D1&D2&D3&D4&D5&D6&D7); [lia|].
    split_and!; simpl; try done. by apply drawn_insert_next.
Qed.

(** Deleting a case label: nothing refers to the label tables. *)
Lemma world_wf_delete_case_action w k :
  world_wf w →
  world_wf (mkWorld (set_case_actions (delete k (st_case_actions (w_db w))) (w_db w)) (w_next w)).
Proof.
  intros Hwf. pose proof Hwf as ((F1&F2&F3&F4&F5&F6&F7&F8) & (K1&K2&K3&K4&K5&K6&K7&K8&K9) & _).
  apply world_wf_shrink; [done| | |].
  - split_and!; simpl; try done. by apply map_Forall_delete.
  - split_and!; simpl; auto with tracecat.
  - solve_dom_le.
Qed.

Lemma world_wf_delete_case_context w k :
  world_wf w →
  world_wf (mkWorld (set_case_contexts (delete k (st_case_contexts (w_db w))) (w_db w)) (w_next w)).
Proof.
  intros Hwf. pose proof Hwf as ((F1&F2&F3&F4&F5&F6&F7&F8) & (K1&K2&K3&K4&K5&K6&K7&K8&K9) & _).
  apply world_wf_shrink; [done| | |].
  - split_and!; simpl; try done. by apply map_Forall_delete.
  - split_and!; simpl; auto with tracecat.
  - solve_dom_le.
Qed.

(** Deleting a webhook: nothing refers to webhooks. *)
Lemma world_wf_delete_webhook w k :
  world_wf w →
  world_wf (mkWorld (set_webhooks (delete k (st_webhooks (w_db w))) (w_db w)) (w_next w)).
Proof.
  intros Hwf. pose proof Hwf as ((F1&F2&F3&F4&F5&F6&F7&F8) & (K1&K2&K3&K4&K5&K6&K7&K8&K9) & _).
  apply world_wf_shrink; [done| | |].
  - split_and!; simpl; try done. by apply map_Forall_delete.
  - split_and!; simpl; auto with tracecat.
  - solve_dom_le.
Qed.

(** The rows of a table after inserting under a free key. *)
Lemma rows_insert {A} (m : gmap string A) k x :
  m !! k = None → rows (<[k := x]> m) ≡ₚ x :: rows m.
Proof. intros Hk. unfold rows. by rewrite map_to_list_insert. Qed.

(** A selection that was empty holds exactly the inserted row when it
    satisfies the condition. *)
Lemma filter_rows_insert {A} (P : A → Prop) `{∀ x, Decision (P x)} (m : gmap string A) k x :
  m !! k = None → filter P (rows m) = [] → P x → filter P (rows (<[k := x]> m)) = [x].
Proof.
  intros Hk Hnil Hx. apply Permutation_singleton_r.
  rewrite (rows_insert m k x Hk), filter_cons, decide_True by done. by rewrite Hnil.
Qed.

Lemma one_or_none_limit1_None {A} (l : list A) : (limit 1 l ≫= one_or_none) = Ok None ↔ l = [].
Proof. destruct l as [|x l]; cbn; [done|]. split; [done|discriminate]. Qed.

Lemma one_or_none_limit1_single {A} (x : A) : (limit 1 [x] ≫= one_or_none) = Ok (Some x).
Proof. done. Qed.

Lemma ids_drawn_unused_secret w m :
  ids_drawn w → (w_next w ≤ m)%N → st_secrets (w_db w) !! uuid m = None.
Proof.
  intros (_ & _ & _ & _ & H5 & _) Hm. destruct (_ !! uuid m) as [x|] eqn:Hx; [|done].
  destruct (H5 _ _ Hx) as (m' & ?%uuid_inj & ?). lia.
Qed.

Lemma limit_nonneg {A} n (l : list A) : (0 ≤ n)%Z → limit n l = Ok (take (Z.to_nat n) l).
Proof. intros Hn. unfold limit. rewrite decide_False; [done|lia]. Qed.

(** ** A program logic for handlers

    [safe m Q w]: run from [w], the handler [m] leaves a well-formed
    world, whether it returns or raises, and a value it returns satisfies
    [Q] in the world it leaves. *)
Definition safe {A} (m : handler A) (Q : A → world → Prop) (w : world) : Prop :=
  world_wf (snd (m w)) ∧ ∀ x, fst (m w) = Ok x → Q x (snd (m w)).

Lemma safe_ret {A} (x : A) Q w : world_wf w → Q x w → safe (h_ret x) Q w.
Proof. split; [done|]. by intros ? [= <-]. Qed.

Lemma safe_raise {A} e (Q : A → world → Prop) w : world_wf w → safe (h_raise e) Q w.
Proof. by split. Qed.

Lemma safe_lift {A} (r : result A) Q w : world_wf w → (∀ x, r = Ok x → Q x w) → safe (h_lift r) Q w.
Proof. by split. Qed.

Lemma safe_read {A} (f : store → A) Q w : world_wf w → Q (f (w_db w)) w → safe (h_read f) Q w.
Proof. split; [done|]. by intros ? [= <-]. Qed.

Lemma safe_bind {A B} (m : handler A) (k : A → handler B) Q w :
  safe m (λ x w', safe (k x) Q w') w → safe (h_bind m k) Q w.
Proof.
  unfold safe, h_bind. destruct (m w) as [[x|e] w']; simpl; intros [Hwf HQ]; [|done].
  exact (HQ x eq_refl).
Qed.

Lemma safe_mono {A} (m : handler A) (Q Q' : A → world → Prop) w :
  safe m Q w → (∀ x w', world_wf w' → Q x w' → Q' x w') → safe m Q' w.
Proof. intros [Hwf HQ] HQQ'. split; [done|]. intros x Hx. apply HQQ'; auto. Qed.

Lemma safe_uuid4 Q w :
  world_wf w →
  (world_wf (mkWorld (w_db w) (N.succ (w_next w))) →
   Q (uuid (w_next w)) (mkWorld (w_db w) (N.succ (w_next w)))) →
  safe uuid4 Q w.
Proof.
  intros Hwf HQ. assert (world_wf (mkWorld (w_db w) (N.succ (w_next w)))) as Hwf'.
  { destruct Hwf as (? & ? & Hids). split_and!; [done|done|]. apply ids_drawn_mono; [done|lia]. }
  split; [done|]. intros ? [= <-]. auto.
Qed.

(** A commit is safe when every change set that passes the constraint
    check keeps the row keys and the drawn keys. *)
Lemma safe_commit f Q w :
  world_wf w →
  (∀ st', f (w_db w) = Ok st' → fk_ok st' →
     keys_consistent st' ∧ ids_drawn (mkWorld st' (w_next w)) ∧
     (world_wf (mkWorld st' (w_next w)) → Q tt (mkWorld st' (w_next w)))) →
  safe (h_commit f) Q w.
Proof.
  intros Hwf Hf. unfold safe. rewrite h_commit_eq.
  destruct (f (w_db w)) as [st'|e] eqn:Hst; simpl; [|done].
  case_decide as Hfk; simpl; [|done].
  destruct (Hf st' eq_refl Hfk) as (Hk & Hids & HQ).
  assert (world_wf (mkWorld st' (w_next w))) as Hwf' by (split_and!; done).
  split; [done|]. intros ? [= <-]. auto.
Qed.

(** Keys of the drawn tables after an insert: a key drawn from the
    allocator, or a key already present. *)
Lemma drawn_insert {A} (m : gmap string A) n k x :
  map_Forall (λ k _, drawn_below n k) m → drawn_below n k →
  map_Forall (λ k _, drawn_below n k) (<[k := x]> m).
Proof. intros. by apply map_Forall_insert_2. Qed.

Lemma drawn_present {A} (m : gmap string A) n k :
  map_Forall (λ k _, drawn_below n k) m → is_Some (m !! k) → drawn_below n k.
Proof. intros H [x Hx]. exact (H k x Hx). Qed.

Lemma drawn_now n : drawn_below (N.succ n) (uuid n).
Proof. exists n. split; [done|lia]. Qed.

#[export] Hint Resolve keyed_insert drawn_insert drawn_now drawn_present : tracecat.

Lemma tbl_insert_Ok {A} k (x : A) m m' : tbl_insert k x m = Ok m' → m !! k = None ∧ m' = <[k := x]> m.
Proof.
  unfold tbl_insert. case_decide as Hk; [done|]. intros [= <-]. split; [|done].
  destruct (m !! k) eqn:?; [|done]. exfalso. apply Hk. by eexists.
Qed.

(** One step of a handler proof: the rule for the statement in front. *)
Ltac wp_step :=
  match goal with
  | |- safe (h_bind _ _) _ _ => apply safe_bind
  | |- safe (h_ret _) _ _ => apply safe_ret; [assumption|]
  | |- safe (h_raise _) _ _ => apply safe_raise; assumption
  | |- safe (h_lift _) _ _ => apply safe_lift; [assumption|intros ? ?]
  | |- safe (h_read _) _ _ => apply safe_read; [assumption|]
  | |- safe uuid4 _ _ => apply safe_uuid4; [assumption|intros ?]
  | |- safe (h_commit _) _ _ => apply safe_commit; [assumption|]
  end; cbv beta.

Ltac wp := repeat wp_step.

(** The obligation of [safe_commit] for a change set built from the
    primitives above, [Hwf] the invariant of the world at the commit:
    the row keys, the drawn keys, then the rest of the handler. *)
Ltac commit_ok Hwf :=
  let K := fresh "K" in let D := fresh "D" in let Hwf' := fresh "Hwf" in
  pose proof Hwf as (_ & K & D);
  split; [|split];
  [ unfold keys_consistent in *; simpl in *; destruct_and?; split_and!; eauto with tracecat
  | unfold ids_drawn in *; simpl in *; destruct_and?; split_and!; eauto with tracecat
  | intros Hwf'; wp; auto ].

Lemma one_in {A} (l : list A) x : one l = Ok x → x ∈ l.
Proof. destruct l as [|y [|z l]]; simpl; intros; simplify_eq. apply list_elem_of_here. Qed.

Lemma one_or_404_in {A} d (l : list A) x : one_or_404 d l = Ok x → x ∈ l.
Proof. unfold one_or_404. destruct (one l) as [y|[]] eqn:Hl; intros; simplify_eq; by apply one_in. Qed.

(** A row selected from a keyed table sits under its key. *)
Lemma selected_row {A} (key : A → string) (P : A → Prop) `{∀ x, Decision (P x)} m x :
  keyed key m → x ∈ filter P (rows m) → m !! key x = Some x ∧ P x.
Proof.
  intros Hk [HP [k Hx]%elem_of_rows_iff]%list_elem_of_filter.
  rewrite (Hk _ _ Hx). done.
Qed.

(** Turn each selection a handler made into the fact that the selected
    row sits under its key. *)
Ltac selected Hwf :=
  let K := fresh "K" in pose proof Hwf as (_ & K & _); unfold keys_consistent in K;
  destruct_and? K;
  repeat match goal with
  | Hx : one_or_404 _ (filter _ (rows _)) = Ok _ |- _ => apply one_or_404_in in Hx
  | Hx : _ ∈ filter _ (rows _) |- _ => eapply selected_row in Hx as [? ?]; [|eassumption]
  end.

Lemma one_or_none_limit_in {A} (l : list A) x : (limit 1 l ≫= one_or_none) = Ok (Some x) → x ∈ l.
Proof.
  rewrite limit_nonneg by lia. change (Z.to_nat 1) with 1%nat.
  destruct l as [|y l]; cbn; rewrite ?take_0; intros; simplify_eq. apply list_elem_of_here.
Qed.

(** The obligation of [safe_commit] for a change that removes rows,
    from its world lemma. *)
Ltac commit_shrink L :=
  match goal with
  | |- keys_consistent ?st ∧ ids_drawn (mkWorld ?st ?n) ∧ _ =>
      let Hw := fresh "Hw" in
      assert (world_wf (mkWorld st n)) as Hw by (apply L; assumption);
      split; [apply Hw|split; [apply Hw|intros _; wp; auto]]
  end.

(** ** Loops and bulk inserts *)

(** A list comprehension whose body runs a handler. *)
Fixpoint h_mapM {A B} (f : A → handler B) (l : list A) : handler (list B) :=
  match l with
  | [] => h_ret []
  | x :: l' => let* y := f x in let* ys := h_mapM f l' in h_ret (y :: ys)
  end.

(** [session.add_all(xs)]: one [INSERT] per row, in order. *)
Definition tbl_insert_all {A} (key : A → string) (xs : list A) (m : gmap string A)
    : result (gmap string A) :=
  foldl (λ acc x, acc ≫= tbl_insert (key x) x) (Ok m) xs.

Lemma foldl_insert_Err {A} (key : A → string) xs e :
  foldl (λ acc x, acc ≫= tbl_insert (key x) x) (Err e) xs = Err e.
Proof. induction xs; simpl; auto. Qed.

(** A row after a bulk insert was there before or is one of the rows
    inserted, under its own key. *)
Lemma tbl_insert_all_lookup {A} (key : A → string) xs m m' k y :
  tbl_insert_all key xs m = Ok m' → m' !! k = Some y →
  m !! k = Some y ∨ (y ∈ xs ∧ key y = k).
Proof.
  unfold tbl_insert_all. revert m. induction xs as [|x xs IH]; intros m; simpl.
  { intros [= <-]. by left. }
  destruct (tbl_insert (key x) x m) as [m1|e] eqn:Hins; simpl; [|by rewrite foldl_insert_Err].
  intros Hrest Hk. apply tbl_insert_Ok in Hins as [Hfree ->].
  destruct (IH _ Hrest Hk) as [Hold|[Hin Hkey]].
  - destruct (decide (key x = k)) as [<-|Hne].
    + rewrite lookup_insert_eq in Hold. injection Hold as <-. right. split; [apply list_elem_of_here|done].
    + rewrite lookup_insert_ne in Hold by done. by left.
  - right. split; [by right|done].
Qed.

Lemma keyed_insert_all {A} (key : A → string) xs m m' :
  tbl_insert_all key xs m = Ok m' → keyed key m → keyed key m'.
Proof.
  intros Hall Hk k y Hy. destruct (tbl_insert_all_lookup key xs m m' k y Hall Hy) as [Hold|[_ ?]];
    [exact (Hk k y Hold)|done].
Qed.

Lemma drawn_insert_all {A} (key : A → string) xs m m' n :
  tbl_insert_all key xs m = Ok m' → map_Forall (λ k _, drawn_below n k) m →
  Forall (λ x, drawn_below n (key x)) xs → map_Forall (λ k _, drawn_below n k) m'.
Proof.
  intros Hall Hm Hxs k y Hy. destruct (tbl_insert_all_lookup key xs m m' k y Hall Hy) as [Hold|[Hin <-]].
  - exact (Hm k y Hold).
  - rewrite Forall_forall in Hxs. by apply Hxs.
Qed.

(** A comprehension that draws one key per element: the keys are the
    next ones of the allocator. *)
Lemma h_mapM_draw {A B} (mk : string → A → B) (l : list A) w :
  h_mapM (λ x, let* k := uuid4 in h_ret (mk k x)) l w =
  (Ok (zip_with mk ((λ i, uuid (w_next w + N.of_nat i)%N) <$> seq 0 (List.length l)) l),
   mkWorld (w_db w) (w_next w + N.of_nat (List.length l))%N).
Proof.
  revert w. induction l as [|x l IH]; intros w; simpl.
  { unfold h_ret. destruct w. simpl. by rewrite N.add_0_r. }
  unfold h_bind at 1, uuid4 at 1. simpl. unfold h_bind at 1, h_ret at 1.
  rewrite IH. simpl. unfold h_ret. f_equal.
  - f_equal. f_equal; [by rewrite N.add_0_r|].
    rewrite <-seq_shift, <-list_fmap_compose. f_equal.
    apply list_fmap_ext. intros i j _. simpl. f_equal. lia.
  - f_equal. lia.
Qed.

(** The keys drawn by [h_mapM_draw] are below the allocator it leaves. *)
Lemma drawn_zip_keys {A B} (key : B → string) (mk : string → A → B) n (l : list A) :
  (∀ k x, key (mk k x) = k) →
  Forall (λ y, drawn_below (n + N.of_nat (List.length l))%N (key y))
    (zip_with mk ((λ i, uuid (n + N.of_nat i)%N) <$> seq 0 (List.length l)) l).
Proof.
  intros Hkey. apply Forall_forall. intros y (k & x & -> & Hk & _)%elem_of_zip_with.
  rewrite Hkey. apply list_elem_of_fmap in Hk as (i & -> & Hi%elem_of_seq).
  exists (n + N.of_nat i)%N. split; [done|lia].
Qed.

(** A bulk insert of rows with distinct keys, none of them taken,
    succeeds and adds exactly those rows. *)
Lemma tbl_insert_all_fresh {A} (key : A → string) xs m :
  NoDup (key <$> xs) → (∀ x, x ∈ xs → m !! key x = None) →
  ∃ m', tbl_insert_all key xs m = Ok m' ∧ rows m' ≡ₚ xs ++ rows m.
Proof.
  unfold tbl_insert_all. revert m. induction xs as [|x xs IH]; intros m Hnd Hfree; simpl.
  { by exists m. }
  apply NoDup_cons in Hnd as [Hx Hnd].
  rewrite tbl_insert_free by (apply Hfree, list_elem_of_here). simpl.
  destruct (IH (<[key x := x]> m) Hnd) as (m' & Hall & Hrows).
  { intros y Hy. rewrite lookup_insert_ne.
    - apply Hfree. by apply list_elem_of_further.
    - intros Heq. apply Hx. rewrite Heq. apply list_elem_of_fmap. by exists y. }
  exists m'. split; [done|]. rewrite Hrows, rows_insert by (apply Hfree, list_elem_of_here).
  by rewrite Permutation_middle.
Qed.

(** The keys [h_mapM_draw] draws are distinct. *)
Lemma drawn_keys_NoDup {A B} (key : B → string) (mk : string → A → B) n (l : list A) :
  (∀ k x, key (mk k x) = k) →
  NoDup (key <$> zip_with mk ((λ i, uuid (n + N.of_nat i)%N) <$> seq 0 (List.length l)) l).
Proof.
  intros Hkey. rewrite fmap_zip_with_l by (done || (rewrite length_fmap, length_seq; lia)).
  apply NoDup_fmap_2; [|apply NoDup_seq].
  intros i j Hij%uuid_inj. lia.
Qed.

(** A selection after inserting a matching row under a free key: the old
    matches with the new row somewhere among them. *)
Lemma filter_rows_insert_split {A} (key : A → string) (P : A → Prop) `{∀ x, Decision (P x)}
    (m : gmap string A) k x :
  keyed key m → m !! k = None → key x = k → P x →
  ∃ l1 l2, filter P (rows (<[k := x]> m)) = l1 ++ x :: l2 ∧
    ∀ y, y ∈ l1 → y ∈ filter P (rows m).
Proof.
  intros Hkey Hk Hx HP.
  assert (keyed key (<[k := x]> m)) as Hkey' by (by apply keyed_insert).
  assert (x ∈ filter P (rows (<[k := x]> m))) as Hin.
  { apply list_elem_of_filter. split; [done|]. apply elem_of_rows_iff. exists k. apply lookup_insert_eq. }
  apply list_elem_of_split in Hin as (l1 & l2 & Hl). exists l1, l2. split; [done|].
  intros y Hy. pose proof (NoDup_fmap_filter key P _ (rows_keys_NoDup _ _ Hkey')) as Hnd.
  rewrite Hl, fmap_app, fmap_cons in Hnd.
  assert (y ∈ filter P (rows (<[k := x]> m))) as Hy' by (rewrite Hl; set_solver).
  apply list_elem_of_filter in Hy' as [HPy Hry]. apply list_elem_of_filter. split; [done|].
  rewrite (rows_insert m k x Hk) in Hry. apply elem_of_cons in Hry as [->|?]; [|done].
  exfalso. apply NoDup_app in Hnd as (_ & Hdis & _). apply (Hdis (key x)).
  - apply list_elem_of_fmap. by exists x.
  - apply list_elem_of_here.
Qed.

(** ** A concrete well-formed world

    The library owner ["tracecat"] owns workflow [uuid 0] (a webhook
    action [uuid 1] with its webhook [uuid 4], an HTTP action [uuid 2],
    one edge); user ["u2"] owns an empty workflow [uuid 3].  A run
    [uuid 5] of the library workflow has one action run ["ar-1"] of the
    HTTP action, and ["u2"] holds a secret [uuid 6] named ["api_key"]. *)
Module DemoApi.
Definition user (uid : string) : User := mkUser uid "free" None.

Definition lib_graph : json :=
  JDict [("nodes", JList [JDict [("id", JStr (uuid 1)); ("data", JDict [])];
                          JDict [("id", JStr (uuid 2)); ("data", JDict [])]]);
         ("edges", JList [JDict [("id", JStr (uuid 1 +:+ "-" +:+ uuid 2));
                                 ("source", JStr (uuid 1)); ("target", JStr (uuid 2))]])].

Definition w_lib : Workflow :=
  mkWorkflow (uuid 0) "Phishing triage" "Library workflow" "online"
    (Some (JText lib_graph)) None "tracecat".
Definition act_hook : Action :=
  mkAction (uuid 1) "webhook" "Receive alert" "" "online"
    (Some (JText (JDict [("path", JStr (uuid 4)); ("secret", JStr "sig-4")])))
    (Some (uuid 0)) "tracecat".
Definition act_http : Action :=
  mkAction (uuid 2) "http_request" "Notify" "" "online" (Some (JText (JDict [])))
    (Some (uuid 0)) "tracecat".
Definition empty_graph : json := JDict [("nodes", JList []); ("edges", JList [])].
Definition w_u2 : Workflow :=
  mkWorkflow (uuid 3) "Private" "" "online" (Some (JText empty_graph)) None "u2".
Definition hook : Webhook := mkWebhook (uuid 4) (Some (uuid 1)) (Some (uuid 0)) "tracecat".

Definition run0 : WorkflowRun := mkWorkflowRun (uuid 5) "running" (Some (uuid 0)) "tracecat".
Definition arun0 : ActionRun := mkActionRun "ar-1" "success" (Some (uuid 2)) (uuid 5) "tracecat".
Definition secret0 : Secret := mkSecret (uuid 6) (Some "api_key") (Some "xk-6") "u2".

Definition db : store :=
  mkStore (<["tracecat" := user "tracecat"]> (<["u1" := user "u1"]> (<["u2" := user "u2"]> ∅)))
    (<[uuid 0 := w_lib]> (<[uuid 3 := w_u2]> ∅))
    (<[uuid 1 := act_hook]> (<[uuid 2 := act_http]> ∅))
    (<[uuid 4 := hook]> ∅) (<[uuid 5 := run0]> ∅) (<["ar-1" := arun0]> ∅)
    (<[uuid 6 := secret0]> ∅) ∅ ∅.

Definition world0 : world := mkWorld db 7.

Definition user_u1 : Role := mkRole RoleUser "u1" None.
Definition user_u2 : Role := mkRole RoleUser "u2" None.
(** A webhook signer for the demo: the secret of [uuid 4] is ["sig-4"]. *)
Definition signer : WebhookSigner := {| compute_hash := λ id, "sig-" +:+ id |}.
Definition user_lib : Role := mkRole RoleUser "tracecat" None.
Definition service_u1 : Role := mkRole RoleService "u1" (Some "tracecat-runner").
End DemoApi.

(** Closes [map_Forall] goals over maps built by inserts of drawn keys. *)
Ltac solve_drawn :=
  repeat (apply map_Forall_insert_2;
          [match goal with |- drawn_below _ (uuid ?m) => exists m; split; [done|lia] end|]);
  apply map_Forall_empty.


Lemma demo_world_wf : world_wf DemoApi.world0.
Proof.
  split_and!.
  - apply (bool_decide_unpack _). vm_compute. reflexivity.
  - split_and!; apply (bool_decide_unpack _); vm_compute; reflexivity.
  - cbv [ids_drawn DemoApi.world0 DemoApi.db w_db w_next
         st_workflows st_actions st_webhooks st_workflow_runs st_secrets
         st_case_actions st_case_contexts].
    split_and!; solve_drawn.
Qed.

