(* ===== verification/Cascade.v ===== *)
(** * The delete cascade of a workflow, as one bulk change of the store

    [delete_workflow_rows] (Db.v) follows the ORM: [session.delete] walks
    [Workflow.actions], deleting one action at a time with its webhooks and
    detaching its runs, then deletes the workflow row.  [workflow_deleted]
    states the outcome declaratively, table by table, in terms of the store
    before the delete; [delete_workflow_rows_refines] shows the two agree
    on every store whose action rows sit under their keys.
    [delete_user_rows] nests the workflow cascade in the cascade of
    [User.owned_workflows]; [user_deleted] is its declarative outcome and
    [delete_user_rows_equiv] the equivalence of the two. *)

From S2P Require Import Prelude Identity Db World.

(** Does the foreign key [o] name an action of the workflow [wid]? *)
Definition in_workflow (st : store) (wid : string) (o : option string) : bool :=
  match o ≫= λ aid, st_actions st !! aid with
  | Some a => bool_decide (act_workflow_id a = Some wid)
  | None => false
  end.

(** An action run whose action is gone: [action_id] is NULL. *)
Definition detach_action_run (r : ActionRun) : ActionRun :=
  mkActionRun (ar_id r) (ar_status r) None (ar_workflow_run_id r) (ar_owner_id r).

(** The store once the workflow [wid] is deleted: its row, its actions and
    every webhook of it or of one of its actions are gone; its runs and the
    runs of its actions are detached; nothing else changes. *)
Definition workflow_deleted (wid : string) (st : store) : store :=
  let dead := in_workflow st wid in
  mkStore (st_users st) (delete wid (st_workflows st))
    (filter (λ ka : string * Action, act_workflow_id ka.2 ≠ Some wid) (st_actions st))
    (filter (λ kh : string * Webhook, wh_workflow_id kh.2 ≠ Some wid ∧ dead (wh_action_id kh.2) = false)
       (st_webhooks st))
    (null_workflow_run wid <$> st_workflow_runs st)
    ((λ r, if dead (ar_action_id r) then detach_action_run r else r) <$> st_action_runs st)
    (st_secrets st) (st_case_actions st) (st_case_contexts st).

(** Does the foreign key [o] name one of [ids]? *)
Definition hit (ids : list string) (o : option string) : bool :=
  match o with Some i => bool_decide (i ∈ ids) | None => false end.

(** The workflow of the action a foreign key [o] names, if any. *)
Definition action_wf (st : store) (o : option string) : option string :=
  match o ≫= λ aid, st_actions st !! aid with Some a => act_workflow_id a | None => None end.

(** Does the foreign key [o] name a workflow owned by [uid]? *)
Definition owned_wf (st : store) (uid : string) (o : option string) : bool :=
  match o ≫= λ w, st_workflows st !! w with
  | Some x => bool_decide (wf_owner_id x = uid)
  | None => false
  end.

(** A workflow run whose workflow is gone: [workflow_id] is NULL. *)
Definition detach_workflow_run (r : WorkflowRun) : WorkflowRun :=
  mkWorkflowRun (wr_id r) (wr_status r) None (wr_owner_id r).

(** The store once the user [uid] is deleted: the user row, the user's
    workflows with their actions and webhooks, and the user's secrets are
    gone; the runs of those workflows and actions are detached, and so are
    the case labels that name the user; nothing else changes. *)
Definition user_deleted (uid : string) (st : store) : store :=
  let gone := owned_wf st uid in
  mkStore (delete uid (st_users st))
    (filter (λ kw : string * Workflow, wf_owner_id kw.2 ≠ uid) (st_workflows st))
    (filter (λ ka : string * Action, gone (act_workflow_id ka.2) = false) (st_actions st))
    (filter (λ kh : string * Webhook, gone (wh_workflow_id kh.2) = false ∧
                                      gone (action_wf st (wh_action_id kh.2)) = false) (st_webhooks st))
    ((λ r, if gone (wr_workflow_id r) then detach_workflow_run r else r) <$> st_workflow_runs st)
    ((λ r, if gone (action_wf st (ar_action_id r)) then detach_action_run r else r) <$> st_action_runs st)
    (filter (λ kx : string * Secret, sec_owner_id kx.2 ≠ uid) (st_secrets st))
    (null_case_action uid <$> st_case_actions st) (null_case_context uid <$> st_case_contexts st).

(** ** The cascade over a list of actions *)

Lemma map_filter_ext_1 {A} (P Q : string * A → Prop) `{∀ x, Decision (P x)} `{∀ x, Decision (Q x)}
    (m : gmap string A) :
  (∀ i x, m !! i = Some x → P (i, x) ↔ Q (i, x)) → filter P m = filter Q m.
Proof. apply map_filter_ext. Qed.

(** Deleting one more key from a table filtered by a key list. *)
Lemma delete_filter_cons {A} i ids (m : gmap string A) :
  delete i (filter (λ kx : string * A, kx.1 ∉ ids) m) = filter (λ kx : string * A, kx.1 ∉ i :: ids) m.
Proof.
  apply map_eq. intros k. rewrite map_lookup_filter.
  destruct (decide (k = i)) as [->|Hne].
  - rewrite lookup_delete_eq. destruct (m !! i); simpl; [|done]. case_guard; set_solver.
  - rewrite lookup_delete_ne, map_lookup_filter by done.
    destruct (m !! k); simpl; [|done]. repeat case_guard; set_solver.
Qed.

Lemma hit_cons i ids o : hit (i :: ids) o = false ↔ o ≠ Some i ∧ hit ids o = false.
Proof.
  destruct o as [k|]; simpl; [|naive_solver].
  rewrite !bool_decide_eq_false, elem_of_cons. naive_solver.
Qed.

Lemma null_detach i ids r :
  null_action_run i (if hit ids (ar_action_id r) then detach_action_run r else r) =
  if hit (i :: ids) (ar_action_id r) then detach_action_run r else r.
Proof.
  unfold null_action_run, detach_action_run, hit.
  destruct r as [? ? [k|] ? ?]; simpl; [|done].
  destruct (decide (k ∈ ids)) as [Hk|Hk].
  - rewrite !bool_decide_true by set_solver. by case_decide.
  - rewrite (bool_decide_false (k ∈ ids)) by done.
    destruct (decide (k = i)) as [->|Hne].
    + rewrite decide_True, bool_decide_true by set_solver. done.
    + rewrite decide_False, bool_decide_false by set_solver. done.
Qed.

Lemma foldr_delete_actions ids st :
  foldr delete_action_rows st ids =
  mkStore (st_users st) (st_workflows st)
    (filter (λ ka : string * Action, ka.1 ∉ ids) (st_actions st))
    (filter (λ kh : string * Webhook, hit ids (wh_action_id kh.2) = false) (st_webhooks st))
    (st_workflow_runs st)
    ((λ r, if hit ids (ar_action_id r) then detach_action_run r else r) <$> st_action_runs st)
    (st_secrets st) (st_case_actions st) (st_case_contexts st).
Proof.
  induction ids as [|i ids IH]; simpl.
  - destruct st; simpl. f_equal.
    + symmetry. apply map_filter_id. intros. apply not_elem_of_nil.
    + symmetry. apply map_filter_id. by intros ? [? [?|] ? ?] _.
    + symmetry. etrans; [|apply map_fmap_id]. apply map_fmap_ext.
      by intros ? [? ? [?|] ? ?] _.
  - rewrite IH. unfold delete_action_rows, set_action_runs, set_webhooks, set_actions. simpl. f_equal.
    + apply delete_filter_cons.
    + rewrite map_filter_filter. apply map_filter_ext_1. intros k h _. simpl.
      rewrite hit_cons. naive_solver.
    + rewrite <-map_fmap_compose. apply map_fmap_ext. intros k r _. apply null_detach.
Qed.

(** Under key-consistent action rows, the keys of a workflow's actions
    are the keys whose row belongs to it. *)
Lemma workflow_action_keys st wid k :
  keyed act_id (st_actions st) →
  k ∈ act_id <$> workflow_actions st wid ↔
  ∃ a, st_actions st !! k = Some a ∧ act_workflow_id a = Some wid.
Proof.
  intros Hkey. unfold workflow_actions. rewrite list_elem_of_fmap. split.
  - intros (a & -> & [Hw [k' Hk']%elem_of_rows_iff]%list_elem_of_filter).
    exists a. rewrite (Hkey _ _ Hk'). done.
  - intros (a & Hk & Hw). exists a. split; [exact (eq_sym (Hkey _ _ Hk))|].
    apply list_elem_of_filter. split; [done|]. apply elem_of_rows_iff. by exists k.
Qed.

Lemma hit_workflow_actions st wid o :
  keyed act_id (st_actions st) →
  hit (act_id <$> workflow_actions st wid) o = in_workflow st wid o.
Proof.
  intros Hkey. unfold hit, in_workflow. destruct o as [k|]; simpl; [|done].
  destruct (st_actions st !! k) as [a|] eqn:Hk.
  - apply bool_decide_ext. rewrite workflow_action_keys by done. naive_solver.
  - apply bool_decide_false. rewrite workflow_action_keys by done. naive_solver.
Qed.

(** ** Refinement *)

(** The workflow cascade, as one bulk change. *)
Lemma delete_workflow_rows_eq wid st :
  keyed act_id (st_actions st) → delete_workflow_rows wid st = workflow_deleted wid st.
Proof.
  intros Hkey. unfold delete_workflow_rows, delete_workflow_row, workflow_deleted,
    set_workflow_runs, set_webhooks, set_workflows.
  rewrite foldr_delete_actions. simpl. f_equal.
  - apply map_filter_ext_1. intros k a Hk. simpl.
    rewrite workflow_action_keys by done. naive_solver.
  - rewrite map_filter_filter. apply map_filter_ext_1. intros k h _. simpl.
    rewrite hit_workflow_actions by done. naive_solver.
  - apply map_fmap_ext. intros k r _. by rewrite hit_workflow_actions.
Qed.

(** C40. Deleting a workflow the way the ORM does (each action of
    [workflow.actions] with its cascades, then the workflow row) yields
    exactly the declarative [workflow_deleted]: the workflow, its actions
    and their webhooks are gone, its runs and its actions' runs are
    detached, and no other row changes. *)
Theorem delete_workflow_rows_refines wid st :
  keyed act_id (st_actions st) → delete_workflow_rows wid st = workflow_deleted wid st.
Proof. apply delete_workflow_rows_eq. Qed.

(** ** The cascade over a list of workflows *)

Lemma hit_nil o : hit [] o = false.
Proof. by destruct o. Qed.

Lemma hit_cons_true i ids o : hit ids o = true → hit (i :: ids) o = true.
Proof.
  destruct o as [k|]; simpl; [|done]. rewrite !bool_decide_eq_true. set_solver.
Qed.

Lemma hit_cons_bool i ids o : hit (i :: ids) o = (bool_decide (o = Some i) || hit ids o)%bool.
Proof.
  destruct o as [k|]; simpl; [|done].
  apply eq_bool_prop_intro. rewrite orb_True, !bool_decide_spec, elem_of_cons. naive_solver.
Qed.

Lemma null_detach_run i ids r :
  null_workflow_run i (if hit ids (wr_workflow_id r) then detach_workflow_run r else r) =
  if hit (i :: ids) (wr_workflow_id r) then detach_workflow_run r else r.
Proof.
  unfold null_workflow_run, detach_workflow_run, hit.
  destruct r as [? ? [k|] ?]; simpl; [|done].
  destruct (decide (k ∈ ids)) as [Hk|Hk].
  - rewrite !bool_decide_true by set_solver. by case_decide.
  - rewrite (bool_decide_false (k ∈ ids)) by done.
    destruct (decide (k = i)) as [->|Hne].
    + rewrite decide_True, bool_decide_true by set_solver. done.
    + rewrite decide_False, bool_decide_false by set_solver. done.
Qed.

(** After deleting the workflows [ws], an action that survives belongs to
    the same workflow as before. *)
Lemma in_workflow_survivor st S ws w o :
  st_actions S = filter (λ ka : string * Action, hit ws (act_workflow_id ka.2) = false) (st_actions st) →
  in_workflow S w o =
  (if hit ws (action_wf st o) then false else bool_decide (action_wf st o = Some w)).
Proof.
  intros HS. unfold in_workflow, action_wf. rewrite HS.
  destruct o as [k|]; simpl; [|done]. rewrite map_lookup_filter.
  destruct (st_actions st !! k) as [a|]; simpl; [|done].
  case_guard as Hg; simpl.
  - rewrite Hg. done.
  - apply not_false_is_true in Hg. by rewrite Hg.
Qed.

Lemma foldr_delete_workflows ws st :
  keyed act_id (st_actions st) →
  foldr delete_workflow_rows st ws =
  mkStore (st_users st)
    (filter (λ kw : string * Workflow, kw.1 ∉ ws) (st_workflows st))
    (filter (λ ka : string * Action, hit ws (act_workflow_id ka.2) = false) (st_actions st))
    (filter (λ kh : string * Webhook, hit ws (wh_workflow_id kh.2) = false ∧
                                      hit ws (action_wf st (wh_action_id kh.2)) = false) (st_webhooks st))
    ((λ r, if hit ws (wr_workflow_id r) then detach_workflow_run r else r) <$> st_workflow_runs st)
    ((λ r, if hit ws (action_wf st (ar_action_id r)) then detach_action_run r else r) <$> st_action_runs st)
    (st_secrets st) (st_case_actions st) (st_case_contexts st).
Proof.
  intros Hkey. induction ws as [|w ws IH]; simpl.
  - destruct st; simpl. f_equal.
    + symmetry. apply map_filter_id. intros. apply not_elem_of_nil.
    + symmetry. apply map_filter_id. intros. apply hit_nil.
    + symmetry. apply map_filter_id. intros. simpl. by rewrite !hit_nil.
    + symmetry. etrans; [|apply map_fmap_id]. apply map_fmap_ext. intros. by rewrite hit_nil.
    + symmetry. etrans; [|apply map_fmap_id]. apply map_fmap_ext. intros. by rewrite hit_nil.
  - rewrite IH, delete_workflow_rows_eq by (simpl; by apply keyed_filter).
    unfold workflow_deleted. simpl. f_equal.
    + apply delete_filter_cons.
    + rewrite map_filter_filter. apply map_filter_ext_1. intros k a _. simpl.
      rewrite hit_cons. naive_solver.
    + rewrite map_filter_filter. apply map_filter_ext_1. intros k h _. simpl.
      rewrite (in_workflow_survivor st _ ws) by reflexivity. rewrite !hit_cons.
      destruct (hit ws (action_wf st (wh_action_id h))); [naive_solver|].
      rewrite bool_decide_eq_false. naive_solver.
    + rewrite <-map_fmap_compose. apply map_fmap_ext. intros k r _. apply null_detach_run.
    + rewrite <-map_fmap_compose. apply map_fmap_ext. intros k r _. simpl.
      destruct (hit ws (action_wf st (ar_action_id r))) eqn:Hh.
      * rewrite (hit_cons_true _ _ _ Hh). unfold detach_action_run, in_workflow. done.
      * rewrite (in_workflow_survivor st _ ws) by reflexivity. rewrite Hh, hit_cons_bool, Hh, orb_false_r. done.
Qed.

Lemma owned_workflow_keys st uid k :
  keyed wf_id (st_workflows st) →
  k ∈ wf_id <$> owned_workflows st uid ↔
  ∃ x, st_workflows st !! k = Some x ∧ wf_owner_id x = uid.
Proof.
  intros Hkey. unfold owned_workflows. rewrite list_elem_of_fmap. split.
  - intros (x & -> & [Hw [k' Hk']%elem_of_rows_iff]%list_elem_of_filter).
    exists x. rewrite (Hkey _ _ Hk'). done.
  - intros (x & Hk & Hw). exists x. split; [exact (eq_sym (Hkey _ _ Hk))|].
    apply list_elem_of_filter. split; [done|]. apply elem_of_rows_iff. by exists k.
Qed.

Lemma hit_owned st uid o :
  keyed wf_id (st_workflows st) →
  hit (wf_id <$> owned_workflows st uid) o = owned_wf st uid o.
Proof.
  intros Hkey. unfold hit, owned_wf. destruct o as [k|]; simpl; [|done].
  destruct (st_workflows st !! k) as [x|] eqn:Hk.
  - apply bool_decide_ext. rewrite owned_workflow_keys by done. naive_solver.
  - apply bool_decide_false. rewrite owned_workflow_keys by done. naive_solver.
Qed.

(** ** Equivalence *)

(** C33. Deleting a user the way the ORM does (each owned workflow with its
    cascade of actions, then the user row with its secrets) is equivalent
    to the declarative [user_deleted]: exactly the user, the user's
    workflows, their actions and webhooks (also those attached to another
    workflow through one of the actions), and the user's secrets go; the
    runs of the deleted workflows and actions and the case labels naming
    the user are detached; no other row changes. *)
Theorem delete_user_rows_equiv uid st :
  keyed act_id (st_actions st) → keyed wf_id (st_workflows st) →
  delete_user_rows uid st = user_deleted uid st.
Proof.
  intros Ka Kw. unfold delete_user_rows, delete_user_row, user_deleted,
    set_case_contexts, set_case_actions, set_secrets, set_users.
  rewrite foldr_delete_workflows by done. simpl. f_equal.
  - apply map_filter_ext_1. intros k x Hk. simpl.
    rewrite owned_workflow_keys by done. naive_solver.
  - apply map_filter_ext_1. intros k a _. simpl. by rewrite hit_owned.
  - apply map_filter_ext_1. intros k h _. simpl. by rewrite !hit_owned.
  - apply map_fmap_ext. intros k r _. by rewrite hit_owned.
  - apply map_fmap_ext. intros k r _. by rewrite hit_owned.
Qed.

(** Witness of C40: deleting the library workflow of the demo store. *)
Lemma delete_workflow_rows_refines_witness :
  keyed act_id (st_actions DemoApi.db) ∧
  delete_workflow_rows (uuid 0) DemoApi.db = workflow_deleted (uuid 0) DemoApi.db.
Proof.
  assert (keyed act_id (st_actions DemoApi.db)) as Hk.
  { apply (bool_decide_unpack _). vm_compute. reflexivity. }
  split; [exact Hk|]. exact (delete_workflow_rows_refines (uuid 0) DemoApi.db Hk).
Defined.

(** Witness of C33: deleting the user ["u2"] of the demo store. *)
Lemma delete_user_rows_equiv_witness :
  keyed act_id (st_actions DemoApi.db) ∧ keyed wf_id (st_workflows DemoApi.db) ∧
  delete_user_rows "u2" DemoApi.db = user_deleted "u2" DemoApi.db.
Proof.
  assert (keyed act_id (st_actions DemoApi.db)) as Ka.
  { apply (bool_decide_unpack _). vm_compute. reflexivity. }
  assert (keyed wf_id (st_workflows DemoApi.db)) as Kw.
  { apply (bool_decide_unpack _). vm_compute. reflexivity. }
  split_and!; [exact Ka|exact Kw|]. exact (delete_user_rows_equiv "u2" DemoApi.db Ka Kw).
Defined.
