(* ===== verification/Workflows.v ===== *)
(** * The workflow endpoints of [src/tracecat/api/app.py]

    [copy_workflow] (POST /workflows/{id}/copy) is the entry point of the
    clone engine: it authorizes the caller, selects the source workflow,
    runs [clone_workflow] in the session and commits.  The other
    handlers list, create, read, update and delete workflows. *)

From S2P Require Import Prelude Json Identity Db Responses Clone Auth World.

Section Copy.
Context `{WebhookSigner}.

(** [copy_workflow(role, workflow_id, params)], lines 287-320;
    [params] is the optional [CopyWorkflowParams.owner_id]. *)
Definition copy_workflow (role : Role) (workflow_id : string) (params : option string)
    : handler unit :=
  λ w,
  if decide (role_type role = RoleUser ∧ is_Some params) then
    (Err (HTTPException 403 "Users can only clone tracecat workflows"), w)
  else
    let owner_id := default "tracecat" params in
    match select_owned wf_owner_id (st_workflows (w_db w)) owner_id workflow_id with
    | None => (not_found, w)
    | Some workflow =>
        match clone_workflow workflow (workflow_actions (w_db w) (wf_id workflow))
                (role_user_id role) (mkCloneSt (w_next w) []) with
        | Err e => (Err e, w)
        | Ok (_, cs) =>
            match commit (cs_added cs) (w_db w) with
            | Ok db' => (Ok tt, mkWorld db' (cs_next cs))
            | Err e => (Err e, w)
            end
        end
    end.
End Copy.

(** ** Listing, creating, reading, updating and deleting workflows *)

(** [select(Workflow).where(Workflow.owner_id == role.user_id,
    Workflow.id == workflow_id)] then [one()], a missing row a 404. *)
Definition select_workflow (st : store) (role : Role) (workflow_id : string) : result Workflow :=
  one_or_404 "Resource not found"
    (filter (λ w, wf_owner_id w = role_user_id role ∧ wf_id w = workflow_id) (rows (st_workflows st))).

(** [list_workflows(role, library)]: the caller's workflows, or the
    library's. *)
Definition list_workflows (role : Role) (library : bool) : handler (list WorkflowMetadataResponse) :=
  let query_user_id := if library then "tracecat" else role_user_id role in
  let* st := h_read id in
  h_ret (workflow_metadata <$> filter (λ w, wf_owner_id w = query_user_id) (rows (st_workflows st))).

(** [create_workflow(role, params)]: a new offline workflow without a
    graph, owned by the caller. *)
Definition create_workflow (role : Role) (params : CreateWorkflowParams)
    : handler WorkflowMetadataResponse :=
  let* wid := uuid4 in
  let workflow := mkWorkflow wid (cwp_title params) (cwp_description params) "offline"
                    None None (role_user_id role) in
  let* _ := h_commit (λ st, m ← tbl_insert wid workflow (st_workflows st);
                            Ok (set_workflows m st)) in
  h_ret (workflow_metadata workflow).

Section Get.
Context `{ActionTypes}.

(** The [ActionResponse] of an action row in [get_workflow]:
    [inputs=json.loads(action.inputs) if action.inputs else None]. *)
Definition workflow_action_response (action : Action) : result (string * ActionResponse) :=
  inputs ← (if text_truthy (act_inputs action) then Some <$> loads (act_inputs action) else Ok None);
  r ← validate_action_response (act_id action) (act_type action) (act_title action)
        (act_description action) (act_status action) inputs (Action_key action);
  Ok (act_id action, r).

(** [get_workflow(role, workflow_id)]: the caller's workflow, its graph
    document and every action whose [workflow_id] is the workflow's. *)
Definition get_workflow (role : Role) (workflow_id : string) : handler WorkflowResponse :=
  let* st := h_read id in
  let* workflow := h_lift (select_workflow st role workflow_id) in
  let actions := filter (λ a, act_workflow_id a = Some workflow_id) (rows (st_actions st)) in
  let* object := h_lift (match wf_object workflow with
                         | Some t => Some <$> loads (Some t)
                         | None => Ok None
                         end) in
  let* actions_responses := h_lift (mapM workflow_action_response actions) in
  let* object' := h_lift (as_opt_dict object) in
  h_ret (mkWorkflowResponse (wf_id workflow) (wf_title workflow) (wf_description workflow)
           (wf_status workflow) actions_responses object' (wf_owner_id workflow)).
End Get.

(** The assignments of [update_workflow]: each field given replaces the
    stored one. *)
Definition apply_workflow_update (params : UpdateWorkflowParams) (w : Workflow) : Workflow :=
  mkWorkflow (wf_id w) (default (wf_title w) (uwp_title params))
    (default (wf_description w) (uwp_description params))
    (default (wf_status w) (uwp_status params))
    (match uwp_object params with Some o => Some o | None => wf_object w end)
    (wf_icon_url w) (wf_owner_id w).

(** [update_workflow(role, workflow_id, params)]. *)
Definition update_workflow (role : Role) (workflow_id : string) (params : UpdateWorkflowParams)
    : handler unit :=
  let* st := h_read id in
  let* workflow := h_lift (select_workflow st role workflow_id) in
  let workflow' := apply_workflow_update params workflow in
  h_commit (λ st, Ok (set_workflows (<[wf_id workflow' := workflow']> (st_workflows st)) st)).

(** [delete_workflow(role, workflow_id)]: [session.delete(workflow)] with
    its cascades. *)
Definition delete_workflow (role : Role) (workflow_id : string) : handler unit :=
  let* st := h_read id in
  let* workflow := h_lift (select_workflow st role workflow_id) in
  h_commit (λ st, Ok (delete_workflow_rows (wf_id workflow) st)).

(** ** Committing the rows of a clone *)

Lemma keys_consistent_add_rows st rs :
  keys_consistent st → keys_consistent (foldl add_row st rs).
Proof.
  revert st. induction rs as [|r rs IH]; intros st Hk; simpl; [done|].
  apply IH. destruct Hk as (K1 & K2 & K3 & K4 & K5 & K6 & K7 & K8 & K9).
  destruct r; simpl; split_and!; try done; by apply map_Forall_insert_2.
Qed.

Section CommitClone.
Context `{WebhookSigner}.

(** The rows of a clone started at the allocator of a well-formed world
    have pairwise distinct keys that no table uses, so they insert without
    conflict. *)
Lemma clone_insert w wf acts o cw cs :
  world_wf w → clone_workflow wf acts o (mkCloneSt (w_next w) []) = Ok (cw, cs) →
  insert_rows (w_db w) (cs_added cs) = Ok (foldl add_row (w_db w) (cs_added cs)) ∧
  Forall (key_unused (w_db w)) (row_pk <$> cs_added cs) ∧ NoDup (row_pk <$> cs_added cs).
Proof.
  intros (_ & _ & Hids) Hrun.
  destruct (clone_fresh _ _ _ _ _ _ Hrun) as [(_ & rs & Hrs & HF & Hnd) _].
  simpl in Hrs. rewrite Hrs.
  assert (Forall (key_unused (w_db w)) (row_pk <$> rs)) as Hu.
  { apply Forall_fmap. eapply Forall_impl; [exact HF|].
    intros r (k & Hk & ? & _). unfold compose. rewrite Hk. by apply ids_drawn_unused. }
  split_and!; [|done|done]. by apply insert_rows_fresh.
Qed.

(** When the new owner is a user, the rows of the clone also keep the
    foreign keys, so the commit succeeds. *)
Lemma commit_clone w wf acts o cw cs :
  world_wf w → is_Some (st_users (w_db w) !! o) →
  clone_workflow wf acts o (mkCloneSt (w_next w) []) = Ok (cw, cs) →
  commit (cs_added cs) (w_db w) = Ok (foldl add_row (w_db w) (cs_added cs)).
Proof.
  intros Hwf Ho Hrun. destruct (clone_insert _ _ _ _ _ _ Hwf Hrun) as (Hins & Hu & Hnd).
  destruct Hwf as (Hfk & _ & _).
  unfold commit, flush. rewrite Hins. cbn.
  rewrite decide_True; [done|]. apply fk_ok_add_rows; [done|done|done|].
  destruct (clone_links _ _ _ _ _ _ Hrun) as (rs & Hrs & Hcw & HA & HW).
  destruct (clone_rows _ _ _ _ _ _ Hrun) as (rs' & Hrs' & Hwf & Hown & _).
  simpl in Hrs, Hrs'. rewrite Hrs in Hrs', Hu, Hnd |- *. subst rs'.
  destruct (add_rows_preserve _ _ Hu Hnd) as (_ & _ & _ & Husers & _).
  apply Forall_forall. intros [x|a|h] Hr; simpl.
  - assert (x ∈ row_workflows rs) as Hx by (apply list_elem_of_omap; eauto).
    rewrite Hwf, list_elem_of_singleton in Hx. subst. by rewrite Husers.
  - assert (a ∈ row_actions rs) as Ha by (apply list_elem_of_omap; eauto).
    rewrite Forall_forall in HA. rewrite (HA _ Ha). simpl.
    eexists. exact (add_rows_mem _ _ _ Hnd Hcw).
  - assert (h ∈ row_webhooks rs) as Hh by (apply list_elem_of_omap; eauto).
    rewrite Forall_forall in HW. destruct (HW _ Hh) as (-> & _ & a' & Ha' & -> & _). simpl.
    split; eexists; [|exact (add_rows_mem _ _ _ Hnd Hcw)].
    apply (add_rows_mem _ _ (RAction a') Hnd).
    apply list_elem_of_omap in Ha' as ([] & ? & ?); simplify_eq/=; done.
Qed.

(** The world after committing a clone is well formed again. *)
Lemma world_wf_add_clone w wf acts o cw cs db' :
  world_wf w → clone_workflow wf acts o (mkCloneSt (w_next w) []) = Ok (cw, cs) →
  commit (cs_added cs) (w_db w) = Ok db' →
  db' = foldl add_row (w_db w) (cs_added cs) ∧ world_wf (mkWorld db' (cs_next cs)).
Proof.
  intros Hwf Hrun Hc. destruct (clone_insert _ _ _ _ _ _ Hwf Hrun) as (Hins & Hu & Hnd).
  unfold commit, flush in Hc. rewrite Hins in Hc. cbn in Hc.
  case_decide as Hfk; [|done]. injection Hc as <-. split; [done|].
  destruct Hwf as (_ & Hkeys & Hids).
  destruct (clone_fresh _ _ _ _ _ _ Hrun) as [(Hle & rs & Hrs & HF & _) _].
  simpl in Hle, Hrs. rewrite Hrs in Hu, Hnd, Hfk |- *.
  pose proof (keys_consistent_add_rows _ rs Hkeys) as Hkeys'.
  split_and!; [done|done|].
  destruct (add_rows_lookup (w_db w) rs) as (L1 & L2 & L3).
  destruct (add_rows_others (w_db w) rs) as (_ & Hruns & _ & Hsec & Hca & Hcc).
  destruct Hkeys' as (_ & K2 & K3 & K4 & _).
  destruct Hids as (D1 & D2 & D3 & D4 & D5 & D6 & D7). rewrite Forall_forall in HF.
  split_and!; simpl; [intros k x Hk..| | | |].
  - destruct (L1 k x Hk) as [Hin|Hold].
    + rewrite <-(K2 k x Hk). destruct (HF _ Hin) as (m & Hm & _ & ?). exists m. done.
    + eapply drawn_below_mono, (D1 k x Hold). lia.
  - destruct (L2 k x Hk) as [Hin|Hold].
    + rewrite <-(K3 k x Hk). destruct (HF _ Hin) as (m & Hm & _ & ?). exists m. done.
    + eapply drawn_below_mono, (D2 k x Hold). lia.
  - destruct (L3 k x Hk) as [Hin|Hold].
    + rewrite <-(K4 k x Hk). destruct (HF _ Hin) as (m & Hm & _ & ?). exists m. done.
    + eapply drawn_below_mono, (D3 k x Hold). lia.
  - rewrite Hruns. intros k x Hk. eapply drawn_below_mono, (D4 k x Hk). lia.
  - rewrite Hsec. intros k x Hk. eapply drawn_below_mono, (D5 k x Hk). lia.
  - rewrite Hca. intros k x Hk. eapply drawn_below_mono, (D6 k x Hk). lia.
  - rewrite Hcc. intros k x Hk. eapply drawn_below_mono, (D7 k x Hk). lia.
Qed.
End CommitClone.

Section CopyTheorems.
Context `{WebhookSigner}.

Lemma copy_workflow_Ok role wid params w w' :
  copy_workflow role wid params w = (Ok tt, w') →
  ¬ (role_type role = RoleUser ∧ is_Some params) ∧
  ∃ src cw cs db',
    select_owned wf_owner_id (st_workflows (w_db w)) (default "tracecat" params) wid = Some src ∧
    clone_workflow src (workflow_actions (w_db w) (wf_id src)) (role_user_id role)
      (mkCloneSt (w_next w) []) = Ok (cw, cs) ∧
    commit (cs_added cs) (w_db w) = Ok db' ∧ w' = mkWorld db' (cs_next cs).
Proof.
  unfold copy_workflow. case_decide; [done|]. intros Hc. split; [done|].
  destruct (select_owned _ _ _ _) as [src|]; [|done].
  destruct (clone_workflow _ _ _ _) as [[cw cs]|e] eqn:Hrun; [|done].
  destruct (commit _ _) as [db'|e] eqn:Hcommit; [|done].
  injection Hc as <-. eauto 10.
Qed.

(** C8. [copy_workflow] keeps the world invariant: foreign keys, rows
    under their own keys, generated keys drawn from the allocator. *)
Theorem copy_workflow_preserves_wf role wid params w r w' :
  world_wf w → copy_workflow role wid params w = (r, w') → world_wf w'.
Proof.
  intros Hwf. unfold copy_workflow. case_decide; [by intros [= _ <-]|].
  destruct (select_owned _ _ _ _) as [src|]; [|by intros [= _ <-]].
  destruct (clone_workflow _ _ _ _) as [[cw cs]|e] eqn:Hrun; [|by intros [= _ <-]].
  destruct (commit _ _) as [db'|e] eqn:Hcommit; [|by intros [= _ <-]].
  intros [= _ <-]. exact (proj2 (world_wf_add_clone _ _ _ _ _ _ _ Hwf Hrun Hcommit)).
Qed.

(** C9. A successful copy leaves every existing row in place, changes
    no user and no run, and adds a fresh workflow owned by the caller. *)
Theorem copy_workflow_isolation role wid params w w' :
  world_wf w → copy_workflow role wid params w = (Ok tt, w') →
  store_incl (w_db w) (w_db w') ∧
  st_users (w_db w') = st_users (w_db w) ∧
  st_workflow_runs (w_db w') = st_workflow_runs (w_db w) ∧
  st_action_runs (w_db w') = st_action_runs (w_db w) ∧
  ∃ cw, st_workflows (w_db w) !! wf_id cw = None ∧ st_workflows (w_db w') !! wf_id cw = Some cw ∧
        wf_owner_id cw = role_user_id role ∧ wf_status cw = "offline".
Proof.
  intros Hwf (_ & src & cw & cs & db' & _ & Hrun & Hcommit & ->)%copy_workflow_Ok.
  destruct (world_wf_add_clone _ _ _ _ _ _ _ Hwf Hrun Hcommit) as [-> _].
  destruct (clone_insert _ _ _ _ _ _ Hwf Hrun) as (_ & Hu & Hnd).
  destruct (add_rows_preserve _ _ Hu Hnd) as (_ & _ & _ & Hus & Hwr & Har).
  pose proof (add_rows_incl _ _ Hu Hnd) as Hincl. simpl.
  split_and!; [done|done|done|done|].
  destruct (clone_links _ _ _ _ _ _ Hrun) as (rs & Hrs & Hcw & _).
  destruct (clone_rows _ _ _ _ _ _ Hrun) as (? & _ & _ & Hown & Hst & _).
  simpl in Hrs. rewrite Hrs in Hu, Hnd |- *.
  exists cw. split_and!; [|exact (add_rows_mem _ _ _ Hnd Hcw)|done|done].
  rewrite Forall_forall in Hu. apply (Hu (wf_id cw)).
  apply list_elem_of_fmap. exists (RWorkflow cw). done.
Qed.

(** C10. A user can only copy from the library: a successful copy by a
    user role had no [owner_id] parameter and its source workflow is
    owned by ["tracecat"]. *)
Theorem copy_workflow_user_library_only role wid params w w' :
  role_type role = RoleUser → copy_workflow role wid params w = (Ok tt, w') →
  params = None ∧ ∃ src, st_workflows (w_db w) !! wid = Some src ∧ wf_owner_id src = "tracecat".
Proof.
  intros Hu (Hnot & src & _ & _ & _ & Hsel & _)%copy_workflow_Ok.
  destruct params as [p|]; [exfalso; apply Hnot; by split|].
  split; [done|]. exists src. by apply select_owned_Some in Hsel.
Qed.

(** C11. A copy succeeds when it is authorized (not a user role with an
    [owner_id] parameter), the source is owned by the requested owner
    (["tracecat"] by default), its actions are clonable, its graph is
    well formed, and the caller's user has a row in [user].  A service
    role may name any owner. *)
Theorem copy_workflow_succeeds role wid params w src g :
  world_wf w → is_Some (st_users (w_db w) !! role_user_id role) →
  ¬ (role_type role = RoleUser ∧ is_Some params) →
  st_workflows (w_db w) !! wid = Some src → wf_owner_id src = default "tracecat" params →
  Forall action_clonable (workflow_actions (w_db w) wid) →
  wf_object src = Some (JText g) →
  graph_wellformed (act_id <$> workflow_actions (w_db w) wid) g →
  ∃ w', copy_workflow role wid params w = (Ok tt, w').
Proof.
  intros Hwf Hu Hauth Hsrc Hown Hacts Hobj Hg.
  assert (wf_id src = wid) as Hid.
  { destruct Hwf as (_ & (_ & K & _) & _). exact (K _ _ Hsrc). }
  destruct (clone_total src (workflow_actions (w_db w) wid) (role_user_id role)
              (mkCloneSt (w_next w) []) g Hacts Hobj Hg) as (cw & cs & Hrun).
  unfold copy_workflow. rewrite decide_False by done.
  cbv zeta. unfold select_owned. rewrite Hsrc, decide_True by done.
  rewrite Hid, Hrun, (commit_clone _ _ _ _ _ _ Hwf Hu Hrun). by eexists.
Qed.

(** C12. Every failing copy leaves the world as it was: a refused or
    missing source, an exception of the clone, a failed commit. *)
Theorem copy_workflow_atomic role wid params w e w' :
  copy_workflow role wid params w = (Err e, w') → w' = w.
Proof.
  unfold copy_workflow. case_decide; [by intros [= _ <-]|].
  destruct (select_owned _ _ _ _) as [src|]; [|by intros [= _ <-]].
  destruct (clone_workflow _ _ _ _) as [[cw cs]|e'] eqn:Hrun; [|by intros [= _ <-]].
  destruct (commit _ _) as [db'|e'] eqn:Hcommit; [done|by intros [= _ <-]].
Qed.
End CopyTheorems.

(** ** The other workflow endpoints *)

Lemma select_workflow_eq st role wid :
  keyed wf_id (st_workflows st) →
  select_workflow st role wid =
  of_option (HTTPException 404 "Resource not found")
    (select_owned wf_owner_id (st_workflows st) (role_user_id role) wid).
Proof. apply select_owner_key. Qed.

(** The row [create_workflow] inserts when the allocator stands at [n]. *)
Definition created_workflow (role : Role) (params : CreateWorkflowParams) (n : N) : Workflow :=
  mkWorkflow (uuid n) (cwp_title params) (cwp_description params) "offline" None None
    (role_user_id role).

(** C26. [create_workflow] by a caller with a user row answers the
    metadata of a new offline workflow without a graph, stored under the
    next drawn key and owned by the caller, and keeps the invariant. *)
Theorem create_workflow_spec role params w :
  world_wf w → is_Some (st_users (w_db w) !! role_user_id role) →
  ∃ w', create_workflow role params w =
          (Ok (workflow_metadata (created_workflow role params (w_next w))), w') ∧
    st_workflows (w_db w') =
      <[uuid (w_next w) := created_workflow role params (w_next w)]> (st_workflows (w_db w)) ∧
    world_wf w'.
Proof.
  intros Hwf Hu.
  pose proof (world_wf_insert_workflow w (created_workflow role params (w_next w)) Hwf eq_refl Hu)
    as Hwf'.
  destruct Hwf as (_ & _ & Hids).
  destruct (ids_drawn_unused w (w_next w) Hids (reflexivity _)) as (Hfree & _).
  eexists. unfold create_workflow, h_bind, uuid4. rewrite h_commit_eq. cbn.
  rewrite tbl_insert_free by done. cbn. rewrite decide_True by apply Hwf'. split; [reflexivity|]. split; [done|exact Hwf'].
Qed.


(** Without a [user] row for the caller the foreign key
    [workflow.owner_id] fails: the insert is rolled back. *)
Theorem create_workflow_no_user role params w :
  st_users (w_db w) !! role_user_id role = None →
  create_workflow role params w = (Err IntegrityError, mkWorld (w_db w) (N.succ (w_next w))).
Proof.
  intros Hu. unfold create_workflow, h_bind, uuid4. rewrite h_commit_eq. cbn.
  unfold tbl_insert. case_decide; cbn; [done|]. rewrite decide_False; [done|].
  intros (F1 & _). specialize (F1 (uuid (w_next w))). simpl in F1.
  rewrite lookup_insert_eq in F1. destruct (F1 _ eq_refl) as [? Hx]. simpl in Hx. congruence.
Qed.

(** C24. A successful [delete_workflow] deleted a workflow of the caller;
    afterwards no action, webhook or workflow run refers to it, and the
    invariant holds. *)
Theorem delete_workflow_cascade role wid w w' :
  world_wf w → delete_workflow role wid w = (Ok tt, w') →
  (∃ x, st_workflows (w_db w) !! wid = Some x ∧ wf_owner_id x = role_user_id role) ∧
  world_wf w' ∧ st_workflows (w_db w') !! wid = None ∧
  map_Forall (λ _ a, act_workflow_id a ≠ Some wid) (st_actions (w_db w')) ∧
  map_Forall (λ _ h, wh_workflow_id h ≠ Some wid) (st_webhooks (w_db w')) ∧
  map_Forall (λ _ r, wr_workflow_id r ≠ Some wid) (st_workflow_runs (w_db w')).
Proof.
  intros Hwf. pose proof Hwf as (_ & (_ & Kw & Ka & _) & _).
  unfold delete_workflow, h_bind, h_read, h_lift. cbn. rewrite select_workflow_eq by done.
  destruct (select_owned _ _ _ _) as [x|] eqn:Hsel; cbn; [|discriminate].
  apply select_owned_Some in Hsel as [Hx Hown]. assert (wf_id x = wid) as <- by exact (Kw _ _ Hx).
  rewrite h_commit_eq. cbn. rewrite decide_True by (apply delete_workflow_rows_fk; apply Hwf).
  intros [= <-]. split; [by exists x|]. split; [by apply delete_workflow_rows_wf|].
  by apply delete_workflow_rows_gone.
Qed.

Theorem update_workflow_spec role wid params w w' :
  world_wf w → update_workflow role wid params w = (Ok tt, w') →
  ∃ x, select_owned wf_owner_id (st_workflows (w_db w)) (role_user_id role) wid = Some x ∧
    w_db w' = set_workflows (<[wid := apply_workflow_update params x]> (st_workflows (w_db w)))
                (w_db w) ∧ world_wf w'.
Proof.
  intros Hwf. pose proof Hwf as (_ & (_ & Kw & _) & _).
  unfold update_workflow, h_bind, h_read, h_lift. cbn. rewrite select_workflow_eq by done.
  destruct (select_owned _ _ _ _) as [x|] eqn:Hsel; cbn; [|discriminate].
  pose proof Hsel as [Hx Hown]%select_owned_Some. assert (wf_id x = wid) as <- by exact (Kw _ _ Hx).
  pose proof (world_wf_update_workflow w (apply_workflow_update params x) x Hwf Hx eq_refl) as Hwf'.
  rewrite h_commit_eq. cbn. rewrite decide_True by apply Hwf'.
  intros [= <-]. by exists x.
Qed.

(** Witness of C8: the library workflow is copied in the demo world. *)
Lemma copy_workflow_preserves_wf_witness :
  world_wf DemoApi.world0 ∧
  ∃ r w', @copy_workflow Demo.signer DemoApi.user_u1 (uuid 0) None DemoApi.world0 = (r, w') ∧
    world_wf w'.
Proof.
  split; [exact demo_world_wf|].
  destruct (@copy_workflow Demo.signer DemoApi.user_u1 (uuid 0) None DemoApi.world0)
    as [r w'] eqn:Hrun.
  exists r, w'. split; [done|].
  exact (@copy_workflow_preserves_wf Demo.signer _ _ _ _ _ _ demo_world_wf Hrun).
Defined.

(** Witness of C9: the user ["u1"] copies the library workflow. *)
Lemma copy_workflow_isolation_witness :
  world_wf DemoApi.world0 ∧
  ∃ w', @copy_workflow Demo.signer DemoApi.user_u1 (uuid 0) None DemoApi.world0 = (Ok tt, w') ∧
    ∃ cw, st_workflows (w_db w') !! wf_id cw = Some cw ∧ wf_owner_id cw = "u1".
Proof.
  split; [exact demo_world_wf|].
  destruct (@copy_workflow Demo.signer DemoApi.user_u1 (uuid 0) None DemoApi.world0)
    as [[[]|e] w'] eqn:Hrun; [|vm_compute in Hrun; discriminate].
  exists w'. split; [done|].
  destruct (@copy_workflow_isolation Demo.signer _ _ _ _ _ demo_world_wf Hrun)
    as (_ & _ & _ & _ & cw & _ & Hin & Hown & _).
  exists cw. exact (conj Hin Hown).
Defined.

(** Witness of C10: the successful copy by the user ["u1"] is a copy of
    the library. *)
Lemma copy_workflow_user_library_only_witness :
  role_type DemoApi.user_u1 = RoleUser ∧
  ∃ w', @copy_workflow Demo.signer DemoApi.user_u1 (uuid 0) None DemoApi.world0 = (Ok tt, w') ∧
    ∃ src, st_workflows (w_db DemoApi.world0) !! uuid 0 = Some src ∧ wf_owner_id src = "tracecat".
Proof.
  split; [reflexivity|].
  destruct (@copy_workflow Demo.signer DemoApi.user_u1 (uuid 0) None DemoApi.world0)
    as [[[]|e] w'] eqn:Hrun; [|vm_compute in Hrun; discriminate].
  exists w'. split; [done|].
  exact (proj2 (@copy_workflow_user_library_only Demo.signer DemoApi.user_u1 _ _ _ _ eq_refl Hrun)).
Defined.

(** Witness of C11: a service role acting for ["u1"] copies the private
    workflow of ["u2"] by naming ["u2"] as the owner. *)
Lemma copy_workflow_succeeds_witness :
  world_wf DemoApi.world0 ∧
  wf_owner_id DemoApi.w_u2 = "u2" ∧ role_user_id DemoApi.service_u1 = "u1" ∧
  ∃ w', @copy_workflow Demo.signer DemoApi.service_u1 (uuid 3) (Some "u2") DemoApi.world0
          = (Ok tt, w').
Proof.
  split_and!; [exact demo_world_wf|reflexivity|reflexivity|].
  apply (@copy_workflow_succeeds Demo.signer _ _ _ _ DemoApi.w_u2 DemoApi.empty_graph
           demo_world_wf).
  - vm_compute. by eexists.
  - by intros [? _].
  - reflexivity.
  - reflexivity.
  - vm_compute. constructor.
  - reflexivity.
  - eexists _, _, _. split_and!; [reflexivity..|constructor|constructor].
Defined.

(** Witness of C12: the user ["u1"] may not name an owner. *)
Lemma copy_workflow_atomic_witness :
  ∃ e w', @copy_workflow Demo.signer DemoApi.user_u1 (uuid 3) (Some "u2") DemoApi.world0
            = (Err e, w') ∧ w' = DemoApi.world0.
Proof.
  destruct (@copy_workflow Demo.signer DemoApi.user_u1 (uuid 3) (Some "u2") DemoApi.world0)
    as [[|e] w'] eqn:Hrun; [vm_compute in Hrun; discriminate|].
  exists e, w'. split; [done|]. exact (copy_workflow_atomic _ _ _ _ _ _ Hrun).
Defined.

(** Witness of C24: the library owner deletes its workflow [uuid 0]. *)
Lemma delete_workflow_cascade_witness :
  world_wf DemoApi.world0 ∧
  ∃ w', delete_workflow DemoApi.user_lib (uuid 0) DemoApi.world0 = (Ok tt, w') ∧
    (∃ x, st_workflows (w_db DemoApi.world0) !! uuid 0 = Some x ∧ wf_owner_id x = "tracecat") ∧
    world_wf w' ∧ st_workflows (w_db w') !! uuid 0 = None ∧
    map_Forall (λ _ a, act_workflow_id a ≠ Some (uuid 0)) (st_actions (w_db w')) ∧
    map_Forall (λ _ h, wh_workflow_id h ≠ Some (uuid 0)) (st_webhooks (w_db w')) ∧
    map_Forall (λ _ r, wr_workflow_id r ≠ Some (uuid 0)) (st_workflow_runs (w_db w')).
Proof.
  split; [exact demo_world_wf|].
  destruct (delete_workflow DemoApi.user_lib (uuid 0) DemoApi.world0) as [[[]|e] w'] eqn:Hrun;
    [|vm_compute in Hrun; discriminate].
  exists w'. split; [reflexivity|]. exact (delete_workflow_cascade _ _ _ _ demo_world_wf Hrun).
Defined.

(** Witness of C26: ["u1"] creates a workflow. *)
Lemma create_workflow_spec_witness :
  world_wf DemoApi.world0 ∧ is_Some (st_users (w_db DemoApi.world0) !! "u1") ∧
  ∃ w', create_workflow DemoApi.user_u1 (mkCreateWorkflowParams "Triage" "") DemoApi.world0 =
          (Ok (workflow_metadata (created_workflow DemoApi.user_u1 (mkCreateWorkflowParams "Triage" "") 7)), w') ∧
    st_workflows (w_db w') =
      <[uuid 7 := created_workflow DemoApi.user_u1 (mkCreateWorkflowParams "Triage" "") 7]>
        (st_workflows (w_db DemoApi.world0)) ∧
    world_wf w'.
Proof.
  split_and!; [exact demo_world_wf|vm_compute; eexists; reflexivity|].
  apply (create_workflow_spec DemoApi.user_u1 (mkCreateWorkflowParams "Triage" "") DemoApi.world0).
  - exact demo_world_wf.
  - vm_compute. eexists. reflexivity.
Defined.

(** An instance: a caller without a user row creates a workflow. *)
Lemma create_workflow_no_user_witness :
  st_users (w_db DemoApi.world0) !! "u9" = None ∧
  create_workflow (mkRole RoleUser "u9" None) (mkCreateWorkflowParams "Triage" "") DemoApi.world0 =
    (Err IntegrityError, mkWorld (w_db DemoApi.world0) 8).
Proof.
  split; [vm_compute; reflexivity|].
  apply (create_workflow_no_user (mkRole RoleUser "u9" None)). vm_compute. reflexivity.
Defined.
