(* ===== verification/Webhooks.v ===== *)
(** * The webhook endpoints of [src/tracecat/api/app.py]

    [list_webhooks], [create_webhook], [get_webhook], [delete_webhook],
    [search_webhooks] and [authenticate_webhook] over the world of
    [World].  The signing key and the runner URL of the deployment are
    the [WebhookSigner] instance and [runner_url]. *)

From S2P Require Import Prelude Json Identity Db Responses Auth World.

Section Webhooks.
Context `{WebhookSigner} (runner_url : string).

(** Attribute access on a [Webhook] instance: its columns and its
    computed fields.  [path] is only the validation alias of [id], not an
    attribute. *)
Definition webhook_getattr (h : Webhook) (name : string) : result (option string) :=
  if String.eqb name "id" then Ok (Some (wh_id h))
  else if String.eqb name "action_id" then Ok (wh_action_id h)
  else if String.eqb name "workflow_id" then Ok (wh_workflow_id h)
  else if String.eqb name "owner_id" then Ok (Some (wh_owner_id h))
  else if String.eqb name "secret" then Ok (Some (Webhook_secret (wh_id h)))
  else if String.eqb name "url" then Ok (Some (Webhook_url runner_url (wh_id h)))
  else Err AttributeError.

(** [WebhookResponse(id=..., secret=..., action_id=..., workflow_id=...,
    url=...)]: every field is a required [str]. *)
Definition validate_webhook_response (id secret action_id workflow_id url : option string)
    : result WebhookResponse :=
  id' ← validate_str id; secret' ← validate_str secret; aid ← validate_str action_id;
  wid ← validate_str workflow_id; url' ← validate_str url;
  Ok (mkWebhookResponse id' secret' aid wid url').

(** The response [create_webhook], [get_webhook] and [search_webhooks]
    build from a row. *)
Definition webhook_response (h : Webhook) : result WebhookResponse :=
  validate_webhook_response (Some (wh_id h)) (Some (Webhook_secret (wh_id h)))
    (wh_action_id h) (wh_workflow_id h) (Some (Webhook_url runner_url (wh_id h))).

(** The element of [list_webhooks]: [WebhookResponse(id=webhook.id,
    path=webhook.path, action_id=..., workflow_id=..., url=...)]; the
    arguments are evaluated first, then the model validated (without a
    [secret]). *)
Definition list_webhook_item (h : Webhook) : result WebhookResponse :=
  id ← webhook_getattr h "id"; _ ← webhook_getattr h "path";
  aid ← webhook_getattr h "action_id"; wid ← webhook_getattr h "workflow_id";
  url ← webhook_getattr h "url";
  validate_webhook_response id None aid wid url.

(** [list_webhooks(role, workflow_id)]. *)
Definition list_webhooks (role : Role) (workflow_id : string) : handler (list WebhookResponse) :=
  let* st := h_read id in
  let webhooks := filter (λ h, wh_owner_id h = role_user_id role ∧ wh_workflow_id h = Some workflow_id)
                    (rows (st_webhooks st)) in
  h_lift (mapM list_webhook_item webhooks).

(** [create_webhook(role, params)]: no check that the caller owns the
    action or the workflow; the foreign keys only require them to exist. *)
Definition create_webhook (role : Role) (params : CreateWebhookParams) : handler WebhookResponse :=
  let* hid := uuid4 in
  let webhook := mkWebhook hid (Some (cwh_action_id params)) (Some (cwh_workflow_id params))
                   (role_user_id role) in
  let* _ := h_commit (λ st, m ← tbl_insert hid webhook (st_webhooks st); Ok (set_webhooks m st)) in
  h_lift (webhook_response webhook).

(** [select(Webhook).where(Webhook.owner_id == role.user_id, Webhook.id == webhook_id)]. *)
Definition owned_webhooks (st : store) (role : Role) (webhook_id : string) : list Webhook :=
  filter (λ h, wh_owner_id h = role_user_id role ∧ wh_id h = webhook_id) (rows (st_webhooks st)).

(** [get_webhook(role, webhook_id)]. *)
Definition get_webhook (role : Role) (webhook_id : string) : handler WebhookResponse :=
  let* st := h_read id in
  let* webhook := h_lift (one_or_404 "Resource not found" (owned_webhooks st role webhook_id)) in
  h_lift (webhook_response webhook).

(** [delete_webhook(role, webhook_id)]: [result.one()] outside a [try]. *)
Definition delete_webhook (role : Role) (webhook_id : string) : handler unit :=
  let* st := h_read id in
  let* webhook := h_lift (one (owned_webhooks st role webhook_id)) in
  h_commit (λ st, Ok (set_webhooks (delete (wh_id webhook) (st_webhooks st)) st)).

(** [search_webhooks(role, params)]: the owner and action filter is only
    added when [params.action_id] is given.  Its route is shadowed by
    [GET /webhooks/{webhook_id}] (see [Routes]), so it runs only as the
    function [get_action] calls, always with an [action_id]. *)
Definition search_webhooks (role : Role) (params : SearchWebhooksParams) : handler WebhookResponse :=
  let* st := h_read id in
  let candidates :=
    match swp_action_id params with
    | Some aid => filter (λ h, wh_owner_id h = role_user_id role ∧ wh_action_id h = Some aid)
                    (rows (st_webhooks st))
    | None => rows (st_webhooks st)
    end in
  let* webhook := h_lift (one_or_404 "Resource not found" candidates) in
  h_lift (webhook_response webhook).

Definition unauthorized_webhook : AuthenticateWebhookResponse :=
  mkAuthenticateWebhookResponse Unauthorized None None None None None.

(** [authenticate_webhook(_role, webhook_id, secret)]: the webhook by its
    id alone, its secret compared, then its action ([except Exception]). *)
Definition authenticate_webhook (webhook_id secret : string) : handler AuthenticateWebhookResponse :=
  let* st := h_read id in
  let* webhook := h_lift (one_or_404 "Resource not found"
                            (filter (λ h, wh_id h = webhook_id) (rows (st_webhooks st)))) in
  if decide (Webhook_secret (wh_id webhook) ≠ secret) then h_ret unauthorized_webhook
  else
    let* action := h_lift (match one (filter (λ a, Some (act_id a) = wh_action_id webhook)
                                        (rows (st_actions st))) with
                           | Ok a => Ok a
                           | Err _ => not_found
                           end) in
    h_ret (mkAuthenticateWebhookResponse Authorized (Some (act_owner_id action))
             (Some (Action_key action)) (Some (act_id action)) (Some webhook_id)
             (wh_workflow_id webhook)).
End Webhooks.

Section WebhookTheorems.
Context `{WebhookSigner} (runner_url : string).

(** C27. [list_webhooks] succeeds only on an empty selection: the first row
    raises [AttributeError] at [webhook.path]. *)
Theorem list_webhooks_attribute_error role wid w :
  list_webhooks runner_url role wid w =
  (if decide (filter (λ h, wh_owner_id h = role_user_id role ∧ wh_workflow_id h = Some wid)
                (rows (st_webhooks (w_db w))) = [])
   then Ok [] else Err AttributeError, w).
Proof.
  unfold list_webhooks, h_bind, h_read, h_lift. cbn.
  destruct (filter _ _) as [|h hs]; [done|]. rewrite decide_False by done. done.
Qed.

(** The row [create_webhook] inserts when the allocator stands at [n]. *)
Definition created_webhook (role : Role) (params : CreateWebhookParams) (n : N) : Webhook :=
  mkWebhook (uuid n) (Some (cwh_action_id params)) (Some (cwh_workflow_id params)) (role_user_id role).

Theorem create_webhook_spec role params w :
  world_wf w →
  is_Some (st_actions (w_db w) !! cwh_action_id params) →
  is_Some (st_workflows (w_db w) !! cwh_workflow_id params) →
  let w' := mkWorld (set_webhooks (<[uuid (w_next w) := created_webhook role params (w_next w)]>
                                     (st_webhooks (w_db w))) (w_db w)) (N.succ (w_next w)) in
  create_webhook runner_url role params w =
    (Ok (mkWebhookResponse (uuid (w_next w)) (Webhook_secret (uuid (w_next w)))
           (cwh_action_id params) (cwh_workflow_id params)
           (Webhook_url runner_url (uuid (w_next w)))), w') ∧
  world_wf w'.
Proof.
  intros Hwf Ha Hw w'.
  pose proof (world_wf_insert_webhook w (created_webhook role params (w_next w)) Hwf eq_refl Ha Hw)
    as Hwf'.
  destruct Hwf as (_ & _ & Hids).
  destruct (ids_drawn_unused w (w_next w) Hids (reflexivity _)) as (_ & _ & Hfree).
  unfold create_webhook, h_bind, uuid4, h_lift. rewrite h_commit_eq. cbn.
  rewrite tbl_insert_free by done. cbn. rewrite decide_True by apply Hwf'.
  split; [reflexivity|exact Hwf'].
Qed.

(** C28. [delete_webhook] of a webhook the caller does not own lets
    [NoResultFound] escape instead of answering 404. *)
Theorem delete_webhook_missing role hid w :
  world_wf w →
  select_owned wh_owner_id (st_webhooks (w_db w)) (role_user_id role) hid = None →
  delete_webhook role hid w = (Err NoResultFound, w).
Proof.
  intros (_ & (_ & _ & _ & Kh & _) & _) Hnone.
  unfold delete_webhook, h_bind, h_read, h_lift, owned_webhooks. cbn.
  rewrite (list_filter_iff _ (λ h, wh_id h = hid ∧ wh_owner_id h = role_user_id role))
    by naive_solver.
  rewrite (select_key wh_id) by done. unfold lookup_where.
  unfold select_owned in Hnone. destruct (st_webhooks _ !! hid); [|done].
  by case_decide.
Qed.

(** [authenticate_webhook] of a stored webhook whose action exists:
    [Authorized] on behalf of the action's owner exactly when the secret
    is [compute_hash] of the webhook id. *)
Theorem authenticate_webhook_spec hid secret w h a :
  world_wf w → st_webhooks (w_db w) !! hid = Some h →
  wh_action_id h = Some (act_id a) → st_actions (w_db w) !! act_id a = Some a →
  authenticate_webhook hid secret w =
  (Ok (if decide (secret = Webhook_secret hid)
       then mkAuthenticateWebhookResponse Authorized (Some (act_owner_id a)) (Some (Action_key a))
              (Some (act_id a)) (Some hid) (wh_workflow_id h)
       else unauthorized_webhook), w).
Proof.
  intros (_ & (_ & _ & Ka & Kh & _) & _) Hh Hha Ha.
  assert (wh_id h = hid) as Hid by exact (Kh _ _ Hh).
  unfold authenticate_webhook, h_bind, h_read, h_lift, h_ret. cbn.
  rewrite (select_key_only wh_id) by done. rewrite Hh. cbn. rewrite Hid.
  destruct (decide (secret = Webhook_secret hid)) as [->|Hne].
  - rewrite decide_False by tauto. cbn.
    rewrite (list_filter_iff _ (λ x, act_id x = act_id a))
      by (intros x; rewrite Hha; split; [by intros [=]|by intros ->]).
    rewrite (select_key_only act_id) by done. by rewrite Ha.
  - rewrite decide_True by congruence. done.
Qed.

End WebhookTheorems.

(** ** Witnesses on the demo world *)

(** Witness of C28: ["u1"] deletes the library's webhook [uuid 4]. *)
Lemma delete_webhook_missing_witness :
  world_wf DemoApi.world0 ∧
  select_owned wh_owner_id (st_webhooks (w_db DemoApi.world0)) "u1" (uuid 4) = None ∧
  delete_webhook DemoApi.user_u1 (uuid 4) DemoApi.world0 = (Err NoResultFound, DemoApi.world0).
Proof.
  split_and!; [exact demo_world_wf|vm_compute; reflexivity|].
  apply delete_webhook_missing; [exact demo_world_wf|vm_compute; reflexivity].
Defined.

