(* ===== verification/Actions.v ===== *)
(** * The action endpoints of [src/tracecat/api/app.py]

    [list_actions], [create_action], [get_action], [update_action] and
    [delete_action].  [create_action] commits the action, then, for a
    type whose lower case is ["webhook"], calls [create_webhook], which
    commits in a session of its own; [get_action] of such an action
    calls [search_webhooks] to fill in the webhook's path, secret and
    URL. *)

From S2P Require Import Prelude Json Identity Db Responses Auth World Webhooks.

Section Actions.
Context `{WebhookSigner} `{ActionTypes} (runner_url : string).

(** [ActionMetadataResponse] of an action row, listed under [workflow_id]. *)
Definition action_metadata (workflow_id : string) (a : Action) : result ActionMetadataResponse :=
  validate_action_metadata (act_id a) workflow_id (act_type a) (act_title a)
    (act_description a) (act_status a) (Action_key a).

(** [list_actions(role, workflow_id)]. *)
Definition list_actions (role : Role) (workflow_id : string) : handler (list ActionMetadataResponse) :=
  let* st := h_read id in
  let actions := filter (λ a, act_owner_id a = role_user_id role ∧ act_workflow_id a = Some workflow_id)
                   (rows (st_actions st)) in
  h_lift (mapM (action_metadata workflow_id) actions).

(** The row [create_action] inserts. *)
Definition new_action (role : Role) (params : CreateActionParams) (aid : string) : Action :=
  mkAction aid (cap_type params) (cap_title params) "" "offline" None
    (Some (cap_workflow_id params)) (role_user_id role).

(** [create_action(role, params)]: the workflow is only required to
    exist (foreign key); its owner is not checked. *)
Definition create_action (role : Role) (params : CreateActionParams)
    : handler ActionMetadataResponse :=
  let* aid := uuid4 in
  let action := new_action role params aid in
  let* _ := h_commit (λ st, m ← tbl_insert aid action (st_actions st); Ok (set_actions m st)) in
  let* _ := (if String.eqb (py_lower (cap_type params)) "webhook" then
               let* _ := create_webhook runner_url role
                           (mkCreateWebhookParams aid (cap_workflow_id params)) in
               h_ret tt
             else h_ret tt) in
  h_lift (action_metadata (cap_workflow_id params) action).

(** [get_action(role, action_id, workflow_id)]. *)
Definition get_action (role : Role) (action_id workflow_id : string) : handler ActionResponse :=
  let* st := h_read id in
  let* action := h_lift (one_or_404 "Resource not found"
       (filter (λ a, act_owner_id a = role_user_id role ∧ act_id a = action_id ∧
                     act_workflow_id a = Some workflow_id) (rows (st_actions st)))) in
  let* inputs := h_lift (if text_truthy (act_inputs action) then loads (act_inputs action)
                         else Ok (JDict [])) in
  let* inputs' :=
    (if String.eqb (py_lower (act_type action)) "webhook" then
       let* webhook := search_webhooks runner_url role
                         (mkSearchWebhooksParams (Some (act_id action)) None) in
       h_lift (py_update inputs [("path", JStr (whr_id webhook));
                                 ("secret", JStr (whr_secret webhook));
                                 ("url", JStr (whr_url webhook))])
     else h_ret inputs) in
  let* n := h_lift (py_len inputs') in
  h_lift (validate_action_response (act_id action) (act_type action) (act_title action)
            (act_description action) (act_status action)
            (if decide (n = 0) then None else Some inputs') (Action_key action)).

(** [select(Action).where(Action.owner_id == role.user_id, Action.id == action_id)]. *)
Definition select_action (st : store) (role : Role) (action_id : string) : result Action :=
  one_or_404 "Resource not found"
    (filter (λ a, act_owner_id a = role_user_id role ∧ act_id a = action_id) (rows (st_actions st))).

(** The assignments of [update_action]. *)
Definition apply_action_update (params : UpdateActionParams) (a : Action) : Action :=
  mkAction (act_id a) (act_type a) (default (act_title a) (uap_title params))
    (default (act_description a) (uap_description params))
    (default (act_status a) (uap_status params))
    (match uap_inputs params with Some t => Some t | None => act_inputs a end)
    (act_workflow_id a) (act_owner_id a).

(** [update_action(role, action_id, params)]: the response is built after
    the commit. *)
Definition update_action (role : Role) (action_id : string) (params : UpdateActionParams)
    : handler ActionResponse :=
  let* st := h_read id in
  let* action := h_lift (select_action st role action_id) in
  let action' := apply_action_update params action in
  let* _ := h_commit (λ st, Ok (set_actions (<[act_id action' := action']> (st_actions st)) st)) in
  let* inputs := h_lift (if text_truthy (act_inputs action') then Some <$> loads (act_inputs action')
                         else Ok None) in
  h_lift (validate_action_response (act_id action') (act_type action') (act_title action')
            (act_description action') (act_status action') inputs (Action_key action')).

(** [delete_action(role, action_id)]: [session.delete(action)] with its
    cascades. *)
Definition delete_action (role : Role) (action_id : string) : handler unit :=
  let* st := h_read id in
  let* action := h_lift (select_action st role action_id) in
  h_commit (λ st, Ok (delete_action_rows (act_id action) st)).
End Actions.

Section ActionTheorems.
Context `{WebhookSigner} `{ActionTypes} (runner_url : string).

(** The effect of [create_action] for a type other than a webhook: the
    action row is committed, then the response is validated. *)
Lemma create_action_effect role params w :
  world_wf w → is_Some (st_workflows (w_db w) !! cap_workflow_id params) →
  String.eqb (py_lower (cap_type params)) "webhook" = false →
  let w' := mkWorld (set_actions (<[uuid (w_next w) := new_action role params (uuid (w_next w))]>
                                   (st_actions (w_db w))) (w_db w)) (N.succ (w_next w)) in
  create_action runner_url role params w =
    (action_metadata (cap_workflow_id params) (new_action role params (uuid (w_next w))), w') ∧
  world_wf w'.
Proof.
  intros Hwf Hw Hnot w'.
  pose proof (world_wf_insert_action w (new_action role params (uuid (w_next w))) Hwf eq_refl Hw)
    as Hwf'.
  destruct Hwf as (_ & _ & Hids).
  destruct (ids_drawn_unused w (w_next w) Hids (reflexivity _)) as (_ & Hfree & _).
  unfold create_action, h_bind, uuid4, h_lift, h_ret. rewrite h_commit_eq. cbn.
  rewrite tbl_insert_free by done. cbn. rewrite decide_True by apply Hwf'.
  rewrite Hnot. cbn. by destruct (action_metadata _ _).
Qed.

(** [create_action] of a non-webhook action inserts it into the named
    workflow, whoever owns that workflow. *)
Theorem create_action_spec role params w :
  world_wf w → is_Some (st_workflows (w_db w) !! cap_workflow_id params) →
  String.eqb (py_lower (cap_type params)) "webhook" = false →
  is_action_type (cap_type params) = true →
  ∃ w', create_action runner_url role params w =
          (Ok (mkActionMetadataResponse (uuid (w_next w)) (cap_workflow_id params) (cap_type params)
                 (cap_title params) "" "offline" (Action_key (new_action role params (uuid (w_next w))))),
           w') ∧
    st_actions (w_db w') = <[uuid (w_next w) := new_action role params (uuid (w_next w))]>
                             (st_actions (w_db w)) ∧
    world_wf w'.
Proof.
  intros Hwf Hw Hnot Hty. destruct (create_action_effect role params w Hwf Hw Hnot) as [Hrun Hwf'].
  rewrite Hrun. unfold action_metadata, validate_action_metadata. cbn. rewrite Hty.
  eexists. split; [reflexivity|]. split; [done|exact Hwf'].
Qed.

(** C30. [create_action] of a webhook action commits the action, then a
    webhook for it under the next drawn key, in two transactions. *)
Theorem create_action_webhook role params w :
  world_wf w → is_Some (st_workflows (w_db w) !! cap_workflow_id params) →
  String.eqb (py_lower (cap_type params)) "webhook" = true →
  ∃ r w', create_action runner_url role params w = (r, w') ∧
    st_actions (w_db w') !! uuid (w_next w) = Some (new_action role params (uuid (w_next w))) ∧
    st_webhooks (w_db w') !! uuid (N.succ (w_next w)) =
      Some (mkWebhook (uuid (N.succ (w_next w))) (Some (uuid (w_next w)))
              (Some (cap_workflow_id params)) (role_user_id role)) ∧
    world_wf w'.
Proof.
  intros Hwf Hw Hyes.
  pose proof (world_wf_insert_action w (new_action role params (uuid (w_next w))) Hwf eq_refl Hw)
    as Hwf1.
  destruct Hwf as (_ & _ & Hids).
  destruct (ids_drawn_unused w (w_next w) Hids (reflexivity _)) as (_ & Hfree & _).
  unfold create_action, h_bind, uuid4, h_lift, h_ret. rewrite h_commit_eq. cbn -[create_webhook].
  rewrite tbl_insert_free by done. cbn -[create_webhook]. rewrite decide_True by apply Hwf1.
  rewrite Hyes.
  change (act_id (new_action role params (uuid (w_next w)))) with (uuid (w_next w)) in Hwf1.
  destruct (create_webhook_spec runner_url role
              (mkCreateWebhookParams (uuid (w_next w)) (cap_workflow_id params)) _ Hwf1)
    as [Hrun Hwf2]; simpl.
  { rewrite lookup_insert_eq. by eexists. }
  { exact Hw. }
  rewrite Hrun. eexists _, _. split; [reflexivity|]. simpl.
  split_and!; [apply lookup_insert_eq|apply lookup_insert_eq|exact Hwf2].
Qed.

Lemma select_action_eq st role aid :
  keyed act_id (st_actions st) →
  select_action st role aid =
  of_option (HTTPException 404 "Resource not found")
    (select_owned act_owner_id (st_actions st) (role_user_id role) aid).
Proof. apply select_owner_key. Qed.

(** A successful [delete_action] deleted an action of the caller;
    afterwards no webhook or action run refers to it, and the invariant
    holds. *)
Theorem delete_action_cascade role aid w w' :
  world_wf w → delete_action role aid w = (Ok tt, w') →
  (∃ a, st_actions (w_db w) !! aid = Some a ∧ act_owner_id a = role_user_id role) ∧
  world_wf w' ∧ st_actions (w_db w') !! aid = None ∧
  map_Forall (λ _ h, wh_action_id h ≠ Some aid) (st_webhooks (w_db w')) ∧
  map_Forall (λ _ r, ar_action_id r ≠ Some aid) (st_action_runs (w_db w')).
Proof.
  intros Hwf. pose proof Hwf as (_ & (_ & _ & Ka & _) & _).
  unfold delete_action, h_bind, h_read, h_lift. cbn. rewrite select_action_eq by done.
  destruct (select_owned _ _ _ _) as [a|] eqn:Hsel; cbn; [|discriminate].
  apply select_owned_Some in Hsel as [Ha Hown].
  assert (act_id a = aid) as <- by exact (Ka _ _ Ha).
  rewrite h_commit_eq. cbn. rewrite decide_True by (apply delete_action_rows_fk; apply Hwf).
  intros [= <-]. split; [by exists a|]. split; [by apply delete_action_rows_wf|].
  apply delete_action_rows_gone.
Qed.

(** C31. [update_action] commits before it builds its response: inputs that
    are not JSON are stored, then the response raises. *)
Theorem update_action_commits_bad_inputs role aid params w a raw :
  world_wf w → select_owned act_owner_id (st_actions (w_db w)) (role_user_id role) aid = Some a →
  uap_inputs params = Some (JBad raw) → raw ≠ "" →
  ∃ w', update_action role aid params w = (Err JSONDecodeError, w') ∧
    st_actions (w_db w') !! aid = Some (apply_action_update params a) ∧ world_wf w'.
Proof.
  intros Hwf Hsel Hin Hraw. pose proof Hwf as (_ & (_ & _ & Ka & _) & _).
  pose proof Hsel as [Ha Hown]%select_owned_Some.
  assert (act_id a = aid) as <- by exact (Ka _ _ Ha).
  pose proof (world_wf_update_action w (apply_action_update params a) a Hwf Ha eq_refl) as Hwf'.
  unfold update_action, h_bind, h_read, h_lift. cbn. rewrite select_action_eq, Hsel by done.
  cbn. rewrite h_commit_eq. cbn. rewrite decide_True by apply Hwf'.
  unfold text_truthy, apply_action_update at 2. rewrite Hin. cbn.
  destruct (String.eqb raw "") eqn:Heq; [apply String.eqb_eq in Heq; congruence|]. cbn.
  eexists. split; [reflexivity|]. split; [apply lookup_insert_eq|exact Hwf'].
Qed.
End ActionTheorems.

(** ** Witnesses on the demo world *)

(** A membership test for the demo: a few of the action kinds of
    [tracecat.types.actions.ActionType]. *)
Definition demo_action_types : ActionTypes :=
  {| is_action_type t := bool_decide (t ∈ ["webhook"; "http_request"; "send_email"; "data_transform"]) |}.

Definition demo_hook_params : CreateActionParams := mkCreateActionParams (uuid 3) "Webhook" "Inbound".

(** Witness of C30: ["u1"] adds a webhook action, typed ["Webhook"], to
    the workflow [uuid 3] of ["u2"]. *)
Lemma create_action_webhook_witness :
  world_wf DemoApi.world0 ∧ is_Some (st_workflows (w_db DemoApi.world0) !! uuid 3) ∧
  String.eqb (py_lower "Webhook") "webhook" = true ∧
  ∃ r w', @create_action DemoApi.signer demo_action_types "https://runner" DemoApi.user_u1
            demo_hook_params DemoApi.world0 = (r, w') ∧
    st_actions (w_db w') !! uuid 7 = Some (new_action DemoApi.user_u1 demo_hook_params (uuid 7)) ∧
    st_webhooks (w_db w') !! uuid 8 = Some (mkWebhook (uuid 8) (Some (uuid 7)) (Some (uuid 3)) "u1") ∧
    world_wf w'.
Proof.
  split_and!; [exact demo_world_wf|vm_compute; eexists; reflexivity|reflexivity|].
  apply (@create_action_webhook DemoApi.signer demo_action_types "https://runner" DemoApi.user_u1
           demo_hook_params DemoApi.world0).
  - exact demo_world_wf.
  - vm_compute. eexists. reflexivity.
  - reflexivity.
Defined.

Definition demo_bad_update : UpdateActionParams := mkUpdateActionParams None None None (Some (JBad "{oops")).

(** Witness of C31: the library owner stores malformed inputs on its
    HTTP action. *)
Lemma update_action_commits_bad_inputs_witness :
  world_wf DemoApi.world0 ∧
  select_owned act_owner_id (st_actions (w_db DemoApi.world0)) "tracecat" (uuid 2) = Some DemoApi.act_http ∧
  uap_inputs demo_bad_update = Some (JBad "{oops") ∧ "{oops" ≠ "" ∧
  ∃ w', @update_action demo_action_types DemoApi.user_lib (uuid 2) demo_bad_update DemoApi.world0 =
          (Err JSONDecodeError, w') ∧
    st_actions (w_db w') !! uuid 2 = Some (apply_action_update demo_bad_update DemoApi.act_http) ∧
    world_wf w'.
Proof.
  split_and!; [exact demo_world_wf|vm_compute; reflexivity|reflexivity|discriminate|].
  apply (@update_action_commits_bad_inputs demo_action_types DemoApi.user_lib (uuid 2) demo_bad_update
           DemoApi.world0 DemoApi.act_http "{oops").
  - exact demo_world_wf.
  - vm_compute. reflexivity.
  - reflexivity.
  - discriminate.
Defined.

(** An instance: the library owner deletes its webhook action [uuid 1];
    its webhook [uuid 4] goes with it. *)
Lemma delete_action_cascade_witness :
  world_wf DemoApi.world0 ∧
  ∃ w', delete_action DemoApi.user_lib (uuid 1) DemoApi.world0 = (Ok tt, w') ∧
    (∃ a, st_actions (w_db DemoApi.world0) !! uuid 1 = Some a ∧ act_owner_id a = "tracecat") ∧
    world_wf w' ∧ st_actions (w_db w') !! uuid 1 = None ∧
    map_Forall (λ _ h, wh_action_id h ≠ Some (uuid 1)) (st_webhooks (w_db w')) ∧
    map_Forall (λ _ r, ar_action_id r ≠ Some (uuid 1)) (st_action_runs (w_db w')).
Proof.
  split; [exact demo_world_wf|].
  destruct (delete_action DemoApi.user_lib (uuid 1) DemoApi.world0) as [[[]|e] w'] eqn:Hrun;
    [|vm_compute in Hrun; discriminate].
  exists w'. split; [reflexivity|].
  exact (delete_action_cascade DemoApi.user_lib (uuid 1) DemoApi.world0 w' demo_world_wf Hrun).
Defined.
