(* ===== verification/Runs.v ===== *)
(** * The run endpoints of [src/tracecat/api/app.py]

    Workflow runs and action runs: listed ([.limit(limit)]), created by
    the runner through a service role, read and updated.  A workflow
    run's key is drawn ([uuid4]), an action run's key is chosen by the
    runner ([CreateActionRunParams.action_run_id]). *)

From S2P Require Import Prelude Json Identity Db Responses Auth World.

(** ** Workflow runs *)

(** [list_workflow_runs(role, workflow_id, limit)]. *)
Definition list_workflow_runs (role : Role) (workflow_id : string) (lim : Z)
    : handler (list WorkflowRunResponse) :=
  let* st := h_read id in
  let* runs := h_lift (limit lim (filter (λ r, wr_owner_id r = role_user_id role ∧
                                               wr_workflow_id r = Some workflow_id)
                                    (rows (st_workflow_runs st)))) in
  h_lift (mapM workflow_run_dump_response runs).

(** The row [create_workflow_run] inserts. *)
Definition new_workflow_run (role : Role) (workflow_id rid : string) : WorkflowRun :=
  mkWorkflowRun rid "pending" (Some workflow_id) (role_user_id role).

(** [create_workflow_run(role, workflow_id)]: no check that the workflow
    belongs to the role's user. *)
Definition create_workflow_run (role : Role) (workflow_id : string) : handler WorkflowRunResponse :=
  let* rid := uuid4 in
  let workflow_run := new_workflow_run role workflow_id rid in
  let* _ := h_commit (λ st, m ← tbl_insert rid workflow_run (st_workflow_runs st);
                            Ok (set_workflow_runs m st)) in
  let* st := h_read id in
  h_lift (workflow_run_response st workflow_run).

(** [select(WorkflowRun).where(owner_id, id, workflow_id)]. *)
Definition select_workflow_run (st : store) (role : Role) (workflow_id workflow_run_id : string)
    : result WorkflowRun :=
  one_or_404 "Resource not found"
    (filter (λ r, wr_owner_id r = role_user_id role ∧ wr_id r = workflow_run_id ∧
                  wr_workflow_id r = Some workflow_id) (rows (st_workflow_runs st))).

(** [get_workflow_run(role, workflow_id, workflow_run_id)]. *)
Definition get_workflow_run (role : Role) (workflow_id workflow_run_id : string)
    : handler WorkflowRunResponse :=
  let* st := h_read id in
  let* workflow_run := h_lift (select_workflow_run st role workflow_id workflow_run_id) in
  h_lift (workflow_run_response st workflow_run).

(** [update_workflow_run(role, workflow_id, workflow_run_id, params)]. *)
Definition update_workflow_run (role : Role) (workflow_id workflow_run_id : string)
    (params : UpdateWorkflowRunParams) : handler unit :=
  let* st := h_read id in
  let* r := h_lift (select_workflow_run st role workflow_id workflow_run_id) in
  let r' := mkWorkflowRun (wr_id r) (run_status_str (uwrp_status params)) (wr_workflow_id r) (wr_owner_id r) in
  h_commit (λ st, Ok (set_workflow_runs (<[wr_id r' := r']> (st_workflow_runs st)) st)).

(** ** Action runs *)

(** [list_action_runs(role, action_id, limit)]. *)
Definition list_action_runs (role : Role) (action_id : string) (lim : Z)
    : handler (list ActionRunResponse) :=
  let* st := h_read id in
  let* runs := h_lift (limit lim (filter (λ r, ar_owner_id r = role_user_id role ∧
                                               ar_action_id r = Some action_id)
                                    (rows (st_action_runs st)))) in
  h_lift (mapM action_run_response runs).

(** The row [create_action_run] inserts. *)
Definition new_action_run (role : Role) (action_id : string) (params : CreateActionRunParams)
    : ActionRun :=
  mkActionRun (carp_action_run_id params) "pending" (Some action_id)
    (carp_workflow_run_id params) (role_user_id role).

(** [create_action_run(role, action_id, params)]. *)
Definition create_action_run (role : Role) (action_id : string) (params : CreateActionRunParams)
    : handler ActionRunResponse :=
  let action_run := new_action_run role action_id params in
  let* _ := h_commit (λ st, m ← tbl_insert (ar_id action_run) action_run (st_action_runs st);
                            Ok (set_action_runs m st)) in
  h_lift (action_run_response action_run).

(** [select(ActionRun).where(owner_id, id, action_id)]. *)
Definition select_action_run (st : store) (role : Role) (action_id action_run_id : string)
    : result ActionRun :=
  one_or_404 "Resource not found"
    (filter (λ r, ar_owner_id r = role_user_id role ∧ ar_id r = action_run_id ∧
                  ar_action_id r = Some action_id) (rows (st_action_runs st))).

(** [get_action_run(role, action_id, action_run_id)]. *)
Definition get_action_run (role : Role) (action_id action_run_id : string)
    : handler ActionRunResponse :=
  let* st := h_read id in
  let* r := h_lift (select_action_run st role action_id action_run_id) in
  h_lift (action_run_response r).

(** [update_action_run(role, action_id, action_run_id, params)]. *)
Definition update_action_run (role : Role) (action_id action_run_id : string)
    (params : UpdateActionRunParams) : handler unit :=
  let* st := h_read id in
  let* r := h_lift (select_action_run st role action_id action_run_id) in
  let r' := mkActionRun (ar_id r) (run_status_str (uarp_status params)) (ar_action_id r)
              (ar_workflow_run_id r) (ar_owner_id r) in
  h_commit (λ st, Ok (set_action_runs (<[ar_id r' := r']> (st_action_runs st)) st)).

(** ** Properties *)

(** C32. A listing returns at most [limit] runs and changes nothing; a
    negative limit is refused by the database. *)
Theorem list_workflow_runs_bounded role wid lim w r w' :
  list_workflow_runs role wid lim w = (r, w') →
  w' = w ∧ ((lim < 0)%Z → r = Err DataError) ∧
  (∀ l, r = Ok l → (List.length l ≤ Z.to_nat lim)%nat).
Proof.
  unfold list_workflow_runs, h_bind, h_read, h_lift. cbn.
  destruct (limit lim _) as [runs|e] eqn:Hlim; cbn; intros [= <- <-].
  - apply limit_Ok in Hlim as [? ->]. split_and!; [done|lia|].
    intros l Hl%mapM_result_Ok. rewrite <-(Forall2_length _ _ _ Hl). rewrite length_take. lia.
  - unfold limit in Hlim. split_and!; [done| |done].
    intros. by rewrite decide_True in Hlim by done; simplify_eq.
Qed.

(** [create_workflow_run] succeeds for every existing workflow, whoever
    owns it: a pending run with no action runs yet. *)
Theorem create_workflow_run_spec role wid w :
  world_wf w → is_Some (st_workflows (w_db w) !! wid) →
  ∃ w', create_workflow_run role wid w =
          (Ok (mkWorkflowRunResponse (uuid (w_next w)) wid "pending" []), w') ∧
    st_workflow_runs (w_db w') !! uuid (w_next w) = Some (new_workflow_run role wid (uuid (w_next w))) ∧
    world_wf w'.
Proof.
  intros Hwf Hw.
  pose proof (world_wf_insert_workflow_run w (new_workflow_run role wid (uuid (w_next w))) Hwf eq_refl Hw)
    as Hwf'.
  pose proof Hwf as ((_&_&_&_&F5&_) & _ & Hids).
  pose proof (ids_drawn_unused_run w (w_next w) Hids (reflexivity _)) as Hfree.
  eexists. unfold create_workflow_run, h_bind, uuid4, h_read, h_lift. rewrite h_commit_eq. cbn.
  rewrite tbl_insert_free by done. cbn. rewrite decide_True by apply Hwf'.
  unfold workflow_run_response. cbn.
  assert (filter (λ x, ar_workflow_run_id x = uuid (w_next w)) (rows (st_action_runs (w_db w))) = [])
    as ->.
  { apply filter_nil_intro. intros x Hx Heq. apply elem_of_rows_iff in Hx as [k Hk].
    destruct (F5 k x Hk) as [_ Hr]. simpl in Hr. rewrite Heq, Hfree in Hr. by destruct Hr. }
  split; [reflexivity|]. split; [apply lookup_insert_eq|exact Hwf'].
Qed.

(** An action run id the runner has used before is a primary-key
    conflict: nothing is written. *)
Theorem create_action_run_taken role aid params w :
  is_Some (st_action_runs (w_db w) !! carp_action_run_id params) →
  create_action_run role aid params w = (Err IntegrityError, w).
Proof.
  intros Htaken. unfold create_action_run, h_bind, h_lift. rewrite h_commit_eq. cbn.
  by rewrite tbl_insert_taken.
Qed.

Theorem create_action_run_spec role aid params w :
  world_wf w → st_action_runs (w_db w) !! carp_action_run_id params = None →
  is_Some (st_actions (w_db w) !! aid) →
  is_Some (st_workflow_runs (w_db w) !! carp_workflow_run_id params) →
  ∃ w', create_action_run role aid params w =
          (Ok (mkActionRunResponse (carp_action_run_id params) aid "pending"), w') ∧
    st_action_runs (w_db w') !! carp_action_run_id params = Some (new_action_run role aid params) ∧
    world_wf w'.
Proof.
  intros Hwf Hfree Ha Hr.
  pose proof (world_wf_insert_action_run w (new_action_run role aid params) Hwf Ha Hr) as Hwf'.
  eexists. unfold create_action_run, h_bind, h_lift. rewrite h_commit_eq. cbn.
  rewrite tbl_insert_free by done. cbn. rewrite decide_True by apply Hwf'.
  split; [reflexivity|]. split; [apply lookup_insert_eq|exact Hwf'].
Qed.

(** [update_workflow_run] sets the status of the caller's run and keeps
    the invariant. *)
Theorem update_workflow_run_spec role wid rid params w w' :
  world_wf w → update_workflow_run role wid rid params w = (Ok tt, w') →
  ∃ r, st_workflow_runs (w_db w) !! rid = Some r ∧ wr_owner_id r = role_user_id role ∧
    wr_workflow_id r = Some wid ∧
    st_workflow_runs (w_db w') !! rid =
      Some (mkWorkflowRun rid (run_status_str (uwrp_status params)) (Some wid) (wr_owner_id r)) ∧
    world_wf w'.
Proof.
  intros Hwf. pose proof Hwf as (_ & (_ & _ & _ & _ & Kr & _) & _).
  unfold update_workflow_run, h_bind, h_read, h_lift, select_workflow_run. cbn.
  rewrite (list_filter_iff _ (λ r, wr_id r = rid ∧ (wr_owner_id r = role_user_id role ∧
                                   wr_workflow_id r = Some wid))) by naive_solver.
  rewrite (select_key wr_id) by done. unfold lookup_where.
  destruct (st_workflow_runs _ !! rid) as [r|] eqn:Hr; [|done].
  case_decide as Hp; [|done]. destruct Hp as [Hown Hwid]. cbn.
  assert (wr_id r = rid) as <- by exact (Kr _ _ Hr).
  set (r' := mkWorkflowRun (wr_id r) (run_status_str (uwrp_status params)) (wr_workflow_id r) (wr_owner_id r)).
  pose proof (world_wf_update_workflow_run w r' r Hwf Hr eq_refl) as Hwf'.
  rewrite h_commit_eq. cbn. rewrite decide_True by apply Hwf'. intros [= <-].
  exists r. split_and!; [done|done|done| |exact Hwf']. simpl. rewrite lookup_insert_eq.
  unfold r'. by rewrite Hwid.
Qed.

(** ** Witnesses on the demo world *)

(** Witness of C32: the library owner lists the runs of its workflow
    with [limit=1]. *)
Lemma list_workflow_runs_bounded_witness :
  ∃ r w', list_workflow_runs DemoApi.user_lib (uuid 0) 1 DemoApi.world0 = (r, w') ∧
    w' = DemoApi.world0 ∧ (∀ l, r = Ok l → (List.length l ≤ Z.to_nat 1)%nat).
Proof.
  destruct (list_workflow_runs DemoApi.user_lib (uuid 0) 1 DemoApi.world0) as [r w'] eqn:Hrun.
  exists r, w'. split; [reflexivity|].
  destruct (list_workflow_runs_bounded _ _ _ _ _ _ Hrun) as (Hw & _ & Hl). exact (conj Hw Hl).
Defined.

(** An instance: the runner reports the action run ["ar-1"] twice. *)
Lemma create_action_run_taken_witness :
  is_Some (st_action_runs (w_db DemoApi.world0) !! "ar-1") ∧
  create_action_run DemoApi.service_u1 (uuid 2) (mkCreateActionRunParams "ar-1" (uuid 5)) DemoApi.world0
    = (Err IntegrityError, DemoApi.world0).
Proof.
  split; [vm_compute; eexists; reflexivity|].
  apply create_action_run_taken. vm_compute. eexists. reflexivity.
Defined.

(** [create_workflow_run_spec] on the demo world: a service role acting for ["u1"] starts a run of the
    library workflow. *)
Lemma create_workflow_run_spec_witness :
  world_wf DemoApi.world0 ∧ is_Some (st_workflows (w_db DemoApi.world0) !! uuid 0) ∧
  ∃ w', create_workflow_run DemoApi.service_u1 (uuid 0) DemoApi.world0 =
          (Ok (mkWorkflowRunResponse (uuid 7) (uuid 0) "pending" []), w') ∧
    st_workflow_runs (w_db w') !! uuid 7 = Some (new_workflow_run DemoApi.service_u1 (uuid 0) (uuid 7)) ∧
    world_wf w'.
Proof.
  split_and!; [exact demo_world_wf|vm_compute; eexists; reflexivity|].
  apply (create_workflow_run_spec DemoApi.service_u1 (uuid 0) DemoApi.world0).
  - exact demo_world_wf.
  - vm_compute. eexists. reflexivity.
Defined.
