(* ===== verification/Users.v ===== *)
(** * The user, secret and case-label endpoints of [src/tracecat/api/app.py]

    [create_user], [get_user], [update_user], [delete_user]; the secret
    endpoints, whose API key is stored encrypted by [tracecat.auth]'s
    [encrypt_key] (the [KeyCipher] interface, with the law that
    decryption inverts encryption); the case actions and case contexts,
    the labels a user sees besides the ["tracecat"] defaults. *)

From S2P Require Import Prelude Json Identity Db Responses Auth World.

(** [tracecat.auth.encrypt_key] and [decrypt_key] (Fernet): a token is
    never empty and decrypts to what was encrypted. *)
Class KeyCipher := {
  encrypt_key : string → string;
  decrypt_key : string → string;
  decrypt_encrypt : ∀ s, decrypt_key (encrypt_key s) = s;
  encrypt_nonempty : ∀ s, encrypt_key s ≠ "" }.

(** ** Users *)

Definition select_user (st : store) (role : Role) : list User :=
  filter (λ u, user_id u = role_user_id role) (rows (st_users st)).

(** [create_user(role)]: a conflict when the caller already has a row. *)
Definition create_user (role : Role) : handler User :=
  let* st := h_read id in
  let* existing := h_lift (limit 1 (select_user st role) ≫= one_or_none) in
  match existing with
  | Some _ => h_raise (HTTPException 409 "User already exists")
  | None =>
      let user := mkUser (role_user_id role) "free" None in
      let* _ := h_commit (λ st, m ← tbl_insert (user_id user) user (st_users st);
                                Ok (set_users m st)) in
      h_ret user
  end.

(** [get_user(role)]. *)
Definition get_user (role : Role) : handler User :=
  let* st := h_read id in
  h_lift (one_or_404 "User not found" (select_user st role)).

(** [update_user(role, params)]: [params.tier] has a default, so it is
    never [None]. *)
Definition update_user (role : Role) (params : UpdateUserParams) : handler unit :=
  let* st := h_read id in
  let* user := h_lift (one_or_404 "User not found" (select_user st role)) in
  let user' := mkUser (user_id user) (uup_tier params)
                 (match uup_settings params with Some s => Some s | None => user_settings user end) in
  h_commit (λ st, Ok (set_users (<[user_id user' := user']> (st_users st)) st)).

(** [delete_user(role)]: [session.delete(user)] with its cascades. *)
Definition delete_user (role : Role) : handler unit :=
  let* st := h_read id in
  let* user := h_lift (one_or_404 "User not found" (select_user st role)) in
  h_commit (λ st, Ok (delete_user_rows (user_id user) st)).

(** ** Secrets *)

Section Secrets.
Context `{KeyCipher}.

(** [Secret.key]: the decrypted key, [None] when nothing is stored. *)
Definition Secret_key (x : Secret) : option string :=
  match sec_encrypted_api_key x with
  | Some b => if String.eqb b "" then None else Some (decrypt_key b)
  | None => None
  end.

(** [list_secrets(role)]: the role is a bare [Depends()]. *)
Definition list_secrets (role : Role) : handler (list Secret) :=
  let* st := h_read id in
  h_ret (filter (λ x, sec_owner_id x = role_user_id role) (rows (st_secrets st))).

(** [select(Secret).where(owner_id, name).limit(1)] then [one_or_none()]. *)
Definition find_secret (st : store) (role : Role) (name : string) : result (option Secret) :=
  limit 1 (filter (λ x, sec_owner_id x = role_user_id role ∧ sec_name x = Some name)
             (rows (st_secrets st))) ≫= one_or_none.

(** [get_secret(role, secret_name)]. *)
Definition get_secret (role : Role) (secret_name : string) : handler Secret :=
  let* st := h_read id in
  let* secret := h_lift (find_secret st role secret_name) in
  match secret with
  | None => h_raise (HTTPException 404 "Secret not found")
  | Some x => h_ret x
  end.

(** The row [create_secret] inserts. *)
Definition new_secret (role : Role) (params : CreateSecretParams) (sid : string) : Secret :=
  mkSecret sid (Some (csp_name params)) (Some (encrypt_key (csp_value params))) (role_user_id role).

(** [create_secret(role, params)]. *)
Definition create_secret (role : Role) (params : CreateSecretParams) : handler unit :=
  let* st := h_read id in
  let* existing := h_lift (find_secret st role (csp_name params)) in
  match existing with
  | Some _ => h_raise (HTTPException 409 "Secret already exists")
  | None =>
      let* sid := uuid4 in
      let x := new_secret role params sid in
      h_commit (λ st, m ← tbl_insert sid x (st_secrets st); Ok (set_secrets m st))
  end.

(** [update_secret(role, params)]: [secret.key = params.value]. *)
Definition update_secret (role : Role) (params : CreateSecretParams) : handler unit :=
  let* st := h_read id in
  let* existing := h_lift (find_secret st role (csp_name params)) in
  match existing with
  | None => h_raise (HTTPException 404 "Secret does not exist")
  | Some x =>
      let x' := mkSecret (sec_id x) (sec_name x) (Some (encrypt_key (csp_value params)))
                  (sec_owner_id x) in
      h_commit (λ st, Ok (set_secrets (<[sec_id x' := x']> (st_secrets st)) st))
  end.
End Secrets.

(** [search_secrets(role, params)]: [.filter] is given the condition
    [Secret.name == name] for every name of [params.names], and SQLAlchemy
    joins them with AND. *)
Definition search_secrets (role : Role) (params : SearchSecretsParams) : handler (list Secret) :=
  let* st := h_read id in
  h_ret (filter (λ x, sec_owner_id x = role_user_id role ∧ Forall (λ n, sec_name x = Some n) (ssp_names params))
           (rows (st_secrets st))).

(** ** Case actions and case contexts *)

(** [list_case_actions(role)]: the ["tracecat"] defaults and the caller's. *)
Definition list_case_actions (role : Role) : handler (list CaseAction) :=
  let* st := h_read id in
  h_ret (filter (λ x, ca_owner_id x = "tracecat" ∨ ca_owner_id x = role_user_id role)
           (rows (st_case_actions st))).

(** [create_case_action(role, params)]. *)
Definition create_case_action (role : Role) (params : CaseLabelParams) : handler CaseAction :=
  let* cid := uuid4 in
  let x := mkCaseAction cid (clp_tag params) (clp_value params) (clp_user_id params)
             (role_user_id role) in
  let* _ := h_commit (λ st, m ← tbl_insert cid x (st_case_actions st); Ok (set_case_actions m st)) in
  h_ret x.

(** [try: result.one() except Exception: raise HTTPException(404)]. *)
Definition one_or_404_any {A} (l : list A) : result A :=
  match one l with Ok x => Ok x | Err _ => not_found end.

(** [delete_case_action(role, case_action_id)]. *)
Definition delete_case_action (role : Role) (case_action_id : string) : handler unit :=
  let* st := h_read id in
  let* x := h_lift (one_or_404_any (filter (λ x, ca_owner_id x = role_user_id role ∧
                                                 ca_id x = case_action_id) (rows (st_case_actions st)))) in
  h_commit (λ st, Ok (set_case_actions (delete (ca_id x) (st_case_actions st)) st)).

(** [list_case_contexts(role)]. *)
Definition list_case_contexts (role : Role) : handler (list CaseContext) :=
  let* st := h_read id in
  h_ret (filter (λ x, cc_owner_id x = "tracecat" ∨ cc_owner_id x = role_user_id role)
           (rows (st_case_contexts st))).

(** [create_case_context(role, params)]: the handler answers with the
    parameters it was given. *)
Definition create_case_context (role : Role) (params : CaseLabelParams) : handler CaseLabelParams :=
  let* cid := uuid4 in
  let x := mkCaseContext cid (clp_tag params) (clp_value params) (clp_user_id params)
             (role_user_id role) in
  let* _ := h_commit (λ st, m ← tbl_insert cid x (st_case_contexts st);
                            Ok (set_case_contexts m st)) in
  h_ret params.

(** [delete_case_context(role, case_context_id)]: the row is deleted
    twice in the same session, which deletes it once. *)
Definition delete_case_context (role : Role) (case_context_id : string) : handler unit :=
  let* st := h_read id in
  let* x := h_lift (one_or_404_any (filter (λ x, cc_owner_id x = role_user_id role ∧
                                                 cc_id x = case_context_id) (rows (st_case_contexts st)))) in
  h_commit (λ st, Ok (set_case_contexts (delete (cc_id x) (delete (cc_id x) (st_case_contexts st))) st)).

(** ** Properties *)

Lemma select_user_eq st role :
  keyed user_id (st_users st) →
  select_user st role = match st_users st !! role_user_id role with Some u => [u] | None => [] end.
Proof. apply select_key_only. Qed.

(** [create_user] inserts the caller's row once; a second call is a
    conflict that changes nothing. *)
Theorem create_user_spec role w :
  world_wf w →
  (is_Some (st_users (w_db w) !! role_user_id role) →
     create_user role w = (Err (HTTPException 409 "User already exists"), w)) ∧
  (st_users (w_db w) !! role_user_id role = None →
     let u := mkUser (role_user_id role) "free" None in
     let w' := mkWorld (set_users (<[role_user_id role := u]> (st_users (w_db w))) (w_db w))
                 (w_next w) in
     create_user role w = (Ok u, w') ∧ world_wf w').
Proof.
  intros Hwf. pose proof Hwf as (_ & (Ku & _) & _).
  unfold create_user, h_bind, h_read, h_lift, h_raise, h_ret. cbn -[h_commit].
  rewrite select_user_eq by done. split.
  - intros [u ->]. done.
  - intros Hnone. rewrite Hnone, (proj2 (one_or_none_limit1_None [])) by done.
    cbn -[h_commit]. rewrite h_commit_eq. cbn. rewrite tbl_insert_free by done. cbn.
    pose proof (world_wf_insert_user w (mkUser (role_user_id role) "free" None) Hwf) as Hwf'.
    rewrite decide_True by apply Hwf'. done.
Qed.

(** What [create_user] created, [get_user] returns. *)
Theorem create_get_user role w u w' :
  world_wf w → create_user role w = (Ok u, w') → get_user role w' = (Ok u, w').
Proof.
  intros Hwf Hrun. destruct (create_user_spec role w Hwf) as [Hsome Hnone].
  destruct (st_users (w_db w) !! role_user_id role) eqn:Hu.
  { rewrite Hsome in Hrun by (by eexists). discriminate. }
  destruct (Hnone eq_refl) as [Hrun' Hwf']. rewrite Hrun' in Hrun. injection Hrun as <- <-.
  unfold get_user, h_bind, h_read, h_lift. cbn.
  rewrite select_user_eq by apply Hwf'. cbn. by rewrite lookup_insert_eq.
Qed.

(** A second [create_user] for the same caller is a 409 conflict that
    changes nothing. *)
Theorem create_user_twice role w u w1 :
  world_wf w → create_user role w = (Ok u, w1) →
  create_user role w1 = (Err (HTTPException 409 "User already exists"), w1).
Proof.
  intros Hwf Hrun. destruct (create_user_spec role w Hwf) as [Hsome Hnone].
  destruct (st_users (w_db w) !! role_user_id role) eqn:Hu.
  { rewrite Hsome in Hrun by (by eexists). discriminate. }
  destruct (Hnone eq_refl) as [Hrun' Hwf1]. rewrite Hrun' in Hrun. injection Hrun as <- <-.
  apply (create_user_spec _ _ Hwf1). simpl. rewrite lookup_insert_eq. by eexists.
Qed.

(** C25. For a caller with a user row, [delete_user] succeeds: it commits
    [delete_user_rows], which keeps the invariant, removes the user row,
    and keeps exactly the workflows and the secrets of other owners. *)
Theorem delete_user_cascade role w :
  world_wf w → is_Some (st_users (w_db w) !! role_user_id role) →
  let uid := role_user_id role in
  let w' := mkWorld (delete_user_rows uid (w_db w)) (w_next w) in
  delete_user role w = (Ok tt, w') ∧ world_wf w' ∧ st_users (w_db w') !! uid = None ∧
  (∀ k x, st_workflows (w_db w') !! k = Some x ↔ st_workflows (w_db w) !! k = Some x ∧ wf_owner_id x ≠ uid) ∧
  (∀ k x, st_secrets (w_db w') !! k = Some x ↔ st_secrets (w_db w) !! k = Some x ∧ sec_owner_id x ≠ uid).
Proof.
  intros Hwf [u Hu] uid w'. pose proof Hwf as (_ & (Ku & Kw & Ka & _) & _).
  assert (user_id u = uid) as Hid by exact (Ku _ _ Hu).
  assert (delete_user role w = (Ok tt, w')) as Hrun.
  { unfold delete_user, h_bind, h_read, h_lift. cbn. rewrite select_user_eq, Hu by done. cbn.
    rewrite Hid, h_commit_eq. cbn. rewrite decide_True by (apply delete_user_rows_fk; [done|done|apply Hwf]).
    done. }
  split; [done|]. split; [by apply delete_user_rows_wf|]. split; [apply lookup_delete_eq|]. split.
  - intros k x. by apply delete_user_rows_workflows.
  - intros k x. cbn. rewrite map_lookup_filter_Some, delete_workflows_secrets. naive_solver.
Qed.

Section SecretTheorems.
Context `{KeyCipher}.

(** A successful [create_secret] adds one row, the new secret, under a key
    that was free, and the caller had no secret of that name before. *)
Lemma create_secret_inserts role params w w' :
  world_wf w → create_secret role params w = (Ok tt, w') →
  ∃ sid, st_secrets (w_db w) !! sid = None ∧ find_secret (w_db w) role (csp_name params) = Ok None ∧
    st_secrets (w_db w') = <[sid := new_secret role params sid]> (st_secrets (w_db w)).
Proof.
  intros Hwf. pose proof Hwf as (_ & _ & Hids).
  unfold create_secret, h_bind, h_read, h_lift. cbn.
  destruct (find_secret _ _ _) as [[x|]|e] eqn:Hfind; cbn; [discriminate| |discriminate].
  rewrite h_commit_eq. cbn.
  pose proof (ids_drawn_unused_secret w (w_next w) Hids (reflexivity _)) as Hfree.
  rewrite tbl_insert_free by done. cbn. case_decide; [|discriminate]. intros [= <-].
  by exists (uuid (w_next w)).
Qed.

(** The key of a new secret decrypts to the value it was created with. *)
Lemma new_secret_key role params sid : Secret_key (new_secret role params sid) = Some (csp_value params).
Proof.
  unfold Secret_key. simpl.
  destruct (String.eqb _ "") eqn:He; [apply String.eqb_eq, encrypt_nonempty in He; done|].
  by rewrite decrypt_encrypt.
Qed.

(** C34. A secret created under a name the caller has not used is read back
    by that name, and decrypts to the value given. *)
Theorem create_get_secret role params w w' :
  world_wf w → create_secret role params w = (Ok tt, w') →
  ∃ x, get_secret role (csp_name params) w' = (Ok x, w') ∧
    Secret_key x = Some (csp_value params) ∧ sec_owner_id x = role_user_id role.
Proof.
  intros Hwf Hrun. destruct (create_secret_inserts role params w w' Hwf Hrun) as (sid & Hfree & Hfind & Hst).
  exists (new_secret role params sid).
  unfold get_secret, h_bind, h_read, h_lift, h_ret, find_secret. cbn. rewrite Hst.
  unfold find_secret in Hfind. apply one_or_none_limit1_None in Hfind.
  rewrite (filter_rows_insert _ _ _ _ Hfree Hfind) by done. cbn.
  split; [done|]. split; [exact (new_secret_key role params sid)|done].
Qed.
End SecretTheorems.

(** C35. [search_secrets] with two different names returns nothing: a secret
    has one name, and the names are required all at once. *)
Theorem search_secrets_two_names role n1 n2 names w :
  n1 ≠ n2 → search_secrets role (mkSearchSecretsParams (n1 :: n2 :: names)) w = (Ok [], w).
Proof.
  intros Hne. unfold search_secrets, h_bind, h_read, h_ret. cbn.
  rewrite filter_nil_intro; [done|]. intros x _ (_ & Hall).
  inversion Hall as [|?? H1 Hall']; inversion Hall' as [|?? H2 _]. congruence.
Qed.

(** ** Witnesses on the demo world *)

(** A cipher for the demo: a token is the text behind a ["x"] prefix. *)
Definition demo_cipher : KeyCipher.
Proof.
  refine {| encrypt_key s := String "x" s;
            decrypt_key s := match s with String _ r => r | EmptyString => "" end |}.
  - done.
  - discriminate.
Defined.

Definition user_u9 : Role := mkRole RoleUser "u9" None.

(** An instance: a new user ["u9"] registers and reads itself back. *)
Lemma create_get_user_witness :
  world_wf DemoApi.world0 ∧
  ∃ u w', create_user user_u9 DemoApi.world0 = (Ok u, w') ∧ get_user user_u9 w' = (Ok u, w').
Proof.
  split; [exact demo_world_wf|].
  destruct (create_user user_u9 DemoApi.world0) as [[u|e] w'] eqn:Hrun;
    [|vm_compute in Hrun; discriminate].
  exists u, w'. split; [reflexivity|]. exact (create_get_user _ _ _ _ demo_world_wf Hrun).
Defined.

(** Witness of the conflict theorem: ["u9"] registers twice. *)
Lemma create_user_twice_witness :
  world_wf DemoApi.world0 ∧
  ∃ u w', create_user user_u9 DemoApi.world0 = (Ok u, w') ∧
    create_user user_u9 w' = (Err (HTTPException 409 "User already exists"), w').
Proof.
  split; [exact demo_world_wf|].
  destruct (create_user user_u9 DemoApi.world0) as [[u|e] w'] eqn:Hrun;
    [|vm_compute in Hrun; discriminate].
  exists u, w'. split; [reflexivity|]. exact (create_user_twice _ _ _ _ demo_world_wf Hrun).
Defined.

(** Witness of C25: ["u2"] deletes its account, its workflow [uuid 3]
    and its secret with it. *)
Lemma delete_user_cascade_witness :
  world_wf DemoApi.world0 ∧ is_Some (st_users (w_db DemoApi.world0) !! "u2") ∧
  let w' := mkWorld (delete_user_rows "u2" (w_db DemoApi.world0)) (w_next DemoApi.world0) in
  delete_user DemoApi.user_u2 DemoApi.world0 = (Ok tt, w') ∧ world_wf w' ∧ st_users (w_db w') !! "u2" = None ∧
  (∀ k x, st_workflows (w_db w') !! k = Some x ↔ st_workflows (w_db DemoApi.world0) !! k = Some x ∧ wf_owner_id x ≠ "u2") ∧
  (∀ k x, st_secrets (w_db w') !! k = Some x ↔ st_secrets (w_db DemoApi.world0) !! k = Some x ∧ sec_owner_id x ≠ "u2").
Proof.
  assert (is_Some (st_users (w_db DemoApi.world0) !! "u2")) as Hu by (vm_compute; eexists; reflexivity).
  split; [exact demo_world_wf|]. split; [exact Hu|].
  exact (delete_user_cascade DemoApi.user_u2 DemoApi.world0 demo_world_wf Hu).
Defined.

(** Witness of C34: ["u1"] stores a Slack token and reads it back. *)
Lemma create_get_secret_witness :
  world_wf DemoApi.world0 ∧
  ∃ w', @create_secret demo_cipher DemoApi.user_u1 (mkCreateSecretParams "slack" "xoxb-1")
          DemoApi.world0 = (Ok tt, w') ∧
    ∃ x, get_secret DemoApi.user_u1 "slack" w' = (Ok x, w') ∧
      @Secret_key demo_cipher x = Some "xoxb-1" ∧ sec_owner_id x = "u1".
Proof.
  split; [exact demo_world_wf|].
  destruct (@create_secret demo_cipher DemoApi.user_u1 (mkCreateSecretParams "slack" "xoxb-1")
              DemoApi.world0) as [[[]|e] w'] eqn:Hrun; [|vm_compute in Hrun; discriminate].
  exists w'. split; [reflexivity|]. exact (@create_get_secret demo_cipher _ _ _ _ demo_world_wf Hrun).
Defined.

(** Witness of C35: searching for two names finds nothing, although ["u2"]
    holds a secret under the first. *)
Lemma search_secrets_two_names_witness :
  "api_key" ≠ "slack" ∧
  search_secrets DemoApi.user_u2 (mkSearchSecretsParams ["api_key"; "slack"]) DemoApi.world0 = (Ok [], DemoApi.world0).
Proof. split; [discriminate|]. apply search_secrets_two_names. discriminate. Defined.

