(* ===== verification/Events.v ===== *)
(** * Event search: [search_events] of [src/tracecat/api/app.py]

    The handler checks in the database that the caller owns the workflow,
    then queries the tantivy index of events ([tracecat.db.create_events_index],
    outside the relational state) and drops the result: the function
    returns [None], which FastAPI validates against the declared
    [list[Event]] and rejects.  The index is the interface [EventIndex]:
    opening it, [reload], [parse_query] and [search] either succeed or
    raise. *)

From S2P Require Import Prelude Json Identity Db Responses Auth World.

(** The field types of a tantivy schema. *)
Inductive field_kind := FDate | FText | FJson.

(** A field of the schema: its name, type, and whether it is a fast
    (columnar, sortable) field. *)
Record schema_field := mkSchemaField {
  sf_name : string;
  sf_kind : field_kind;
  sf_fast : bool }.

(** The schema [build_events_index()] creates the index with: the fields
    of [Event], all stored, [published_at] the only fast one. *)
Definition event_schema : list schema_field :=
  [mkSchemaField "published_at" FDate true; mkSchemaField "action_id" FText false;
   mkSchemaField "action_run_id" FText false; mkSchemaField "action_title" FText false;
   mkSchemaField "action_type" FText false; mkSchemaField "workflow_id" FText false;
   mkSchemaField "workflow_title" FText false; mkSchemaField "workflow_run_id" FText false;
   mkSchemaField "data" FJson false].

(** [index = create_events_index(); index.reload();
    query = index.parse_query(workflow_id, ["workflow_id"]);
    searcher.search(query, order_by_field=tantivy.field(order_by), limit=limit)],
    on the index [build_events_index] created (tantivy, outside the
    sources): a search can only order by a field of the schema, any
    other name raises. *)
Class EventIndex := {
  event_search : string → string → Z → result unit;
  event_search_order_field : ∀ wid ob lim, event_search wid ob lim = Ok tt → ob ∈ sf_name <$> event_schema }.

Section Events.
Context `{EventIndex}.

(** [select(Workflow.owner_id).where(Workflow.id == workflow_id)], then
    [one_or_none()]. *)
Definition workflow_owner (st : store) (workflow_id : string) : result (option string) :=
  one_or_none (wf_owner_id <$> filter (λ x, wf_id x = workflow_id) (rows (st_workflows st))).

(** [if not workflow_owner_id or workflow_owner_id != role.user_id]: a
    missing row and an empty owner id are both falsy. *)
Definition event_forbidden (role : Role) (owner : option string) : bool :=
  match owner with
  | Some o => bool_decide (o = "" ∨ o ≠ role_user_id role)
  | None => true
  end.

(** [search_events(role, params)]: the search result is not returned, so
    the response [None] fails the validation of [list[Event]]. *)
Definition search_events (role : Role) (params : EventSearchParams) : handler (list Event) :=
  let* st := h_read id in
  let* owner := h_lift (workflow_owner st (esp_workflow_id params)) in
  if event_forbidden role owner then h_raise (HTTPException 403 "Forbidden")
  else
    let* _ := h_lift (event_search (esp_workflow_id params) (esp_order_by params) (esp_limit params)) in
    h_raise ValidationError.
End Events.

(** ** Properties *)

Section EventTheorems.
Context `{EventIndex}.

Lemma workflow_owner_eq st wid :
  keyed wf_id (st_workflows st) →
  workflow_owner st wid = Ok (wf_owner_id <$> st_workflows st !! wid).
Proof.
  intros Hkey. unfold workflow_owner.
  rewrite (select_key_only wf_id) by done.
  by destruct (st_workflows st !! wid).
Qed.

(** The answer of [search_events] on a well-formed world. *)
Lemma search_events_eq role params w :
  world_wf w →
  search_events role params w =
  (Err (if event_forbidden role (wf_owner_id <$> st_workflows (w_db w) !! esp_workflow_id params)
        then HTTPException 403 "Forbidden"
        else match event_search (esp_workflow_id params) (esp_order_by params) (esp_limit params) with
             | Ok _ => ValidationError
             | Err e => e
             end), w).
Proof.
  intros (_ & (_ & Kw & _) & _).
  unfold search_events, h_bind, h_read, h_lift, h_raise. cbn.
  rewrite workflow_owner_eq by done. cbn.
  destruct (event_forbidden _ _); [done|].
  by destruct (event_search _ _ _).
Qed.

(** The default [order_by], ["pubished_at"], is no field of the schema. *)
Lemma default_order_not_in_schema : esp_order_by (default_event_search "") ∉ sf_name <$> event_schema.
Proof.
  assert (bool_decide (esp_order_by (default_event_search "") ∈ sf_name <$> event_schema) = false) as Hb
    by (vm_compute; reflexivity).
  by apply bool_decide_eq_false in Hb.
Qed.

(** C18. [search_events] never answers: it raises 403 unless the workflow
    exists with a non-empty owner that is the caller, and otherwise raises
    what the index raises or, the search done, the validation error of
    the dropped result; the world is left as it was.  When [order_by] is
    not a field of the index's schema, as the default ["pubished_at"]
    is not, even the owner's search stops at the index's error. *)
Theorem search_events_never_ok role params w :
  world_wf w →
  search_events role params w =
  (Err (if event_forbidden role (wf_owner_id <$> st_workflows (w_db w) !! esp_workflow_id params)
        then HTTPException 403 "Forbidden"
        else match event_search (esp_workflow_id params) (esp_order_by params) (esp_limit params) with
             | Ok _ => ValidationError
             | Err e => e
             end), w) ∧
  (esp_order_by params ∉ sf_name <$> event_schema →
   ∃ e, search_events role params w = (Err e, w) ∧
     (e = HTTPException 403 "Forbidden" ∨
      event_search (esp_workflow_id params) (esp_order_by params) (esp_limit params) = Err e)).
Proof.
  intros Hwf. rewrite search_events_eq by done. split; [done|]. intros Hob.
  destruct (event_forbidden _ _); [by eexists; split; [|left]|].
  destruct (event_search _ _ _) as [[]|e] eqn:Hs.
  - by apply event_search_order_field in Hs.
  - exists e. split; [done|by right].
Qed.
End EventTheorems.

(** An index whose searches succeed exactly when they order by a field
    of the schema. *)
#[local] Program Instance demo_events : EventIndex := {
  event_search _ ob _ := if decide (ob ∈ sf_name <$> event_schema) then Ok tt else Err ValueError }.
Next Obligation. intros wid ob lim. simpl. destruct (decide _); [done|discriminate]. Qed.

(** Witness of C18: ["u2"] searches the events of its own workflow with
    the default parameters; the owner check passes and the index refuses
    to order by the misspelt ["pubished_at"]. *)
Lemma search_events_never_ok_witness :
  world_wf DemoApi.world0 ∧
  esp_order_by (default_event_search (uuid 3)) ∉ sf_name <$> event_schema ∧
  search_events DemoApi.user_u2 (default_event_search (uuid 3)) DemoApi.world0 = (Err ValueError, DemoApi.world0) ∧
  (search_events DemoApi.user_u2 (default_event_search (uuid 3)) DemoApi.world0 =
  (Err (if event_forbidden DemoApi.user_u2
             (wf_owner_id <$> st_workflows (w_db DemoApi.world0) !! esp_workflow_id (default_event_search (uuid 3)))
        then HTTPException 403 "Forbidden"
        else match event_search (esp_workflow_id (default_event_search (uuid 3)))
                     (esp_order_by (default_event_search (uuid 3))) (esp_limit (default_event_search (uuid 3))) with
             | Ok _ => ValidationError
             | Err e => e
             end), DemoApi.world0) ∧
  (esp_order_by (default_event_search (uuid 3)) ∉ sf_name <$> event_schema →
   ∃ e, search_events DemoApi.user_u2 (default_event_search (uuid 3)) DemoApi.world0 = (Err e, DemoApi.world0) ∧
     (e = HTTPException 403 "Forbidden" ∨
      event_search (esp_workflow_id (default_event_search (uuid 3))) (esp_order_by (default_event_search (uuid 3)))
        (esp_limit (default_event_search (uuid 3))) = Err e))).
Proof.
  split; [exact demo_world_wf|]. split; [exact default_order_not_in_schema|].
  split; [vm_compute; reflexivity|].
  apply search_events_never_ok. exact demo_world_wf.
Defined.
