(* ===== verification/Trigger.v ===== *)
(** * Triggering a workflow: [trigger_workflow_run] of [src/tracecat/api/app.py]

    The handler reads nothing from the database: it builds a service role
    acting for the caller's user and posts [StartWorkflowParams] to the
    runner ([AuthenticatedRunnerClient], outside the sources: the
    interface [Runner]).  [response.raise_for_status()] (any status outside
    2xx) becomes a 500; an error of the call itself escapes as it is; the
    body is parsed and validated as [StartWorkflowResponse]. *)

From S2P Require Import Prelude Json Identity Db Responses Auth World.

(** The runner's HTTP response: its status code and its body. *)
Record RunnerResponse := mkRunnerResponse {
  rr_status_code : N;
  rr_body : jtext }.

(** [client.post(f"/workflows/{workflow_id}", json=params.model_dump())]
    under an [AuthenticatedRunnerClient(role=...)]. *)
Class Runner := { runner_post : Role → string → StartWorkflowParams → result RunnerResponse }.

Section Trigger.
Context `{Runner}.

(** [Role(type="service", user_id=role.user_id, service_id="tracecat-api")]. *)
Definition trigger_service_role (role : Role) : Role :=
  mkRole RoleService (role_user_id role) (Some "tracecat-api").

(** [httpx.Response.raise_for_status]: only a 2xx status passes. *)
Definition status_ok (code : N) : bool := bool_decide (200 ≤ code < 300)%N.

(** [trigger_workflow_run(role, workflow_id, params)]. *)
Definition trigger_workflow_run (role : Role) (workflow_id : string) (params : TriggerWorkflowRunParams)
    : handler StartWorkflowResponse :=
  let workflow_params := mkStartWorkflowParams (twp_action_key params) (twp_payload params) in
  let* response := h_lift (runner_post (trigger_service_role role) workflow_id workflow_params) in
  if status_ok (rr_status_code response)
  then h_lift (loads (Some (rr_body response)) ≫= validate_start_response)
  else h_raise (HTTPException 500 "Error triggering workflow").
End Trigger.

(** ** Properties *)

Section TriggerTheorems.
Context `{Runner}.

(** C20. [trigger_workflow_run] consults neither the database nor the
    owner of the workflow: whatever the world, the answer is the same and
    the world is left as it was; a successful answer comes from one call
    of the runner, as a service role [tracecat-api] acting for the
    caller's user, to start the named workflow at the given entrypoint
    with the given payload, answered with a 2xx status and a body whose
    [status], [message] and [id] are the response's. *)
Theorem trigger_starts_any_workflow role wid params w1 w2 :
  fst (trigger_workflow_run role wid params w1) = fst (trigger_workflow_run role wid params w2) ∧
  snd (trigger_workflow_run role wid params w1) = w1 ∧
  ∀ resp, fst (trigger_workflow_run role wid params w1) = Ok resp →
    ∃ r kvs, runner_post (mkRole RoleService (role_user_id role) (Some "tracecat-api")) wid
               (mkStartWorkflowParams (twp_action_key params) (twp_payload params)) = Ok r ∧
      (200 ≤ rr_status_code r < 300)%N ∧ rr_body r = JText (JDict kvs) ∧
      dict_get "status" kvs = Some (JStr (sresp_status resp)) ∧
      dict_get "message" kvs = Some (JStr (sresp_message resp)) ∧
      dict_get "id" kvs = Some (JStr (sresp_id resp)).
Proof.
  unfold trigger_workflow_run, h_bind, h_lift, h_raise, trigger_service_role.
  destruct (runner_post _ _ _) as [r|e]; simpl; [|split_and!; [done|done|discriminate]].
  destruct (status_ok _) eqn:Hst; simpl; [|split_and!; [done|done|discriminate]].
  split_and!; [done|by destruct (loads (Some (rr_body r)) ≫= validate_start_response)|].
  intros resp (kvs & Hb & H1 & H2 & H3)%validate_start_response_Ok.
  unfold status_ok in Hst. apply bool_decide_eq_true in Hst as [? ?]. exists r, kvs. by split_and!.
Qed.

(** A runner answer outside 2xx is a 500, whatever its body. *)
Lemma trigger_runner_refused role wid params w r :
  runner_post (trigger_service_role role) wid
    (mkStartWorkflowParams (twp_action_key params) (twp_payload params)) = Ok r →
  status_ok (rr_status_code r) = false →
  trigger_workflow_run role wid params w = (Err (HTTPException 500 "Error triggering workflow"), w).
Proof.
  intros Hpost Hst. unfold trigger_workflow_run, h_bind, h_lift, h_raise.
  rewrite Hpost. simpl. by rewrite Hst.
Qed.
End TriggerTheorems.

(** ** Witnesses *)

(** A runner that starts every workflow it is asked to. *)
#[local] Instance demo_trigger_runner : Runner :=
  { runner_post _ wid _ := Ok (mkRunnerResponse 200 (JText (JDict [("status", JStr "ok");
      ("message", JStr "started"); ("id", JStr wid)]))) }.

(** Witness of C20: ["u1"] starts the private workflow [uuid 3] of ["u2"]. *)
Lemma trigger_starts_any_workflow_witness :
  fst (trigger_workflow_run DemoApi.user_u1 (uuid 3) (mkTriggerWorkflowRunParams "receive_alert" []) DemoApi.world0) =
    Ok (mkStartWorkflowResponse "ok" "started" (uuid 3)) ∧
  ∃ r kvs, runner_post (mkRole RoleService "u1" (Some "tracecat-api")) (uuid 3)
             (mkStartWorkflowParams "receive_alert" []) = Ok r ∧
    (200 ≤ rr_status_code r < 300)%N ∧ rr_body r = JText (JDict kvs) ∧
    dict_get "status" kvs = Some (JStr "ok") ∧ dict_get "message" kvs = Some (JStr "started") ∧
    dict_get "id" kvs = Some (JStr (uuid 3)).
Proof.
  assert (fst (trigger_workflow_run DemoApi.user_u1 (uuid 3) (mkTriggerWorkflowRunParams "receive_alert" [])
            DemoApi.world0) = Ok (mkStartWorkflowResponse "ok" "started" (uuid 3))) as Hok by reflexivity.
  split; [exact Hok|].
  exact (proj2 (proj2 (trigger_starts_any_workflow DemoApi.user_u1 (uuid 3)
    (mkTriggerWorkflowRunParams "receive_alert" []) DemoApi.world0 DemoApi.world0)) _ Hok).
Defined.
