(* ===== verification/Cases.v ===== *)
(** * Case management: the case endpoints of [src/tracecat/api/app.py]

    Cases live in the LanceDB table ["cases"] ([create_vdb_conn] of
    [src/tracecat/db.py]), outside the relational database: the model's
    state is that table, a list of rows with the columns of [CaseSchema],
    in insertion order, and the allocator of the ids the [Case] model
    draws.  [Case] and its [flatten]/[from_flattened] belong to
    [tracecat.types.cases], outside the sources: a row holds the fields of
    the case as they are (the JSON columns are the values they serialize),
    and [Case.from_params] is the interface [CaseModel].

    [create_case] appends one row per case; [list_cases] selects, with a
    filter text, the caller's cases of a workflow, at most [limit] of
    them; [update_case] overwrites the rows its filter selects; [get_case]
    and [get_case_metrics] return a list where FastAPI expects a single
    model, so their responses never validate.  The filter texts splice
    CPython's [repr] of the caller's id and of the path parameters; the
    filter's meaning, a LanceDB matter, is the interface [LanceFilter],
    fixed for plain literals only, so the theorems on filters assume the
    values are plain ([sql_plain]). *)

From S2P Require Import Prelude Json Identity Db Responses Auth World.

(** A row of the table, with the columns of [CaseSchema] but the
    [created_at] and [updated_at] timestamps, which no handler reads. *)
Record CaseRow := mkCaseRow {
  cr_id : string;
  cr_owner_id : string;
  cr_workflow_id : string;
  cr_title : string;
  cr_payload : list (string * json);
  cr_context : CaseContextField;
  cr_malice : Malice;
  cr_status : CaseStatus;
  cr_priority : Priority;
  cr_action : option string;
  cr_suppression : option (list (string * bool)) }.

(** The table and the allocator of case ids. *)
Record vdb := mkVdb {
  vdb_cases : list CaseRow;
  vdb_next : N }.

(** [Case.from_params(params, owner_id=..., id=...)]; it may raise (its
    [workflow_id] is not given), and what it builds has the owner and the
    id it was given. *)
Class CaseModel := {
  case_from_params : CaseParams → string → string → result CaseRow;
  case_from_params_keys : ∀ p o i r, case_from_params p o i = Ok r → cr_owner_id r = o ∧ cr_id r = i }.

(** [Case] built from the dump of [c] with [owner_id=role.user_id] and [workflow_id]
    with the id [cid] its default factory draws. *)
Definition case_of_params (owner_id workflow_id : string) (c : CaseParams) (cid : string) : CaseRow :=
  mkCaseRow cid owner_id workflow_id (cp_title c) (cp_payload c) (cp_context c) (cp_malice c)
    (cp_status c) (cp_priority c) (cp_action c) (cp_suppression c).

(** ** The filter texts

    [list_cases], [get_case], [get_case_metrics] and [update_case] select
    rows with a SQL filter text built by an f-string that splices
    [repr] of the caller's id and of the path parameters. *)

Notation squote := "'"%char.
Notation dquote := (ascii_of_nat 34).
Notation bslash := "\"%char.

(** A hexadecimal digit as [repr] writes it, in lower case. *)
Definition hex_digit (n : nat) : ascii := ascii_of_nat (if (n <? 10)%nat then (48 + n)%nat else (87 + n)%nat).

(** CPython's [unicode_repr] on one code point below 256 with quote [q]:
    the quote and the backslash are escaped, tab, newline and carriage
    return get their escapes, other non-printable code points (the C0 and
    C1 controls, DEL, the no-break space and the soft hyphen) become
    [\xNN], the others stay. *)
Definition repr_char (q c : ascii) : string :=
  let n := nat_of_ascii c in
  if Ascii.eqb c q || Ascii.eqb c bslash then String bslash (String c EmptyString)
  else if (n =? 9)%nat then String bslash "t"
  else if (n =? 10)%nat then String bslash "n"
  else if (n =? 13)%nat then String bslash "r"
  else if ((n <? 32) || ((127 <=? n) && (n <=? 160)) || (n =? 173))%nat then
    String bslash (String "x" (String (hex_digit (n / 16)%nat) (String (hex_digit (n mod 16)%nat) EmptyString)))
  else String c EmptyString.

Fixpoint repr_chars (q : ascii) (s : string) : string :=
  match s with
  | EmptyString => EmptyString
  | String c s' => repr_char q c +:+ repr_chars q s'
  end.

(** The quote [repr] chooses: a double quote when the text has a single
    quote and no double quote, a single quote otherwise. *)
Definition py_quote (s : string) : ascii :=
  if bool_decide (squote ∈ chars s) && negb (bool_decide (dquote ∈ chars s)) then dquote else squote.

(** [repr(s)] of a [str]. *)
Definition py_repr (s : string) : string :=
  let q := py_quote s in String q (repr_chars q s +:+ String q EmptyString).

(** [f"(owner_id = {role.user_id!r}) AND (workflow_id = {workflow_id!r})"]. *)
Definition cases_filter (owner_id workflow_id : string) : string :=
  "(owner_id = " +:+ py_repr owner_id +:+ ") AND (workflow_id = " +:+ py_repr workflow_id +:+ ")".

(** [f"(owner_id = {role.user_id!r}) AND (workflow_id = {workflow_id!r}) AND (id = {case_id!r})"]. *)
Definition case_filter (owner_id workflow_id case_id : string) : string :=
  "(owner_id = " +:+ py_repr owner_id +:+ ") AND (workflow_id = " +:+ py_repr workflow_id +:+
  ") AND (id = " +:+ py_repr case_id +:+ ")".

(** ** LanceDB's evaluation of a filter

    LanceDB parses the filter as SQL (DataFusion's dialect, outside the
    sources).  What a filter means is fixed here only for the texts every
    SQL dialect reads alike: comparisons of the columns with literals
    ['...'] of printable ASCII holding no quote and no backslash. *)

(** A literal that needs no escape: printable ASCII, no ['] and no [\]. *)
Definition sql_plain (s : string) : Prop :=
  Forall (λ c, (32 ≤ nat_of_ascii c ≤ 126)%nat ∧ c ≠ squote ∧ c ≠ bslash) (chars s).

Definition sql_lit (s : string) : string := String squote (s +:+ String squote EmptyString).

Lemma sql_lit_app a t : sql_lit a +:+ t = String squote (a +:+ String squote t).
Proof. unfold sql_lit. change (String squote ((a +:+ String squote EmptyString) +:+ t) = String squote (a +:+ String squote t)). by rewrite string_app_assoc. Qed.

(** The rows the filters select, read as SQL. *)
Definition case_of (owner_id workflow_id : string) (r : CaseRow) : Prop :=
  cr_owner_id r = owner_id ∧ cr_workflow_id r = workflow_id.

Definition case_at (owner_id workflow_id case_id : string) (r : CaseRow) : Prop :=
  case_of owner_id workflow_id r ∧ cr_id r = case_id.

(** [where] of a LanceDB query or update: whether the filter selects a
    row.  Its laws are the meaning of the two filter shapes over plain
    literals. *)
Class LanceFilter := {
  lance_where : string → CaseRow → bool;
  lance_where_cases : ∀ o w r, sql_plain o → sql_plain w →
    lance_where ("(owner_id = " +:+ sql_lit o +:+ ") AND (workflow_id = " +:+ sql_lit w +:+ ")") r =
    bool_decide (case_of o w r);
  lance_where_case : ∀ o w i r, sql_plain o → sql_plain w → sql_plain i →
    lance_where ("(owner_id = " +:+ sql_lit o +:+ ") AND (workflow_id = " +:+ sql_lit w +:+
                 ") AND (id = " +:+ sql_lit i +:+ ")") r = bool_decide (case_at o w i r) }.

(** pydantic's validation of a list against a model class: a list is not a
    dict, nor an instance of the model. *)
Definition validate_list_as_model {A B} (l : list A) : result B := Err ValidationError.

(** [create_case(role, workflow_id, cases)]: [tbl.add(...)] of the
    flattened new cases, without a check for existing ids. *)
Definition create_case (role : Role) (workflow_id : string) (cases : list CaseParams) (v : vdb)
    : result unit * vdb :=
  let ids := (λ i, uuid (vdb_next v + N.of_nat i)%N) <$> seq 0 (List.length cases) in
  let new_cases := zip_with (λ c cid, case_of_params (role_user_id role) workflow_id c cid) cases ids in
  (Ok tt, mkVdb (vdb_cases v ++ new_cases) (vdb_next v + N.of_nat (List.length cases))%N).

Section Queries.
Context `{LanceFilter}.

(** The rows of the table a filter selects, in order. *)
Definition tbl_where (flt : string) (v : vdb) : list CaseRow :=
  filter (λ r, lance_where flt r = true) (vdb_cases v).

(** [list_cases(role, workflow_id, limit)]: [tbl.search().where(...).limit(limit)];
    negative limits are not modelled. *)
Definition list_cases (role : Role) (workflow_id : string) (lim : N) (v : vdb)
    : result (list CaseRow) * vdb :=
  (Ok (take (N.to_nat lim) (tbl_where (cases_filter (role_user_id role) workflow_id) v)), v).

(** [get_case(role, workflow_id, case_id)]: the list of at most one row is
    returned where a [Case] is declared. *)
Definition get_case (role : Role) (workflow_id case_id : string) (v : vdb) : result CaseRow * vdb :=
  let result := take 1 (tbl_where (case_filter (role_user_id role) workflow_id case_id) v) in
  (validate_list_as_model result, v).

(** [get_case_metrics(role, workflow_id, case_id)]: a list of dicts
    returned where a [CaseMetrics] is declared. *)
Definition get_case_metrics (role : Role) (workflow_id case_id : string) (v : vdb) : result unit * vdb :=
  let df := tbl_where (case_filter (role_user_id role) workflow_id case_id) v in
  (validate_list_as_model df, v).

Context `{CaseModel}.

(** [update_case(role, workflow_id, case_id, params)]: [tbl.update(where=...,
    values=updated_case.flatten())] overwrites every row the filter selects. *)
Definition update_case (role : Role) (workflow_id case_id : string) (params : CaseParams) (v : vdb)
    : result unit * vdb :=
  match case_from_params params (role_user_id role) case_id with
  | Err e => (Err e, v)
  | Ok updated =>
      let flt := case_filter (role_user_id role) workflow_id case_id in
      (Ok tt, mkVdb ((λ r, if lance_where flt r then updated else r) <$> vdb_cases v) (vdb_next v))
  end.
End Queries.

(** The case routes of [app.py], with their parameters. *)
Inductive case_request :=
  | CreateCase (workflow_id : string) (cases : list CaseParams)
  | ListCases (workflow_id : string) (lim : N)
  | GetCase (workflow_id case_id : string)
  | UpdateCase (workflow_id case_id : string) (params : CaseParams)
  | GetCaseMetrics (workflow_id case_id : string).

(** The user a credential acts for. *)
Definition credential_user (c : credential) : option string :=
  match c with CredUser u | CredService u _ => Some u | CredNone => None end.

(** A case request whose filter has plain literals only: the update is
    the one request that writes through a filter. *)
Definition request_plain (c : credential) (req : case_request) : Prop :=
  match req with
  | UpdateCase wid cid _ => (∀ u, credential_user c = Some u → sql_plain u) ∧ sql_plain wid ∧ sql_plain cid
  | _ => True
  end.

Section ServeCases.
Context `{LanceFilter} `{CaseModel}.

(** A case route: its dependency resolves the role, then the handler
    runs on the table; the response body is dropped. *)
Definition case_route {A} (auth : credential → result Role) (c : credential)
    (k : Role → vdb → result A * vdb) (v : vdb) : result unit * vdb :=
  match auth c with
  | Err e => (Err e, v)
  | Ok role => let '(r, v') := k role v in (match r with Ok _ => Ok tt | Err e => Err e end, v')
  end.

Definition serve_cases (c : credential) (req : case_request) (v : vdb) : result unit * vdb :=
  match req with
  | CreateCase wid cs => case_route authenticate_service c (λ r, create_case r wid cs) v
  | ListCases wid lim => case_route authenticate_user c (λ r, list_cases r wid lim) v
  | GetCase wid cid => case_route authenticate_user c (λ r, get_case r wid cid) v
  | UpdateCase wid cid p => case_route authenticate_user c (λ r, update_case r wid cid p) v
  | GetCaseMetrics wid cid => case_route authenticate_user c (λ r, get_case_metrics r wid cid) v
  end.

(** [db.create_table("cases", schema=CaseSchema, exist_ok=True)] in
    [initialize_db] on a fresh store: the empty table. *)
Definition create_cases_table : vdb := mkVdb [] 0.

(** The tables a deployment goes through on requests with plain filters. *)
Inductive cases_reachable : vdb → Prop :=
  | cases_init : cases_reachable create_cases_table
  | cases_step v c req : request_plain c req → cases_reachable v → cases_reachable (snd (serve_cases c req v)).
End ServeCases.

(** ** Properties *)

(** Every key the allocator will draw differs from the keys of the rows. *)
Definition vdb_fresh (v : vdb) : Prop := Forall (λ r, drawn_below (vdb_next v) (cr_id r)) (vdb_cases v).

(** The invariant of the table: the allocator is fresh and no two cases
    share an id, so that [update_case] and [get_case] address one case. *)
Definition vdb_wf (v : vdb) : Prop := vdb_fresh v ∧ NoDup (cr_id <$> vdb_cases v).

#[export] Instance sql_plain_dec s : Decision (sql_plain s).
Proof. unfold sql_plain. apply _. Defined.

(** [repr] leaves a plain text as it is and quotes it with ['], which
    makes it the SQL literal of the text. *)
Lemma repr_chars_plain s : sql_plain s → repr_chars squote s = s.
Proof.
  induction s as [|c s IH]; intros Hs; [done|]. inversion_clear Hs as [|? ? (Hn & Hq & Hb) Hs'].
  cbn [repr_chars]. rewrite IH by done. unfold repr_char.
  rewrite (proj2 (Ascii.eqb_neq _ _) Hq), (proj2 (Ascii.eqb_neq _ _) Hb). cbn [orb].
  destruct (Nat.eqb_spec (nat_of_ascii c) 9), (Nat.eqb_spec (nat_of_ascii c) 10),
    (Nat.eqb_spec (nat_of_ascii c) 13), (Nat.ltb_spec (nat_of_ascii c) 32),
    (Nat.leb_spec 127 (nat_of_ascii c)), (Nat.eqb_spec (nat_of_ascii c) 173); try lia; done.
Qed.

Lemma py_repr_plain s : sql_plain s → py_repr s = sql_lit s.
Proof.
  intros Hs. unfold py_repr, py_quote.
  rewrite (bool_decide_eq_false_2 (squote ∈ chars s)); [by rewrite repr_chars_plain|].
  intros Hin. unfold sql_plain in Hs. rewrite Forall_forall in Hs. by destruct (Hs _ Hin) as (_ & [] & _).
Qed.

(** The filter [update_case] writes with, as a text, when the caller's id
    is ["u1"], the workflow ["wf-1"], and the case id a double quote
    followed by [ ') OR (1 = 1) --]:
    [repr] escapes the single quote with a backslash, which is no escape
    in standard SQL, so that the text reads as a filter that holds for
    every row. *)
Definition injected_case_id : string := String dquote " ') OR (1 = 1) --".

Lemma case_filter_injected :
  case_filter "u1" "wf-1" injected_case_id =
    "(owner_id = 'u1') AND (workflow_id = 'wf-1') AND (id = '" +:+
    String dquote " \') OR (1 = 1) --')".
Proof. vm_compute. reflexivity. Qed.

Lemma filter_created_cases role wid cases ids :
  filter (case_of (role_user_id role) wid)
    (zip_with (λ c cid, case_of_params (role_user_id role) wid c cid) cases ids) =
  zip_with (λ c cid, case_of_params (role_user_id role) wid c cid) cases ids.
Proof.
  apply filter_all. intros r (c & cid & -> & _)%elem_of_zip_with. by split.
Qed.

(** The ids [create_case] gives its rows. *)
Definition new_case_ids (n : N) (k : nat) : list string := (λ i, uuid (n + N.of_nat i)%N) <$> seq 0 k.

Lemma new_case_ids_spec n k cid : cid ∈ new_case_ids n k ↔ ∃ i, cid = uuid (n + N.of_nat i)%N ∧ (i < k)%nat.
Proof.
  unfold new_case_ids. rewrite list_elem_of_fmap. setoid_rewrite elem_of_seq. naive_solver lia.
Qed.

Lemma create_case_rows role wid cases v :
  vdb_cases (snd (create_case role wid cases v)) =
  vdb_cases v ++ zip_with (λ c cid, case_of_params (role_user_id role) wid c cid) cases
                   (new_case_ids (vdb_next v) (List.length cases)).
Proof. done. Qed.

Lemma created_case_ids role wid cases n r :
  r ∈ zip_with (λ c cid, case_of_params (role_user_id role) wid c cid) cases
        (new_case_ids n (List.length cases)) →
  ∃ i, cr_id r = uuid (n + N.of_nat i)%N ∧ (i < List.length cases)%nat.
Proof.
  intros (c & cid & -> & _ & Hcid)%elem_of_zip_with. by apply new_case_ids_spec.
Qed.

(** The ids [create_case] draws are pairwise distinct. *)
Lemma created_case_ids_NoDup role wid cases n :
  NoDup (cr_id <$> zip_with (λ c cid, case_of_params (role_user_id role) wid c cid) cases
                     (new_case_ids n (List.length cases))).
Proof.
  rewrite fmap_zip_with_r; [|done|by unfold new_case_ids; rewrite length_fmap, length_seq].
  unfold new_case_ids. apply NoDup_fmap_2; [|apply NoDup_seq]. intros i j ?%uuid_inj. lia.
Qed.

(** ... and none of them is the id of a row already in a fresh table. *)
Lemma created_case_fresh role wid cases v r :
  vdb_fresh v →
  r ∈ zip_with (λ c cid, case_of_params (role_user_id role) wid c cid) cases
        (new_case_ids (vdb_next v) (List.length cases)) →
  cr_id r ∉ cr_id <$> vdb_cases v.
Proof.
  intros Hwf (i & Hri & _)%created_case_ids Hin. apply list_elem_of_fmap in Hin as (r0 & Heq & Hr0).
  unfold vdb_fresh in Hwf. rewrite Forall_forall in Hwf. destruct (Hwf r0 Hr0) as (m & Hm & Hlt).
  rewrite Heq, Hm in Hri. apply uuid_inj in Hri. lia.
Qed.

(** [create_case] keeps the invariant: the ids it draws are above the
    table's and distinct. *)
Lemma create_case_wf role wid cases v : vdb_wf v → vdb_wf (snd (create_case role wid cases v)).
Proof.
  intros [Hfr Hnd]. split.
  - unfold vdb_fresh. rewrite create_case_rows. apply Forall_app. split.
    + eapply Forall_impl; [exact Hfr|]. intros r (m & Hm & Hlt). exists m. split; [done|simpl; lia].
    + apply Forall_forall. intros r (i & -> & Hi)%created_case_ids.
      exists (vdb_next v + N.of_nat i)%N. split; [done|simpl; lia].
  - rewrite create_case_rows, fmap_app. apply NoDup_app. split_and!; [done| |apply created_case_ids_NoDup].
    intros x Hx (r & -> & Hr)%list_elem_of_fmap. by apply (created_case_fresh role wid cases v r Hfr Hr).
Qed.

Section FilterTheorems.
Context `{LanceFilter}.

(** On plain literals, the filter texts select the rows [case_of] and
    [case_at] say. *)
Lemma tbl_where_cases o w v :
  sql_plain o → sql_plain w → tbl_where (cases_filter o w) v = filter (case_of o w) (vdb_cases v).
Proof.
  intros Ho Hw. unfold tbl_where, cases_filter. rewrite !py_repr_plain by done.
  apply list_filter_iff. intros r. by rewrite lance_where_cases, bool_decide_eq_true by done.
Qed.

Lemma case_filter_sel o w i r :
  sql_plain o → sql_plain w → sql_plain i → lance_where (case_filter o w i) r = bool_decide (case_at o w i r).
Proof. intros. unfold case_filter. rewrite !py_repr_plain by done. by apply lance_where_case. Qed.

(** C21. A workflow's cases, created by [create_case] for a caller who had
    none there, are what [list_cases] returns with a large enough limit,
    when the caller's id and the workflow id are plain literals: the given
    cases in order, owned by the caller, under the workflow, with distinct
    fresh ids; the new table keeps its invariant. *)
Theorem create_list_cases (role : Role) (wid : string) (cases : list CaseParams) (lim : N) (v : vdb) :
  sql_plain (role_user_id role) → sql_plain wid →
  vdb_wf v → filter (case_of (role_user_id role) wid) (vdb_cases v) = [] →
  (List.length cases ≤ N.to_nat lim)%nat →
  let v' := snd (create_case role wid cases v) in
  ∃ rows, list_cases role wid lim v' = (Ok rows, v') ∧
    List.length rows = List.length cases ∧
    Forall2 (λ c r, cr_title r = cp_title c ∧ cr_payload r = cp_payload c ∧ cr_status r = cp_status c ∧
                    cr_owner_id r = role_user_id role ∧ cr_workflow_id r = wid) cases rows ∧
    NoDup (cr_id <$> rows) ∧ Forall (λ r, cr_id r ∉ cr_id <$> vdb_cases v) rows ∧ vdb_wf v'.
Proof.
  intros Hpo Hpw Hwf Hnone Hlim v'.
  set (ids := new_case_ids (vdb_next v) (List.length cases)).
  set (rows := zip_with (λ c cid, case_of_params (role_user_id role) wid c cid) cases ids).
  assert (Hlen : List.length rows = List.length cases).
  { unfold rows, ids, new_case_ids. rewrite length_zip_with, length_fmap, length_seq. lia. }
  exists rows. split_and!.
  - unfold list_cases, v'. rewrite tbl_where_cases, create_case_rows, filter_app, Hnone, filter_created_cases
      by done.
    f_equal. f_equal. apply take_ge. fold ids rows. lia.
  - done.
  - unfold rows. apply Forall2_lookup. intros i. rewrite lookup_zip_with.
    unfold ids, new_case_ids. rewrite list_lookup_fmap.
    destruct (cases !! i) eqn:Hi; simpl.
    + rewrite lookup_seq_lt by (by eapply lookup_lt_Some). simpl. constructor. naive_solver.
    + constructor.
  - apply created_case_ids_NoDup.
  - apply Forall_forall. intros r Hr. exact (created_case_fresh role wid cases v r (proj1 Hwf) Hr).
  - by apply create_case_wf.
Qed.

(** [list_cases] returns at most [limit] rows, all of them the caller's
    cases of the workflow when the literals are plain. *)
Lemma list_cases_scoped role wid lim v :
  sql_plain (role_user_id role) → sql_plain wid →
  ∃ rows, list_cases role wid lim v = (Ok rows, v) ∧ (List.length rows ≤ N.to_nat lim)%nat ∧
    Forall (case_of (role_user_id role) wid) rows.
Proof.
  intros Ho Hw. eexists. split; [reflexivity|]. split.
  - rewrite length_take. lia.
  - apply Forall_forall. rewrite tbl_where_cases by done.
    intros r Hr%subseteq_take%list_elem_of_filter. apply Hr.
Qed.

(** [get_case] and [get_case_metrics] answer no request, and read only. *)
Lemma get_case_never_ok role wid cid v :
  get_case role wid cid v = (Err ValidationError, v) ∧
  get_case_metrics role wid cid v = (Err ValidationError, v).
Proof. split; reflexivity. Qed.

Context `{CaseModel}.

(** [update_case] with plain literals touches no case of another owner,
    of another workflow or under another id: every such row keeps its
    place and its contents, the table keeps its length, and a row it
    writes carries the caller as owner and the requested id and replaces
    a row of that id. *)
Lemma update_case_isolated role wid cid params v :
  sql_plain (role_user_id role) → sql_plain wid → sql_plain cid →
  let v' := snd (update_case role wid cid params v) in
  vdb_next v' = vdb_next v ∧ List.length (vdb_cases v') = List.length (vdb_cases v) ∧
  ∀ i r, vdb_cases v !! i = Some r →
    (¬ case_at (role_user_id role) wid cid r → vdb_cases v' !! i = Some r) ∧
    (∀ r', vdb_cases v' !! i = Some r' → r' = r ∨ (cr_owner_id r' = role_user_id role ∧ cr_id r' = cid ∧ cr_id r = cid)).
Proof.
  intros Ho Hw Hi. unfold update_case.
  destruct (case_from_params params (role_user_id role) cid) as [u|e] eqn:Hu; simpl; (split; [done|]).
  - apply case_from_params_keys in Hu as [Hown Hid].
    split; [by rewrite length_fmap|]. intros i r Hr. rewrite list_lookup_fmap, Hr. simpl.
    rewrite case_filter_sel by done. split.
    + intros Hnot. by rewrite bool_decide_eq_false_2.
    + intros r' [= <-]. case_bool_decide as Hat; [right; split_and!; [done|done|apply Hat]|by left].
  - split; [done|]. intros i r Hr. rewrite Hr. split; [done|]. intros r' [= ->]. by left.
Qed.

(** [update_case] with plain literals keeps the invariant. *)
Lemma update_case_wf role wid cid params v :
  sql_plain (role_user_id role) → sql_plain wid → sql_plain cid →
  vdb_wf v → vdb_wf (snd (update_case role wid cid params v)).
Proof.
  intros Ho Hw Hi [Hfr Hnd]. destruct (update_case_isolated role wid cid params v Ho Hw Hi) as (Hn & Hl & Hiso).
  assert (cr_id <$> vdb_cases (snd (update_case role wid cid params v)) = cr_id <$> vdb_cases v) as Hids.
  { apply list_eq. intros j. rewrite !list_lookup_fmap.
    destruct (vdb_cases v !! j) as [r|] eqn:Hr.
    - destruct (lookup_lt_is_Some_2 (vdb_cases (snd (update_case role wid cid params v))) j) as [r' Hr'].
      { rewrite Hl. by eapply lookup_lt_Some. }
      rewrite Hr'. simpl. destruct (proj2 (Hiso j r Hr) r' Hr') as [-> | (_ & -> & ->)]; done.
    - rewrite lookup_ge_None_2; [done|]. rewrite Hl. by apply lookup_ge_None_1. }
  split; [|by rewrite Hids].
  unfold vdb_fresh in *. rewrite Hn. apply Forall_forall. intros r' Hr'.
  apply (list_elem_of_fmap_2 cr_id) in Hr'. rewrite Hids in Hr'.
  apply list_elem_of_fmap in Hr' as (r & Heq & Hr). rewrite Heq.
  rewrite Forall_forall in Hfr. by apply Hfr.
Qed.

#[local] Hint Resolve create_case_wf : tracecat.

Lemma case_route_wf {A} auth c (k : Role → vdb → result A * vdb) v :
  (∀ role, auth c = Ok role → vdb_wf (snd (k role v))) → vdb_wf v → vdb_wf (snd (case_route auth c k v)).
Proof.
  intros Hk Hwf. unfold case_route. destruct (auth c) as [role|] eqn:Hc; [|done].
  specialize (Hk role eq_refl). by destruct (k role v).
Qed.

Lemma case_route_auth_user auth c role :
  (auth = authenticate_user ∨ auth = authenticate_service) → auth c = Ok role →
  credential_user c = Some (role_user_id role).
Proof. intros [-> | ->]; destruct c; simpl; intros; simplify_eq/=; done. Qed.

(** Every case request with plain filters keeps the invariant of the table. *)
Lemma serve_cases_wf c req v : request_plain c req → vdb_wf v → vdb_wf (snd (serve_cases c req v)).
Proof.
  intros Hp Hwf. destruct req; apply case_route_wf; try done; intros role Hc; auto with tracecat.
  destruct Hp as (Hu & Hw & Hi). apply update_case_wf; [|done|done|done].
  apply Hu. by eapply case_route_auth_user; [left|].
Qed.

(** Every case table a deployment reaches, from the empty table and
    through any sequence of case requests with plain filters, keeps the
    invariant: the ids the allocator will draw are fresh. *)
Lemma cases_reachable_wf v : cases_reachable v → vdb_wf v.
Proof. induction 1; [split; constructor|by apply serve_cases_wf]. Qed.

(** C22. No case request with plain filters changes a case of another
    owner: every row whose owner is not the user the credential acts for
    keeps its place and its contents, and a request without a credential
    changes nothing. *)
Theorem serve_cases_isolated c req v i r :
  request_plain c req → vdb_cases v !! i = Some r → credential_user c ≠ Some (cr_owner_id r) →
  vdb_cases (snd (serve_cases c req v)) !! i = Some r.
Proof.
  intros Hp Hr Hown.
  assert (∀ A auth (k : Role → vdb → result A * vdb),
    (auth = authenticate_user ∨ auth = authenticate_service) →
    (∀ role, credential_user c = Some (role_user_id role) → role_user_id role ≠ cr_owner_id r →
       vdb_cases (snd (k role v)) !! i = Some r) →
    vdb_cases (snd (case_route auth c k v)) !! i = Some r) as Hroute.
  { intros A auth k Hauth Hk. unfold case_route. destruct (auth c) as [role|] eqn:Hc; [|done].
    assert (credential_user c = Some (role_user_id role)) as Hcu by (by eapply case_route_auth_user).
    pose proof (Hk role Hcu) as Hkr. destruct (k role v) as [res v']. simpl in *. apply Hkr.
    intros Heq. apply Hown. by rewrite <-Heq. }
  destruct req; (apply Hroute; [by (left + right)|]); intros role Hcu Hne; try done.
  - rewrite create_case_rows. by apply lookup_app_l_Some.
  - destruct Hp as (Hu & Hw & Hi).
    destruct (update_case_isolated role workflow_id case_id params v (Hu _ Hcu) Hw Hi) as (_ & _ & Hiso).
    apply (Hiso i r Hr). by intros [[? _] _].
Qed.
End FilterTheorems.

(** ** Witnesses *)

(** A LanceDB for the witnesses: it reads the two filter shapes with
    literals up to the next quote and rejects every other text. *)
Fixpoint strip_prefix (p s : string) : option string :=
  match p, s with
  | EmptyString, _ => Some s
  | String a p', String b s' => if Ascii.eqb a b then strip_prefix p' s' else None
  | _, _ => None
  end.

Fixpoint read_lit (s : string) : option (string * string) :=
  match s with
  | EmptyString => None
  | String c s' => if Ascii.eqb c squote then Some (EmptyString, s')
                   else '(l, r) ← read_lit s'; Some (String c l, r)
  end.

Definition parse_filter (t : string) : option (string * string * option string) :=
  t ← strip_prefix "(owner_id = '" t; '(o, t) ← read_lit t;
  t ← strip_prefix ") AND (workflow_id = '" t; '(w, t) ← read_lit t;
  if String.eqb t ")" then Some (o, w, None) else
  t ← strip_prefix ") AND (id = '" t; '(i, t) ← read_lit t;
  if String.eqb t ")" then Some (o, w, Some i) else None.

Definition demo_where (t : string) (r : CaseRow) : bool :=
  match parse_filter t with
  | Some (o, w, None) => bool_decide (case_of o w r)
  | Some (o, w, Some i) => bool_decide (case_at o w i r)
  | None => false
  end.

Lemma strip_prefix_app p s : strip_prefix p (p +:+ s) = Some s.
Proof. induction p as [|a p IH]; [by destruct s|]. simpl. by destruct (Ascii.eqb_spec a a). Qed.


Lemma read_lit_app a s : sql_plain a → read_lit (a +:+ String squote s) = Some (a, s).
Proof.
  induction a as [|c a IH]; intros Ha; simpl; [by destruct (Ascii.eqb_spec squote squote)|].
  inversion_clear Ha as [|? ? (_ & Hq & _) Ha'].
  rewrite (proj2 (Ascii.eqb_neq _ _) Hq), IH by done. done.
Qed.

Lemma parse_filter_cases o w :
  sql_plain o → sql_plain w →
  parse_filter ("(owner_id = " +:+ sql_lit o +:+ ") AND (workflow_id = " +:+ sql_lit w +:+ ")") = Some (o, w, None).
Proof.
  intros Ho Hw. rewrite !sql_lit_app. unfold parse_filter. simpl.
  rewrite read_lit_app by done. simpl. rewrite read_lit_app by done. reflexivity.
Qed.

Lemma parse_filter_case o w i :
  sql_plain o → sql_plain w → sql_plain i →
  parse_filter ("(owner_id = " +:+ sql_lit o +:+ ") AND (workflow_id = " +:+ sql_lit w +:+
                ") AND (id = " +:+ sql_lit i +:+ ")") = Some (o, w, Some i).
Proof.
  intros Ho Hw Hi. rewrite !sql_lit_app. unfold parse_filter. simpl.
  rewrite read_lit_app by done. simpl. rewrite read_lit_app by done. simpl.
  rewrite read_lit_app by done. reflexivity.
Qed.

#[local] Program Instance demo_lance_filter : LanceFilter := { lance_where := demo_where }.
Next Obligation. intros o w r Ho Hw. unfold demo_where. by rewrite parse_filter_cases. Qed.
Next Obligation. intros o w i r Ho Hw Hi. unfold demo_where. by rewrite parse_filter_case. Qed.

Definition demo_case : CaseParams :=
  mkCaseParams "Phishing report" [("sender", JStr "mallory@example.com")] Malicious CSOpen PHigh
    CtxNone None None.

Definition demo_vdb : vdb :=
  mkVdb [mkCaseRow (uuid 0) "u2" (uuid 3) "Old" [] CtxNone Benign CSClosed PLow None None] 1.

Lemma demo_vdb_wf : vdb_wf demo_vdb.
Proof.
  split; [apply Forall_singleton; exists 0%N; split; [reflexivity|simpl; lia]|]. apply NoDup_singleton.
Qed.

(** Witness of C21: the runner files two cases of the library workflow for
    ["u1"]. *)
Lemma create_list_cases_witness :
  sql_plain "u1" ∧ sql_plain (uuid 0) ∧
  vdb_wf demo_vdb ∧ filter (case_of "u1" (uuid 0)) (vdb_cases demo_vdb) = [] ∧
  (List.length [demo_case; demo_case] ≤ N.to_nat 100)%nat ∧
  let v' := snd (create_case DemoApi.service_u1 (uuid 0) [demo_case; demo_case] demo_vdb) in
  ∃ rows, @list_cases demo_lance_filter DemoApi.service_u1 (uuid 0) 100 v' = (Ok rows, v') ∧
    List.length rows = List.length [demo_case; demo_case] ∧
    Forall2 (λ c r, cr_title r = cp_title c ∧ cr_payload r = cp_payload c ∧ cr_status r = cp_status c ∧
                    cr_owner_id r = "u1" ∧ cr_workflow_id r = uuid 0) [demo_case; demo_case] rows ∧
    NoDup (cr_id <$> rows) ∧ Forall (λ r, cr_id r ∉ cr_id <$> vdb_cases demo_vdb) rows ∧ vdb_wf v'.
Proof.
  assert (sql_plain "u1") as Hu by (apply (bool_decide_unpack _); vm_compute; reflexivity).
  assert (sql_plain (uuid 0)) as Hw by (apply (bool_decide_unpack _); vm_compute; reflexivity).
  assert (filter (case_of "u1" (uuid 0)) (vdb_cases demo_vdb) = []) as Hnone.
  { vm_compute. reflexivity. }
  split; [exact Hu|]. split; [exact Hw|]. split; [exact demo_vdb_wf|]. split; [exact Hnone|].
  split; [simpl; lia|].
  exact (@create_list_cases demo_lance_filter DemoApi.service_u1 (uuid 0) [demo_case; demo_case] 100 demo_vdb
           Hu Hw demo_vdb_wf Hnone ltac:(simpl; lia)).
Defined.

(** A [Case.from_params] for the witnesses: the case with the given owner
    and id, under no workflow. *)
#[local] Program Instance demo_case_model : CaseModel := {
  case_from_params p o i := Ok (case_of_params o "" p i) }.
Next Obligation. intros p o i r [= <-]. done. Qed.

(** An instance: the table after the runner files a case for ["u1"]. *)
Lemma cases_reachable_wf_witness :
  let v := @serve_cases demo_lance_filter demo_case_model (CredService "u1" "tracecat-runner")
             (CreateCase (uuid 0) [demo_case]) create_cases_table in
  @cases_reachable demo_lance_filter demo_case_model v.2 ∧ vdb_wf v.2.
Proof.
  assert (@cases_reachable demo_lance_filter demo_case_model
            (@serve_cases demo_lance_filter demo_case_model (CredService "u1" "tracecat-runner")
               (CreateCase (uuid 0) [demo_case]) create_cases_table).2) as Hr.
  { apply cases_step; [exact I|apply cases_init]. }
  split; [exact Hr|exact (cases_reachable_wf _ Hr)].
Defined.

(** Witness of C22: ["u1"] updates a case id that ["u2"] holds, and the row
    of ["u2"] stays. *)
Lemma serve_cases_isolated_witness :
  request_plain (CredUser "u1") (UpdateCase (uuid 3) (uuid 0) demo_case) ∧
  vdb_cases demo_vdb !! 0%nat = Some (mkCaseRow (uuid 0) "u2" (uuid 3) "Old" [] CtxNone Benign CSClosed PLow None None) ∧
  credential_user (CredUser "u1") ≠ Some "u2" ∧
  vdb_cases (@serve_cases demo_lance_filter demo_case_model (CredUser "u1")
               (UpdateCase (uuid 3) (uuid 0) demo_case) demo_vdb).2 !! 0%nat =
    Some (mkCaseRow (uuid 0) "u2" (uuid 3) "Old" [] CtxNone Benign CSClosed PLow None None).
Proof.
  assert (request_plain (CredUser "u1") (UpdateCase (uuid 3) (uuid 0) demo_case)) as Hp.
  { split; [intros u [= <-]|split]; apply (bool_decide_unpack _); vm_compute; reflexivity. }
  split; [exact Hp|]. split_and!; [reflexivity|simpl; congruence|].
  apply (@serve_cases_isolated demo_lance_filter demo_case_model (CredUser "u1")
           (UpdateCase (uuid 3) (uuid 0) demo_case) demo_vdb 0
           (mkCaseRow (uuid 0) "u2" (uuid 3) "Old" [] CtxNone Benign CSClosed PLow None None));
    [exact Hp|reflexivity|simpl; congruence].
Defined.
