(* ===== verification/Completions.v ===== *)
(** * Case completions: [streaming_autofill_case_fields] of [src/tracecat/api/app.py]

    The handler reads the case actions and case contexts the caller sees
    (calling the handlers [list_case_actions] and [list_case_contexts] as
    functions), reduces each to its category constraints with polars, and
    hands the cases and the constraints to [stream_case_completions], an
    LLM stream outside the sources.  The model stops at that call: its
    result is the request the stream is started with.

    The polars pipeline [select(tag, value.str.split(".").list.first())
    .unique().group_by(tag).agg(value)] yields one row per tag with the
    distinct first segments of its values, in an order polars does not
    fix: it is modelled as a finite map from tags to sets of segments.  A
    frame built from an empty list has no column, so the [select] raises
    [ColumnNotFoundError]. *)

From S2P Require Import Prelude Json Identity Db Responses Auth World Users Cases.

(** [str.split(".").list.first()]: the text before the first ["."]. *)
Fixpoint first_segment (s : string) : string :=
  match s with
  | EmptyString => EmptyString
  | String c s' => if Ascii.eqb c "." then EmptyString else String c (first_segment s')
  end.

(** The category constraints, tag to values. *)
Notation constraints := (gmap string (gset string)).

(** The pipeline over the [(tag, value)] rows of a frame, one row after
    the other. *)
Definition group_segments (rows : list (string * string)) : constraints :=
  foldr (λ '(t, v) m, <[t := {[first_segment v]} ∪ (m !!! t)]> m) ∅ rows.

(** [pl.DataFrame(labels).lazy().select(...)...collect().to_dicts()]. *)
Definition category_constraints (rows : list (string * string)) : result constraints :=
  match rows with
  | [] => Err ColumnNotFoundError
  | _ => Ok (group_segments rows)
  end.

(** What [stream_case_completions] is called with. *)
Record CompletionRequest := mkCompletionRequest {
  cr_cases : list CaseRow;
  cr_context_cons : constraints;
  cr_action_cons : constraints }.

(** [streaming_autofill_case_fields(role, cases)]. *)
Definition streaming_autofill_case_fields (role : Role) (cases : list CaseRow) : handler CompletionRequest :=
  let* case_actions := list_case_actions role in
  let* actions_mapping := h_lift (category_constraints ((λ x, (ca_tag x, ca_value x)) <$> case_actions)) in
  let* case_contexts := list_case_contexts role in
  let* contexts_mapping := h_lift (category_constraints ((λ x, (cc_tag x, cc_value x)) <$> case_contexts)) in
  h_ret (mkCompletionRequest cases contexts_mapping actions_mapping).

(** ** Properties *)

Lemma first_segment_no_dot s : "."%char ∉ chars (first_segment s).
Proof.
  induction s as [|c s IH]; cbn [first_segment chars]; [by intros ?%elem_of_nil|].
  destruct (Ascii.eqb_spec c "."); cbn [chars]; [by intros ?%elem_of_nil|].
  intros [<- | ?]%elem_of_cons; [done|by apply IH].
Qed.

(** The segment and what follows it make the value back: the segment is
    the value when it has no ["."], else the text before its first one. *)
Lemma first_segment_split s :
  ("."%char ∉ chars s ∧ first_segment s = s) ∨
  (∃ rest, s = first_segment s +:+ String "." rest).
Proof.
  induction s as [|c s IH]; cbn [first_segment chars]; [left; split; [by intros ?%elem_of_nil|done]|].
  destruct (Ascii.eqb_spec c "."); cbn [chars String.app].
  - right. subst. by eexists.
  - destruct IH as [[Hn ->] | [rest Hr]].
    + left. split; [|done]. by intros [<- | ?]%elem_of_cons.
    + right. exists rest. by rewrite Hr at 1.
Qed.

Lemma group_segments_lookup rows t :
  group_segments rows !!! t = list_to_set ((first_segment ∘ snd) <$> filter (λ x, x.1 = t) rows).
Proof.
  induction rows as [|[t' v] rows IH]; simpl; [by rewrite lookup_total_empty|].
  rewrite filter_cons. destruct (decide (t' = t)) as [->|Hne].
  - rewrite lookup_total_insert_eq. simpl. rewrite decide_True by done. simpl. rewrite IH. set_solver.
  - rewrite lookup_total_insert_ne by done. simpl. rewrite decide_False by done. apply IH.
Qed.

Lemma group_segments_dom rows t : is_Some (group_segments rows !! t) ↔ ∃ x, x ∈ rows ∧ x.1 = t.
Proof.
  induction rows as [|[t' v] rows IH]; simpl.
  - rewrite lookup_empty. split; [by intros []|]. intros (x & []%elem_of_nil & _).
  - destruct (decide (t' = t)) as [->|Hne].
    + rewrite lookup_insert_eq. split; intros _; [|by eexists]. exists (t, v). split; [apply list_elem_of_here|done].
    + rewrite lookup_insert_ne, IH by done. split.
      * intros (x & ? & ?). exists x. split; [by right|done].
      * intros (x & [-> | ?]%elem_of_cons & ?); [done|]. by exists x.
Qed.

(** The constraints of a frame built from any rows, tag by tag: a tag is
    present exactly when a row has it, and its values are the first
    segments of that tag's rows. *)
Lemma group_segments_fmap {A} (f : A → string * string) (l : list A) t :
  (is_Some (group_segments (f <$> l) !! t) ↔ ∃ x, x ∈ l ∧ (f x).1 = t) ∧
  ∀ seg, seg ∈ group_segments (f <$> l) !!! t ↔ ∃ x, x ∈ l ∧ (f x).1 = t ∧ first_segment (f x).2 = seg.
Proof.
  split.
  - rewrite group_segments_dom. setoid_rewrite list_elem_of_fmap. naive_solver.
  - intros seg. rewrite group_segments_lookup, elem_of_list_to_set, list_elem_of_fmap.
    setoid_rewrite list_elem_of_filter. setoid_rewrite list_elem_of_fmap. naive_solver.
Qed.

(** The constraints do not depend on the order of the rows: the order
    in which the database returns the labels does not matter. *)
#[export] Instance group_segments_proper : Proper ((≡ₚ) ==> (=)) group_segments.
Proof.
  intros l1 l2 Hp. apply map_eq_lookup_total; intros t.
  - rewrite !group_segments_dom. by setoid_rewrite Hp.
  - by rewrite !group_segments_lookup, Hp.
Qed.

#[export] Instance category_constraints_proper : Proper ((≡ₚ) ==> (=)) category_constraints.
Proof.
  intros [|x l1] [|y l2] Hp.
  - done.
  - by apply Permutation_nil_cons in Hp.
  - symmetry in Hp. by apply Permutation_nil_cons in Hp.
  - cbn [category_constraints]. by rewrite Hp.
Qed.

Section Completions.

(** The case labels [list_case_actions] and [list_case_contexts] show the
    caller: the library's and its own. *)
Definition visible_actions (role : Role) (w : world) : list CaseAction :=
  filter (λ x, ca_owner_id x = "tracecat" ∨ ca_owner_id x = role_user_id role) (rows (st_case_actions (w_db w))).
Definition visible_contexts (role : Role) (w : world) : list CaseContext :=
  filter (λ x, cc_owner_id x = "tracecat" ∨ cc_owner_id x = role_user_id role) (rows (st_case_contexts (w_db w))).

(** C23. [streaming_autofill_case_fields] reads and changes nothing; it
    starts the completion stream with the cases it was given and, for
    actions and for contexts, exactly the tags of the labels the caller
    sees, each with exactly the first segments of its values; it raises
    [ColumnNotFoundError] only when the caller sees no case action or no
    case context. *)
Theorem streaming_autofill_constraints role cases w :
  snd (streaming_autofill_case_fields role cases w) = w ∧
  match fst (streaming_autofill_case_fields role cases w) with
  | Ok req =>
      cr_cases req = cases ∧
      (∀ t, (is_Some (cr_action_cons req !! t) ↔ ∃ x, x ∈ visible_actions role w ∧ ca_tag x = t) ∧
            ∀ seg, seg ∈ cr_action_cons req !!! t ↔
              ∃ x, x ∈ visible_actions role w ∧ ca_tag x = t ∧ first_segment (ca_value x) = seg) ∧
      (∀ t, (is_Some (cr_context_cons req !! t) ↔ ∃ x, x ∈ visible_contexts role w ∧ cc_tag x = t) ∧
            ∀ seg, seg ∈ cr_context_cons req !!! t ↔
              ∃ x, x ∈ visible_contexts role w ∧ cc_tag x = t ∧ first_segment (cc_value x) = seg)
  | Err e => e = ColumnNotFoundError ∧ (visible_actions role w = [] ∨ visible_contexts role w = [])
  end.
Proof.
  unfold streaming_autofill_case_fields, list_case_actions, list_case_contexts, h_bind, h_read, h_ret, h_lift.
  cbn -[filter group_segments]. fold (visible_actions role w) (visible_contexts role w).
  destruct (visible_actions role w) as [|a acts] eqn:Ha; [by split; [|split; [|left]]|].
  destruct (visible_contexts role w) as [|c ctxs] eqn:Hc; [by split; [|split; [|right]]|].
  split; [done|]. cbn -[group_segments]. split; [done|].
  split; intros t.
  - pose proof (group_segments_fmap (λ x, (ca_tag x, ca_value x)) (visible_actions role w) t) as G.
    rewrite Ha in G. exact G.
  - pose proof (group_segments_fmap (λ x, (cc_tag x, cc_value x)) (visible_contexts role w) t) as G.
    rewrite Hc in G. exact G.
Qed.
End Completions.
