(* ===== verification/Config.v ===== *)
(** * Deployment configuration: storage, database engine, CORS and the constant routes

    The module-level code of [src/tracecat/db.py] chooses the storage
    path and the database URI, [create_db_engine] the engine's arguments,
    and [src/tracecat/api/app.py] the origins the CORS middleware allows
    and the answers of [/] and [/health].  They depend on the process
    environment and on [tracecat.config] (outside the sources), gathered
    here in a [Config] record.  Starlette's [CORSMiddleware], outside the
    sources too, is modelled from its documented matching: [allow_origins]
    is a list of exact origins, ["*"] among them allowing all. *)

From S2P Require Import Prelude Json.

(** [tracecat.config] and the process environment ([os.environ], one value
    per variable, and the home directory [~] expands to). *)
Record Config := mkConfig {
  TRACECAT__APP_ENV : string;
  TRACECAT__RUNNER_URL : string;
  TRACECAT__SELF_HOSTED_DB_BACKEND : string;
  environ : gmap string string;
  home : string }.

Section Config.
Variable cfg : Config.

(** [os.environ[k]]: a missing variable raises [KeyError]. *)
Definition os_environ (k : string) : result string := of_option KeyError (environ cfg !! k).

(** [STORAGE_PATH = Path(os.environ.get("TRACECAT__STORAGE_PATH",
    os.path.expanduser("~/.tracecat/storage")))]. *)
Definition STORAGE_PATH : string :=
  default (home cfg +:+ "/.tracecat/storage") (environ cfg !! "TRACECAT__STORAGE_PATH").

(** [TRACECAT__DB_URI] of db.py: the environment's in production and for
    a self-hosted PostgreSQL, a SQLite file in the storage otherwise. *)
Definition TRACECAT__DB_URI : result string :=
  if String.eqb (TRACECAT__APP_ENV cfg) "prod" then os_environ "TRACECAT__DB_URI"
  else if String.eqb (TRACECAT__SELF_HOSTED_DB_BACKEND cfg) "postgres" then os_environ "TRACECAT__DB_URI"
  else Ok ("sqlite:////" +:+ STORAGE_PATH +:+ "/database.db").

(** The keyword arguments [create_engine] receives. *)
Record EngineKwargs := mkEngineKwargs {
  pool_timeout : option Z;
  pool_recycle : option Z;
  connect_args : list (string * json) }.

(** The engine [create_db_engine()] builds: its URI and arguments. *)
Record Engine := mkEngine {
  engine_uri : string;
  engine_kwargs : EngineKwargs }.

(** [create_db_engine()]; the URI is computed at import, so a missing
    [TRACECAT__DB_URI] raises before the engine is built. *)
Definition create_db_engine : result Engine :=
  uri ← TRACECAT__DB_URI;
  let kwargs :=
    if String.eqb (TRACECAT__APP_ENV cfg) "prod" then
      mkEngineKwargs (Some 30%Z) (Some 3600%Z) [("sslmode", JStr "require")]
    else if String.eqb (TRACECAT__SELF_HOSTED_DB_BACKEND cfg) "postgres" then
      mkEngineKwargs (Some 30%Z) (Some 3600%Z) [("sslmode", JStr "disable")]
    else mkEngineKwargs None None [("check_same_thread", JBool false)] in
  Ok (mkEngine uri kwargs).

(** [origins] of app.py, handed to [CORSMiddleware(allow_origins=origins)]. *)
Definition origins : list string :=
  if String.eqb (TRACECAT__APP_ENV cfg) "prod" then ["https://platform.tracecat.com"; TRACECAT__RUNNER_URL cfg]
  else if String.eqb (TRACECAT__APP_ENV cfg) "staging" then
    ["https://tracecat-*-tracecat.vercel.app"; TRACECAT__RUNNER_URL cfg]
  else ["http://localhost:3000"; "http://localhost:8000"].
End Config.

(** The arguments of [app.add_middleware(CORSMiddleware, ...)]. *)
Record CORSConfig := mkCORSConfig {
  allow_origins : list string;
  allow_credentials : bool;
  allow_methods : list string;
  allow_headers : list string }.

Definition cors_middleware (cfg : Config) : CORSConfig :=
  mkCORSConfig (origins cfg) true ["*"] ["*"].

(** Starlette's [CORSMiddleware.is_allowed_origin] without
    [allow_origin_regex]: ["*"] allows all, otherwise the origin must be
    one of the list, compared as a string. *)
Definition is_allowed_origin (allow_origins : list string) (origin : string) : bool :=
  bool_decide ("*" ∈ allow_origins) || bool_decide (origin ∈ allow_origins).

(** [root()] and [check_health()]. *)
Definition root : list (string * string) := [("message", "Hello world. I am the API.")].
Definition check_health : list (string * string) :=
  [("message", "Hello world. I am the API. This is the health endpoint.")].

(** ** Properties *)

Lemma create_db_engine_prod cfg :
  TRACECAT__APP_ENV cfg = "prod" →
  create_db_engine cfg =
    (uri ← of_option KeyError (environ cfg !! "TRACECAT__DB_URI");
     Ok (mkEngine uri (mkEngineKwargs (Some 30%Z) (Some 3600%Z) [("sslmode", JStr "require")]))).
Proof. intros Henv. unfold create_db_engine, TRACECAT__DB_URI, os_environ. by rewrite Henv. Qed.

(** In production the engine is built on the URI of the environment, never
    on the SQLite file, with SSL required; without [TRACECAT__DB_URI] the
    start-up fails with [KeyError]. *)
Lemma prod_engine_requires_ssl cfg :
  TRACECAT__APP_ENV cfg = "prod" →
  match create_db_engine cfg with
  | Ok e => environ cfg !! "TRACECAT__DB_URI" = Some (engine_uri e) ∧
            connect_args (engine_kwargs e) = [("sslmode", JStr "require")]
  | Err err => err = KeyError ∧ environ cfg !! "TRACECAT__DB_URI" = None
  end.
Proof.
  intros Henv. rewrite create_db_engine_prod by done.
  by destruct (environ cfg !! "TRACECAT__DB_URI").
Qed.
