(* ===== verification/Routes.v ===== *)
(** * The route table of [src/tracecat/api/app.py] and its resolution

    The [@app.get], [@app.post], [@app.put] and [@app.delete] decorators
    of app.py register one route each, in the order of the file; FastAPI
    keeps them in that order in its router.  Starlette's [Router]
    (outside the sources) answers a request with the first route whose
    path and method both match, else with [405] for the first route whose
    path matches, else with a redirect when the path with its trailing
    slash toggled matches, else with [404].  A path parameter [{name}]
    matches one non-empty segment.  FastAPI's documentation routes
    ([/openapi.json], [/docs], [/docs/oauth2-redirect], [/redoc]),
    registered before these, share no path with them and are left out. *)

From S2P Require Import Prelude.

(** The HTTP methods the decorators use; FastAPI does not add [HEAD]. *)
Inductive method := GET | POST | PUT | DELETE.

#[export] Instance method_eq_dec : EqDecision method.
Proof. solve_decision. Defined.

(** A route: its method, its path template and the name of its endpoint. *)
Record api_route := mkRoute {
  r_method : method;
  r_path : string;
  r_endpoint : string }.

(** [app.routes] after the decorators of app.py ran, in their order. *)
Definition app_routes : list api_route := [
    mkRoute GET "/" "root";
    mkRoute GET "/health" "check_health";
    mkRoute GET "/workflows" "list_workflows";
    mkRoute POST "/workflows" "create_workflow";
    mkRoute GET "/workflows/{workflow_id}" "get_workflow";
    mkRoute POST "/workflows/{workflow_id}" "update_workflow";
    mkRoute DELETE "/workflows/{workflow_id}" "delete_workflow";
    mkRoute POST "/workflows/{workflow_id}/copy" "copy_workflow";
    mkRoute GET "/workflows/{workflow_id}/runs" "list_workflow_runs";
    mkRoute POST "/workflows/{workflow_id}/runs" "create_workflow_run";
    mkRoute GET "/workflows/{workflow_id}/runs/{workflow_run_id}" "get_workflow_run";
    mkRoute POST "/workflows/{workflow_id}/runs/{workflow_run_id}" "update_workflow_run";
    mkRoute POST "/workflows/{workflow_id}/trigger" "trigger_workflow_run";
    mkRoute GET "/actions" "list_actions";
    mkRoute POST "/actions" "create_action";
    mkRoute GET "/actions/{action_id}" "get_action";
    mkRoute POST "/actions/{action_id}" "update_action";
    mkRoute DELETE "/actions/{action_id}" "delete_action";
    mkRoute GET "/actions/{action_id}/runs" "list_action_runs";
    mkRoute POST "/actions/{action_id}/runs" "create_action_run";
    mkRoute GET "/actions/{action_id}/runs/{action_run_id}" "get_action_run";
    mkRoute POST "/actions/{action_id}/runs/{action_run_id}" "update_action_run";
    mkRoute GET "/webhooks" "list_webhooks";
    mkRoute POST "/webhooks" "create_webhook";
    mkRoute GET "/webhooks/{webhook_id}" "get_webhook";
    mkRoute DELETE "/webhooks/{webhook_id}" "delete_webhook";
    mkRoute GET "/webhooks/search" "search_webhooks";
    mkRoute POST "/authenticate/webhooks/{webhook_id}/{secret}" "authenticate_webhook";
    mkRoute GET "/events/search" "search_events";
    mkRoute POST "/workflows/{workflow_id}/cases" "create_case";
    mkRoute GET "/workflows/{workflow_id}/cases" "list_cases";
    mkRoute GET "/workflows/{workflow_id}/cases/{case_id}" "get_case";
    mkRoute POST "/workflows/{workflow_id}/cases/{case_id}" "update_case";
    mkRoute GET "/workflows/{workflow_id}/cases/{case_id}/metrics" "get_case_metrics";
    mkRoute GET "/case-actions" "list_case_actions";
    mkRoute POST "/case-actions" "create_case_action";
    mkRoute DELETE "/case-actions/{case_action_id}" "delete_case_action";
    mkRoute GET "/case-contexts" "list_case_contexts";
    mkRoute POST "/case-contexts" "create_case_context";
    mkRoute DELETE "/case-contexts/{case_context_id}" "delete_case_context";
    mkRoute POST "/completions/cases/stream" "streaming_autofill_case_fields";
    mkRoute PUT "/users" "create_user";
    mkRoute GET "/users" "get_user";
    mkRoute POST "/users" "update_user";
    mkRoute DELETE "/users" "delete_user";
    mkRoute GET "/secrets" "list_secrets";
    mkRoute GET "/secrets/{secret_name}" "get_secret";
    mkRoute PUT "/secrets" "create_secret";
    mkRoute POST "/secrets" "update_secret";
    mkRoute POST "/secrets/search" "search_secrets"].

(** The segments of a path, split at every ["/"]. *)
Fixpoint split_slash (s : string) : list string :=
  match s with
  | EmptyString => [EmptyString]
  | String c s' =>
      let rest := split_slash s' in
      if Ascii.eqb c "/" then EmptyString :: rest
      else match rest with
           | x :: xs => String c x :: xs
           | [] => [String c EmptyString]
           end
  end.

(** A template segment [{name}] is a parameter. *)
Definition param_name (t : string) : option string :=
  match t with
  | String c inner => if Ascii.eqb c "{" then Some (String.substring 0 (String.length inner - 1) inner) else None
  | EmptyString => None
  end.

(** One segment against its template: a parameter takes any non-empty
    segment ([[^/]+]), a literal only itself. *)
Definition seg_match (t p : string) : option (list (string * string)) :=
  match param_name t with
  | Some n => if String.eqb p EmptyString then None else Some [(n, p)]
  | None => if String.eqb t p then Some [] else None
  end.

(** Starlette's [compile_path] regex on the segments: the path parameters
    when the path matches the template. *)
Fixpoint path_match (ts ps : list string) : option (list (string * string)) :=
  match ts, ps with
  | [], [] => Some []
  | t :: ts', p :: ps' =>
      match seg_match t p with
      | None => None
      | Some b => match path_match ts' ps' with None => None | Some bs => Some (b ++ bs) end
      end
  | _, _ => None
  end.

Definition path_matches (segs : list string) (r : api_route) : bool :=
  bool_decide (is_Some (path_match (split_slash (r_path r)) segs)).

(** [Route.matches] returns [Match.FULL]. *)
Definition full_match (m : method) (segs : list string) (r : api_route) : bool :=
  path_matches segs r && bool_decide (r_method r = m).

(** What the router does with a request. *)
Inductive resolution :=
  | Found (endpoint : string) (params : list (string * string))
  | MethodNotAllowed (endpoint : string)
  | Redirect (path : string)
  | NotFound.

(** [str.rstrip("/")]. *)
Fixpoint rstrip_slash (s : string) : string :=
  match s with
  | EmptyString => EmptyString
  | String c s' =>
      let r := rstrip_slash s' in
      if Ascii.eqb c "/" && String.eqb r EmptyString then EmptyString else String c r
  end.

(** The path [redirect_slashes] tries: without its trailing slashes when
    it ends with one, with one more otherwise. *)
Definition toggle_slash (p : string) : string :=
  match String.get (String.length p - 1) p with
  | Some "/"%char => rstrip_slash p
  | _ => p +:+ "/"
  end.

(** [Router.app] over [app_routes]. *)
Definition resolve (m : method) (path : string) : resolution :=
  let segs := split_slash path in
  match list_find (λ r, full_match m segs r = true) app_routes with
  | Some (_, r) => Found (r_endpoint r) (default [] (path_match (split_slash (r_path r)) segs))
  | None =>
      match list_find (λ r, path_matches segs r = true) app_routes with
      | Some (_, r) => MethodNotAllowed (r_endpoint r)
      | None =>
          if negb (String.eqb path "/") &&
             existsb (path_matches (split_slash (toggle_slash path))) app_routes
          then Redirect (toggle_slash path) else NotFound
      end
  end.

(** The segments joined back with ["/"]. *)
Fixpoint join_slash (l : list string) : string :=
  match l with
  | [] => EmptyString
  | [x] => x
  | x :: l' => x +:+ "/" +:+ join_slash l'
  end.

(** A concrete path of a template: every parameter takes the value ["x"]. *)
Definition fill_params (p : string) : string :=
  join_slash ((λ t, if param_name t then "x" else t) <$> split_slash p).

(** Whether the router sends [r]'s own method and template, filled, to [r]. *)
Definition reaches (r : api_route) : bool :=
  match resolve (r_method r) (fill_params (r_path r)) with
  | Found e _ => String.eqb e (r_endpoint r)
  | _ => false
  end.

(** ** Properties *)

Lemma seg_match_lit t p b : param_name t = None → seg_match t p = Some b → p = t.
Proof. unfold seg_match. intros ->. destruct (String.eqb_spec t p); by intros. Qed.

(** A template without parameters matches only itself. *)
Lemma path_match_lits ts ps bs : Forall (λ t, param_name t = None) ts → path_match ts ps = Some bs → ps = ts.
Proof.
  intros Hts. revert ps bs. induction Hts as [|t ts Ht Hts IH]; intros [|p ps] bs; simpl; try done.
  destruct (seg_match t p) as [b|] eqn:Hs; [|done]. destruct (path_match ts ps) as [bs'|] eqn:Hm; [|done].
  intros _. apply seg_match_lit in Hs as ->; [|done]. f_equal. by eapply IH.
Qed.

Lemma app_routes_endpoints_NoDup : NoDup (r_endpoint <$> app_routes).
Proof. apply (bool_decide_unpack _). vm_compute. reflexivity. Qed.

(** The route a request reaches is the only one of its endpoint. *)
Lemma resolve_Found_route m path e ps :
  resolve m path = Found e ps →
  ∃ i r, app_routes !! i = Some r ∧ r_endpoint r = e ∧ full_match m (split_slash path) r = true ∧
    ∀ j r', app_routes !! j = Some r' → (j < i)%nat → full_match m (split_slash path) r' = false.
Proof.
  unfold resolve. destruct (list_find _ app_routes) as [[i r]|] eqn:Hf.
  - intros [= <- _]. apply list_find_Some in Hf as (Hi & Hfull & Hbefore).
    exists i, r. split_and!; [done|done|done|]. intros j r' Hj Hlt. apply not_true_is_false. by eapply Hbefore.
  - repeat case_match; done.
Qed.

Lemma endpoint_index i r : app_routes !! i = Some r → ∀ j r', app_routes !! j = Some r' → r_endpoint r = r_endpoint r' → i = j.
Proof.
  intros Hi j r' Hj Heq. apply (NoDup_lookup (r_endpoint <$> app_routes) i j (r_endpoint r));
    [apply app_routes_endpoints_NoDup|by rewrite list_lookup_fmap, Hi|by rewrite list_lookup_fmap, Hj, Heq].
Qed.

(** C29. [GET /webhooks/search] is shadowed by [GET /webhooks/{webhook_id}],
    registered before it: no request of any method and path reaches
    [search_webhooks], and [GET /webhooks/search] reaches [get_webhook]
    with [webhook_id = "search"]. *)
Theorem search_webhooks_unreachable m path ps :
  resolve m path ≠ Found "search_webhooks" ps ∧
  resolve GET "/webhooks/search" = Found "get_webhook" [("webhook_id", "search")].
Proof.
  split; [|vm_compute; reflexivity].
  intros (i & r & Hi & He & Hfull & Hbefore)%resolve_Found_route.
  assert (app_routes !! 26%nat = Some (mkRoute GET "/webhooks/search" "search_webhooks")) as H26 by reflexivity.
  pose proof (endpoint_index i r Hi 26 _ H26 He) as ->. rewrite H26 in Hi. injection Hi as <-.
  unfold full_match, path_matches in Hfull. apply andb_prop in Hfull as [Hp Hm].
  apply bool_decide_eq_true in Hp as [bs Hp], Hm. simpl in Hm. subst m.
  apply path_match_lits in Hp; [|repeat constructor].
  specialize (Hbefore 24%nat (mkRoute GET "/webhooks/{webhook_id}" "get_webhook") eq_refl ltac:(lia)).
  rewrite Hp in Hbefore. vm_compute in Hbefore. discriminate.
Qed.

(** C19. Every other route of the table is reachable: the request with
    its method and its path, each parameter set to ["x"], reaches its
    endpoint, so that [search_webhooks] is the only endpoint the order of
    registration hides. *)
Theorem routes_reachable_but_search i r :
  app_routes !! i = Some r → r_endpoint r ≠ "search_webhooks" →
  ∃ ps, resolve (r_method r) (fill_params (r_path r)) = Found (r_endpoint r) ps.
Proof.
  intros Hi Hne.
  assert (forallb (λ r, String.eqb (r_endpoint r) "search_webhooks" || reaches r) app_routes = true) as Hall.
  { vm_compute. reflexivity. }
  rewrite forallb_forall in Hall. specialize (Hall r (proj1 (list_elem_of_In _ _) (list_elem_of_lookup_2 _ _ _ Hi))).
  apply orb_true_iff in Hall as [He%String.eqb_eq | Hr]; [done|].
  unfold reaches in Hr. destruct (resolve _ _) as [e ps| | |]; try discriminate.
  apply String.eqb_eq in Hr as ->. by exists ps.
Qed.

(** Witness of C19: [GET /secrets/{secret_name}] is reached by
    [GET /secrets/x]. *)
Lemma routes_reachable_but_search_witness :
  app_routes !! 46%nat = Some (mkRoute GET "/secrets/{secret_name}" "get_secret") ∧
  "get_secret" ≠ "search_webhooks" ∧
  ∃ ps, resolve GET (fill_params "/secrets/{secret_name}") = Found "get_secret" ps.
Proof.
  split; [reflexivity|]. split; [discriminate|].
  exact (routes_reachable_but_search 46 (mkRoute GET "/secrets/{secret_name}" "get_secret") eq_refl
           ltac:(discriminate)).
Defined.
