(* ===== verification/Api.v ===== *)
(** * The API as a whole

    Every endpoint of [src/tracecat/api/app.py] that reads or writes the
    database keeps the world invariant, on its error paths too; a
    request is the authentication its route declares followed by the
    handler; the event search and the trigger are routes of the same
    table.  The app joins the database routes with the case routes of
    [Cases] over a state of two stores, and the states reachable from
    start-up by any sequence of requests keep both invariants.
    [initialize_db] seeds the label tables at start-up and terminates on
    the empty database.  The file ends with scenarios that cross
    components and their witnesses on the demo world. *)

From S2P Require Import Prelude Json Identity Db Responses Clone Auth World Workflows Webhooks Actions Runs Users Events Trigger Cases.

(** ** Every handler is safe *)

Section Safety.
Context `{WebhookSigner} `{ActionTypes} `{KeyCipher} `{EI : EventIndex} `{RC : Runner} (runner_url : string).

Lemma create_workflow_safe role params w : world_wf w → safe (create_workflow role params) (λ _ _, True) w.
Proof.
  intros Hwf. unfold create_workflow. wp.
  intros st' (m' & (Hfree & ->)%tbl_insert_Ok & [= <-])%result_bind_Ok Hfk. commit_ok H2.
Qed.

(** Read-only handlers. *)
Ltac safe_read_only := intros; wp; intros; auto.

Lemma list_workflows_safe role lib w : world_wf w → safe (list_workflows role lib) (λ _ _, True) w.
Proof. intros. unfold list_workflows. wp; auto. Qed.

Lemma get_workflow_safe role wid w : world_wf w → safe (get_workflow role wid) (λ _ _, True) w.
Proof. intros. unfold get_workflow. wp; auto. Qed.

Lemma update_workflow_safe role wid params w :
  world_wf w → safe (update_workflow role wid params) (λ _ _, True) w.
Proof.
  intros Hwf. unfold update_workflow, select_workflow. wp. selected Hwf.
  intros st' [= <-] Hfk. commit_ok Hwf.
Qed.

Lemma delete_workflow_safe role wid w : world_wf w → safe (delete_workflow role wid) (λ _ _, True) w.
Proof.
  intros Hwf. unfold delete_workflow. wp. intros st' [= <-] Hfk.
  commit_shrink delete_workflow_rows_wf.
Qed.

Lemma copy_workflow_safe role wid params w :
  world_wf w → safe (copy_workflow role wid params) (λ _ _, True) w.
Proof.
  intros Hwf. unfold safe, copy_workflow. case_decide; [by split|].
  destruct (select_owned _ _ _ _) as [src|]; [|by split].
  destruct (clone_workflow _ _ _ _) as [[cw cs]|e] eqn:Hrun; [|by split].
  destruct (commit _ _) as [db'|e] eqn:Hcommit; [|by split].
  split; [|done]. exact (proj2 (world_wf_add_clone _ _ _ _ _ _ _ Hwf Hrun Hcommit)).
Qed.

(** Webhooks. *)
Lemma list_webhooks_safe role wid w : world_wf w → safe (list_webhooks runner_url role wid) (λ _ _, True) w.
Proof. intros. unfold list_webhooks. wp; auto. Qed.

Lemma create_webhook_safe role params w :
  world_wf w → safe (create_webhook runner_url role params) (λ _ _, True) w.
Proof.
  intros Hwf. unfold create_webhook. wp.
  intros st' (m' & (Hfree & ->)%tbl_insert_Ok & [= <-])%result_bind_Ok Hfk.
  match goal with H : world_wf (mkWorld _ _) |- _ => commit_ok H end.
Qed.

Lemma get_webhook_safe role hid w : world_wf w → safe (get_webhook runner_url role hid) (λ _ _, True) w.
Proof. intros. unfold get_webhook. wp; auto. Qed.

Lemma delete_webhook_safe role hid w : world_wf w → safe (delete_webhook role hid) (λ _ _, True) w.
Proof.
  intros Hwf. unfold delete_webhook. wp. intros st' [= <-] Hfk.
  commit_shrink world_wf_delete_webhook.
Qed.

Lemma search_webhooks_safe role params w :
  world_wf w → safe (search_webhooks runner_url role params) (λ _ _, True) w.
Proof. intros. unfold search_webhooks. wp; auto. Qed.

Lemma authenticate_webhook_safe hid secret w :
  world_wf w → safe (authenticate_webhook hid secret) (λ _ _, True) w.
Proof. intros. unfold authenticate_webhook. wp. case_decide; wp; auto. Qed.

(** Actions. *)
Lemma list_actions_safe role wid w : world_wf w → safe (list_actions role wid) (λ _ _, True) w.
Proof. intros. unfold list_actions. wp; auto. Qed.

Lemma create_action_safe role params w :
  world_wf w → safe (create_action runner_url role params) (λ _ _, True) w.
Proof.
  intros Hwf. unfold create_action. wp.
  intros st' (m' & (Hfree & ->)%tbl_insert_Ok & [= <-])%result_bind_Ok Hfk.
  match goal with H : world_wf (mkWorld _ _) |- _ => commit_ok H end.
  case_match; wp; auto.
  eapply safe_mono; [by apply create_webhook_safe|]. intros. wp; auto.
Qed.

Lemma get_action_safe role aid wid w : world_wf w → safe (get_action runner_url role aid wid) (λ _ _, True) w.
Proof.
  intros. unfold get_action. wp. destruct (String.eqb _ _); wp;
    try (eapply safe_mono; [by apply search_webhooks_safe|]; intros; wp); auto.
Qed.

Lemma update_action_safe role aid params w :
  world_wf w → safe (update_action role aid params) (λ _ _, True) w.
Proof.
  intros Hwf. unfold update_action, select_action. wp. selected Hwf.
  intros st' [= <-] Hfk. commit_ok Hwf.
Qed.

Lemma delete_action_safe role aid w : world_wf w → safe (delete_action role aid) (λ _ _, True) w.
Proof.
  intros Hwf. unfold delete_action. wp. intros st' [= <-] Hfk.
  commit_shrink delete_action_rows_wf.
Qed.

(** Runs. *)
Lemma list_workflow_runs_safe role wid lim w :
  world_wf w → safe (list_workflow_runs role wid lim) (λ _ _, True) w.
Proof. intros. unfold list_workflow_runs. wp; auto. Qed.

Lemma create_workflow_run_safe role wid w :
  world_wf w → safe (create_workflow_run role wid) (λ _ _, True) w.
Proof.
  intros Hwf. unfold create_workflow_run. wp.
  intros st' (m' & (Hfree & ->)%tbl_insert_Ok & [= <-])%result_bind_Ok Hfk.
  match goal with H : world_wf (mkWorld _ _) |- _ => commit_ok H end.
Qed.

Lemma get_workflow_run_safe role wid rid w :
  world_wf w → safe (get_workflow_run role wid rid) (λ _ _, True) w.
Proof. intros. unfold get_workflow_run. wp; auto. Qed.

Lemma update_workflow_run_safe role wid rid params w :
  world_wf w → safe (update_workflow_run role wid rid params) (λ _ _, True) w.
Proof.
  intros Hwf. unfold update_workflow_run, select_workflow_run. wp. selected Hwf.
  intros st' [= <-] Hfk. commit_ok Hwf.
Qed.

Lemma list_action_runs_safe role aid lim w :
  world_wf w → safe (list_action_runs role aid lim) (λ _ _, True) w.
Proof. intros. unfold list_action_runs. wp; auto. Qed.

Lemma create_action_run_safe role aid params w :
  world_wf w → safe (create_action_run role aid params) (λ _ _, True) w.
Proof.
  intros Hwf. unfold create_action_run. wp.
  intros st' (m' & (Hfree & ->)%tbl_insert_Ok & [= <-])%result_bind_Ok Hfk. commit_ok Hwf.
Qed.

Lemma get_action_run_safe role aid rid w :
  world_wf w → safe (get_action_run role aid rid) (λ _ _, True) w.
Proof. intros. unfold get_action_run. wp; auto. Qed.

Lemma update_action_run_safe role aid rid params w :
  world_wf w → safe (update_action_run role aid rid params) (λ _ _, True) w.
Proof.
  intros Hwf. unfold update_action_run, select_action_run. wp. selected Hwf.
  intros st' [= <-] Hfk. commit_ok Hwf.
Qed.

(** Users, secrets and case labels. *)
Lemma create_user_safe role w : world_wf w → safe (create_user role) (λ _ _, True) w.
Proof.
  intros Hwf. unfold create_user. wp. case_match; wp.
  intros st' (m' & (Hfree & ->)%tbl_insert_Ok & [= <-])%result_bind_Ok Hfk. commit_ok Hwf.
Qed.

Lemma get_user_safe role w : world_wf w → safe (get_user role) (λ _ _, True) w.
Proof. intros. unfold get_user. wp; auto. Qed.

Lemma update_user_safe role params w : world_wf w → safe (update_user role params) (λ _ _, True) w.
Proof.
  intros Hwf. unfold update_user. wp. intros st' [= <-] Hfk. commit_ok Hwf.
Qed.

Lemma delete_user_safe role w : world_wf w → safe (delete_user role) (λ _ _, True) w.
Proof.
  intros Hwf. unfold delete_user. wp. intros st' [= <-] Hfk. commit_shrink delete_user_rows_wf.
Qed.

Lemma list_secrets_safe role w : world_wf w → safe (list_secrets role) (λ _ _, True) w.
Proof. intros. unfold list_secrets. wp; auto. Qed.

Lemma get_secret_safe role name w : world_wf w → safe (get_secret role name) (λ _ _, True) w.
Proof. intros. unfold get_secret. wp. case_match; wp; auto. Qed.

Lemma create_secret_safe role params w : world_wf w → safe (create_secret role params) (λ _ _, True) w.
Proof.
  intros Hwf. unfold create_secret. wp. case_match; wp.
  intros st' (m' & (Hfree & ->)%tbl_insert_Ok & [= <-])%result_bind_Ok Hfk.
  match goal with H : world_wf (mkWorld _ _) |- _ => commit_ok H end.
Qed.

Lemma update_secret_safe role params w : world_wf w → safe (update_secret role params) (λ _ _, True) w.
Proof.
  intros Hwf. unfold update_secret, find_secret. wp. case_match; wp.
  match goal with Hx : (limit 1 _ ≫= one_or_none) = Ok (Some _) |- _ =>
    apply one_or_none_limit_in in Hx end.
  selected Hwf. intros st' [= <-] Hfk. commit_ok Hwf.
Qed.

Lemma search_secrets_safe role params w : world_wf w → safe (search_secrets role params) (λ _ _, True) w.
Proof. intros. unfold search_secrets. wp; auto. Qed.

Lemma list_case_actions_safe role w : world_wf w → safe (list_case_actions role) (λ _ _, True) w.
Proof. intros. unfold list_case_actions. wp; auto. Qed.

Lemma create_case_action_safe role params w :
  world_wf w → safe (create_case_action role params) (λ _ _, True) w.
Proof.
  intros Hwf. unfold create_case_action. wp.
  intros st' (m' & (Hfree & ->)%tbl_insert_Ok & [= <-])%result_bind_Ok Hfk.
  match goal with H : world_wf (mkWorld _ _) |- _ => commit_ok H end.
Qed.

Lemma delete_case_action_safe role cid w : world_wf w → safe (delete_case_action role cid) (λ _ _, True) w.
Proof.
  intros Hwf. unfold delete_case_action. wp. intros st' [= <-] Hfk.
  commit_shrink world_wf_delete_case_action.
Qed.

Lemma list_case_contexts_safe role w : world_wf w → safe (list_case_contexts role) (λ _ _, True) w.
Proof. intros. unfold list_case_contexts. wp; auto. Qed.

Lemma create_case_context_safe role params w :
  world_wf w → safe (create_case_context role params) (λ _ _, True) w.
Proof.
  intros Hwf. unfold create_case_context. wp.
  intros st' (m' & (Hfree & ->)%tbl_insert_Ok & [= <-])%result_bind_Ok Hfk.
  match goal with H : world_wf (mkWorld _ _) |- _ => commit_ok H end.
Qed.

Lemma delete_case_context_safe role cid w :
  world_wf w → safe (delete_case_context role cid) (λ _ _, True) w.
Proof.
  intros Hwf. unfold delete_case_context. wp. intros st' [= <-] Hfk.
  rewrite delete_delete_eq. commit_shrink world_wf_delete_case_context.
Qed.
Lemma search_events_safe role params w : world_wf w → safe (search_events role params) (λ _ _, True) w.
Proof. intros. unfold search_events. wp. case_match; wp. Qed.

Lemma trigger_workflow_run_safe role wid params w :
  world_wf w → safe (trigger_workflow_run role wid params) (λ _ _, True) w.
Proof. intros. unfold trigger_workflow_run. wp. case_match; wp; auto. Qed.
End Safety.

(** ** Start-up: [initialize_db] *)

(** [DEFAULT_CASE_ACTIONS] of [src/tracecat/db.py]. *)
Definition DEFAULT_CASE_ACTIONS : list string :=
  ["Active compromise"; "Ignore"; "Informational"; "Investigate"; "Quarantined"; "Sinkholed"].

(** The rows part of [initialize_db()]: the MITRE labels
    ([get_mitre_tactics_techniques()], outside the sources, given as
    [mitre_labels]) seed an empty context table, the default case actions
    an empty case-action table; each in its own commit. *)
Definition initialize_db (mitre_labels : list string) : handler unit :=
  let* st := h_read id in
  let* _ :=
    (if decide (rows (st_case_contexts st) = []) then
       let* mitre_contexts := h_mapM (λ label, let* cid := uuid4 in
                                        h_ret (mkCaseContext cid "mitre" label None "tracecat"))
                                mitre_labels in
       h_commit (λ st, m ← tbl_insert_all cc_id mitre_contexts (st_case_contexts st);
                       Ok (set_case_contexts m st))
     else h_ret tt) in
  let* st := h_read id in
  if decide (rows (st_case_actions st) = []) then
    let* default_actions := h_mapM (λ v, let* cid := uuid4 in
                                      h_ret (mkCaseAction cid "case_action" v None "tracecat"))
                              DEFAULT_CASE_ACTIONS in
    h_commit (λ st, m ← tbl_insert_all ca_id default_actions (st_case_actions st);
                    Ok (set_case_actions m st))
  else h_ret tt.

(** The database before the first start: every table empty. *)
Definition empty_store : store := mkStore ∅ ∅ ∅ ∅ ∅ ∅ ∅ ∅ ∅.
Definition empty_world : world := mkWorld empty_store 0.

(** ** Requests *)

(** The routes of [app.py] that use the database, with their parameters.
    [ListSecrets] carries the [Role] FastAPI builds from the query string
    for its bare [Depends()]. *)
Inductive request :=
  | ListWorkflows (library : bool)
  | CreateWorkflow (params : CreateWorkflowParams)
  | GetWorkflow (workflow_id : string)
  | UpdateWorkflow (workflow_id : string) (params : UpdateWorkflowParams)
  | DeleteWorkflow (workflow_id : string)
  | CopyWorkflow (workflow_id : string) (params : option CopyWorkflowParams)
  | ListWorkflowRuns (workflow_id : string) (lim : Z)
  | CreateWorkflowRun (workflow_id : string)
  | GetWorkflowRun (workflow_id workflow_run_id : string)
  | UpdateWorkflowRun (workflow_id workflow_run_id : string) (params : UpdateWorkflowRunParams)
  | ListActions (workflow_id : string)
  | CreateAction (params : CreateActionParams)
  | GetAction (action_id workflow_id : string)
  | UpdateAction (action_id : string) (params : UpdateActionParams)
  | DeleteAction (action_id : string)
  | ListActionRuns (action_id : string) (lim : Z)
  | CreateActionRun (action_id : string) (params : CreateActionRunParams)
  | GetActionRun (action_id action_run_id : string)
  | UpdateActionRun (action_id action_run_id : string) (params : UpdateActionRunParams)
  | ListWebhooks (workflow_id : string)
  | CreateWebhook (params : CreateWebhookParams)
  | GetWebhook (webhook_id : string)
  | DeleteWebhook (webhook_id : string)
  | AuthenticateWebhook (webhook_id secret : string)
  | CreateUser
  | GetUser
  | UpdateUser (params : UpdateUserParams)
  | DeleteUser
  | ListSecrets (query_role : Role)
  | GetSecret (secret_name : string)
  | CreateSecret (params : CreateSecretParams)
  | UpdateSecret (params : CreateSecretParams)
  | SearchSecrets (params : SearchSecretsParams)
  | ListCaseActions
  | CreateCaseAction (params : CaseLabelParams)
  | DeleteCaseAction (case_action_id : string)
  | ListCaseContexts
  | CreateCaseContext (params : CaseLabelParams)
  | DeleteCaseContext (case_context_id : string)
  | SearchEvents (params : EventSearchParams)
  | TriggerWorkflowRun (workflow_id : string) (params : TriggerWorkflowRunParams).

Section Serve.
Context `{WebhookSigner} `{ActionTypes} `{KeyCipher} `{EI : EventIndex} `{RC : Runner} (runner_url : string).

(** A route: its dependency resolves the role, then the handler runs;
    the response body is dropped. *)
Definition route {A} (auth : credential → result Role) (c : credential) (k : Role → handler A)
    : handler unit :=
  let* role := h_lift (auth c) in
  let* _ := k role in
  h_ret tt.

Definition serve (c : credential) (req : request) : handler unit :=
  match req with
  | ListWorkflows lib => route authenticate_user c (λ r, list_workflows r lib)
  | CreateWorkflow p => route authenticate_user c (λ r, create_workflow r p)
  | GetWorkflow wid => route authenticate_user_or_service c (λ r, get_workflow r wid)
  | UpdateWorkflow wid p => route authenticate_user c (λ r, update_workflow r wid p)
  | DeleteWorkflow wid => route authenticate_user c (λ r, delete_workflow r wid)
  | CopyWorkflow wid p => route authenticate_user_or_service c (λ r, copy_workflow r wid (cwp_owner_id <$> p))
  | ListWorkflowRuns wid lim => route authenticate_user c (λ r, list_workflow_runs r wid lim)
  | CreateWorkflowRun wid => route authenticate_service c (λ r, create_workflow_run r wid)
  | GetWorkflowRun wid rid => route authenticate_user c (λ r, get_workflow_run r wid rid)
  | UpdateWorkflowRun wid rid s => route authenticate_service c (λ r, update_workflow_run r wid rid s)
  | ListActions wid => route authenticate_user c (λ r, list_actions r wid)
  | CreateAction p => route authenticate_user c (λ r, create_action runner_url r p)
  | GetAction aid wid => route authenticate_user c (λ r, get_action runner_url r aid wid)
  | UpdateAction aid p => route authenticate_user c (λ r, update_action r aid p)
  | DeleteAction aid => route authenticate_user c (λ r, delete_action r aid)
  | ListActionRuns aid lim => route authenticate_user c (λ r, list_action_runs r aid lim)
  | CreateActionRun aid p => route authenticate_service c (λ r, create_action_run r aid p)
  | GetActionRun aid rid => route authenticate_user c (λ r, get_action_run r aid rid)
  | UpdateActionRun aid rid s => route authenticate_service c (λ r, update_action_run r aid rid s)
  | ListWebhooks wid => route authenticate_user c (λ r, list_webhooks runner_url r wid)
  | CreateWebhook p => route authenticate_user c (λ r, create_webhook runner_url r p)
  | GetWebhook hid => route authenticate_user_or_service c (λ r, get_webhook runner_url r hid)
  | DeleteWebhook hid => route authenticate_user c (λ r, delete_webhook r hid)
  | AuthenticateWebhook hid s => route authenticate_service c (λ _, authenticate_webhook hid s)
  | CreateUser => route authenticate_user c create_user
  | GetUser => route authenticate_user c get_user
  | UpdateUser p => route authenticate_user c (λ r, update_user r p)
  | DeleteUser => route authenticate_user c delete_user
  | ListSecrets qr => route (λ _, Ok qr) c list_secrets
  | GetSecret n => route authenticate_user_or_service c (λ r, get_secret r n)
  | CreateSecret p => route authenticate_user c (λ r, create_secret r p)
  | UpdateSecret p => route authenticate_user c (λ r, update_secret r p)
  | SearchSecrets p => route authenticate_user c (λ r, search_secrets r p)
  | ListCaseActions => route authenticate_user c list_case_actions
  | CreateCaseAction p => route authenticate_user c (λ r, create_case_action r p)
  | DeleteCaseAction cid => route authenticate_user c (λ r, delete_case_action r cid)
  | ListCaseContexts => route authenticate_user c list_case_contexts
  | CreateCaseContext p => route authenticate_user c (λ r, create_case_context r p)
  | DeleteCaseContext cid => route authenticate_user c (λ r, delete_case_context r cid)
  | SearchEvents p => route authenticate_user c (λ r, search_events r p)
  | TriggerWorkflowRun wid p => route authenticate_user c (λ r, trigger_workflow_run r wid p)
  end.

(** The worlds a deployment goes through: the database initialized at
    start-up, then any sequence of requests. *)
Inductive reachable (mitre_labels : list string) : world → Prop :=
  | reach_init : reachable mitre_labels (snd (initialize_db mitre_labels empty_world))
  | reach_step w c req : reachable mitre_labels w → reachable mitre_labels (snd (serve c req w)).
End Serve.

(** ** The invariant of the whole API *)

Section Invariant.
Context `{WebhookSigner} `{ActionTypes} `{KeyCipher} `{EI : EventIndex} `{RC : Runner} (runner_url : string).

Lemma route_safe {A} auth c (k : Role → handler A) w :
  world_wf w → (∀ r, safe (k r) (λ _ _, True) w) → safe (route auth c k) (λ _ _, True) w.
Proof.
  intros Hwf Hk. unfold route. wp. eapply safe_mono; [apply Hk|]. intros. wp; auto.
Qed.

Lemma serve_safe c req w : world_wf w → safe (serve runner_url c req) (λ _ _, True) w.
Proof.
  intros Hwf. destruct req; cbn [serve]; (apply route_safe; [done|]); intros r.
  - by apply list_workflows_safe.
  - by apply create_workflow_safe.
  - by apply get_workflow_safe.
  - by apply update_workflow_safe.
  - by apply delete_workflow_safe.
  - by apply copy_workflow_safe.
  - by apply list_workflow_runs_safe.
  - by apply create_workflow_run_safe.
  - by apply get_workflow_run_safe.
  - by apply update_workflow_run_safe.
  - by apply list_actions_safe.
  - by apply create_action_safe.
  - by apply get_action_safe.
  - by apply update_action_safe.
  - by apply delete_action_safe.
  - by apply list_action_runs_safe.
  - by apply create_action_run_safe.
  - by apply get_action_run_safe.
  - by apply update_action_run_safe.
  - by apply list_webhooks_safe.
  - by apply create_webhook_safe.
  - by apply get_webhook_safe.
  - by apply delete_webhook_safe.
  - by apply authenticate_webhook_safe.
  - by apply create_user_safe.
  - by apply get_user_safe.
  - by apply update_user_safe.
  - by apply delete_user_safe.
  - by apply list_secrets_safe.
  - by apply get_secret_safe.
  - by apply create_secret_safe.
  - by apply update_secret_safe.
  - by apply search_secrets_safe.
  - by apply list_case_actions_safe.
  - by apply create_case_action_safe.
  - by apply delete_case_action_safe.
  - by apply list_case_contexts_safe.
  - by apply create_case_context_safe.
  - by apply delete_case_context_safe.
  - by apply search_events_safe.
  - by apply trigger_workflow_run_safe.
Qed.

Lemma empty_world_wf : world_wf empty_world.
Proof.
  unfold world_wf, fk_ok, keys_consistent, ids_drawn, keyed. cbn.
  split_and!; apply map_Forall_empty.
Qed.

(** A bulk commit of freshly drawn rows into one of the label tables. *)
Lemma seed_safe {B} (key : B → string) (get : store → gmap string B)
    (set : gmap string B → store → store) (mk : string → string → B) (vals : list string) Q w :
  world_wf w → (∀ k v, key (mk k v) = k) →
  (∀ st' m', tbl_insert_all key (zip_with mk ((λ i, uuid (w_next w + N.of_nat i)%N) <$>
                 seq 0 (List.length vals)) vals) (get (w_db w)) = Ok m' →
     st' = set m' (w_db w) → fk_ok st' →
     keys_consistent st' ∧ ids_drawn (mkWorld st' (w_next w + N.of_nat (List.length vals))%N) ∧
     Q tt (mkWorld st' (w_next w + N.of_nat (List.length vals))%N)) →
  safe (let* xs := h_mapM (λ v, let* k := uuid4 in h_ret (mk k v)) vals in
        h_commit (λ st, m ← tbl_insert_all key xs (get st); Ok (set m st))) Q w.
Proof.
  intros Hwf Hkey Hobl. apply safe_bind. unfold safe at 1. rewrite h_mapM_draw. simpl.
  assert (world_wf (mkWorld (w_db w) (w_next w + N.of_nat (List.length vals))%N)) as Hwf'.
  { destruct Hwf as (? & ? & ?). split_and!; [done|done|]. apply ids_drawn_mono; [done|simpl; lia]. }
  split; [done|]. intros xs [= <-]. apply safe_commit; [done|]. simpl.
  intros st' (m' & Hall & [= <-])%result_bind_Ok Hfk.
  destruct (Hobl _ m' Hall eq_refl Hfk) as (? & ? & ?). auto.
Qed.

(** The rows [initialize_db] seeds keep the row keys and drawn keys. *)
Lemma seed_contexts_ok w labels m' :
  world_wf w →
  tbl_insert_all cc_id (zip_with (λ k v, mkCaseContext k "mitre" v None "tracecat")
    ((λ i, uuid (w_next w + N.of_nat i)%N) <$> seq 0 (List.length labels)) labels)
    (st_case_contexts (w_db w)) = Ok m' →
  keys_consistent (set_case_contexts m' (w_db w)) ∧
  ids_drawn (mkWorld (set_case_contexts m' (w_db w)) (w_next w + N.of_nat (List.length labels))%N).
Proof.
  intros (_ & K & D) Hall. split.
  - unfold keys_consistent in *. simpl in *. destruct_and?. split_and!; try done.
    by eapply keyed_insert_all.
  - unfold ids_drawn in *. simpl in *. destruct_and?. split_and!;
      try (eapply drawn_dom; [eassumption|done|lia]).
    eapply drawn_insert_all; [done| |by apply (drawn_zip_keys cc_id)].
    eapply drawn_dom; [eassumption|done|lia].
Qed.

Lemma seed_actions_ok w vals m' :
  world_wf w →
  tbl_insert_all ca_id (zip_with (λ k v, mkCaseAction k "case_action" v None "tracecat")
    ((λ i, uuid (w_next w + N.of_nat i)%N) <$> seq 0 (List.length vals)) vals)
    (st_case_actions (w_db w)) = Ok m' →
  keys_consistent (set_case_actions m' (w_db w)) ∧
  ids_drawn (mkWorld (set_case_actions m' (w_db w)) (w_next w + N.of_nat (List.length vals))%N).
Proof.
  intros (_ & K & D) Hall. split.
  - unfold keys_consistent in *. simpl in *. destruct_and?. split_and!; try done.
    by eapply keyed_insert_all.
  - unfold ids_drawn in *. simpl in *. destruct_and?. split_and!;
      try (eapply drawn_dom; [eassumption|done|lia]).
    eapply drawn_insert_all; [done| |by apply (drawn_zip_keys ca_id)].
    eapply drawn_dom; [eassumption|done|lia].
Qed.

Lemma seed_actions_safe w :
  world_wf w →
  safe (let* st := h_read id in
        if decide (rows (st_case_actions st) = []) then
          let* default_actions := h_mapM (λ v, let* cid := uuid4 in
                                    h_ret (mkCaseAction cid "case_action" v None "tracecat"))
                                    DEFAULT_CASE_ACTIONS in
          h_commit (λ st, m ← tbl_insert_all ca_id default_actions (st_case_actions st);
                          Ok (set_case_actions m st))
        else h_ret tt) (λ _ _, True) w.
Proof.
  intros Hwf. wp. case_decide; [|wp; auto].
  apply seed_safe; [done|done|]. intros st' m' Hall -> _.
  destruct (seed_actions_ok w DEFAULT_CASE_ACTIONS m' Hwf Hall). done.
Qed.

Lemma initialize_db_safe labels w : world_wf w → safe (initialize_db labels) (λ _ _, True) w.
Proof.
  intros Hwf. unfold initialize_db. wp. case_decide.
  - eapply (safe_mono _ (λ _ _, True)).
    + apply seed_safe; [done|done|]. intros st' m' Hall -> _.
      destruct (seed_contexts_ok w labels m' Hwf Hall). done.
    + intros ? w1 Hwf1 _. by apply seed_actions_safe.
  - wp. by apply seed_actions_safe.
Qed.
(** ** Seeding from the empty database *)

Lemma seed_run {B} (key : B → string) (get : store → gmap string B)
    (set : gmap string B → store → store) (mk : string → string → B) (vals : list string) w m' :
  tbl_insert_all key (zip_with mk ((λ i, uuid (w_next w + N.of_nat i)%N) <$>
                 seq 0 (List.length vals)) vals) (get (w_db w)) = Ok m' →
  fk_ok (set m' (w_db w)) →
  (let* xs := h_mapM (λ v, let* k := uuid4 in h_ret (mk k v)) vals in
   h_commit (λ st, m ← tbl_insert_all key xs (get st); Ok (set m st))) w
  = (Ok tt, mkWorld (set m' (w_db w)) (w_next w + N.of_nat (List.length vals))%N).
Proof.
  intros Hall Hfk. unfold h_bind at 1. rewrite h_mapM_draw, h_commit_eq. cbn [w_db w_next].
  rewrite Hall. cbn. by rewrite decide_True.
Qed.
Lemma fk_seed_contexts st xs m' :
  fk_ok st → Forall (λ x, cc_user_id x = None) xs →
  tbl_insert_all cc_id xs (st_case_contexts st) = Ok m' → fk_ok (set_case_contexts m' st).
Proof.
  intros (F1 & F2 & F3 & F4 & F5 & F6 & F7 & F8) Hxs Hall. split_and!; try done.
  intros k y Hy. destruct (tbl_insert_all_lookup _ _ _ _ _ _ Hall Hy) as [Hold|[Hin _]];
    [exact (F8 _ _ Hold)|]. rewrite Forall_forall in Hxs. simpl. by rewrite (Hxs _ Hin).
Qed.

Lemma fk_seed_actions st xs m' :
  fk_ok st → Forall (λ x, ca_user_id x = None) xs →
  tbl_insert_all ca_id xs (st_case_actions st) = Ok m' → fk_ok (set_case_actions m' st).
Proof.
  intros (F1 & F2 & F3 & F4 & F5 & F6 & F7 & F8) Hxs Hall. split_and!; try done.
  intros k y Hy. destruct (tbl_insert_all_lookup _ _ _ _ _ _ Hall Hy) as [Hold|[Hin _]];
    [exact (F7 _ _ Hold)|]. rewrite Forall_forall in Hxs. simpl. by rewrite (Hxs _ Hin).
Qed.

(** The values of rows seeded into an empty table are the seeded values. *)
Lemma seeded_values {B} (value : B → string) (mk : string → string → B) n vals (m : gmap string B) :
  (∀ k v, value (mk k v) = v) → m = ∅ →
  value <$> zip_with mk ((λ i, uuid (n + N.of_nat i)%N) <$> seq 0 (List.length vals)) vals ++ rows m
    ≡ₚ vals.
Proof.
  intros Hv ->. rewrite app_nil_r, fmap_zip_with_r; [done|done|].
  rewrite length_fmap, length_seq. lia.
Qed.

End Invariant.

Section Theorems.
Context `{WebhookSigner} `{ActionTypes} `{KeyCipher} `{EI : EventIndex} `{RC : Runner} (runner_url : string).

(** Every request, whatever its credential, keeps the world invariant. *)
Theorem serve_preserves_wf c req w :
  world_wf w → world_wf (snd (serve runner_url c req w)).
Proof. intros Hwf. apply (serve_safe runner_url c req w Hwf). Qed.

(** Every world a deployment reaches is well formed: the foreign keys
    hold, rows sit under their keys, generated keys come from the
    allocator. *)
Theorem reachable_wf labels w : reachable runner_url labels w → world_wf w.
Proof.
  induction 1 as [|w c req _ IH].
  - apply initialize_db_safe, empty_world_wf.
  - by apply serve_safe.
Qed.

(** C14. Without a credential every route answers 401 and changes nothing,
    except [GET /secrets], whose role comes from the query string. *)
Theorem serve_requires_credential req w :
  (∀ qr, req ≠ ListSecrets qr) →
  serve runner_url CredNone req w = (Err (HTTPException 401 "Unauthorized"), w).
Proof. intros Hreq. destruct req; try reflexivity. by destruct (Hreq query_role). Qed.

(** C15. [GET /secrets] takes its role from the query string: after a
    user creates a secret, a request without any credential that names
    that user's id in the query succeeds and receives the secret, its
    encrypted key included, and that key decrypts to the stored value. *)
Theorem anonymous_lists_created_secret owner params w w' qr :
  world_wf w → create_secret owner params w = (Ok tt, w') → role_user_id qr = role_user_id owner →
  serve runner_url CredNone (ListSecrets qr) w' = (Ok tt, w') ∧
  ∃ xs x, list_secrets qr w' = (Ok xs, w') ∧ x ∈ xs ∧ sec_name x = Some (csp_name params) ∧
    Secret_key x = Some (csp_value params).
Proof.
  intros Hwf Hrun Hq. destruct (create_secret_inserts owner params w w' Hwf Hrun) as (sid & Hfree & _ & Hst).
  split; [reflexivity|].
  eexists _, (new_secret owner params sid). split; [reflexivity|].
  split; [|split; [done|apply new_secret_key]].
  apply list_elem_of_filter. split; [simpl; by rewrite Hq|].
  apply (elem_of_rows _ sid). simpl. rewrite Hst. apply lookup_insert_eq.
Qed.

(** C16. Any user can make a workflow of another owner, the library's
    included, impossible to copy: [create_action] does not check that the
    caller owns the workflow, and the action it creates has no inputs, on
    which [clone_workflow] raises [TypeError]. *)
Theorem library_copy_poisoned attacker params w victim o src :
  world_wf w → is_Some (st_workflows (w_db w) !! cap_workflow_id params) →
  String.eqb (py_lower (cap_type params)) "webhook" = false →
  Forall action_clonable (workflow_actions (w_db w) (cap_workflow_id params)) →
  ¬ (role_type victim = RoleUser ∧ is_Some o) →
  select_owned wf_owner_id (st_workflows (w_db w)) (default "tracecat" o) (cap_workflow_id params)
    = Some src →
  let w1 := snd (create_action runner_url attacker params w) in
  copy_workflow victim (cap_workflow_id params) o w1 = (Err TypeError, w1).
Proof.
  intros Hwf Hw Hnot Hclon Hauth Hsel w1.
  destruct (create_action_effect runner_url attacker params w Hwf Hw Hnot) as [Hrun _].
  subst w1. rewrite Hrun. simpl. pose proof Hwf as (_ & (_ & Kw & Ka & _) & Hids).
  destruct (ids_drawn_unused w (w_next w) Hids (reflexivity _)) as (_ & Hfree & _).
  unfold copy_workflow. rewrite decide_False by done. cbv zeta. simpl. rewrite Hsel.
  apply select_owned_Some in Hsel as [Hsrc _].
  assert (wf_id src = cap_workflow_id params) as -> by exact (Kw _ _ Hsrc).
  destruct (filter_rows_insert_split act_id (λ a, act_workflow_id a = Some (cap_workflow_id params))
              (st_actions (w_db w)) (uuid (w_next w)) (new_action attacker params (uuid (w_next w)))
              Ka Hfree eq_refl eq_refl) as (l1 & l2 & Hsplit & Hl1).
  unfold workflow_actions. simpl. rewrite Hsplit, clone_stops_at_null_inputs; [done| |done].
  apply Forall_forall. intros y Hy. rewrite Forall_forall in Hclon. by apply Hclon, Hl1.
Qed.

(** C17. A user can attach a webhook to any action, another user's included;
    the secret the response hands back authenticates the webhook on
    behalf of the action's owner, so the caller can trigger that owner's
    workflow. *)
Theorem foreign_webhook_authenticates attacker params w a :
  world_wf w → st_actions (w_db w) !! cwh_action_id params = Some a →
  is_Some (st_workflows (w_db w) !! cwh_workflow_id params) →
  ∃ resp w1, create_webhook runner_url attacker params w = (Ok resp, w1) ∧
    authenticate_webhook (whr_id resp) (whr_secret resp) w1 =
      (Ok (mkAuthenticateWebhookResponse Authorized (Some (act_owner_id a)) (Some (Action_key a))
             (Some (act_id a)) (Some (whr_id resp)) (Some (cwh_workflow_id params))), w1).
Proof.
  intros Hwf Ha Hw. pose proof Hwf as (_ & (_ & _ & Ka & _) & _).
  assert (act_id a = cwh_action_id params) as Hid by exact (Ka _ _ Ha).
  destruct (create_webhook_spec runner_url attacker params w Hwf (mk_is_Some _ _ Ha) Hw)
    as [Hrun Hwf1].
  eexists _, _. split; [exact Hrun|]. simpl.
  rewrite (authenticate_webhook_spec _ _ _ (created_webhook attacker params (w_next w)) a Hwf1).
  - by rewrite decide_True.
  - apply lookup_insert_eq.
  - simpl. by rewrite Hid.
  - simpl. by rewrite Hid.
Qed.
(** C39. Start-up terminates: on the empty database [initialize_db]
    returns normally, the context table holds exactly the MITRE labels and
    the case-action table exactly [DEFAULT_CASE_ACTIONS] (each once), and
    the world is well formed. *)
Theorem initialize_db_seeds labels :
  ∃ w', initialize_db labels empty_world = (Ok tt, w') ∧
    cc_value <$> rows (st_case_contexts (w_db w')) ≡ₚ labels ∧
    ca_value <$> rows (st_case_actions (w_db w')) ≡ₚ DEFAULT_CASE_ACTIONS ∧
    world_wf w'.
Proof.
  set (xs := zip_with (λ k v, mkCaseContext k "mitre" v None "tracecat")
               ((λ i, uuid (w_next empty_world + N.of_nat i)%N) <$> seq 0 (List.length labels)) labels).
  destruct (tbl_insert_all_fresh cc_id xs (st_case_contexts (w_db empty_world))) as (m1 & Hm1 & Hr1).
  { by apply drawn_keys_NoDup. }
  { intros; apply lookup_empty. }
  assert (Forall (λ x, cc_user_id x = None) xs) as Hxs.
  { apply Forall_forall. by intros y (k & v & -> & _)%elem_of_zip_with. }
  pose proof (fk_seed_contexts _ _ _ (proj1 empty_world_wf) Hxs Hm1) as Hfk1.
  set (w1 := mkWorld (set_case_contexts m1 (w_db empty_world)) (w_next empty_world + N.of_nat (List.length labels))).
  assert (world_wf w1) as Hwf1 by (split; [done|exact (seed_contexts_ok _ _ _ empty_world_wf Hm1)]).
  set (ys := zip_with (λ k v, mkCaseAction k "case_action" v None "tracecat")
               ((λ i, uuid (w_next w1 + N.of_nat i)%N) <$> seq 0 (List.length DEFAULT_CASE_ACTIONS))
               DEFAULT_CASE_ACTIONS).
  destruct (tbl_insert_all_fresh ca_id ys (st_case_actions (w_db w1))) as (m2 & Hm2 & Hr2).
  { by apply drawn_keys_NoDup. }
  { intros; apply lookup_empty. }
  assert (Forall (λ x, ca_user_id x = None) ys) as Hys.
  { apply Forall_forall. by intros y (k & v & -> & _)%elem_of_zip_with. }
  pose proof (fk_seed_actions _ _ _ Hfk1 Hys Hm2) as Hfk2.
  unfold initialize_db. unfold h_bind at 1 2. unfold h_read at 1. cbn [fst snd].
  rewrite decide_True by reflexivity.
  pose proof (seed_run cc_id st_case_contexts set_case_contexts
                (λ k v, mkCaseContext k "mitre" v None "tracecat") labels empty_world m1 Hm1 Hfk1) as Hs.
  cbv beta in Hs. rewrite Hs; clear Hs. fold w1.
  unfold h_bind at 1. unfold h_read at 1. cbn [fst snd].
  rewrite decide_True by reflexivity.
  pose proof (seed_run ca_id st_case_actions set_case_actions
                (λ k v, mkCaseAction k "case_action" v None "tracecat") DEFAULT_CASE_ACTIONS w1 m2 Hm2 Hfk2) as Hs.
  cbv beta in Hs. rewrite Hs; clear Hs.
  eexists. split_and!; [reflexivity| | |].
  - cbn [w_db set_case_actions st_case_contexts]. unfold w1. cbn [w_db set_case_contexts st_case_contexts].
    rewrite Hr1. apply (seeded_values cc_value); [done|reflexivity].
  - cbn [w_db set_case_actions st_case_actions]. rewrite Hr2.
    apply (seeded_values ca_value); [done|reflexivity].
  - split; [done|exact (seed_actions_ok _ _ _ Hwf1 Hm2)].
Qed.

End Theorems.

(** ** The deployment: the database and the cases table *)

Section Deployment.
Context `{WebhookSigner} `{ActionTypes} `{KeyCipher} `{EI : EventIndex} `{RC : Runner} `{LF : LanceFilter}
  `{CM : CaseModel} (runner_url : string).

(** A request of the app: a route of the database or a case route. *)
Inductive app_request :=
  | DbRequest (req : request)
  | CaseRequest (req : case_request).

(** The app's state is the world and the cases table; a request reaches
    the store its route opens and leaves the other as it is. *)
Definition app_serve (c : credential) (req : app_request) (s : world * vdb) : result unit * (world * vdb) :=
  match req with
  | DbRequest r => let '(res, w') := serve runner_url c r s.1 in (res, (w', s.2))
  | CaseRequest r => let '(res, v') := serve_cases c r s.2 in (res, (s.1, v'))
  end.

(** [lifespan]: [initialize_db()] creates the tables and the cases table
    and seeds the labels; then the app serves any sequence of requests. *)
Inductive app_reachable (mitre_labels : list string) : world * vdb → Prop :=
  | app_init : app_reachable mitre_labels (snd (initialize_db mitre_labels empty_world), create_cases_table)
  | app_step s c req : app_reachable mitre_labels s → app_reachable mitre_labels (snd (app_serve c req s)).

Lemma app_serve_wf c req s : world_wf s.1 → world_wf (snd (app_serve c req s)).1.
Proof.
  intros Hw. destruct req as [r|r]; cbn [app_serve].
  - pose proof (serve_preserves_wf runner_url c r s.1 Hw) as Hw'. by destruct (serve runner_url c r s.1).
  - by destruct (serve_cases c r s.2).
Qed.

(** C13. Every state a deployment reaches, from start-up through any
    sequence of requests to the database routes and the case routes with
    any credentials, keeps the invariant of the database: the foreign
    keys hold, rows sit under their keys and generated keys come from the
    allocator. *)
Theorem app_reachable_wf labels s : app_reachable labels s → world_wf s.1.
Proof.
  induction 1 as [|s c req _ Hw].
  - apply initialize_db_safe, empty_world_wf.
  - by apply app_serve_wf.
Qed.
End Deployment.

(** ** Witnesses on the demo world *)

Definition demo_runner : string := "https://runner".

(** An event index whose searches succeed when they order by a field of
    the schema, and a runner that starts
    every workflow. *)
#[local] Program Instance demo_index : EventIndex := {
  event_search _ ob _ := if decide (ob ∈ sf_name <$> event_schema) then Ok tt else Err ValueError }.
Next Obligation. intros wid ob lim. simpl. destruct (decide _); [done|discriminate]. Qed.
#[local] Instance demo_runner_client : Runner :=
  { runner_post _ wid _ := Ok (mkRunnerResponse 200 (JText (JDict [("status", JStr "ok");
      ("message", JStr "Workflow started"); ("id", JStr wid)]))) }.

(** An instance: the world right after start-up is reachable, hence
    well formed. *)
Lemma reachable_wf_witness :
  @reachable DemoApi.signer demo_action_types demo_cipher demo_index demo_runner_client demo_runner ["T1059"]
    (snd (initialize_db ["T1059"] empty_world)) ∧
  world_wf (snd (initialize_db ["T1059"] empty_world)).
Proof.
  split; [constructor|].
  apply (@reachable_wf DemoApi.signer demo_action_types demo_cipher demo_index demo_runner_client demo_runner ["T1059"]).
  constructor.
Defined.

(** Witness of C14: an anonymous [DELETE /users]. *)
Lemma serve_requires_credential_witness :
  (∀ qr, DeleteUser ≠ ListSecrets qr) ∧
  @serve DemoApi.signer demo_action_types demo_cipher demo_index demo_runner_client demo_runner CredNone DeleteUser DemoApi.world0 =
    (Err (HTTPException 401 "Unauthorized"), DemoApi.world0).
Proof.
  split; [discriminate|].
  apply (@serve_requires_credential DemoApi.signer demo_action_types demo_cipher demo_index demo_runner_client demo_runner).
  discriminate.
Defined.

(** Witness of C15: ["u1"] stores a Slack token, which an anonymous
    [GET /secrets?user_id=u1] receives. *)
Lemma anonymous_lists_created_secret_witness :
  world_wf DemoApi.world0 ∧
  ∃ w', @create_secret demo_cipher DemoApi.user_u1 (mkCreateSecretParams "slack" "xoxb-1") DemoApi.world0
          = (Ok tt, w') ∧ role_user_id DemoApi.user_u1 = role_user_id DemoApi.user_u1 ∧
  @serve DemoApi.signer demo_action_types demo_cipher demo_index demo_runner_client demo_runner
    CredNone (ListSecrets DemoApi.user_u1) w' = (Ok tt, w') ∧
  ∃ xs x, list_secrets DemoApi.user_u1 w' = (Ok xs, w') ∧ x ∈ xs ∧ sec_name x = Some "slack" ∧
    @Secret_key demo_cipher x = Some "xoxb-1".
Proof.
  split; [exact demo_world_wf|].
  destruct (@create_secret demo_cipher DemoApi.user_u1 (mkCreateSecretParams "slack" "xoxb-1")
              DemoApi.world0) as [[[]|e] w'] eqn:Hrun; [|vm_compute in Hrun; discriminate].
  exists w'. split; [reflexivity|]. split; [reflexivity|].
  exact (@anonymous_lists_created_secret DemoApi.signer demo_action_types demo_cipher demo_index
           demo_runner_client demo_runner DemoApi.user_u1 (mkCreateSecretParams "slack" "xoxb-1")
           DemoApi.world0 w' DemoApi.user_u1 demo_world_wf Hrun eq_refl).
Defined.

Definition demo_poison : CreateActionParams := mkCreateActionParams (uuid 0) "http_request" "Exfiltrate".

(** Witness of C16: ["u1"] adds an action to the library workflow, after
    which ["u2"] can no longer copy it. *)
Lemma library_copy_poisoned_witness :
  world_wf DemoApi.world0 ∧ is_Some (st_workflows (w_db DemoApi.world0) !! uuid 0) ∧
  String.eqb (py_lower "http_request") "webhook" = false ∧
  Forall action_clonable (workflow_actions (w_db DemoApi.world0) (uuid 0)) ∧
  ¬ (role_type DemoApi.user_u2 = RoleUser ∧ is_Some (@None string)) ∧
  select_owned wf_owner_id (st_workflows (w_db DemoApi.world0)) "tracecat" (uuid 0) = Some DemoApi.w_lib ∧
  let w1 := snd (@create_action DemoApi.signer demo_action_types demo_runner DemoApi.user_u1
                   demo_poison DemoApi.world0) in
  @copy_workflow DemoApi.signer DemoApi.user_u2 (uuid 0) None w1 = (Err TypeError, w1).
Proof.
  assert (Forall action_clonable (workflow_actions (w_db DemoApi.world0) (uuid 0))) as Hcl.
  { vm_compute. repeat constructor; eexists; (split; [reflexivity|]); intros; eexists; reflexivity. }
  assert (is_Some (st_workflows (w_db DemoApi.world0) !! uuid 0)) as Hw.
  { vm_compute. eexists. reflexivity. }
  assert (¬ (role_type DemoApi.user_u2 = RoleUser ∧ is_Some (@None string))) as Hauth.
  { intros [_ [? Hn]]. discriminate. }
  split_and!; [exact demo_world_wf|exact Hw|reflexivity|exact Hcl|exact Hauth|vm_compute; reflexivity|].
  apply (@library_copy_poisoned DemoApi.signer demo_action_types demo_runner
           DemoApi.user_u1 demo_poison DemoApi.world0 DemoApi.user_u2 None DemoApi.w_lib).
  - exact demo_world_wf.
  - exact Hw.
  - reflexivity.
  - exact Hcl.
  - exact Hauth.
  - vm_compute. reflexivity.
Defined.

Definition demo_foreign_hook : CreateWebhookParams := mkCreateWebhookParams (uuid 2) (uuid 0).

(** Witness of C17: ["u2"] attaches a webhook to the library's HTTP
    action and authenticates it on behalf of ["tracecat"]. *)
Lemma foreign_webhook_authenticates_witness :
  world_wf DemoApi.world0 ∧ st_actions (w_db DemoApi.world0) !! uuid 2 = Some DemoApi.act_http ∧
  is_Some (st_workflows (w_db DemoApi.world0) !! uuid 0) ∧
  ∃ resp w1, @create_webhook DemoApi.signer demo_runner DemoApi.user_u2 demo_foreign_hook DemoApi.world0
               = (Ok resp, w1) ∧
    @authenticate_webhook DemoApi.signer (whr_id resp) (whr_secret resp) w1 =
      (Ok (mkAuthenticateWebhookResponse Authorized (Some "tracecat") (Some (Action_key DemoApi.act_http))
             (Some (uuid 2)) (Some (whr_id resp)) (Some (uuid 0))), w1).
Proof.
  split_and!; [exact demo_world_wf|vm_compute; reflexivity|vm_compute; eexists; reflexivity|].
  apply (@foreign_webhook_authenticates DemoApi.signer demo_runner
           DemoApi.user_u2 demo_foreign_hook DemoApi.world0 DemoApi.act_http).
  - exact demo_world_wf.
  - vm_compute. reflexivity.
  - vm_compute. eexists. reflexivity.
Defined.

(** Witness of C13: the state right after start-up is reachable, hence
    its database is well formed. *)
Lemma app_reachable_wf_witness :
  @app_reachable DemoApi.signer demo_action_types demo_cipher demo_index demo_runner_client demo_lance_filter
    demo_case_model demo_runner ["T1059"] (snd (initialize_db ["T1059"] empty_world), create_cases_table) ∧
  world_wf (snd (initialize_db ["T1059"] empty_world), create_cases_table).1.
Proof.
  assert (@app_reachable DemoApi.signer demo_action_types demo_cipher demo_index demo_runner_client demo_lance_filter
    demo_case_model demo_runner ["T1059"] (snd (initialize_db ["T1059"] empty_world), create_cases_table)) as Hr
    by constructor.
  split; [exact Hr|].
  exact (@app_reachable_wf DemoApi.signer demo_action_types demo_cipher demo_index demo_runner_client demo_lance_filter
    demo_case_model demo_runner ["T1059"] _ Hr).
Defined.
